(** * IPO pricing engines: a shallow embedding

    The repository carries four copies of the IPO pricing engine, each
    exporting a function [calculateIPOPricing]:

    - [Part001]            src/unnamed/part_001 (price matrix over the filed
                           range, investor drop-off, mechanical day-one
                           return, recommendation);
    - [IpoPricingService]  src/server/services/ipoPricingService.ts;
    - [Part002]            src/unnamed/part_002;
    - [Part000]            src/unnamed/part_000 (valuation by company type,
                           share mechanics, ownership table, three
                           scenarios).

    Numbers.  A JavaScript [number] is modelled as an exact rational ([Q])
    and compared with [Qeq] ([==]).  The four engines compute without the
    rounding of IEEE doubles: what is stated of them are the source's own
    expressions, comparisons and structure, which that rounding keeps on
    ordinary magnitudes.  Where a result depends on the rounding itself it
    is computed with [Binary64], the rounding to the nearest double on
    rationals; [Part001Binary64] is the share mechanics of part_001 with
    every operation rounded.  NaN and the infinities that JavaScript
    produces when it divides by zero or reads past the end of an array are
    not represented; [Q] has [x / 0 == 0] there, and a statement whose
    meaning depends on such a quotient assumes the divisor to be non-zero.
    The literal [Infinity] of the source is kept by the type [xnum].
    [Math.log] is a parameter of the engine that uses it.

    Optional data.  A field is an [option] when it is declared optional
    ([f?: number]) or when the code supplies a default for it, tests it
    against [undefined], or guards it with [||] or [&&].

    Texts.  Warnings and labels built by string interpolation are
    constructors carrying the interpolated numbers; the console output and
    the rationale are not modelled, and of the memo text only the error
    line and the rows of the pricing table are. *)

From Stdlib Require Import QArith Qround Qabs Qpower ZArith List String Ascii Bool Lia Lqa.
From Stdlib Require Import SpecFloat.
Import ListNotations.
Open Scope Q_scope.

(** ** JavaScript operators on numbers *)

Module JS.

(** [x] is truthy: a number other than 0. *)
Definition truthy (x : Q) : bool := negb (Qeq_bool x 0).

(** [x || d] on a possibly missing number. *)
Definition or_else (x : option Q) (d : Q) : Q :=
  match x with
  | Some v => if truthy v then v else d
  | None => d
  end.

(** Destructuring default [{ x = d }] and [x ?? d]. *)
Definition default {A : Type} (x : option A) (d : A) : A :=
  match x with
  | Some v => v
  | None => d
  end.

Definition ltb (x y : Q) : bool := negb (Qle_bool y x).
Definition gtb (x y : Q) : bool := ltb y x.
Definition leb (x y : Q) : bool := Qle_bool x y.
Definition geb (x y : Q) : bool := Qle_bool y x.

(** [Math.round]: nearest integer, ties towards plus infinity. *)
Definition Math_round (x : Q) : Q := inject_Z (Qfloor (x + (1 # 2))).
Definition Math_abs (x : Q) : Q := Qabs x.
Definition Math_min (x y : Q) : Q := if Qle_bool x y then x else y.
Definition Math_max (x y : Q) : Q := if Qle_bool x y then y else x.

(** [Math.pow] at an integer exponent. *)
Definition Math_pow (x : Q) (n : Z) : Q := Qpower x n.

(** A number or the literal [Infinity]. *)
Inductive xnum : Type :=
| Fin (q : Q)
| Infinity.

(** [Array.prototype.sort(cmp)]: the stable sort by a comparator whose
    negative result puts its first argument first. *)
Section Sort.
Context {A : Type} (cmp : A -> A -> Q).

Fixpoint insert (x : A) (l : list A) : list A :=
  match l with
  | [] => [x]
  | y :: l' => if Qle_bool (cmp x y) 0 then x :: l else y :: insert x l'
  end.

Definition sort (l : list A) : list A := fold_right insert [] l.
End Sort.

(** [l[l.length - 1]] *)
Definition last_opt {A : Type} (l : list A) : option A :=
  match l with
  | [] => None
  | x :: l' => Some (last l' x)
  end.

(** [s.includes(t)] and [s.toLowerCase()] on ASCII strings. *)
Fixpoint includes (s t : string) : bool :=
  if String.prefix t s then true
  else match s with
       | EmptyString => false
       | String _ s' => includes s' t
       end.

Definition lower_ascii (c : ascii) : ascii :=
  let n := nat_of_ascii c in
  if (Nat.leb 65 n && Nat.leb n 90)%bool then ascii_of_nat (n + 32) else c.

Fixpoint toLowerCase (s : string) : string :=
  match s with
  | EmptyString => EmptyString
  | String c s' => String (lower_ascii c) (toLowerCase s')
  end.

(** A rational stand-in for [Math.log] in executable examples: the
    partial sum [2 * (y + y^3/3 + ... )], [y = (x-1)/(x+1)], of the series
    of the natural logarithm.  For [x > 1] every term is positive, so the
    sum is a lower bound of [ln x]. *)
Fixpoint ln_terms (n : nat) (y : Q) : Q :=
  match n with
  | O => 0
  | S k =>
      ln_terms k y
      + Qpower y (Z.of_nat (2 * k + 1)) / inject_Z (Z.of_nat (2 * k + 1))
  end.

Definition ln_series (x : Q) : Q := 2 * ln_terms 6 ((x - 1) / (x + 1)).

End JS.

(** ** src/unnamed/part_001 *)

Module Part001.

Module OrderBookEntry.
Record t : Type := { priceLevel : Q; oversubscription : Q }.
End OrderBookEntry.

Module NotableOrder.
Record t : Type := {
  investorName : string;
  indicatedSizeM : Q;
  maxPrice : option Q;
  isDefending : option bool
}.
End NotableOrder.

Module GrowthRates.
Record t : Type := {
  fy2024to2025Growth : option Q;
  fy2025to2026Growth : option Q
}.
End GrowthRates.

Inductive PricingAggressiveness : Type := conservative | moderate | aggressive | maximum.
Inductive ManagementPriority : Type := valuation_maximization | runway_extension | deal_certainty.
Inductive SecondaryOptics : Type := neutral | negative | positive.

(** The fields of [IPOAssumptions] read by [calculateIPOPricing].  A field
    is an [option] when the code supplies a default for it, tests it
    against [undefined], or guards it with [||] or [&&]. *)
Module IPOAssumptions.
Record t : Type := {
  sector : string;
  sharesOutstandingPreIPO : Q;
  primarySharesOffered : option Q;
  secondarySharesOffered : option Q;
  greenshoeShares : option Q;
  greenshoePercent : option Q;
  primaryDollarRaiseM : option Q;
  secondaryDollarRaiseM : option Q;
  indicatedPriceRangeLow : option Q;
  indicatedPriceRangeHigh : option Q;
  currentCash : option Q;
  currentDebt : option Q;
  ntmRevenue : Q;
  fairValuePerShare : Q;
  totalRaNPV : option Q;
  peerMedianEVRevenue : Q;
  peerMedianEVRaNPV : option Q;
  orderBook : option (list OrderBookEntry.t);
  notableOrders : option (list NotableOrder.t);
  historicalFirstDayPop : option Q;
  sectorAverageFirstDayPop : option Q;
  sectorMedianFirstDayPop : option Q;
  foundersEmployeesOwnership : Q;
  ceoGuidance : option string;
  pricingAggressiveness : PricingAggressiveness;
  managementPriority : option ManagementPriority;
  minAcceptablePrice : option Q;
  hasBinaryCatalyst : option bool;
  monthsToCatalyst : option Q;
  secondaryOptics : option SecondaryOptics;
  lastPrivateRoundPrice : option Q;
  downRoundOptics : option bool;
  downRoundIpoPenalty : option Q;
  dualClass : option bool;
  dualClassDiscount : option Q;
  growthRates : option GrowthRates.t;
  customerConcentrationTop5 : option Q
}.
End IPOAssumptions.

(** [orderBookTier]: the labels "N/A", "$L+", "Above $L" and "Below $L". *)
Inductive Tier : Type :=
| TierNA
| TierAtOrAbove (level : Q)
| TierAbove (level : Q)
| TierBelow (level : Q).

(** Warnings.  A message built by interpolation is a constructor that
    carries the interpolated numbers (before [toFixed]). *)
Inductive Warning : Type :=
| ErrorWarning (msg : string)
| PriceAboveHighestTier
| ValuationOfFairValue (percent : Q)
| BookCoverage (effective : Q)
| ImpliedPop (percent : Q)
| DownRound (percent : Q)
| InvestorDropOff (names : list string) (lostM : Q)
| CeoRunwayExtension
| DownRoundAlert (price percentBelow lastPrice : Q)
| DualClassApplied (percent : Q)
| CustomerConcentrationRisk (percent : Q)
| GrowthDecelerationPenalty (percent : Q)
| CeoDirectiveContradiction (price lastPrice : Q).

Module PricingRow.
Record t : Type := {
  offerPrice : Q;
  sharesSoldPrimary : Q;
  sharesSoldSecondary : Q;
  sharesSoldGreenshoe : Q;
  totalSharesSold : Q;
  fdSharesPostIPO : Q;
  dilutionPercent : Q;
  founderOwnershipPost : Q;
  marketCapM : Q;
  postIPOCashM : Q;
  currentDebtM : Q;
  enterpriseValueM : Q;
  ntmEVRevenue : JS.xnum;
  evRaNPV : Q;
  growthAdjustedMultiple : Q;
  vsPeerMedianRevenue : JS.xnum;
  vsPeerMedianRaNPV : Q;
  fairValueSupport : Q;
  grossProceedsM : Q;
  primaryProceedsM : Q;
  secondaryProceedsM : Q;
  oversubscription : Q;
  effectiveOversubscription : Q;
  orderBookTier : Tier;
  investorsDropping : list string;
  demandLostM : Q;
  downRoundPercent : Q;
  isDownRound : bool;
  downRoundDiscount : Q;
  baseImpliedPop : Q;
  bookQualityAdjustment : Q;
  valuationPenalty : Q;
  secondaryDiscount : Q;
  catalystDiscount : Q;
  dualClassDiscount : Q;
  customerConcentrationDiscount : Q;
  growthDecelPenalty : Q;
  adjustedImpliedPop : Q;
  warnings : list Warning
}.
End PricingRow.

(** The value returned by [calculateIPOPricing]; [rationale] and
    [memoText], texts rendered from the fields below, are left out. *)
Module Result.
Record t : Type := {
  assumptions : IPOAssumptions.t;
  pricingMatrix : list PricingRow.t;
  recommendedRangeLow : Q;
  recommendedRangeHigh : Q;
  recommendedPrice : Q;
  warnings : list Warning
}.
End Result.

Definition rangeRequiredError : string :=
  "ERROR: Price range (indicatedPriceRangeLow/High) is REQUIRED - cannot price without user-provided range. Please provide both indicatedPriceRangeLow and indicatedPriceRangeHigh.".

Definition rangeOrderError : string :=
  "ERROR: indicatedPriceRangeHigh must be greater than indicatedPriceRangeLow.".

(** [for (let p = minPrice; p <= maxPrice; p += 1) if (p > 0) push(p)];
    [fuel] bounds the number of iterations. *)
Fixpoint priceLoop (fuel : nat) (p maxPrice : Q) : list Q :=
  match fuel with
  | O => []
  | S fuel' =>
      if Qle_bool p maxPrice
      then (if JS.gtb p 0 then [p] else []) ++ priceLoop fuel' (p + 1) maxPrice
      else []
  end.

Definition pricePoints (minPrice maxPrice : Q) : list Q :=
  priceLoop (S (Z.to_nat (Qfloor (maxPrice - minPrice)))) minPrice maxPrice.

Section Engine.

(** [Math.log], the natural logarithm, is not a rational function; the
    engine takes it as a parameter. *)
Variable Math_log : Q -> Q.

Variable assumptions : IPOAssumptions.t.

(** The destructuring of [assumptions], with its defaults. *)
Definition sharesOutstandingPreIPO : Q := IPOAssumptions.sharesOutstandingPreIPO assumptions.
Definition inputPrimaryShares : option Q := IPOAssumptions.primarySharesOffered assumptions.
Definition inputSecondaryShares : Q := JS.default (IPOAssumptions.secondarySharesOffered assumptions) 0.
Definition inputGreenshoeShares : option Q := IPOAssumptions.greenshoeShares assumptions.
Definition greenshoePercent : option Q := IPOAssumptions.greenshoePercent assumptions.
Definition primaryDollarRaiseM : option Q := IPOAssumptions.primaryDollarRaiseM assumptions.
Definition secondaryDollarRaiseM : option Q := IPOAssumptions.secondaryDollarRaiseM assumptions.
Definition currentCash : Q := JS.default (IPOAssumptions.currentCash assumptions) 0.
Definition currentDebt : Q := JS.default (IPOAssumptions.currentDebt assumptions) 0.
Definition ntmRevenue : Q := IPOAssumptions.ntmRevenue assumptions.
Definition fairValuePerShare : Q := IPOAssumptions.fairValuePerShare assumptions.
Definition totalRaNPV : Q := JS.default (IPOAssumptions.totalRaNPV assumptions) 0.
Definition peerMedianEVRevenue : Q := IPOAssumptions.peerMedianEVRevenue assumptions.
Definition peerMedianEVRaNPV : Q := JS.default (IPOAssumptions.peerMedianEVRaNPV assumptions) 0.
Definition orderBook : option (list OrderBookEntry.t) := IPOAssumptions.orderBook assumptions.
Definition notableOrders : list NotableOrder.t := JS.default (IPOAssumptions.notableOrders assumptions) [].
Definition sectorMedianFirstDayPop : option Q := IPOAssumptions.sectorMedianFirstDayPop assumptions.
Definition sectorAverageFirstDayPop : option Q := IPOAssumptions.sectorAverageFirstDayPop assumptions.
Definition historicalFirstDayPop : option Q := IPOAssumptions.historicalFirstDayPop assumptions.
Definition foundersEmployeesOwnership : Q := IPOAssumptions.foundersEmployeesOwnership assumptions.
Definition pricingAggressiveness : PricingAggressiveness := IPOAssumptions.pricingAggressiveness assumptions.
Definition managementPriority : option ManagementPriority := IPOAssumptions.managementPriority assumptions.
Definition minAcceptablePrice : option Q := IPOAssumptions.minAcceptablePrice assumptions.
Definition ceoGuidance : option string := IPOAssumptions.ceoGuidance assumptions.
Definition hasBinaryCatalyst : bool := JS.default (IPOAssumptions.hasBinaryCatalyst assumptions) false.
Definition monthsToCatalyst : option Q := IPOAssumptions.monthsToCatalyst assumptions.
Definition secondaryOptics : SecondaryOptics := JS.default (IPOAssumptions.secondaryOptics assumptions) neutral.
Definition indicatedPriceRangeLow : option Q := IPOAssumptions.indicatedPriceRangeLow assumptions.
Definition indicatedPriceRangeHigh : option Q := IPOAssumptions.indicatedPriceRangeHigh assumptions.
Definition lastPrivateRoundPrice : option Q := IPOAssumptions.lastPrivateRoundPrice assumptions.
Definition downRoundOptics : bool := JS.default (IPOAssumptions.downRoundOptics assumptions) false.
Definition downRoundIpoPenalty : Q := JS.default (IPOAssumptions.downRoundIpoPenalty assumptions) 0.
Definition dualClass : bool := JS.default (IPOAssumptions.dualClass assumptions) false.
Definition dualClassDiscountRate : Q := JS.default (IPOAssumptions.dualClassDiscount assumptions) 0.
Definition growthRates : option GrowthRates.t := IPOAssumptions.growthRates assumptions.
Definition customerConcentrationTop5 : Q := JS.default (IPOAssumptions.customerConcentrationTop5 assumptions) 0.

Definition isPreRevenue : bool := Qeq_bool ntmRevenue 0 || JS.ltb ntmRevenue 1.

Definition useDollarBased : bool :=
  match primaryDollarRaiseM with
  | Some d => JS.gtb d 0
  | None => false
  end.

(** [decelRate], when both growth rates are given and truthy. *)
Definition decelRate : option Q :=
  match growthRates with
  | Some g =>
      match GrowthRates.fy2024to2025Growth g, GrowthRates.fy2025to2026Growth g with
      | Some g1, Some g2 =>
          if JS.truthy g1 && JS.truthy g2 then Some (1 - g2 / g1) else None
      | _, _ => None
      end
  | None => None
  end.

Definition growthDecelPenalty : Q :=
  match decelRate with
  | Some d => if JS.gtb d 0 then d else 0
  | None => 0
  end.

Definition growthAdjustedPeerMultiple : Q :=
  match decelRate with
  | Some d => if JS.gtb d 0 then peerMedianEVRevenue * (1 - growthDecelPenalty)
              else peerMedianEVRevenue
  | None => peerMedianEVRevenue
  end.

Definition hasUserProvidedRange : bool :=
  match indicatedPriceRangeLow, indicatedPriceRangeHigh with
  | Some lo, Some hi => JS.gtb lo 0 && JS.gtb hi 0
  | _, _ => false
  end.

Definition sortedOrderBook : list OrderBookEntry.t :=
  match orderBook with
  | Some book =>
      JS.sort (fun a b => OrderBookEntry.priceLevel b - OrderBookEntry.priceLevel a) book
  | None => []
  end.

Definition hasExplicitOrderBook : bool := Nat.ltb 0 (List.length sortedOrderBook).

Definition baseExpectedReturn : Q :=
  match sectorMedianFirstDayPop with
  | Some x => x
  | None =>
      match sectorAverageFirstDayPop with
      | Some x => x
      | None => JS.default historicalFirstDayPop 0
      end
  end.

Definition hasUserProvidedPopData : bool :=
  match sectorMedianFirstDayPop, sectorAverageFirstDayPop, historicalFirstDayPop with
  | None, None, None => false
  | _, _, _ => true
  end.

(** *** One row of the matrix: the body of [pricePoints.map] *)

Definition sharesSoldPrimary (offerPrice : Q) : Q :=
  if useDollarBased then JS.default primaryDollarRaiseM 0 / offerPrice
  else JS.or_else inputPrimaryShares 0.

Definition sharesSoldSecondary (offerPrice : Q) : Q :=
  if useDollarBased then JS.or_else secondaryDollarRaiseM 0 / offerPrice
  else JS.or_else (Some inputSecondaryShares) 0.

Definition sharesSoldGreenshoe (offerPrice : Q) : Q :=
  if useDollarBased then sharesSoldPrimary offerPrice * JS.or_else greenshoePercent 0
  else JS.or_else inputGreenshoeShares
         (sharesSoldPrimary offerPrice * JS.or_else greenshoePercent 0).

Definition totalSharesSold (offerPrice : Q) : Q :=
  sharesSoldPrimary offerPrice + sharesSoldSecondary offerPrice
  + sharesSoldGreenshoe offerPrice.

Definition dilutiveShares (offerPrice : Q) : Q :=
  sharesSoldPrimary offerPrice + sharesSoldGreenshoe offerPrice.

Definition fdSharesPostIPO (offerPrice : Q) : Q :=
  sharesOutstandingPreIPO + dilutiveShares offerPrice.

Definition dilutionPercent (offerPrice : Q) : Q :=
  dilutiveShares offerPrice / fdSharesPostIPO offerPrice.

Definition primaryProceedsM (offerPrice : Q) : Q :=
  offerPrice * (sharesSoldPrimary offerPrice + sharesSoldGreenshoe offerPrice).

Definition secondaryProceedsM (offerPrice : Q) : Q :=
  offerPrice * sharesSoldSecondary offerPrice.

Definition grossProceedsM (offerPrice : Q) : Q :=
  primaryProceedsM offerPrice + secondaryProceedsM offerPrice.

Definition marketCapM (offerPrice : Q) : Q := fdSharesPostIPO offerPrice * offerPrice.

Definition postIPOCashM (offerPrice : Q) : Q := currentCash + primaryProceedsM offerPrice.

Definition currentDebtM : Q := currentDebt.

Definition enterpriseValueM (offerPrice : Q) : Q :=
  marketCapM offerPrice + currentDebtM - postIPOCashM offerPrice.

Definition ntmEVRevenueValue (offerPrice : Q) : Q :=
  JS.Math_round ((enterpriseValueM offerPrice / ntmRevenue) * 10) / 10.

Definition ntmEVRevenue (offerPrice : Q) : JS.xnum :=
  if isPreRevenue then JS.Infinity else JS.Fin (ntmEVRevenueValue offerPrice).

Definition evRaNPV (offerPrice : Q) : Q :=
  if JS.gtb totalRaNPV 0
  then JS.Math_round ((enterpriseValueM offerPrice / totalRaNPV) * 100) / 100
  else 0.

Definition vsPeerMedianRevenue (offerPrice : Q) : JS.xnum :=
  if isPreRevenue then JS.Infinity
  else JS.Fin (JS.Math_round
                 (((ntmEVRevenueValue offerPrice - growthAdjustedPeerMultiple)
                   / growthAdjustedPeerMultiple) * 1000) / 1000).

Definition vsPeerMedianRaNPV (offerPrice : Q) : Q :=
  if JS.gtb totalRaNPV 0 && JS.gtb peerMedianEVRaNPV 0
  then JS.Math_round
         (((evRaNPV offerPrice - peerMedianEVRaNPV) / peerMedianEVRaNPV) * 1000) / 1000
  else 0.

Definition fairValueSupport (offerPrice : Q) : Q :=
  JS.Math_round ((offerPrice / fairValuePerShare) * 1000) / 1000.

(** Order-book lookup: oversubscription, tier label and the warning the
    lookup pushes. *)
Definition orderBookLookup (offerPrice : Q) : Q * Tier * list Warning :=
  match sortedOrderBook with
  | [] => (1, TierNA, [])
  | top :: _ =>
      match find (fun entry => JS.geb offerPrice (OrderBookEntry.priceLevel entry))
                 sortedOrderBook with
      | Some matchedTier =>
          (OrderBookEntry.oversubscription matchedTier,
           TierAtOrAbove (OrderBookEntry.priceLevel matchedTier), [])
      | None =>
          if JS.gtb offerPrice (OrderBookEntry.priceLevel top)
          then (OrderBookEntry.oversubscription top,
                TierAbove (OrderBookEntry.priceLevel top), [PriceAboveHighestTier])
          else
            let lowestTier := last sortedOrderBook top in
            (OrderBookEntry.oversubscription lowestTier,
             TierBelow (OrderBookEntry.priceLevel lowestTier), [])
      end
  end.

Definition oversubscription (offerPrice : Q) : Q := fst (fst (orderBookLookup offerPrice)).
Definition orderBookTier (offerPrice : Q) : Tier := snd (fst (orderBookLookup offerPrice)).

(** The loop over [notableOrders]: names pushed and demand lost so far. *)
Definition dropOffStep (offerPrice : Q) (st : list string * Q) (investor : NotableOrder.t)
  : list string * Q :=
  match NotableOrder.maxPrice investor with
  | Some m =>
      if JS.truthy m && JS.gtb offerPrice m
      then (fst st ++ [NotableOrder.investorName investor],
            snd st + NotableOrder.indicatedSizeM investor)
      else st
  | None => st
  end.

Definition dropOff (offerPrice : Q) : list string * Q :=
  fold_left (dropOffStep offerPrice) notableOrders ([], 0).

Definition investorsDropping (offerPrice : Q) : list string := fst (dropOff offerPrice).
Definition demandLostM (offerPrice : Q) : Q := snd (dropOff offerPrice).

Definition effectiveOversubscription (offerPrice : Q) : Q :=
  if JS.gtb (demandLostM offerPrice) 0 && JS.gtb (grossProceedsM offerPrice) 0
  then
    let demandLostRatio :=
      demandLostM offerPrice / (grossProceedsM offerPrice * oversubscription offerPrice) in
    oversubscription offerPrice * (1 - demandLostRatio)
  else oversubscription offerPrice.

(** [lastPrivateRoundPrice && lastPrivateRoundPrice > 0] *)
Definition lastRound : option Q :=
  match lastPrivateRoundPrice with
  | Some l => if JS.truthy l && JS.gtb l 0 then Some l else None
  | None => None
  end.

Definition downRoundPercent (offerPrice : Q) : Q :=
  match lastRound with
  | Some l => (offerPrice - l) / l
  | None => 0
  end.

Definition isDownRound (offerPrice : Q) : bool :=
  match lastRound with
  | Some _ => JS.ltb (downRoundPercent offerPrice) 0
  | None => false
  end.

Definition downRoundDiscount (offerPrice : Q) : Q :=
  if isDownRound offerPrice && downRoundOptics
  then JS.Math_abs (downRoundPercent offerPrice) * JS.or_else (Some downRoundIpoPenalty) 0
  else 0.

Definition baseImpliedPop : Q := if hasUserProvidedPopData then baseExpectedReturn else 0.

Definition bookQualityAdjustment (offerPrice : Q) : Q :=
  if hasUserProvidedPopData
     && (hasExplicitOrderBook
         && JS.gtb (effectiveOversubscription offerPrice) 0
         && negb (Qeq_bool (effectiveOversubscription offerPrice) 1))
  then Math_log (effectiveOversubscription offerPrice)
  else 0.

Definition valuationPenalty (offerPrice : Q) : Q :=
  if hasUserProvidedPopData && JS.gtb (fairValueSupport offerPrice) 1
  then - (fairValueSupport offerPrice - 1)
  else 0.

Definition secondaryDiscount (offerPrice : Q) : Q :=
  if hasUserProvidedPopData
     && (JS.gtb (sharesSoldSecondary offerPrice) 0 && JS.gtb (totalSharesSold offerPrice) 0)
  then
    let secondaryPct := sharesSoldSecondary offerPrice / totalSharesSold offerPrice in
    match secondaryOptics with
    | negative => secondaryPct
    | _ => 0
    end
  else 0.

Definition catalystDiscount : Q :=
  if hasUserProvidedPopData && hasBinaryCatalyst
  then match monthsToCatalyst with
       | Some m => if JS.gtb m 0 then 1 / m else 0
       | None => 0
       end
  else 0.

Definition dualClassDiscount : Q := if dualClass then dualClassDiscountRate else 0.

Definition customerConcentrationDiscount : Q :=
  if JS.gtb customerConcentrationTop5 (2 # 5)
  then customerConcentrationTop5 - (2 # 5)
  else 0.

Definition adjustedImpliedPop (offerPrice : Q) : Q :=
  if hasUserProvidedPopData
  then baseImpliedPop
       + bookQualityAdjustment offerPrice
       + valuationPenalty offerPrice
       - secondaryDiscount offerPrice
       - catalystDiscount
       - downRoundDiscount offerPrice
       - (if dualClass then dualClassDiscountRate else 0)
       - (if JS.gtb customerConcentrationTop5 (2 # 5)
          then customerConcentrationTop5 - (2 # 5) else 0)
  else 0.

Definition founderOwnershipPost (offerPrice : Q) : Q :=
  (foundersEmployeesOwnership * sharesOutstandingPreIPO) / fdSharesPostIPO offerPrice.

Definition rowWarnings (offerPrice : Q) : list Warning :=
  snd (orderBookLookup offerPrice)
  ++ (if JS.gtb (fairValueSupport offerPrice) 1
      then [ValuationOfFairValue (fairValueSupport offerPrice * 100)] else [])
  ++ (if hasExplicitOrderBook && JS.gtb (effectiveOversubscription offerPrice) 0
      then [BookCoverage (effectiveOversubscription offerPrice)] else [])
  ++ (if negb (Qeq_bool baseImpliedPop 0)
      then [ImpliedPop (adjustedImpliedPop offerPrice * 100)] else [])
  ++ (if isDownRound offerPrice
      then [DownRound (downRoundPercent offerPrice * 100)] else [])
  ++ (if Nat.ltb 0 (List.length (investorsDropping offerPrice))
      then [InvestorDropOff (investorsDropping offerPrice) (demandLostM offerPrice)]
      else []).

Definition pricingRow (offerPrice : Q) : PricingRow.t :=
  {| PricingRow.offerPrice := offerPrice;
     PricingRow.sharesSoldPrimary := sharesSoldPrimary offerPrice;
     PricingRow.sharesSoldSecondary := sharesSoldSecondary offerPrice;
     PricingRow.sharesSoldGreenshoe := sharesSoldGreenshoe offerPrice;
     PricingRow.totalSharesSold := totalSharesSold offerPrice;
     PricingRow.fdSharesPostIPO := fdSharesPostIPO offerPrice;
     PricingRow.dilutionPercent := dilutionPercent offerPrice;
     PricingRow.founderOwnershipPost := founderOwnershipPost offerPrice;
     PricingRow.marketCapM := marketCapM offerPrice;
     PricingRow.postIPOCashM := postIPOCashM offerPrice;
     PricingRow.currentDebtM := currentDebtM;
     PricingRow.enterpriseValueM := enterpriseValueM offerPrice;
     PricingRow.ntmEVRevenue := ntmEVRevenue offerPrice;
     PricingRow.evRaNPV := evRaNPV offerPrice;
     PricingRow.growthAdjustedMultiple := growthAdjustedPeerMultiple;
     PricingRow.vsPeerMedianRevenue := vsPeerMedianRevenue offerPrice;
     PricingRow.vsPeerMedianRaNPV := vsPeerMedianRaNPV offerPrice;
     PricingRow.fairValueSupport := fairValueSupport offerPrice;
     PricingRow.grossProceedsM := grossProceedsM offerPrice;
     PricingRow.primaryProceedsM := primaryProceedsM offerPrice;
     PricingRow.secondaryProceedsM := secondaryProceedsM offerPrice;
     PricingRow.oversubscription := oversubscription offerPrice;
     PricingRow.effectiveOversubscription := effectiveOversubscription offerPrice;
     PricingRow.orderBookTier := orderBookTier offerPrice;
     PricingRow.investorsDropping := investorsDropping offerPrice;
     PricingRow.demandLostM := demandLostM offerPrice;
     PricingRow.downRoundPercent := downRoundPercent offerPrice;
     PricingRow.isDownRound := isDownRound offerPrice;
     PricingRow.downRoundDiscount := downRoundDiscount offerPrice;
     PricingRow.baseImpliedPop := baseImpliedPop;
     PricingRow.bookQualityAdjustment := bookQualityAdjustment offerPrice;
     PricingRow.valuationPenalty := valuationPenalty offerPrice;
     PricingRow.secondaryDiscount := secondaryDiscount offerPrice;
     PricingRow.catalystDiscount := catalystDiscount;
     PricingRow.dualClassDiscount := dualClassDiscount;
     PricingRow.customerConcentrationDiscount := customerConcentrationDiscount;
     PricingRow.growthDecelPenalty := growthDecelPenalty;
     PricingRow.adjustedImpliedPop := adjustedImpliedPop offerPrice;
     PricingRow.warnings := rowWarnings offerPrice |}.

(** *** Recommendation *)

Definition sortedByPrice (matrix : list PricingRow.t) : list PricingRow.t :=
  JS.sort (fun a b => PricingRow.offerPrice b - PricingRow.offerPrice a) matrix.

Definition findRow (matrix : list PricingRow.t) (price : Q) : option PricingRow.t :=
  find (fun r => Qeq_bool (PricingRow.offerPrice r) price) matrix.

(** [if (!recommendedRow) { recommendedRow = fallback;
    recommendedPrice = recommendedRow.offerPrice; }]: reading
    [offerPrice] of an undefined fallback is a TypeError ([None]). *)
Definition orFallback (price : Q) (found fallback : option PricingRow.t)
  : option (Q * PricingRow.t) :=
  match found with
  | Some r => Some (price, r)
  | None =>
      match fallback with
      | Some r => Some (PricingRow.offerPrice r, r)
      | None => None
      end
  end.

(** [sortedByPrice.reduce(...)] without an initial value. *)
Definition closestToMidpoint (sorted : list PricingRow.t) (rangeMidpoint : Q)
  : option PricingRow.t :=
  match sorted with
  | [] => None
  | first :: rest =>
      Some (fold_left
              (fun closest row =>
                 if JS.ltb (JS.Math_abs (PricingRow.offerPrice row - rangeMidpoint))
                           (JS.Math_abs (PricingRow.offerPrice closest - rangeMidpoint))
                 then row else closest)
              rest first)
  end.

Definition isRunwayExtension : bool :=
  match managementPriority with
  | Some runway_extension => true
  | _ => false
  end.

Definition selectRow (lo hi : Q) (matrix : list PricingRow.t) : option (Q * PricingRow.t) :=
  let rangeMidpoint := (lo + hi) / 2 in
  let sorted := sortedByPrice matrix in
  if isRunwayExtension then
    let price := JS.or_else minAcceptablePrice lo in
    orFallback price (findRow matrix price) (JS.last_opt sorted)
  else
    match pricingAggressiveness with
    | maximum => orFallback hi (findRow matrix hi) (hd_error sorted)
    | conservative => orFallback lo (findRow matrix lo) (JS.last_opt sorted)
    | _ =>
        let price := JS.Math_round rangeMidpoint in
        orFallback price (findRow matrix price) (closestToMidpoint sorted rangeMidpoint)
    end.

Definition respectMinimum (matrix : list PricingRow.t) (sel : Q * PricingRow.t)
  : Q * PricingRow.t :=
  match minAcceptablePrice with
  | Some m =>
      if JS.truthy m && JS.ltb (fst sel) m
      then (m, JS.default (findRow matrix m) (snd sel))
      else sel
  | None => sel
  end.

Definition lastPrivateRoundPriceTruthy : option Q :=
  match lastPrivateRoundPrice with
  | Some l => if JS.truthy l then Some l else None
  | None => None
  end.

Definition minAcceptablePriceTruthy : bool :=
  match minAcceptablePrice with
  | Some m => JS.truthy m
  | None => false
  end.

Definition ceoWantsNarrativeControl (guidance : string) : bool :=
  let ceoLower := JS.toLowerCase guidance in
  JS.includes ceoLower "narrative" || JS.includes ceoLower "control"
  || JS.includes ceoLower "down round".

Definition ceoContradiction (recommendedPrice : Q) : list Warning :=
  match lastPrivateRoundPriceTruthy, ceoGuidance with
  | Some l, Some guidance =>
      if minAcceptablePriceTruthy && negb (String.eqb guidance "")
         && ceoWantsNarrativeControl guidance && JS.ltb recommendedPrice l
      then [CeoDirectiveContradiction recommendedPrice l]
      else []
  | _, _ => []
  end.

Definition resultWarnings (recommendedPrice : Q) (recommendedRow : PricingRow.t)
  : list Warning :=
  (if isRunwayExtension then [CeoRunwayExtension] else [])
  ++ match lastPrivateRoundPriceTruthy with
     | Some l =>
         if PricingRow.isDownRound recommendedRow
         then [DownRoundAlert recommendedPrice
                 (JS.Math_abs (PricingRow.downRoundPercent recommendedRow) * 100) l]
         else []
     | None => []
     end
  ++ (if dualClass then [DualClassApplied (dualClassDiscountRate * 100)] else [])
  ++ (if JS.gtb customerConcentrationTop5 (2 # 5)
      then [CustomerConcentrationRisk (customerConcentrationTop5 * 100)] else [])
  ++ (if JS.gtb growthDecelPenalty 0
      then [GrowthDecelerationPenalty (growthDecelPenalty * 100)] else [])
  ++ ceoContradiction recommendedPrice
  ++ PricingRow.warnings recommendedRow.

Definition errorResult (errorWarning : string) : Result.t :=
  {| Result.assumptions := assumptions;
     Result.pricingMatrix := [];
     Result.recommendedRangeLow := 0;
     Result.recommendedRangeHigh := 0;
     Result.recommendedPrice := 0;
     Result.warnings := [ErrorWarning errorWarning] |}.

(** [calculateIPOPricing]; [None] stands for a thrown TypeError. *)
Definition calculateIPOPricing : option Result.t :=
  if negb hasUserProvidedRange then Some (errorResult rangeRequiredError)
  else
    match indicatedPriceRangeLow, indicatedPriceRangeHigh with
    | Some lo, Some hi =>
        if JS.leb hi lo then Some (errorResult rangeOrderError)
        else
          let pricingMatrix := map pricingRow (pricePoints lo hi) in
          match selectRow lo hi pricingMatrix with
          | Some sel =>
              let recommended := respectMinimum pricingMatrix sel in
              Some {| Result.assumptions := assumptions;
                      Result.pricingMatrix := pricingMatrix;
                      Result.recommendedRangeLow := lo;
                      Result.recommendedRangeHigh := hi;
                      Result.recommendedPrice := fst recommended;
                      Result.warnings :=
                        resultWarnings (fst recommended) (snd recommended) |}
          | None => None
          end
    | _, _ => Some (errorResult rangeRequiredError)
    end.
End Engine.
End Part001.

(** ** src/server/services/ipoPricingService.ts

    The pricing matrix of this copy of the engine; the recommendation that
    the function derives from the matrix afterwards is the subject of
    [IpoPricingServiceTail] below. *)

Module IpoPricingService.

Module OrderBookEntry.
Record t : Type := { priceLevel : Q; oversubscription : Q }.
End OrderBookEntry.

Inductive SecondaryOptics : Type := neutral | negative | positive.

Module IPOAssumptions.
Record t : Type := {
  sharesOutstandingPreIPO : Q;
  primarySharesOffered : Q;
  secondarySharesOffered : option Q;
  greenshoeShares : option Q;
  greenshoePercent : Q;
  indicatedPriceRangeLow : option Q;
  indicatedPriceRangeHigh : option Q;
  currentCash : option Q;
  ntmRevenue : Q;
  fairValuePerShare : Q;
  totalRaNPV : option Q;
  peerMedianEVRevenue : Q;
  peerMedianEVRaNPV : option Q;
  orderBook : option (list OrderBookEntry.t);
  historicalFirstDayPop : option Q;
  sectorAverageFirstDayPop : option Q;
  sectorMedianFirstDayPop : option Q;
  foundersEmployeesOwnership : Q;
  hasBinaryCatalyst : option bool;
  monthsToCatalyst : option Q;
  secondaryOptics : option SecondaryOptics
}.
End IPOAssumptions.

(** [orderBookTier]: the empty label, "$L+" and "<$L". *)
Inductive Tier : Type :=
| TierNone
| TierAtOrAbove (level : Q)
| TierBelow (level : Q).

Inductive Warning : Type :=
| PercentOfFairValue (percent : Q)
| WeakBookCoverage (oversubscription : Q)
| NegativeDayOneReturn.

Module PricingRow.
Record t : Type := {
  offerPrice : Q;
  fdSharesPostIPO : Q;
  marketCapM : Q;
  postIPOCashM : Q;
  enterpriseValueM : Q;
  ntmEVRevenue : JS.xnum;
  evRaNPV : Q;
  vsPeerMedianRevenue : JS.xnum;
  vsPeerMedianRaNPV : Q;
  fairValueSupport : Q;
  grossProceedsM : Q;
  oversubscription : Q;
  orderBookTier : Tier;
  baseImpliedPop : Q;
  bookQualityAdjustment : Q;
  valuationPenalty : Q;
  secondaryDiscount : Q;
  catalystDiscount : Q;
  adjustedImpliedPop : Q;
  founderOwnershipPost : Q;
  warnings : list Warning
}.
End PricingRow.

Section Engine.

Variable assumptions : IPOAssumptions.t.

Definition sharesOutstandingPreIPO : Q := IPOAssumptions.sharesOutstandingPreIPO assumptions.
Definition primarySharesOffered : Q := IPOAssumptions.primarySharesOffered assumptions.
Definition secondarySharesOffered : Q := JS.default (IPOAssumptions.secondarySharesOffered assumptions) 0.
Definition greenshoeShares : option Q := IPOAssumptions.greenshoeShares assumptions.
Definition greenshoePercent : Q := IPOAssumptions.greenshoePercent assumptions.
Definition currentCash : Q := JS.default (IPOAssumptions.currentCash assumptions) 0.
Definition ntmRevenue : Q := IPOAssumptions.ntmRevenue assumptions.
Definition fairValuePerShare : Q := IPOAssumptions.fairValuePerShare assumptions.
Definition totalRaNPV : Q := JS.default (IPOAssumptions.totalRaNPV assumptions) 0.
Definition peerMedianEVRevenue : Q := IPOAssumptions.peerMedianEVRevenue assumptions.
Definition peerMedianEVRaNPV : Q := JS.default (IPOAssumptions.peerMedianEVRaNPV assumptions) 0.
Definition orderBook : option (list OrderBookEntry.t) := IPOAssumptions.orderBook assumptions.
Definition foundersEmployeesOwnership : Q := IPOAssumptions.foundersEmployeesOwnership assumptions.
Definition hasBinaryCatalyst : bool := JS.default (IPOAssumptions.hasBinaryCatalyst assumptions) false.
Definition monthsToCatalyst : Q := JS.default (IPOAssumptions.monthsToCatalyst assumptions) 12.
Definition secondaryOptics : SecondaryOptics := JS.default (IPOAssumptions.secondaryOptics assumptions) neutral.

Definition isPreRevenue : bool := Qeq_bool ntmRevenue 0 || JS.ltb ntmRevenue 1.

Definition actualGreenshoeShares : Q :=
  JS.or_else greenshoeShares (primarySharesOffered * greenshoePercent).

Definition totalSharesForProceeds : Q :=
  primarySharesOffered + secondarySharesOffered + actualGreenshoeShares.

Definition fdSharesPostIPO : Q :=
  sharesOutstandingPreIPO + primarySharesOffered + actualGreenshoeShares.

Definition bookPrices : list Q :=
  map OrderBookEntry.priceLevel (JS.default orderBook []).

Definition minPrice : Q :=
  let minPrice := JS.or_else (IPOAssumptions.indicatedPriceRangeLow assumptions) 15 in
  match bookPrices with
  | [] => minPrice
  | _ :: _ => fold_left JS.Math_min bookPrices minPrice - 3
  end.

Definition maxPrice : Q :=
  let maxPrice := JS.or_else (IPOAssumptions.indicatedPriceRangeHigh assumptions) 30 in
  match bookPrices with
  | [] => maxPrice
  | _ :: _ => fold_left JS.Math_max bookPrices maxPrice + 3
  end.

(** The same loop as in part_001:
    [for (let p = minPrice; p <= maxPrice; p += 1) if (p > 0) push(p)]. *)
Definition pricePoints : list Q := Part001.pricePoints minPrice maxPrice.

Definition sortedOrderBook : list OrderBookEntry.t :=
  match orderBook with
  | Some book =>
      JS.sort (fun a b => OrderBookEntry.priceLevel b - OrderBookEntry.priceLevel a) book
  | None => []
  end.

Definition baseExpectedReturn : Q :=
  match IPOAssumptions.sectorMedianFirstDayPop assumptions with
  | Some x => x
  | None =>
      match IPOAssumptions.sectorAverageFirstDayPop assumptions with
      | Some x => x
      | None => JS.default (IPOAssumptions.historicalFirstDayPop assumptions) 0
      end
  end.

Definition grossProceedsM (offerPrice : Q) : Q := offerPrice * totalSharesForProceeds.

Definition marketCapM (offerPrice : Q) : Q := fdSharesPostIPO * offerPrice.

Definition primaryProceeds (offerPrice : Q) : Q :=
  offerPrice * (primarySharesOffered + actualGreenshoeShares).

Definition postIPOCashM (offerPrice : Q) : Q := currentCash + primaryProceeds offerPrice.

Definition enterpriseValueM (offerPrice : Q) : Q :=
  marketCapM offerPrice - postIPOCashM offerPrice.

Definition ntmEVRevenue (offerPrice : Q) : JS.xnum :=
  if isPreRevenue then JS.Infinity else JS.Fin (enterpriseValueM offerPrice / ntmRevenue).

Definition evRaNPV (offerPrice : Q) : Q :=
  if JS.gtb totalRaNPV 0 then enterpriseValueM offerPrice / totalRaNPV else 0.

Definition vsPeerMedianRevenue (offerPrice : Q) : JS.xnum :=
  if isPreRevenue then JS.Infinity
  else JS.Fin ((enterpriseValueM offerPrice / ntmRevenue - peerMedianEVRevenue)
               / peerMedianEVRevenue).

Definition vsPeerMedianRaNPV (offerPrice : Q) : Q :=
  if JS.gtb totalRaNPV 0 && JS.gtb peerMedianEVRaNPV 0
  then (evRaNPV offerPrice - peerMedianEVRaNPV) / peerMedianEVRaNPV
  else 0.

Definition fairValueSupport (offerPrice : Q) : Q := offerPrice / fairValuePerShare.

(** The [for ... break] scan of the sorted book, then the
    [if (oversubscription === 1)] fallback on the lowest entry. *)
Definition orderBookLookup (offerPrice : Q) : Q * Tier :=
  match sortedOrderBook with
  | [] => (1, TierNone)
  | top :: _ =>
      let scanned :=
        match find (fun entry => JS.geb offerPrice (OrderBookEntry.priceLevel entry))
                   sortedOrderBook with
        | Some entry =>
            (OrderBookEntry.oversubscription entry,
             TierAtOrAbove (OrderBookEntry.priceLevel entry))
        | None => (1, TierNone)
        end in
      if Qeq_bool (fst scanned) 1 then
        let lowestEntry := last sortedOrderBook top in
        let priceDiff := OrderBookEntry.priceLevel lowestEntry - offerPrice in
        (JS.Math_round (OrderBookEntry.oversubscription lowestEntry
                        * (1 + priceDiff * (5 # 100))),
         TierBelow (OrderBookEntry.priceLevel lowestEntry))
      else scanned
  end.

Definition oversubscription (offerPrice : Q) : Q := fst (orderBookLookup offerPrice).
Definition orderBookTier (offerPrice : Q) : Tier := snd (orderBookLookup offerPrice).

Definition baseImpliedPop : Q := baseExpectedReturn.

Definition bookQualityAdjustment (offerPrice : Q) : Q :=
  if JS.ltb (oversubscription offerPrice) 5
  then (5 - oversubscription offerPrice) * - (3 # 100)
  else if JS.gtb (oversubscription offerPrice) 20
       then JS.Math_min (10 # 100) ((oversubscription offerPrice - 20) * (5 # 1000))
       else 0.

Definition valuationPenalty (offerPrice : Q) : Q :=
  if JS.gtb (fairValueSupport offerPrice) 1
  then (fairValueSupport offerPrice - 1) * - (15 # 100)
  else 0.

Definition secondaryDiscount : Q :=
  if JS.gtb secondarySharesOffered 0
  then
    let secondaryPct := secondarySharesOffered / totalSharesForProceeds in
    match secondaryOptics with
    | negative => (3 # 100) + secondaryPct * (5 # 100)
    | _ => secondaryPct * (2 # 100)
    end
  else 0.

Definition catalystDiscount : Q :=
  if hasBinaryCatalyst
  then if JS.ltb monthsToCatalyst 6 then 10 # 100
       else if JS.ltb monthsToCatalyst 12 then 5 # 100 else 0
  else 0.

Definition adjustedImpliedPop (offerPrice : Q) : Q :=
  baseImpliedPop + bookQualityAdjustment offerPrice + valuationPenalty offerPrice
  - secondaryDiscount - catalystDiscount.

Definition founderOwnershipPost : Q :=
  foundersEmployeesOwnership * (sharesOutstandingPreIPO / fdSharesPostIPO).

Definition rowWarnings (offerPrice : Q) : list Warning :=
  (if JS.gtb (fairValueSupport offerPrice) 2
   then [PercentOfFairValue (fairValueSupport offerPrice * 100)] else [])
  ++ (if JS.ltb (oversubscription offerPrice) 3
      then [WeakBookCoverage (oversubscription offerPrice)] else [])
  ++ (if JS.ltb (adjustedImpliedPop offerPrice) (- (20 # 100))
      then [NegativeDayOneReturn] else []).

Definition pricingRow (offerPrice : Q) : PricingRow.t :=
  {| PricingRow.offerPrice := offerPrice;
     PricingRow.fdSharesPostIPO := fdSharesPostIPO;
     PricingRow.marketCapM := marketCapM offerPrice;
     PricingRow.postIPOCashM := postIPOCashM offerPrice;
     PricingRow.enterpriseValueM := enterpriseValueM offerPrice;
     PricingRow.ntmEVRevenue := ntmEVRevenue offerPrice;
     PricingRow.evRaNPV := evRaNPV offerPrice;
     PricingRow.vsPeerMedianRevenue := vsPeerMedianRevenue offerPrice;
     PricingRow.vsPeerMedianRaNPV := vsPeerMedianRaNPV offerPrice;
     PricingRow.fairValueSupport := fairValueSupport offerPrice;
     PricingRow.grossProceedsM := grossProceedsM offerPrice;
     PricingRow.oversubscription := oversubscription offerPrice;
     PricingRow.orderBookTier := orderBookTier offerPrice;
     PricingRow.baseImpliedPop := baseImpliedPop;
     PricingRow.bookQualityAdjustment := bookQualityAdjustment offerPrice;
     PricingRow.valuationPenalty := valuationPenalty offerPrice;
     PricingRow.secondaryDiscount := secondaryDiscount;
     PricingRow.catalystDiscount := catalystDiscount;
     PricingRow.adjustedImpliedPop := adjustedImpliedPop offerPrice;
     PricingRow.founderOwnershipPost := founderOwnershipPost;
     PricingRow.warnings := rowWarnings offerPrice |}.

(** The [pricingMatrix] field of the value [calculateIPOPricing] returns. *)
Definition pricingMatrix : list PricingRow.t := map pricingRow pricePoints.

End Engine.
End IpoPricingService.

(** ** src/unnamed/part_002

    The pricing matrix of this copy of the engine; its recommendation is
    the subject of [Part002Tail] below. *)

Module Part002.

Module OrderBookEntry.
Record t : Type := { priceLevel : Q; oversubscription : Q }.
End OrderBookEntry.

Module IPOAssumptions.
Record t : Type := {
  sector : string;
  sharesOutstandingPreIPO : Q;
  primarySharesOffered : Q;
  secondarySharesOffered : option Q;
  greenshoePercent : Q;
  targetGrossProceeds : Q;
  nextYearRevenue : Q;
  riskAdjustedRevenue2030 : option Q;
  dcfValuePerShare : Q;
  peerMedianEVRevenue : Q;
  orderBook : option (list OrderBookEntry.t);
  historicalFirstDayPop : Q;
  foundersEmployeesOwnership : Q
}.
End IPOAssumptions.

Module PricingRow.
Record t : Type := {
  offerPrice : Q;
  marketCap : Q;
  enterpriseValue : Q;
  valuationMultiple : Q;
  valuationMetricLabel : string;
  vsPeerMedianDiscount : Q;
  vsDCFSupport : Q;
  grossProceeds : Q;
  oversubscription : Q;
  impliedFirstDayPop : Q;
  founderEmployeeOwnershipPost : Q
}.
End PricingRow.

(** [for (p = min; p <= max; p += step) if (p > 0)
    push(Math.round(p * 100) / 100)] with [step = 1]. *)
Definition pricePoints (minOrderBookPrice maxOrderBookPrice : Q) : list Q :=
  map (fun p => JS.Math_round (p * 100) / 100)
      (Part001.pricePoints minOrderBookPrice maxOrderBookPrice).

Section Engine.

Variable assumptions : IPOAssumptions.t.

Definition sharesOutstandingPreIPO : Q := IPOAssumptions.sharesOutstandingPreIPO assumptions.
Definition primarySharesOffered : Q := IPOAssumptions.primarySharesOffered assumptions.
Definition secondarySharesOffered : Q := JS.default (IPOAssumptions.secondarySharesOffered assumptions) 0.
Definition greenshoePercent : Q := IPOAssumptions.greenshoePercent assumptions.
Definition targetGrossProceeds : Q := IPOAssumptions.targetGrossProceeds assumptions.
Definition nextYearRevenue : Q := IPOAssumptions.nextYearRevenue assumptions.
Definition dcfValuePerShare : Q := IPOAssumptions.dcfValuePerShare assumptions.
Definition peerMedianEVRevenue : Q := IPOAssumptions.peerMedianEVRevenue assumptions.
Definition orderBook : list OrderBookEntry.t := JS.default (IPOAssumptions.orderBook assumptions) [].
Definition historicalFirstDayPop : Q := IPOAssumptions.historicalFirstDayPop assumptions.
Definition foundersEmployeesOwnership : Q := IPOAssumptions.foundersEmployeesOwnership assumptions.

Definition greenshoeShares : Q := primarySharesOffered * greenshoePercent.
Definition totalSharesOffered : Q := primarySharesOffered + secondarySharesOffered.
Definition totalSharesWithGreenshoe : Q := totalSharesOffered + greenshoeShares.
Definition fdSharesPostIPO : Q := sharesOutstandingPreIPO + primarySharesOffered + greenshoeShares.
Definition midPrice : Q := targetGrossProceeds / totalSharesOffered.

Definition bookPrices : list Q := map OrderBookEntry.priceLevel orderBook.

Definition minOrderBookPrice : Q :=
  match bookPrices with
  | [] => midPrice - 4
  | p :: rest => fold_left JS.Math_min rest p - 2
  end.

Definition maxOrderBookPrice : Q :=
  match bookPrices with
  | [] => midPrice + 4
  | p :: rest => fold_left JS.Math_max rest p + 2
  end.

Definition isBiotech : bool := String.eqb (IPOAssumptions.sector assumptions) "biotech".

Definition revenueForValuation : Q :=
  if isBiotech
  then JS.or_else (IPOAssumptions.riskAdjustedRevenue2030 assumptions) nextYearRevenue
  else nextYearRevenue.

Definition valuationMetricLabel : string :=
  if isBiotech then "2030 rNPV multiple" else "NTM EV/Revenue".

Definition grossProceeds (offerPrice : Q) : Q := totalSharesWithGreenshoe * offerPrice.

Definition marketCap (offerPrice : Q) : Q := fdSharesPostIPO * offerPrice.

Definition enterpriseValue (offerPrice : Q) : Q := marketCap offerPrice.

Definition valuationMultiple (offerPrice : Q) : Q :=
  enterpriseValue offerPrice / revenueForValuation.

Definition vsPeerMedianDiscount (offerPrice : Q) : Q :=
  (valuationMultiple offerPrice - peerMedianEVRevenue) / peerMedianEVRevenue.

Definition vsDCFSupport (offerPrice : Q) : Q := offerPrice / dcfValuePerShare.

Definition sortedBook : list OrderBookEntry.t :=
  JS.sort (fun a b => OrderBookEntry.priceLevel b - OrderBookEntry.priceLevel a) orderBook.

Definition oversubscription (offerPrice : Q) : Q :=
  match sortedBook with
  | [] => 1
  | top :: _ =>
      let scanned :=
        match find (fun entry => JS.geb offerPrice (OrderBookEntry.priceLevel entry))
                   sortedBook with
        | Some entry => OrderBookEntry.oversubscription entry
        | None => 1
        end in
      if Qeq_bool scanned 1 then
        let lowestEntry := last sortedBook top in
        if JS.ltb offerPrice (OrderBookEntry.priceLevel lowestEntry) then
          let priceDiff := OrderBookEntry.priceLevel lowestEntry - offerPrice in
          let extraDemand := JS.Math_round (priceDiff * 5) in
          OrderBookEntry.oversubscription lowestEntry + extraDemand
        else scanned
      else scanned
  end.

Definition impliedFirstDayPop (offerPrice : Q) : Q :=
  let priceRatio := offerPrice / dcfValuePerShare in
  JS.Math_max (10 # 100) (historicalFirstDayPop * (1 - priceRatio) * 2).

Definition founderEmployeeOwnershipPost : Q :=
  foundersEmployeesOwnership * (sharesOutstandingPreIPO / fdSharesPostIPO).

Definition pricingRow (offerPrice : Q) : PricingRow.t :=
  {| PricingRow.offerPrice := offerPrice;
     PricingRow.marketCap := marketCap offerPrice;
     PricingRow.enterpriseValue := enterpriseValue offerPrice;
     PricingRow.valuationMultiple := valuationMultiple offerPrice;
     PricingRow.valuationMetricLabel := valuationMetricLabel;
     PricingRow.vsPeerMedianDiscount := vsPeerMedianDiscount offerPrice;
     PricingRow.vsDCFSupport := vsDCFSupport offerPrice;
     PricingRow.grossProceeds := grossProceeds offerPrice;
     PricingRow.oversubscription := oversubscription offerPrice;
     PricingRow.impliedFirstDayPop := impliedFirstDayPop offerPrice;
     PricingRow.founderEmployeeOwnershipPost := founderEmployeeOwnershipPost |}.

(** The [pricingMatrix] field of the value [calculateIPOPricing] returns. *)
Definition pricingMatrix : list PricingRow.t :=
  map pricingRow (pricePoints minOrderBookPrice maxOrderBookPrice).

End Engine.
End Part002.

(** ** src/unnamed/part_000 *)

Module Part000.

Inductive CompanyType : Type := mature | high_growth | biotech | industrial.

Inductive HolderType : Type := founder | investor | option_pool | management | other.

Module Shareholder.
Record t : Type := {
  name : string;
  shares : Q;
  type : HolderType;
  votingMultiple : option Q;
  secondarySalePercent : option Q
}.
End Shareholder.

Module ComparableCompany.
Record t : Type := {
  name : string;
  evRevenue : option Q;
  evEbitda : option Q
}.
End ComparableCompany.

(** [launchYear] is a calendar year, an integer. *)
Module PipelineAsset.
Record t : Type := {
  name : string;
  phase : string;
  probabilityOfSuccess : Q;
  peakSales : Q;
  launchYear : Z
}.
End PipelineAsset.

Module PreIPOShares.
Record t : Type := { total : Q; breakdown : list Shareholder.t }.
End PreIPOShares.

(** [projectionYears] is a number of years, a natural number. *)
Module IPOAssumptions.
Record t : Type := {
  companyName : string;
  companyType : CompanyType;
  preIPOShares : PreIPOShares.t;
  currentRevenue : Q;
  revenueGrowthRates : list Q;
  currentEBITDA : Q;
  ebitdaMargin : Q;
  targetEbitdaMargin : Q;
  currentCash : Q;
  currentDebt : Q;
  taxRate : Q;
  wacc : Q;
  terminalGrowthRate : Q;
  primaryRaiseAmount : Q;
  secondarySaleShares : Q;
  greenshoePercent : Q;
  debtRepaymentAmount : option Q;
  comparables : list ComparableCompany.t;
  dualClassShares : bool;
  founderControlMinimum : option Q;
  pipelineAssets : option (list PipelineAsset.t);
  ipoDiscountPercent : Q;
  projectionYears : nat
}.
End IPOAssumptions.

Module OwnershipEntry.
Record t : Type := {
  name : string;
  preIPOShares : Q;
  preIPOPercent : Q;
  postIPOShares : Q;
  postIPOPercent : Q;
  votingPercent : Q
}.
End OwnershipEntry.

Module Scenario.
Record t : Type := {
  scenario : string;
  offerPrice : Q;
  primaryShares : Q;
  marketCap : Q;
  enterpriseValue : Q;
  evRevenue : Q;
  evEbitda : option Q;
  dilution : Q;
  founderOwnership : Q;
  expectedDayOnePop : Q
}.
End Scenario.

Module PriceRange.
Record t : Type := { low : Q; mid : Q; high : Q }.
End PriceRange.

(** Warnings and the recommendation text, as constructors carrying the
    interpolated numbers. *)
Inductive Warning : Type :=
| LimitedPipelineData
| FounderBelowMinimum (percent minimumPercent : Q)
| OwnershipSum (totalOwnership : Q)
| DilutionInvalid (percent : Q)
| OfferNotBelowFairValue (price fairValue : Q)
| HighDilution (percent : Q)
| NotYetProfitable.

Inductive Recommendation : Type :=
| PriceHigher (expectedPop highPrice : Q)
| PriceCarefully (expectedPop lowPrice : Q)
| PriceAtMidPoint (expectedPop midPrice : Q).

Module IPOPricingResult.
Record t : Type := {
  companyName : string;
  companyType : CompanyType;
  valuationMethodology : string;
  enterpriseValue : Q;
  equityValue : Q;
  fairValuePerShare : Q;
  preIPOSharesTotal : Q;
  primarySharesIssued : Q;
  secondarySharesSold : Q;
  greenshoeShares : Q;
  postIPOSharesTotal : Q;
  publicFloat : Q;
  priceRange : PriceRange.t;
  recommendedOfferPrice : Q;
  grossPrimaryProceeds : Q;
  netPrimaryProceeds : Q;
  secondaryProceeds : Q;
  greenshoeProceeds : Q;
  totalOfferingSize : Q;
  postIPOCash : Q;
  postIPODebt : Q;
  postIPOEnterpriseValue : Q;
  marketCap : Q;
  impliedPreIPOValuation : Q;
  dilutionPercent : Q;
  ownershipTable : list OwnershipEntry.t;
  impliedEVRevenue : Q;
  impliedEVEBITDA : option Q;
  comparableMedianEVRevenue : Q;
  comparableMedianEVEBITDA : option Q;
  pricingMatrix : list Scenario.t;
  warnings : list Warning;
  recommendation : Recommendation
}.
End IPOPricingResult.

(** [rates[i] || rates[rates.length - 1] || fallback] *)
Definition growthRateAt (rates : list Q) (i : nat) (fallback : Q) : Q :=
  JS.or_else (nth_error rates i) (JS.or_else (JS.last_opt rates) fallback).

(** The projection loop of the DCF for mature and industrial companies:
    the free cash flows of years [i], [i+1], ... *)
Fixpoint projectFCF (rates : list Q) (marginStep targetEbitdaMargin taxRate : Q)
         (years i : nat) (projectedRevenue projectedMargin : Q) : list Q :=
  match years with
  | O => []
  | S years' =>
      let growthRate := growthRateAt rates i (5 # 100) in
      let projectedRevenue := projectedRevenue * (1 + growthRate) in
      let projectedMargin := JS.Math_min (projectedMargin + marginStep) targetEbitdaMargin in
      let ebitda := projectedRevenue * projectedMargin in
      let da := projectedRevenue * (4 # 100) in
      let capex := projectedRevenue * (5 # 100) in
      let nwcChange := projectedRevenue * growthRate * (10 # 100) in
      let fcf := (ebitda - da) * (1 - taxRate) + da - capex - nwcChange in
      fcf :: projectFCF rates marginStep targetEbitdaMargin taxRate years' (S i)
               projectedRevenue projectedMargin
  end.

(** The projection loop of the high-growth DCF, with FCF floored at 0. *)
Fixpoint projectFCFHighGrowth (rates : list Q) (marginStep taxRate : Q)
         (years i : nat) (projectedRevenue projectedMargin : Q) : list Q :=
  match years with
  | O => []
  | S years' =>
      let growthRate := growthRateAt rates i (20 # 100) in
      let projectedRevenue := projectedRevenue * (1 + growthRate) in
      let projectedMargin := projectedMargin + marginStep in
      let ebitda := projectedRevenue * projectedMargin in
      let da := projectedRevenue * (3 # 100) in
      let capex := projectedRevenue * (4 # 100) in
      let nwcChange := projectedRevenue * growthRate * (8 # 100) in
      let fcf := JS.Math_max 0 ((ebitda - da) * (1 - taxRate) + da - capex - nwcChange) in
      fcf :: projectFCFHighGrowth rates marginStep taxRate years' (S i)
               projectedRevenue projectedMargin
  end.

(** [pvFCF += projectedFCF[i] / Math.pow(1 + wacc, i + 1)] for the
    entries at positions [i], [i+1], ... *)
Fixpoint presentValue (wacc : Q) (i : nat) (projectedFCF : list Q) : Q :=
  match projectedFCF with
  | [] => 0
  | fcf :: rest =>
      fcf / JS.Math_pow (1 + wacc) (Z.of_nat (i + 1)) + presentValue wacc (S i) rest
  end.

(** [sorted[Math.floor(sorted.length / 2)]] of a non-empty array. *)
Definition medianOf (multiples : list Q) : Q :=
  nth (Nat.div (List.length multiples) 2) (JS.sort (fun a b => a - b) multiples) 0.

(** [filter(c => c.f && c.f > 0).map(c => c.f!)] *)
Definition positiveMultiples (f : ComparableCompany.t -> option Q)
           (comparables : list ComparableCompany.t) : list Q :=
  flat_map (fun c => match f c with
                     | Some m => if JS.truthy m && JS.gtb m 0 then [m] else []
                     | None => []
                     end) comparables.

(** [filter(c => c.f).map(c => c.f!)] *)
Definition truthyMultiples (f : ComparableCompany.t -> option Q)
           (comparables : list ComparableCompany.t) : list Q :=
  flat_map (fun c => match f c with
                     | Some m => if JS.truthy m then [m] else []
                     | None => []
                     end) comparables.

Section Engine.

(** [new Date().getFullYear()] *)
Variable currentYear : Z.

Variable assumptions : IPOAssumptions.t.

Definition companyType : CompanyType := IPOAssumptions.companyType assumptions.
Definition preIPOShares : PreIPOShares.t := IPOAssumptions.preIPOShares assumptions.
Definition currentRevenue : Q := IPOAssumptions.currentRevenue assumptions.
Definition revenueGrowthRates : list Q := IPOAssumptions.revenueGrowthRates assumptions.
Definition currentEBITDA : Q := IPOAssumptions.currentEBITDA assumptions.
Definition ebitdaMargin : Q := IPOAssumptions.ebitdaMargin assumptions.
Definition targetEbitdaMargin : Q := IPOAssumptions.targetEbitdaMargin assumptions.
Definition currentCash : Q := IPOAssumptions.currentCash assumptions.
Definition currentDebt : Q := IPOAssumptions.currentDebt assumptions.
Definition taxRate : Q := IPOAssumptions.taxRate assumptions.
Definition wacc : Q := IPOAssumptions.wacc assumptions.
Definition terminalGrowthRate : Q := IPOAssumptions.terminalGrowthRate assumptions.
Definition primaryRaiseAmount : Q := IPOAssumptions.primaryRaiseAmount assumptions.
Definition directSecondarySaleShares : Q := IPOAssumptions.secondarySaleShares assumptions.
Definition greenshoePercent : Q := IPOAssumptions.greenshoePercent assumptions.
Definition comparables : list ComparableCompany.t := IPOAssumptions.comparables assumptions.
Definition dualClassShares : bool := IPOAssumptions.dualClassShares assumptions.
Definition founderControlMinimum : option Q := IPOAssumptions.founderControlMinimum assumptions.
Definition pipelineAssets : list PipelineAsset.t := JS.default (IPOAssumptions.pipelineAssets assumptions) [].
Definition ipoDiscountPercent : Q := IPOAssumptions.ipoDiscountPercent assumptions.
Definition projectionYears : nat := IPOAssumptions.projectionYears assumptions.
Definition debtRepaymentAmount : Q := JS.default (IPOAssumptions.debtRepaymentAmount assumptions) 0.

(** *** Secondary shares *)

(** [holder.secondarySalePercent ? holder.shares * holder.secondarySalePercent : 0] *)
Definition holdersSecondarySale (holder : Shareholder.t) : Q :=
  match Shareholder.secondarySalePercent holder with
  | Some pct => if JS.truthy pct then Shareholder.shares holder * pct else 0
  | None => 0
  end.

Definition calculatedSecondaryShares : Q :=
  fold_left
    (fun acc holder =>
       match Shareholder.secondarySalePercent holder with
       | Some pct =>
           if JS.truthy pct && JS.gtb pct 0
           then acc + Shareholder.shares holder * pct
           else acc
       | None => acc
       end)
    (PreIPOShares.breakdown preIPOShares) 0.

Definition secondarySaleShares : Q :=
  if JS.gtb calculatedSecondaryShares 0 then calculatedSecondaryShares
  else directSecondarySaleShares.

(** *** Step 1: enterprise value by company type *)

Definition marginStep : Q := (targetEbitdaMargin - ebitdaMargin) / inject_Z (Z.of_nat projectionYears).

Definition projectedFCF : list Q :=
  projectFCF revenueGrowthRates marginStep targetEbitdaMargin taxRate
             projectionYears 0 currentRevenue ebitdaMargin.

(** [projectedFCF[projectedFCF.length - 1]]; the list is non-empty when
    [projectionYears] is at least 1. *)
Definition finalYearFCF (fcfs : list Q) : Q := JS.default (JS.last_opt fcfs) 0.

Definition terminalFCF : Q := finalYearFCF projectedFCF * (1 + terminalGrowthRate).

Definition terminalValue : Q := terminalFCF / (wacc - terminalGrowthRate).

Definition pvFCF : Q := presentValue wacc 0 projectedFCF.

Definition pvTerminal : Q :=
  terminalValue / JS.Math_pow (1 + wacc) (Z.of_nat projectionYears).

Definition dcfEnterpriseValue : Q := pvFCF + pvTerminal.

Definition matureEnterpriseValue : Q :=
  let medianEVEbitda := positiveMultiples ComparableCompany.evEbitda comparables in
  match companyType, medianEVEbitda with
  | industrial, _ :: _ =>
      if JS.gtb currentEBITDA 0
      then JS.Math_min dcfEnterpriseValue (currentEBITDA * medianOf medianEVEbitda)
      else dcfEnterpriseValue
  | _, _ => dcfEnterpriseValue
  end.

Definition highGrowthEnterpriseValue : Q :=
  let evRevenueMultiples := positiveMultiples ComparableCompany.evRevenue comparables in
  let medianEVRevenue :=
    match evRevenueMultiples with
    | [] => 10
    | _ :: _ => medianOf evRevenueMultiples
    end in
  let ntmRevenue :=
    currentRevenue * (1 + JS.or_else (nth_error revenueGrowthRates 0) (30 # 100)) in
  let comparableEV := ntmRevenue * medianEVRevenue in
  let projectedFCF :=
    projectFCFHighGrowth revenueGrowthRates marginStep taxRate
                         projectionYears 0 currentRevenue ebitdaMargin in
  let terminalFCF := finalYearFCF projectedFCF * (1 + terminalGrowthRate) in
  let terminalValue := terminalFCF / (wacc - terminalGrowthRate) in
  let pvFCF := presentValue wacc 0 projectedFCF in
  let pvTerminal := terminalValue / JS.Math_pow (1 + wacc) (Z.of_nat projectionYears) in
  let dcfEV := pvFCF + pvTerminal in
  JS.Math_min comparableEV dcfEV.

(** The sales curve of one pipeline asset, [yearsPostLaunch] from 0 to 10. *)
Definition salesFactor (yearsPostLaunch : nat) : Q :=
  if Nat.leb yearsPostLaunch 3 then inject_Z (Z.of_nat yearsPostLaunch) / 3
  else if Nat.leb yearsPostLaunch 7 then 1
       else 1 - (inject_Z (Z.of_nat yearsPostLaunch) - 7) * (15 # 100).

Definition assetNPV (asset : PipelineAsset.t) : Q :=
  let yearsToLaunch := (PipelineAsset.launchYear asset - currentYear)%Z in
  fold_left
    (fun acc yearsPostLaunch =>
       let year := (yearsToLaunch + Z.of_nat yearsPostLaunch)%Z in
       let sales := PipelineAsset.peakSales asset * JS.Math_max 0 (salesFactor yearsPostLaunch) in
       let margin := 30 # 100 in
       let fcf := sales * margin * (1 - taxRate) in
       acc + fcf / JS.Math_pow (1 + wacc) year)
    (seq 0 11) 0.

Definition totalRNPV : Q :=
  fold_left
    (fun acc asset => acc + assetNPV asset * PipelineAsset.probabilityOfSuccess asset)
    pipelineAssets 0.

Definition biotechEnterpriseValue : Q :=
  match pipelineAssets with
  | _ :: _ => totalRNPV
  | [] =>
      let evRevenueMultiples := positiveMultiples ComparableCompany.evRevenue comparables in
      let medianMultiple :=
        match evRevenueMultiples with
        | [] => 5
        | _ :: _ => medianOf evRevenueMultiples
        end in
      currentRevenue * medianMultiple * (5 # 10)
  end.

Definition valuationWarnings : list Warning :=
  match companyType, pipelineAssets with
  | biotech, [] => [LimitedPipelineData]
  | _, _ => []
  end.

Definition valuationMethodology : string :=
  match companyType with
  | mature => "Discounted Cash Flow (DCF) with Terminal Value"
  | industrial => "EBITDA Multiple with DCF Cross-Check"
  | high_growth => "Revenue Multiple with DCF Cross-Check"
  | biotech => "Risk-Adjusted NPV (rNPV) with Pipeline Analysis"
  end.

Definition enterpriseValue : Q :=
  match companyType with
  | mature | industrial => matureEnterpriseValue
  | high_growth => highGrowthEnterpriseValue
  | biotech => biotechEnterpriseValue
  end.

(** *** Steps 2 to 6 *)

Definition equityValue : Q := enterpriseValue - currentDebt + currentCash.
Definition fairValuePerShare : Q := equityValue / PreIPOShares.total preIPOShares.

Definition discountedPrice : Q := fairValuePerShare * (1 - ipoDiscountPercent).
Definition midPrice : Q := discountedPrice.
Definition lowPrice : Q := midPrice * (90 # 100).
Definition highPrice : Q := midPrice * (110 # 100).

Definition primarySharesAtMid : Q := primaryRaiseAmount / midPrice.
Definition primarySharesAtLow : Q := primaryRaiseAmount / lowPrice.
Definition primarySharesAtHigh : Q := primaryRaiseAmount / highPrice.

Definition totalOfferingShares : Q := primarySharesAtMid + secondarySaleShares.
Definition greenshoeShares : Q := totalOfferingShares * greenshoePercent.
Definition postIPOShares : Q :=
  PreIPOShares.total preIPOShares + primarySharesAtMid + greenshoeShares.
Definition publicFloat : Q := primarySharesAtMid + secondarySaleShares + greenshoeShares.

Definition underwritingDiscount : Q := 7 # 100.

Definition grossPrimaryProceeds : Q := primarySharesAtMid * midPrice.
Definition netPrimaryProceeds : Q := grossPrimaryProceeds * (1 - underwritingDiscount).
Definition secondaryProceeds : Q := secondarySaleShares * midPrice * (1 - underwritingDiscount).
Definition greenshoeProceeds : Q := greenshoeShares * midPrice * (1 - underwritingDiscount).
Definition totalOfferingSize : Q :=
  (primarySharesAtMid + secondarySaleShares + greenshoeShares) * midPrice.

Definition postIPOCash : Q :=
  currentCash + netPrimaryProceeds + greenshoeProceeds - debtRepaymentAmount.
Definition postIPODebt : Q := JS.Math_max 0 (currentDebt - debtRepaymentAmount).
Definition marketCap : Q := postIPOShares * midPrice.
Definition postIPOEnterpriseValue : Q := marketCap + postIPODebt - postIPOCash.

Definition impliedPreIPOValuation : Q := midPrice * PreIPOShares.total preIPOShares.

(** *** Step 7: ownership table *)

Definition votingWeight (holder : Shareholder.t) : Q :=
  if dualClassShares then JS.or_else (Shareholder.votingMultiple holder) 1 else 1.

Definition postIPOHolderShares (holder : Shareholder.t) : Q :=
  Shareholder.shares holder - holdersSecondarySale holder.

Definition totalVotingShares : Q :=
  fold_left (fun acc holder => acc + postIPOHolderShares holder * votingWeight holder)
            (PreIPOShares.breakdown preIPOShares) 0
  + publicFloat * 1.

Definition ownershipEntry (holder : Shareholder.t) : OwnershipEntry.t :=
  {| OwnershipEntry.name := Shareholder.name holder;
     OwnershipEntry.preIPOShares := Shareholder.shares holder;
     OwnershipEntry.preIPOPercent :=
       (Shareholder.shares holder / PreIPOShares.total preIPOShares) * 100;
     OwnershipEntry.postIPOShares := postIPOHolderShares holder;
     OwnershipEntry.postIPOPercent := (postIPOHolderShares holder / postIPOShares) * 100;
     OwnershipEntry.votingPercent :=
       (postIPOHolderShares holder * votingWeight holder / totalVotingShares) * 100 |}.

Definition publicEntry : OwnershipEntry.t :=
  {| OwnershipEntry.name := "Public Shareholders";
     OwnershipEntry.preIPOShares := 0;
     OwnershipEntry.preIPOPercent := 0;
     OwnershipEntry.postIPOShares := publicFloat;
     OwnershipEntry.postIPOPercent := (publicFloat / postIPOShares) * 100;
     OwnershipEntry.votingPercent := (publicFloat * 1 / totalVotingShares) * 100 |}.

Definition ownershipTable : list OwnershipEntry.t :=
  map ownershipEntry (PreIPOShares.breakdown preIPOShares) ++ [publicEntry].

Definition newSharesIssued : Q := primarySharesAtMid + greenshoeShares.
Definition dilutionPercent : Q :=
  (newSharesIssued / (PreIPOShares.total preIPOShares + newSharesIssued)) * 100.

Definition founderHolders : list Shareholder.t :=
  filter (fun h => match Shareholder.type h with founder => true | _ => false end)
         (PreIPOShares.breakdown preIPOShares).

Definition totalFounderPostIPOShares : Q :=
  fold_left (fun acc holder => acc + postIPOHolderShares holder) founderHolders 0.

Definition founderPostIPOPercent : Q := (totalFounderPostIPOShares / postIPOShares) * 100.

Definition totalOwnership : Q :=
  fold_left (fun sum h => sum + OwnershipEntry.postIPOPercent h) ownershipTable 0.

Definition expectedPop : Q := ((fairValuePerShare - midPrice) / midPrice) * 100.

Definition warnings : list Warning :=
  valuationWarnings
  ++ match founderControlMinimum with
     | Some m =>
         if JS.truthy m && JS.ltb founderPostIPOPercent (m * 100)
         then [FounderBelowMinimum founderPostIPOPercent (m * 100)] else []
     | None => []
     end
  ++ (if JS.gtb (JS.Math_abs (totalOwnership - 100)) (5 # 10)
      then [OwnershipSum totalOwnership] else [])
  ++ (if JS.geb dilutionPercent 100 then [DilutionInvalid dilutionPercent] else [])
  ++ (if JS.geb midPrice fairValuePerShare
      then [OfferNotBelowFairValue midPrice fairValuePerShare] else [])
  ++ (if JS.gtb dilutionPercent 30 then [HighDilution dilutionPercent] else [])
  ++ (if JS.ltb currentEBITDA 0 then [NotYetProfitable] else []).

(** *** Steps 8 to 10 *)

Definition impliedEVRevenue : Q := postIPOEnterpriseValue / currentRevenue.
Definition impliedEVEBITDA : option Q :=
  if JS.gtb currentEBITDA 0 then Some (postIPOEnterpriseValue / currentEBITDA) else None.

Definition comparableMedianEVRevenue : Q :=
  match truthyMultiples ComparableCompany.evRevenue comparables with
  | [] => impliedEVRevenue
  | m :: ms => medianOf (m :: ms)
  end.

Definition comparableMedianEVEBITDA : option Q :=
  match truthyMultiples ComparableCompany.evEbitda comparables with
  | [] => None
  | m :: ms => Some (medianOf (m :: ms))
  end.

Definition createScenario (scenarioName : string) (price primaryShares : Q) : Scenario.t :=
  let scenarioGreenshoe := (primaryShares + secondarySaleShares) * greenshoePercent in
  let scenarioNewShares := primaryShares + scenarioGreenshoe in
  let postShares := PreIPOShares.total preIPOShares + scenarioNewShares in
  let mktCap := postShares * price in
  let netProceeds := primaryShares * price * (1 - underwritingDiscount) in
  let scenarioGreenshoeProceeds := scenarioGreenshoe * price * (1 - underwritingDiscount) in
  let postCash := currentCash + netProceeds + scenarioGreenshoeProceeds - debtRepaymentAmount in
  let postDebt := JS.Math_max 0 (currentDebt - debtRepaymentAmount) in
  let ev := mktCap + postDebt - postCash in
  let dilution :=
    (scenarioNewShares / (PreIPOShares.total preIPOShares + scenarioNewShares)) * 100 in
  let founderOwn := (totalFounderPostIPOShares / postShares) * 100 in
  let dayOnePop := ((fairValuePerShare - price) / price) * 100 in
  {| Scenario.scenario := scenarioName;
     Scenario.offerPrice := price;
     Scenario.primaryShares := primaryShares;
     Scenario.marketCap := mktCap;
     Scenario.enterpriseValue := ev;
     Scenario.evRevenue := ev / currentRevenue;
     Scenario.evEbitda := if JS.gtb currentEBITDA 0 then Some (ev / currentEBITDA) else None;
     Scenario.dilution := dilution;
     Scenario.founderOwnership := founderOwn;
     Scenario.expectedDayOnePop := JS.Math_max 0 dayOnePop |}.

Definition pricingMatrix : list Scenario.t :=
  [ createScenario "Low" lowPrice primarySharesAtLow;
    createScenario "Mid" midPrice primarySharesAtMid;
    createScenario "High" highPrice primarySharesAtHigh ].

Definition recommendation : Recommendation :=
  if JS.gtb expectedPop 30 then PriceHigher expectedPop highPrice
  else if JS.ltb expectedPop 10 then PriceCarefully expectedPop lowPrice
       else PriceAtMidPoint expectedPop midPrice.

Definition calculateIPOPricing : IPOPricingResult.t :=
  {| IPOPricingResult.companyName := IPOAssumptions.companyName assumptions;
     IPOPricingResult.companyType := companyType;
     IPOPricingResult.valuationMethodology := valuationMethodology;
     IPOPricingResult.enterpriseValue := enterpriseValue;
     IPOPricingResult.equityValue := equityValue;
     IPOPricingResult.fairValuePerShare := fairValuePerShare;
     IPOPricingResult.preIPOSharesTotal := PreIPOShares.total preIPOShares;
     IPOPricingResult.primarySharesIssued := primarySharesAtMid;
     IPOPricingResult.secondarySharesSold := secondarySaleShares;
     IPOPricingResult.greenshoeShares := greenshoeShares;
     IPOPricingResult.postIPOSharesTotal := postIPOShares;
     IPOPricingResult.publicFloat := publicFloat;
     IPOPricingResult.priceRange :=
       {| PriceRange.low := lowPrice; PriceRange.mid := midPrice;
          PriceRange.high := highPrice |};
     IPOPricingResult.recommendedOfferPrice := midPrice;
     IPOPricingResult.grossPrimaryProceeds := grossPrimaryProceeds;
     IPOPricingResult.netPrimaryProceeds := netPrimaryProceeds;
     IPOPricingResult.secondaryProceeds := secondaryProceeds;
     IPOPricingResult.greenshoeProceeds := greenshoeProceeds;
     IPOPricingResult.totalOfferingSize := totalOfferingSize;
     IPOPricingResult.postIPOCash := postIPOCash;
     IPOPricingResult.postIPODebt := postIPODebt;
     IPOPricingResult.postIPOEnterpriseValue := postIPOEnterpriseValue;
     IPOPricingResult.marketCap := marketCap;
     IPOPricingResult.impliedPreIPOValuation := impliedPreIPOValuation;
     IPOPricingResult.dilutionPercent := dilutionPercent;
     IPOPricingResult.ownershipTable := ownershipTable;
     IPOPricingResult.impliedEVRevenue := impliedEVRevenue;
     IPOPricingResult.impliedEVEBITDA := impliedEVEBITDA;
     IPOPricingResult.comparableMedianEVRevenue := comparableMedianEVRevenue;
     IPOPricingResult.comparableMedianEVEBITDA := comparableMedianEVEBITDA;
     IPOPricingResult.pricingMatrix := pricingMatrix;
     IPOPricingResult.warnings := warnings;
     IPOPricingResult.recommendation := recommendation |}.

End Engine.
End Part000.

(** ** Statements of the specification, and sample deals *)

(** [Descending key l]: the keys never increase along [l]. *)
Inductive Descending {A : Type} (key : A -> Q) : list A -> Prop :=
| Descending_nil : Descending key []
| Descending_cons x l :
    (forall y, In y l -> key y <= key x) -> Descending key l -> Descending key (x :: l).

(** No holder sells a negative fraction. *)
Definition fractionsNonNegative (holders : list Part000.Shareholder.t) : Prop :=
  forall h x, In h holders -> Part000.Shareholder.secondarySalePercent h = Some x -> 0 <= x.

(** The indicated price range is absent, non-positive, or not ordered. *)
Definition priceRangeInvalid (a : Part001.IPOAssumptions.t) : Prop :=
  match Part001.IPOAssumptions.indicatedPriceRangeLow a,
        Part001.IPOAssumptions.indicatedPriceRangeHigh a with
  | Some lo, Some hi => lo <= 0 \/ hi <= 0 \/ hi <= lo
  | _, _ => True
  end.

(** A named investor states a maximum acceptable price below [p]. *)
Definition maxPriceBelow (p : Q) (investor : Part001.NotableOrder.t) : bool :=
  match Part001.NotableOrder.maxPrice investor with
  | Some m => JS.ltb m p
  | None => false
  end.

(** The same, for a stated maximum other than 0 (the engine of part_001
    reads a maximum of 0 as not stated). *)
Definition nonzeroMaxPriceBelow (p : Q) (investor : Part001.NotableOrder.t) : bool :=
  match Part001.NotableOrder.maxPrice investor with
  | Some m => JS.truthy m && JS.ltb m p
  | None => false
  end.

Definition sumIndicatedSizes (investors : list Part001.NotableOrder.t) : Q :=
  fold_right (fun investor acc => Part001.NotableOrder.indicatedSizeM investor + acc) 0 investors.

(** The caller supplied a non-empty order book. *)
Definition orderBookSupplied (a : Part001.IPOAssumptions.t) : bool :=
  match Part001.IPOAssumptions.orderBook a with
  | Some (_ :: _) => true
  | _ => false
  end.

(** The tiers the caller supplied. *)
Definition suppliedTiers (a : Part001.IPOAssumptions.t) : list Part001.OrderBookEntry.t :=
  JS.default (Part001.IPOAssumptions.orderBook a) [].

(** Sum of [f] over a list. *)
Definition sumQ {A : Type} (f : A -> Q) (l : list A) : Q :=
  fold_right (fun x acc => f x + acc) 0 l.

(** The deal [a] with another debt repayment amount. *)
Definition withDebtRepayment (a : Part000.IPOAssumptions.t) (amount : Q)
  : Part000.IPOAssumptions.t :=
  {| Part000.IPOAssumptions.companyName := Part000.IPOAssumptions.companyName a;
     Part000.IPOAssumptions.companyType := Part000.IPOAssumptions.companyType a;
     Part000.IPOAssumptions.preIPOShares := Part000.IPOAssumptions.preIPOShares a;
     Part000.IPOAssumptions.currentRevenue := Part000.IPOAssumptions.currentRevenue a;
     Part000.IPOAssumptions.revenueGrowthRates := Part000.IPOAssumptions.revenueGrowthRates a;
     Part000.IPOAssumptions.currentEBITDA := Part000.IPOAssumptions.currentEBITDA a;
     Part000.IPOAssumptions.ebitdaMargin := Part000.IPOAssumptions.ebitdaMargin a;
     Part000.IPOAssumptions.targetEbitdaMargin := Part000.IPOAssumptions.targetEbitdaMargin a;
     Part000.IPOAssumptions.currentCash := Part000.IPOAssumptions.currentCash a;
     Part000.IPOAssumptions.currentDebt := Part000.IPOAssumptions.currentDebt a;
     Part000.IPOAssumptions.taxRate := Part000.IPOAssumptions.taxRate a;
     Part000.IPOAssumptions.wacc := Part000.IPOAssumptions.wacc a;
     Part000.IPOAssumptions.terminalGrowthRate := Part000.IPOAssumptions.terminalGrowthRate a;
     Part000.IPOAssumptions.primaryRaiseAmount := Part000.IPOAssumptions.primaryRaiseAmount a;
     Part000.IPOAssumptions.secondarySaleShares := Part000.IPOAssumptions.secondarySaleShares a;
     Part000.IPOAssumptions.greenshoePercent := Part000.IPOAssumptions.greenshoePercent a;
     Part000.IPOAssumptions.debtRepaymentAmount := Some amount;
     Part000.IPOAssumptions.comparables := Part000.IPOAssumptions.comparables a;
     Part000.IPOAssumptions.dualClassShares := Part000.IPOAssumptions.dualClassShares a;
     Part000.IPOAssumptions.founderControlMinimum := Part000.IPOAssumptions.founderControlMinimum a;
     Part000.IPOAssumptions.pipelineAssets := Part000.IPOAssumptions.pipelineAssets a;
     Part000.IPOAssumptions.ipoDiscountPercent := Part000.IPOAssumptions.ipoDiscountPercent a;
     Part000.IPOAssumptions.projectionYears := Part000.IPOAssumptions.projectionYears a |}.

Module Samples.

(** A deal for the engine of part_001: 100M shares outstanding, fair
    value $25 a share, peers at 8x revenue of $300M. *)
Definition deal001
           (rangeLow rangeHigh primaryShares primaryDollars debt medianPop : option Q)
           (book : option (list Part001.OrderBookEntry.t))
           (orders : option (list Part001.NotableOrder.t))
  : Part001.IPOAssumptions.t :=
  {| Part001.IPOAssumptions.sector := "saas";
     Part001.IPOAssumptions.sharesOutstandingPreIPO := 100;
     Part001.IPOAssumptions.primarySharesOffered := primaryShares;
     Part001.IPOAssumptions.secondarySharesOffered := None;
     Part001.IPOAssumptions.greenshoeShares := None;
     Part001.IPOAssumptions.greenshoePercent := None;
     Part001.IPOAssumptions.primaryDollarRaiseM := primaryDollars;
     Part001.IPOAssumptions.secondaryDollarRaiseM := None;
     Part001.IPOAssumptions.indicatedPriceRangeLow := rangeLow;
     Part001.IPOAssumptions.indicatedPriceRangeHigh := rangeHigh;
     Part001.IPOAssumptions.currentCash := Some 100;
     Part001.IPOAssumptions.currentDebt := debt;
     Part001.IPOAssumptions.ntmRevenue := 300;
     Part001.IPOAssumptions.fairValuePerShare := 25;
     Part001.IPOAssumptions.totalRaNPV := None;
     Part001.IPOAssumptions.peerMedianEVRevenue := 8;
     Part001.IPOAssumptions.peerMedianEVRaNPV := None;
     Part001.IPOAssumptions.orderBook := book;
     Part001.IPOAssumptions.notableOrders := orders;
     Part001.IPOAssumptions.historicalFirstDayPop := None;
     Part001.IPOAssumptions.sectorAverageFirstDayPop := None;
     Part001.IPOAssumptions.sectorMedianFirstDayPop := medianPop;
     Part001.IPOAssumptions.foundersEmployeesOwnership := 6 # 10;
     Part001.IPOAssumptions.ceoGuidance := None;
     Part001.IPOAssumptions.pricingAggressiveness := Part001.moderate;
     Part001.IPOAssumptions.managementPriority := None;
     Part001.IPOAssumptions.minAcceptablePrice := None;
     Part001.IPOAssumptions.hasBinaryCatalyst := None;
     Part001.IPOAssumptions.monthsToCatalyst := None;
     Part001.IPOAssumptions.secondaryOptics := None;
     Part001.IPOAssumptions.lastPrivateRoundPrice := None;
     Part001.IPOAssumptions.downRoundOptics := None;
     Part001.IPOAssumptions.downRoundIpoPenalty := None;
     Part001.IPOAssumptions.dualClass := None;
     Part001.IPOAssumptions.dualClassDiscount := None;
     Part001.IPOAssumptions.growthRates := None;
     Part001.IPOAssumptions.customerConcentrationTop5 := None |}.

(** The filing range is inverted: $20 to $18. *)
Definition invertedRange : Part001.IPOAssumptions.t :=
  deal001 (Some 20) (Some 18) (Some 10) None None None None None.

(** Scenario A: 100M pre-IPO shares, a $200M primary raise, no greenshoe,
    filed at $18 to $22. *)
Definition scenarioA : Part001.IPOAssumptions.t :=
  deal001 (Some 18) (Some 22) None (Some 200) None None None None.

(** A share-denominated offering of 10M primary shares, $18 to $22. *)
Definition shareDeal : Part001.IPOAssumptions.t :=
  deal001 (Some 18) (Some 22) (Some 10) None (Some 50) None None None.

Definition order (name : string) (sizeM : Q) (maxPrice : option Q) : Part001.NotableOrder.t :=
  {| Part001.NotableOrder.investorName := name;
     Part001.NotableOrder.indicatedSizeM := sizeM;
     Part001.NotableOrder.maxPrice := maxPrice;
     Part001.NotableOrder.isDefending := None |}.

Definition tier (level oversubscription : Q) : Part001.OrderBookEntry.t :=
  {| Part001.OrderBookEntry.priceLevel := level;
     Part001.OrderBookEntry.oversubscription := oversubscription |}.

(** The share deal with one named order whose maximum price is 0. *)
Definition zeroMaxPriceDeal : Part001.IPOAssumptions.t :=
  deal001 (Some 18) (Some 22) (Some 10) None None None None
          (Some [order "Fidelity" 75 (Some 0)]).

(** The share deal with a book of 2x at $15+, a $500M order capped at $17
    and a $40M order capped at $30. *)
Definition dropOffDeal : Part001.IPOAssumptions.t :=
  deal001 (Some 18) (Some 22) (Some 10) None None None
          (Some [tier 15 2])
          (Some [order "Anchor" 500 (Some 17); order "Fund" 40 (Some 30)]).

(** The share deal with a book of 2x at $15+ and no sector benchmark. *)
Definition noBenchmarkDeal : Part001.IPOAssumptions.t :=
  deal001 (Some 18) (Some 22) (Some 10) None None None (Some [tier 15 2]) None.

(** The same deal with a sector median first-day return of 15%. *)
Definition benchmarkDeal : Part001.IPOAssumptions.t :=
  deal001 (Some 18) (Some 22) (Some 10) None None (Some (15 # 100)) (Some [tier 15 2]) None.

(** Scenario C: the tiers $30+ at 5x and $25+ at 10x, filed at $24 to $28. *)
Definition scenarioC : Part001.IPOAssumptions.t :=
  deal001 (Some 24) (Some 28) (Some 10) None None None
          (Some [tier 30 5; tier 25 10]) None.

(** The same company for the engine of ipoPricingService.ts, whose input
    has no debt field: 100M shares, 10M primary shares, $100M of cash. *)
Definition dealSvc (rangeLow rangeHigh : option Q)
           (book : option (list IpoPricingService.OrderBookEntry.t))
  : IpoPricingService.IPOAssumptions.t :=
  {| IpoPricingService.IPOAssumptions.sharesOutstandingPreIPO := 100;
     IpoPricingService.IPOAssumptions.primarySharesOffered := 10;
     IpoPricingService.IPOAssumptions.secondarySharesOffered := None;
     IpoPricingService.IPOAssumptions.greenshoeShares := None;
     IpoPricingService.IPOAssumptions.greenshoePercent := 0;
     IpoPricingService.IPOAssumptions.indicatedPriceRangeLow := rangeLow;
     IpoPricingService.IPOAssumptions.indicatedPriceRangeHigh := rangeHigh;
     IpoPricingService.IPOAssumptions.currentCash := Some 100;
     IpoPricingService.IPOAssumptions.ntmRevenue := 300;
     IpoPricingService.IPOAssumptions.fairValuePerShare := 25;
     IpoPricingService.IPOAssumptions.totalRaNPV := None;
     IpoPricingService.IPOAssumptions.peerMedianEVRevenue := 8;
     IpoPricingService.IPOAssumptions.peerMedianEVRaNPV := None;
     IpoPricingService.IPOAssumptions.orderBook := book;
     IpoPricingService.IPOAssumptions.historicalFirstDayPop := None;
     IpoPricingService.IPOAssumptions.sectorAverageFirstDayPop := None;
     IpoPricingService.IPOAssumptions.sectorMedianFirstDayPop := None;
     IpoPricingService.IPOAssumptions.foundersEmployeesOwnership := 6 # 10;
     IpoPricingService.IPOAssumptions.hasBinaryCatalyst := None;
     IpoPricingService.IPOAssumptions.monthsToCatalyst := None;
     IpoPricingService.IPOAssumptions.secondaryOptics := None |}.

Definition tierSvc (level oversubscription : Q) : IpoPricingService.OrderBookEntry.t :=
  {| IpoPricingService.OrderBookEntry.priceLevel := level;
     IpoPricingService.OrderBookEntry.oversubscription := oversubscription |}.

Definition scenarioCSvc : IpoPricingService.IPOAssumptions.t :=
  dealSvc (Some 24) (Some 28) (Some [tierSvc 30 5; tierSvc 25 10]).

(** A book whose highest tier is exactly 1x. *)
Definition flatTopSvc : IpoPricingService.IPOAssumptions.t :=
  dealSvc (Some 24) (Some 28) (Some [tierSvc 30 1; tierSvc 25 10]).

(** The same company for the engine of part_002, whose input has neither
    a debt nor a cash field; $200M target proceeds, so a mid price of $20. *)
Definition deal002 : Part002.IPOAssumptions.t :=
  {| Part002.IPOAssumptions.sector := "saas";
     Part002.IPOAssumptions.sharesOutstandingPreIPO := 100;
     Part002.IPOAssumptions.primarySharesOffered := 10;
     Part002.IPOAssumptions.secondarySharesOffered := None;
     Part002.IPOAssumptions.greenshoePercent := 0;
     Part002.IPOAssumptions.targetGrossProceeds := 200;
     Part002.IPOAssumptions.nextYearRevenue := 300;
     Part002.IPOAssumptions.riskAdjustedRevenue2030 := None;
     Part002.IPOAssumptions.dcfValuePerShare := 25;
     Part002.IPOAssumptions.peerMedianEVRevenue := 8;
     Part002.IPOAssumptions.orderBook := None;
     Part002.IPOAssumptions.historicalFirstDayPop := 20 # 100;
     Part002.IPOAssumptions.foundersEmployeesOwnership := 6 # 10 |}.

Definition holder (name : string) (shares : Q) (type : Part000.HolderType)
           (secondarySalePercent : option Q) : Part000.Shareholder.t :=
  {| Part000.Shareholder.name := name;
     Part000.Shareholder.shares := shares;
     Part000.Shareholder.type := type;
     Part000.Shareholder.votingMultiple := None;
     Part000.Shareholder.secondarySalePercent := secondarySalePercent |}.

(** A deal for the engine of part_000: 100M pre-IPO shares, $400M of
    revenue growing 10%, a 30% margin, a $90M primary raise at a 10% IPO
    discount, one projection year, no greenshoe. *)
Definition deal000 (companyType : Part000.CompanyType)
           (breakdown : list Part000.Shareholder.t)
           (directSecondary wacc terminalGrowthRate debt cash : Q)
           (repayment : option Q) : Part000.IPOAssumptions.t :=
  {| Part000.IPOAssumptions.companyName := "Acme";
     Part000.IPOAssumptions.companyType := companyType;
     Part000.IPOAssumptions.preIPOShares :=
       {| Part000.PreIPOShares.total := 100;
          Part000.PreIPOShares.breakdown := breakdown |};
     Part000.IPOAssumptions.currentRevenue := 400;
     Part000.IPOAssumptions.revenueGrowthRates := [10 # 100];
     Part000.IPOAssumptions.currentEBITDA := 120;
     Part000.IPOAssumptions.ebitdaMargin := 30 # 100;
     Part000.IPOAssumptions.targetEbitdaMargin := 30 # 100;
     Part000.IPOAssumptions.currentCash := cash;
     Part000.IPOAssumptions.currentDebt := debt;
     Part000.IPOAssumptions.taxRate := 25 # 100;
     Part000.IPOAssumptions.wacc := wacc;
     Part000.IPOAssumptions.terminalGrowthRate := terminalGrowthRate;
     Part000.IPOAssumptions.primaryRaiseAmount := 90;
     Part000.IPOAssumptions.secondarySaleShares := directSecondary;
     Part000.IPOAssumptions.greenshoePercent := 0;
     Part000.IPOAssumptions.debtRepaymentAmount := repayment;
     Part000.IPOAssumptions.comparables := [];
     Part000.IPOAssumptions.dualClassShares := false;
     Part000.IPOAssumptions.founderControlMinimum := None;
     Part000.IPOAssumptions.pipelineAssets := None;
     Part000.IPOAssumptions.ipoDiscountPercent := 10 # 100;
     Part000.IPOAssumptions.projectionYears := 1 |}.

(** A founder with 60M shares and a fund with 40M; existing holders sell
    20M shares, given as a direct total. *)
Definition directSecondaryDeal : Part000.IPOAssumptions.t :=
  deal000 Part000.biotech
          [holder "Founder" 60 Part000.founder None; holder "Fund" 40 Part000.investor None]
          20 (10 # 100) (3 # 100) 0 0 None.

(** The same sale given as the fund selling 50% of its 40M shares. *)
Definition holderSecondaryDeal : Part000.IPOAssumptions.t :=
  deal000 Part000.biotech
          [holder "Founder" 60 Part000.founder None;
           holder "Fund" 40 Part000.investor (Some (50 # 100))]
          0 (10 # 100) (3 # 100) 0 0 None.

(** A mature company with a discount rate of 2% and terminal growth of 3%. *)
Definition negativeSpreadDeal : Part000.IPOAssumptions.t :=
  deal000 Part000.mature
          [holder "Founder" 60 Part000.founder None; holder "Fund" 40 Part000.investor None]
          0 (2 # 100) (3 # 100) 0 0 None.

(** $100M of debt, $50M of cash, and a requested repayment of $150M. *)
Definition overRepaymentDeal : Part000.IPOAssumptions.t :=
  deal000 Part000.biotech
          [holder "Founder" 60 Part000.founder None; holder "Fund" 40 Part000.investor None]
          0 (10 # 100) (3 # 100) 100 50 (Some 150).

(** The value [calculateIPOPricing] returns on a deal (the error result
    stands in if it throws). *)
Definition resultOf (a : Part001.IPOAssumptions.t) : Part001.Result.t :=
  match Part001.calculateIPOPricing JS.ln_series a with
  | Some res => res
  | None => Part001.errorResult a ""
  end.

End Samples.

(** ** The rest of the matrix engines: recommendation and memo table

    [Memo] holds what the three [formatIPOMemo] functions share: the test
    that locates the recommended row and the slice of the matrix printed
    as the pricing table.  [Part001Memo], [IpoPricingServiceTail] and
    [Part002Tail] continue the engines [Part001], [IpoPricingService] and
    [Part002] above. *)

Module Memo.

Section Table.
Context {Row : Type}.
Variable offerPrice : Row -> Q.

(** [r => Math.abs(r.offerPrice - recommendedPrice) < 0.5] *)
Definition nearPrice (recommendedPrice : Q) (r : Row) : bool :=
  JS.ltb (JS.Math_abs (offerPrice r - recommendedPrice)) (5 # 10).

(** [findIndex]: the index of the first element that passes the test,
    or -1. *)
Fixpoint findIndexFrom (test : Row -> bool) (i : Z) (l : list Row) : Z :=
  match l with
  | [] => (-1)%Z
  | r :: l' => if test r then i else findIndexFrom test (i + 1)%Z l'
  end.

Definition findIndex (test : Row -> bool) (l : list Row) : Z := findIndexFrom test 0%Z l.

(** [l.slice(startIdx, endIdx)] for indices that are not negative. *)
Definition slice (l : list Row) (startIdx endIdx : Z) : list Row :=
  firstn (Z.to_nat (endIdx - startIdx)) (skipn (Z.to_nat startIdx) l).

(** [recIndex = findIndex(...); startIdx = Math.max(0, recIndex - before);
    endIdx = Math.min(length, startIdx + size); slice(startIdx, endIdx)] *)
Definition tableRows (before size : Z) (pricingMatrix : list Row) (recommendedPrice : Q)
  : list Row :=
  let recIndex := findIndex (nearPrice recommendedPrice) pricingMatrix in
  let startIdx := Z.max 0 (recIndex - before) in
  let endIdx := Z.min (Z.of_nat (List.length pricingMatrix)) (startIdx + size) in
  slice pricingMatrix startIdx endIdx.
End Table.

End Memo.

(** *** src/unnamed/part_001: [formatIPOMemo] *)

Module Part001Memo.

(** The text returned: the error line, or the memo, of which the rows of
    the pricing table are kept. *)
Inductive MemoText : Type :=
| CouldNotFindRecommendedRow
| MemoWithTable (rows : list Part001.PricingRow.t).

Definition formatIPOMemo (pricingMatrix : list Part001.PricingRow.t) (recommendedPrice : Q)
  : MemoText :=
  match find (Memo.nearPrice Part001.PricingRow.offerPrice recommendedPrice) pricingMatrix with
  | None => CouldNotFindRecommendedRow
  | Some _ =>
      MemoWithTable
        (Memo.tableRows Part001.PricingRow.offerPrice 2 6 pricingMatrix recommendedPrice)
  end.

End Part001Memo.

(** *** src/server/services/ipoPricingService.ts: recommendation and memo

    The fields [pricingAggressiveness], [managementPriority] and
    [minAcceptablePrice] of the assumptions, which the matrix does not
    read, are parameters of this part beside the record of
    [IpoPricingService]. *)

Module IpoPricingServiceTail.

Inductive PricingAggressiveness : Type := conservative | moderate | aggressive | maximum.
Inductive ManagementPriority : Type := valuation_maximization | runway_extension | deal_certainty.

Inductive Warning : Type :=
| CeoRunwayWeakBook
| RowWarning (w : IpoPricingService.Warning).

(** What [calculateIPOPricing] returns beside [assumptions], [rationale]
    and [memoText]. *)
Module Result.
Record t : Type := {
  pricingMatrix : list IpoPricingService.PricingRow.t;
  recommendedRangeLow : Q;
  recommendedRangeHigh : Q;
  recommendedPrice : Q;
  warnings : list Warning
}.
End Result.

Definition Math_floor (x : Q) : Q := inject_Z (Qfloor x).

Section Engine.

Variable assumptions : IpoPricingService.IPOAssumptions.t.
Variable pricingAggressiveness : PricingAggressiveness.
Variable managementPriority : option ManagementPriority.
Variable minAcceptablePrice : option Q.

Definition pricingMatrix : list IpoPricingService.PricingRow.t :=
  IpoPricingService.pricingMatrix assumptions.

Definition indicatedPriceRangeLow : option Q :=
  IpoPricingService.IPOAssumptions.indicatedPriceRangeLow assumptions.
Definition indicatedPriceRangeHigh : option Q :=
  IpoPricingService.IPOAssumptions.indicatedPriceRangeHigh assumptions.

(** [pricingMatrix[Math.floor(pricingMatrix.length / 2)]] *)
Definition middleRow : option IpoPricingService.PricingRow.t :=
  nth_error pricingMatrix (Nat.div (List.length pricingMatrix) 2).

(** [indicatedPriceRangeLow || middleRow.offerPrice]; reading
    [offerPrice] of an undefined row is a TypeError ([None]). *)
Definition initialPrice : option Q :=
  match indicatedPriceRangeLow with
  | Some lo =>
      if JS.truthy lo then Some lo
      else option_map IpoPricingService.PricingRow.offerPrice middleRow
  | None => option_map IpoPricingService.PricingRow.offerPrice middleRow
  end.

(** [pricingMatrix.find(r => r.offerPrice === price)] *)
Definition findRow (price : Q) : option IpoPricingService.PricingRow.t :=
  find (fun r => Qeq_bool (IpoPricingService.PricingRow.offerPrice r) price) pricingMatrix.

Definition topOfRangeRow : option IpoPricingService.PricingRow.t :=
  match indicatedPriceRangeHigh with
  | Some hi => findRow hi
  | None => None
  end.

Definition topOfRangeOversubscription : Q :=
  match topOfRangeRow with
  | Some r => JS.or_else (Some (IpoPricingService.PricingRow.oversubscription r)) 0
  | None => 0
  end.

Definition isRunwayExtension : bool :=
  match managementPriority with
  | Some runway_extension => true
  | _ => false
  end.

(** The first branch of the recommendation is taken. *)
Definition weakBookRunway : bool :=
  isRunwayExtension && JS.ltb topOfRangeOversubscription 5.

Definition sortedByPrice : list IpoPricingService.PricingRow.t :=
  JS.sort (fun a b => IpoPricingService.PricingRow.offerPrice b
                      - IpoPricingService.PricingRow.offerPrice a) pricingMatrix.

(** [for (const row of sortedByPrice) if (test(row)) { recommendedPrice =
    row.offerPrice; recommendedRow = row; break; }], entered with
    [recommendedRow] undefined. *)
Definition firstRow (test : IpoPricingService.PricingRow.t -> bool) (recommendedPrice : Q)
  : Q * option IpoPricingService.PricingRow.t :=
  match find test sortedByPrice with
  | Some row => (IpoPricingService.PricingRow.offerPrice row, Some row)
  | None => (recommendedPrice, None)
  end.

(** The test of the loop of each pricing policy. *)
Definition accepts (row : IpoPricingService.PricingRow.t) : bool :=
  match pricingAggressiveness with
  | maximum => JS.geb (IpoPricingService.PricingRow.oversubscription row) 3
  | conservative =>
      JS.geb (IpoPricingService.PricingRow.oversubscription row) 10
      && JS.geb (IpoPricingService.PricingRow.adjustedImpliedPop row) (10 # 100)
  | _ =>
      JS.geb (IpoPricingService.PricingRow.oversubscription row) 5
      && JS.geb (IpoPricingService.PricingRow.adjustedImpliedPop row) 0
  end.

(** [(indicatedPriceRangeLow + indicatedPriceRangeHigh) / 2], NaN when
    an end of the range is missing: no price is greater than NaN. *)
Definition midpoint : option Q :=
  match indicatedPriceRangeLow, indicatedPriceRangeHigh with
  | Some lo, Some hi => Some ((lo + hi) / 2)
  | _, _ => None
  end.

Definition capAtMidpoint (st : Q * option IpoPricingService.PricingRow.t)
  : Q * option IpoPricingService.PricingRow.t :=
  match midpoint with
  | Some m => if JS.gtb (fst st) m then (Math_floor m, findRow (Math_floor m)) else st
  | None => st
  end.

Definition respectMinimum (st : Q * option IpoPricingService.PricingRow.t)
  : Q * option IpoPricingService.PricingRow.t :=
  match minAcceptablePrice with
  | Some m => if JS.truthy m && JS.ltb (fst st) m then (m, findRow m) else st
  | None => st
  end.

Definition selectRow (recommendedPrice : Q) : Q * option IpoPricingService.PricingRow.t :=
  if weakBookRunway
  then respectMinimum
         (capAtMidpoint
            (firstRow (fun row => JS.geb (IpoPricingService.PricingRow.oversubscription row) 5)
                      recommendedPrice))
  else firstRow accepts recommendedPrice.

(** [if (!recommendedRow) { recommendedRow = find(...) || middleRow;
    recommendedPrice = recommendedRow.offerPrice; }] *)
Definition orMiddle (st : Q * option IpoPricingService.PricingRow.t)
  : option (Q * IpoPricingService.PricingRow.t) :=
  match snd st with
  | Some row => Some (fst st, row)
  | None =>
      match findRow (fst st) with
      | Some row => Some (IpoPricingService.PricingRow.offerPrice row, row)
      | None =>
          match middleRow with
          | Some row => Some (IpoPricingService.PricingRow.offerPrice row, row)
          | None => None
          end
      end
  end.

(** The recommended price and row; [None] stands for a thrown
    TypeError. *)
Definition recommend : option (Q * IpoPricingService.PricingRow.t) :=
  match initialPrice with
  | Some recommendedPrice => orMiddle (selectRow recommendedPrice)
  | None => None
  end.

Definition recommendedRangeLow (recommendedPrice : Q) : Q :=
  JS.Math_max (JS.or_else minAcceptablePrice (recommendedPrice - 2)) (recommendedPrice - 2).

Definition recommendedRangeHigh (recommendedPrice : Q) : Q := recommendedPrice + 1.

Definition calculateIPOPricing : option Result.t :=
  match recommend with
  | Some (recommendedPrice, recommendedRow) =>
      Some {| Result.pricingMatrix := pricingMatrix;
              Result.recommendedRangeLow := recommendedRangeLow recommendedPrice;
              Result.recommendedRangeHigh := recommendedRangeHigh recommendedPrice;
              Result.recommendedPrice := recommendedPrice;
              Result.warnings :=
                (if weakBookRunway then [CeoRunwayWeakBook] else [])
                ++ map RowWarning (IpoPricingService.PricingRow.warnings recommendedRow) |}
  | None => None
  end.

End Engine.

(** [formatIPOMemo]: the error line, or the memo with its pricing table. *)
Inductive MemoText : Type :=
| CouldNotFindRecommendedRow
| MemoWithTable (rows : list IpoPricingService.PricingRow.t).

Definition formatIPOMemo (pricingMatrix : list IpoPricingService.PricingRow.t)
           (recommendedPrice : Q) : MemoText :=
  match find (Memo.nearPrice IpoPricingService.PricingRow.offerPrice recommendedPrice)
             pricingMatrix with
  | None => CouldNotFindRecommendedRow
  | Some _ =>
      MemoWithTable
        (Memo.tableRows IpoPricingService.PricingRow.offerPrice 2 6
                        pricingMatrix recommendedPrice)
  end.

(** The [memoText] field of a returned result. *)
Definition memoText (result : Result.t) : MemoText :=
  formatIPOMemo (Result.pricingMatrix result) (Result.recommendedPrice result).

End IpoPricingServiceTail.

(** *** src/unnamed/part_002: recommendation and memo

    [boardGuidance], a field of the assumptions that the matrix does not
    read, is a parameter of this part. *)

Module Part002Tail.

Module Result.
Record t : Type := {
  pricingMatrix : list Part002.PricingRow.t;
  recommendedRangeLow : Q;
  recommendedRangeHigh : Q;
  recommendedPrice : Q
}.
End Result.

Section Engine.

Variable assumptions : Part002.IPOAssumptions.t.
Variable boardGuidance : option string.

Definition pricingMatrix : list Part002.PricingRow.t := Part002.pricingMatrix assumptions.

(** [boardGuidance?.toLowerCase().includes(word)] *)
Definition guidanceIncludes (word : string) : bool :=
  match boardGuidance with
  | Some guidance => JS.includes (JS.toLowerCase guidance) word
  | None => false
  end.

Definition maxAcceptablePop : Q :=
  if guidanceIncludes "clean" || guidanceIncludes "orderly" then 60 # 100 else 80 # 100.

Definition sortedMatrix : list Part002.PricingRow.t :=
  JS.sort (fun a b => Part002.PricingRow.offerPrice b - Part002.PricingRow.offerPrice a)
          pricingMatrix.

Definition hasGoodDemand (row : Part002.PricingRow.t) : bool :=
  JS.geb (Part002.PricingRow.oversubscription row) 20.

(** The four criteria of the first loop. *)
Definition acceptable (row : Part002.PricingRow.t) : bool :=
  hasGoodDemand row
  && JS.leb (Part002.PricingRow.impliedFirstDayPop row) maxAcceptablePop
  && JS.leb (Part002.PricingRow.offerPrice row) (Part002.dcfValuePerShare assumptions)
  && JS.leb (Part002.PricingRow.vsPeerMedianDiscount row) (10 # 100).

(** [pricingMatrix[Math.floor(pricingMatrix.length / 2)]] *)
Definition middleRow : option Part002.PricingRow.t :=
  nth_error pricingMatrix (Nat.div (List.length pricingMatrix) 2).

(** The two loops and the final fallback, each of which sets
    [recommendedPrice] to the offer price of the row it chooses; [None]
    stands for the TypeError of reading [offerPrice] of an undefined
    row. *)
Definition recommendedRow : option Part002.PricingRow.t :=
  match find acceptable sortedMatrix with
  | Some row => Some row
  | None =>
      match find hasGoodDemand sortedMatrix with
      | Some row => Some row
      | None => middleRow
      end
  end.

Definition calculateIPOPricing : option Result.t :=
  match recommendedRow with
  | Some row =>
      let recommendedPrice := Part002.PricingRow.offerPrice row in
      Some {| Result.pricingMatrix := pricingMatrix;
              Result.recommendedRangeLow := recommendedPrice - 2;
              Result.recommendedRangeHigh := recommendedPrice;
              Result.recommendedPrice := recommendedPrice |}
  | None => None
  end.

End Engine.

(** The rows of the pricing table of [formatIPOMemo]; this copy has no
    error line. *)
Definition formatIPOMemo (pricingMatrix : list Part002.PricingRow.t) (recommendedPrice : Q)
  : list Part002.PricingRow.t :=
  Memo.tableRows Part002.PricingRow.offerPrice 3 7 pricingMatrix recommendedPrice.

End Part002Tail.

(** ** Further statements and sample deals *)

(** [lo], [lo + 1], ..., [lo + (n - 1)]. *)
Definition arithmeticGrid (lo : Q) (n : nat) : list Q :=
  map (fun k => lo + inject_Z (Z.of_nat k)) (seq 0 n).

(** The deal files the price range [lo] to [hi], positive and strictly
    ordered: the case in which the engine of part_001 builds a matrix. *)
Definition filedRange (a : Part001.IPOAssumptions.t) (lo hi : Q) : Prop :=
  Part001.IPOAssumptions.indicatedPriceRangeLow a = Some lo
  /\ Part001.IPOAssumptions.indicatedPriceRangeHigh a = Some hi
  /\ 0 < lo /\ lo < hi.

Module MoreSamples.

(** The deal [a] with other policy fields. *)
Definition withPolicy (a : Part001.IPOAssumptions.t)
           (pricingAggressiveness : Part001.PricingAggressiveness)
           (managementPriority : option Part001.ManagementPriority)
           (minAcceptablePrice : option Q) : Part001.IPOAssumptions.t :=
  {| Part001.IPOAssumptions.sector := Part001.IPOAssumptions.sector a;
     Part001.IPOAssumptions.sharesOutstandingPreIPO := Part001.IPOAssumptions.sharesOutstandingPreIPO a;
     Part001.IPOAssumptions.primarySharesOffered := Part001.IPOAssumptions.primarySharesOffered a;
     Part001.IPOAssumptions.secondarySharesOffered := Part001.IPOAssumptions.secondarySharesOffered a;
     Part001.IPOAssumptions.greenshoeShares := Part001.IPOAssumptions.greenshoeShares a;
     Part001.IPOAssumptions.greenshoePercent := Part001.IPOAssumptions.greenshoePercent a;
     Part001.IPOAssumptions.primaryDollarRaiseM := Part001.IPOAssumptions.primaryDollarRaiseM a;
     Part001.IPOAssumptions.secondaryDollarRaiseM := Part001.IPOAssumptions.secondaryDollarRaiseM a;
     Part001.IPOAssumptions.indicatedPriceRangeLow := Part001.IPOAssumptions.indicatedPriceRangeLow a;
     Part001.IPOAssumptions.indicatedPriceRangeHigh := Part001.IPOAssumptions.indicatedPriceRangeHigh a;
     Part001.IPOAssumptions.currentCash := Part001.IPOAssumptions.currentCash a;
     Part001.IPOAssumptions.currentDebt := Part001.IPOAssumptions.currentDebt a;
     Part001.IPOAssumptions.ntmRevenue := Part001.IPOAssumptions.ntmRevenue a;
     Part001.IPOAssumptions.fairValuePerShare := Part001.IPOAssumptions.fairValuePerShare a;
     Part001.IPOAssumptions.totalRaNPV := Part001.IPOAssumptions.totalRaNPV a;
     Part001.IPOAssumptions.peerMedianEVRevenue := Part001.IPOAssumptions.peerMedianEVRevenue a;
     Part001.IPOAssumptions.peerMedianEVRaNPV := Part001.IPOAssumptions.peerMedianEVRaNPV a;
     Part001.IPOAssumptions.orderBook := Part001.IPOAssumptions.orderBook a;
     Part001.IPOAssumptions.notableOrders := Part001.IPOAssumptions.notableOrders a;
     Part001.IPOAssumptions.historicalFirstDayPop := Part001.IPOAssumptions.historicalFirstDayPop a;
     Part001.IPOAssumptions.sectorAverageFirstDayPop := Part001.IPOAssumptions.sectorAverageFirstDayPop a;
     Part001.IPOAssumptions.sectorMedianFirstDayPop := Part001.IPOAssumptions.sectorMedianFirstDayPop a;
     Part001.IPOAssumptions.foundersEmployeesOwnership := Part001.IPOAssumptions.foundersEmployeesOwnership a;
     Part001.IPOAssumptions.ceoGuidance := Part001.IPOAssumptions.ceoGuidance a;
     Part001.IPOAssumptions.pricingAggressiveness := pricingAggressiveness;
     Part001.IPOAssumptions.managementPriority := managementPriority;
     Part001.IPOAssumptions.minAcceptablePrice := minAcceptablePrice;
     Part001.IPOAssumptions.hasBinaryCatalyst := Part001.IPOAssumptions.hasBinaryCatalyst a;
     Part001.IPOAssumptions.monthsToCatalyst := Part001.IPOAssumptions.monthsToCatalyst a;
     Part001.IPOAssumptions.secondaryOptics := Part001.IPOAssumptions.secondaryOptics a;
     Part001.IPOAssumptions.lastPrivateRoundPrice := Part001.IPOAssumptions.lastPrivateRoundPrice a;
     Part001.IPOAssumptions.downRoundOptics := Part001.IPOAssumptions.downRoundOptics a;
     Part001.IPOAssumptions.downRoundIpoPenalty := Part001.IPOAssumptions.downRoundIpoPenalty a;
     Part001.IPOAssumptions.dualClass := Part001.IPOAssumptions.dualClass a;
     Part001.IPOAssumptions.dualClassDiscount := Part001.IPOAssumptions.dualClassDiscount a;
     Part001.IPOAssumptions.growthRates := Part001.IPOAssumptions.growthRates a;
     Part001.IPOAssumptions.customerConcentrationTop5 := Part001.IPOAssumptions.customerConcentrationTop5 a |}.

(** 10M primary shares filed at $18.50 to $22: the rows are $18.50,
    $19.50, $20.50 and $21.50. *)
Definition halfDollarRange : Part001.IPOAssumptions.t :=
  Samples.deal001 (Some (37 # 2)) (Some 22) (Some 10) None None None None None.

(** The share deal of $18 to $22 with a minimum acceptable price of $24. *)
Definition minimumAboveRange : Part001.IPOAssumptions.t :=
  withPolicy Samples.shareDeal Part001.moderate None (Some 24).

(** The share deal under the runway-extension priority with a minimum
    acceptable price of $20. *)
Definition runwayDeal : Part001.IPOAssumptions.t :=
  withPolicy Samples.shareDeal Part001.maximum (Some Part001.runway_extension) (Some 20).

(** The range $18.50 to $22 under the "maximum" policy. *)
Definition maximumHalfDollar : Part001.IPOAssumptions.t :=
  withPolicy halfDollarRange Part001.maximum None None.

(** A weak book for the engine of ipoPricingService.ts: 2x at $30 and 3x
    at $25, filed at $24 to $28. *)
Definition weakBookSvc : IpoPricingService.IPOAssumptions.t :=
  Samples.dealSvc (Some 24) (Some 28) (Some [Samples.tierSvc 30 2; Samples.tierSvc 25 3]).

(** Filed at $24.50 to $28 with one tier, 5x at $30: the grid runs from
    $21.50 to $32.50, short of [maxPrice], $33. *)
Definition halfDollarBookSvc : IpoPricingService.IPOAssumptions.t :=
  Samples.dealSvc (Some (49 # 2)) (Some 28) (Some [Samples.tierSvc 30 5]).

(** The value [calculateIPOPricing] of ipoPricingService.ts returns (an
    empty result stands in if it throws). *)
Definition resultOfSvc (a : IpoPricingService.IPOAssumptions.t)
           (pricingAggressiveness : IpoPricingServiceTail.PricingAggressiveness)
           (managementPriority : option IpoPricingServiceTail.ManagementPriority)
           (minAcceptablePrice : option Q) : IpoPricingServiceTail.Result.t :=
  match IpoPricingServiceTail.calculateIPOPricing
          a pricingAggressiveness managementPriority minAcceptablePrice with
  | Some res => res
  | None =>
      {| IpoPricingServiceTail.Result.pricingMatrix := [];
         IpoPricingServiceTail.Result.recommendedRangeLow := 0;
         IpoPricingServiceTail.Result.recommendedRangeHigh := 0;
         IpoPricingServiceTail.Result.recommendedPrice := 0;
         IpoPricingServiceTail.Result.warnings := [] |}
  end.

(** The weak book under the runway-extension priority with a minimum
    acceptable price of $25.50, which is no price of the matrix. *)
Definition weakBookRunwayResult : IpoPricingServiceTail.Result.t :=
  resultOfSvc weakBookSvc IpoPricingServiceTail.moderate
              (Some IpoPricingServiceTail.runway_extension) (Some (51 # 2)).

(** Scenario C under the moderate policy with a minimum acceptable price
    of $40. *)
Definition highMinimumResult : IpoPricingServiceTail.Result.t :=
  resultOfSvc Samples.scenarioCSvc IpoPricingServiceTail.moderate None (Some 40).

(** The deal [a] with another last private round and other growth
    rates. *)
Definition withHistory (a : Part001.IPOAssumptions.t)
           (lastPrivateRoundPrice : option Q) (downRoundOptics : option bool)
           (downRoundIpoPenalty : option Q) (growthRates : option Part001.GrowthRates.t)
  : Part001.IPOAssumptions.t :=
  {| Part001.IPOAssumptions.sector := Part001.IPOAssumptions.sector a;
     Part001.IPOAssumptions.sharesOutstandingPreIPO := Part001.IPOAssumptions.sharesOutstandingPreIPO a;
     Part001.IPOAssumptions.primarySharesOffered := Part001.IPOAssumptions.primarySharesOffered a;
     Part001.IPOAssumptions.secondarySharesOffered := Part001.IPOAssumptions.secondarySharesOffered a;
     Part001.IPOAssumptions.greenshoeShares := Part001.IPOAssumptions.greenshoeShares a;
     Part001.IPOAssumptions.greenshoePercent := Part001.IPOAssumptions.greenshoePercent a;
     Part001.IPOAssumptions.primaryDollarRaiseM := Part001.IPOAssumptions.primaryDollarRaiseM a;
     Part001.IPOAssumptions.secondaryDollarRaiseM := Part001.IPOAssumptions.secondaryDollarRaiseM a;
     Part001.IPOAssumptions.indicatedPriceRangeLow := Part001.IPOAssumptions.indicatedPriceRangeLow a;
     Part001.IPOAssumptions.indicatedPriceRangeHigh := Part001.IPOAssumptions.indicatedPriceRangeHigh a;
     Part001.IPOAssumptions.currentCash := Part001.IPOAssumptions.currentCash a;
     Part001.IPOAssumptions.currentDebt := Part001.IPOAssumptions.currentDebt a;
     Part001.IPOAssumptions.ntmRevenue := Part001.IPOAssumptions.ntmRevenue a;
     Part001.IPOAssumptions.fairValuePerShare := Part001.IPOAssumptions.fairValuePerShare a;
     Part001.IPOAssumptions.totalRaNPV := Part001.IPOAssumptions.totalRaNPV a;
     Part001.IPOAssumptions.peerMedianEVRevenue := Part001.IPOAssumptions.peerMedianEVRevenue a;
     Part001.IPOAssumptions.peerMedianEVRaNPV := Part001.IPOAssumptions.peerMedianEVRaNPV a;
     Part001.IPOAssumptions.orderBook := Part001.IPOAssumptions.orderBook a;
     Part001.IPOAssumptions.notableOrders := Part001.IPOAssumptions.notableOrders a;
     Part001.IPOAssumptions.historicalFirstDayPop := Part001.IPOAssumptions.historicalFirstDayPop a;
     Part001.IPOAssumptions.sectorAverageFirstDayPop := Part001.IPOAssumptions.sectorAverageFirstDayPop a;
     Part001.IPOAssumptions.sectorMedianFirstDayPop := Part001.IPOAssumptions.sectorMedianFirstDayPop a;
     Part001.IPOAssumptions.foundersEmployeesOwnership := Part001.IPOAssumptions.foundersEmployeesOwnership a;
     Part001.IPOAssumptions.ceoGuidance := Part001.IPOAssumptions.ceoGuidance a;
     Part001.IPOAssumptions.pricingAggressiveness := Part001.IPOAssumptions.pricingAggressiveness a;
     Part001.IPOAssumptions.managementPriority := Part001.IPOAssumptions.managementPriority a;
     Part001.IPOAssumptions.minAcceptablePrice := Part001.IPOAssumptions.minAcceptablePrice a;
     Part001.IPOAssumptions.hasBinaryCatalyst := Part001.IPOAssumptions.hasBinaryCatalyst a;
     Part001.IPOAssumptions.monthsToCatalyst := Part001.IPOAssumptions.monthsToCatalyst a;
     Part001.IPOAssumptions.secondaryOptics := Part001.IPOAssumptions.secondaryOptics a;
     Part001.IPOAssumptions.lastPrivateRoundPrice := lastPrivateRoundPrice;
     Part001.IPOAssumptions.downRoundOptics := downRoundOptics;
     Part001.IPOAssumptions.downRoundIpoPenalty := downRoundIpoPenalty;
     Part001.IPOAssumptions.dualClass := Part001.IPOAssumptions.dualClass a;
     Part001.IPOAssumptions.dualClassDiscount := Part001.IPOAssumptions.dualClassDiscount a;
     Part001.IPOAssumptions.growthRates := growthRates;
     Part001.IPOAssumptions.customerConcentrationTop5 := Part001.IPOAssumptions.customerConcentrationTop5 a |}.

(** The share deal of $18 to $22 after a last private round at $21, with
    down-round optics flagged and a penalty factor of 0.5. *)
Definition downRoundDeal : Part001.IPOAssumptions.t :=
  withHistory Samples.shareDeal (Some 21) (Some true) (Some (1 # 2)) None.

(** The share deal with growth slowing from 40% to 30%. *)
Definition slowingGrowthDeal : Part001.IPOAssumptions.t :=
  withHistory Samples.shareDeal None None None
              (Some {| Part001.GrowthRates.fy2024to2025Growth := Some (40 # 100);
                       Part001.GrowthRates.fy2025to2026Growth := Some (30 # 100) |}).

(** The company of [Samples.dealSvc] with the three benchmarks of the
    input type of ipoPricingService.ts: a historical and a sector average
    first-day return of 20%, a sector median of 15%. *)
Definition benchmarkedSvc (rangeLow rangeHigh : Q)
           (book : list IpoPricingService.OrderBookEntry.t)
  : IpoPricingService.IPOAssumptions.t :=
  {| IpoPricingService.IPOAssumptions.sharesOutstandingPreIPO := 100;
     IpoPricingService.IPOAssumptions.primarySharesOffered := 10;
     IpoPricingService.IPOAssumptions.secondarySharesOffered := Some 0;
     IpoPricingService.IPOAssumptions.greenshoeShares := Some 0;
     IpoPricingService.IPOAssumptions.greenshoePercent := 0;
     IpoPricingService.IPOAssumptions.indicatedPriceRangeLow := Some rangeLow;
     IpoPricingService.IPOAssumptions.indicatedPriceRangeHigh := Some rangeHigh;
     IpoPricingService.IPOAssumptions.currentCash := Some 100;
     IpoPricingService.IPOAssumptions.ntmRevenue := 300;
     IpoPricingService.IPOAssumptions.fairValuePerShare := 25;
     IpoPricingService.IPOAssumptions.totalRaNPV := None;
     IpoPricingService.IPOAssumptions.peerMedianEVRevenue := 8;
     IpoPricingService.IPOAssumptions.peerMedianEVRaNPV := None;
     IpoPricingService.IPOAssumptions.orderBook := Some book;
     IpoPricingService.IPOAssumptions.historicalFirstDayPop := Some (20 # 100);
     IpoPricingService.IPOAssumptions.sectorAverageFirstDayPop := Some (20 # 100);
     IpoPricingService.IPOAssumptions.sectorMedianFirstDayPop := Some (15 # 100);
     IpoPricingService.IPOAssumptions.foundersEmployeesOwnership := 6 # 10;
     IpoPricingService.IPOAssumptions.hasBinaryCatalyst := None;
     IpoPricingService.IPOAssumptions.monthsToCatalyst := None;
     IpoPricingService.IPOAssumptions.secondaryOptics := None |}.

(** Filed at $18 to $22 with an empty order book. *)
Definition emptyBookSvc : IpoPricingService.IPOAssumptions.t := benchmarkedSvc 18 22 [].

(** Filed at $18 to $22 with a book of 2x at $15+. *)
Definition twoTimesBookSvc : IpoPricingService.IPOAssumptions.t :=
  benchmarkedSvc 18 22 [Samples.tierSvc 15 2].

(** The share deal of part_001 with a sector median first-day return of
    15% and an empty order book. *)
Definition emptyBook001 : Part001.IPOAssumptions.t :=
  Samples.deal001 (Some 18) (Some 22) (Some 10) None None (Some (15 # 100)) (Some []) None.

(** The deal of part_002 with the tiers $30 at 5x and $25 at 10x. *)
Definition deal002Book : Part002.IPOAssumptions.t :=
  {| Part002.IPOAssumptions.sector := "saas";
     Part002.IPOAssumptions.sharesOutstandingPreIPO := 100;
     Part002.IPOAssumptions.primarySharesOffered := 10;
     Part002.IPOAssumptions.secondarySharesOffered := None;
     Part002.IPOAssumptions.greenshoePercent := 0;
     Part002.IPOAssumptions.targetGrossProceeds := 200;
     Part002.IPOAssumptions.nextYearRevenue := 300;
     Part002.IPOAssumptions.riskAdjustedRevenue2030 := None;
     Part002.IPOAssumptions.dcfValuePerShare := 25;
     Part002.IPOAssumptions.peerMedianEVRevenue := 8;
     Part002.IPOAssumptions.orderBook :=
       Some [{| Part002.OrderBookEntry.priceLevel := 30;
                Part002.OrderBookEntry.oversubscription := 5 |};
             {| Part002.OrderBookEntry.priceLevel := 25;
                Part002.OrderBookEntry.oversubscription := 10 |}];
     Part002.IPOAssumptions.historicalFirstDayPop := 20 # 100;
     Part002.IPOAssumptions.foundersEmployeesOwnership := 6 # 10 |}.

End MoreSamples.

(** Case analysis on the membership of a warning in a list assembled from
    conditional pieces. *)
Ltac split_warnings Hin :=
  repeat match type of Hin with
         | In _ (_ ++ _) => apply in_app_or in Hin; destruct Hin as [Hin|Hin]
         | In _ (if ?c then _ else _) => destruct c
         | In _ (match ?c with _ => _ end) => destruct c
         | In _ [] => destruct Hin
         | In _ (_ :: _) => destruct Hin as [Hin|Hin]; [discriminate|]
         end.

(** ** The JSON text taken from the model's response ([parseIPODescription])

    A JavaScript string is the list of its UTF-16 code units, here numbers
    ([N]).  Of [parseIPODescription], which awaits the answer of a language
    model, the statements between the answer and [JSON.parse] are modelled:
    they compute the text that is parsed. *)

Module JSString.

(** A JavaScript string: its UTF-16 code units. *)
Definition t : Type := list N.

(** The code units of an ASCII literal of the source. *)
Definition literal (s : string) : t := map N_of_ascii (list_ascii_of_string s).

(** White space and line terminators, the characters [trim] removes:
    TAB, LF, VT, FF, CR, SP, NBSP, U+1680, U+2000 to U+200A, LS, PS,
    U+202F, U+205F, U+3000 and the byte order mark U+FEFF. *)
Definition isWhiteSpace (c : N) : bool :=
  ((9 <=? c) && (c <=? 13) || (c =? 32) || (c =? 160) || (c =? 5760)
   || (8192 <=? c) && (c <=? 8202) || (c =? 8232) || (c =? 8233)
   || (c =? 8239) || (c =? 8287) || (c =? 12288) || (c =? 65279))%N.

Fixpoint trimStart (s : t) : t :=
  match s with
  | [] => []
  | c :: s' => if isWhiteSpace c then trimStart s' else s
  end.

Definition trimEnd (s : t) : t := rev (trimStart (rev s)).

Definition trim (s : t) : t := trimEnd (trimStart s).

(** [s.startsWith(p)] *)
Fixpoint startsWith (s p : t) : bool :=
  match p, s with
  | [], _ => true
  | _ :: _, [] => false
  | d :: p', c :: s' => (c =? d)%N && startsWith s' p'
  end.

(** [s.endsWith(p)] *)
Definition endsWith (s p : t) : bool := startsWith (rev s) (rev p).

(** [s.slice(n)] and [s.slice(0, -n)] *)
Definition sliceFrom (n : nat) (s : t) : t := skipn n s.
Definition sliceButLast (n : nat) (s : t) : t := firstn (List.length s - n) s.

(** [s.slice(startIdx, endIdx)] for indices within the string. *)
Definition slice (s : t) (startIdx endIdx : nat) : t :=
  firstn (endIdx - startIdx) (skipn startIdx s).

(** [s.indexOf(c)] and [s.lastIndexOf(c)] for a single character; [None]
    stands for -1. *)
Fixpoint indexOf (c : N) (s : t) : option nat :=
  match s with
  | [] => None
  | d :: s' => if (d =? c)%N then Some O else option_map S (indexOf c s')
  end.

Definition lastIndexOf (c : N) (s : t) : option nat :=
  match indexOf c (rev s) with
  | Some k => Some (List.length s - 1 - k)%nat
  | None => None
  end.

End JSString.

(** *** src/unnamed/part_001, src/unnamed/part_002 and
    src/server/services/ipoPricingService.ts, which clean the response by
    the same statements *)

Module Part001Parse.

(** [if (startsWith("```json")) slice(7) else if (startsWith("```")) slice(3)] *)
Definition stripOpeningFence (jsonStr : JSString.t) : JSString.t :=
  if JSString.startsWith jsonStr (JSString.literal "```json")
  then JSString.sliceFrom 7 jsonStr
  else if JSString.startsWith jsonStr (JSString.literal "```")
       then JSString.sliceFrom 3 jsonStr
       else jsonStr.

(** [if (endsWith("```")) slice(0, -3)] *)
Definition stripClosingFence (jsonStr : JSString.t) : JSString.t :=
  if JSString.endsWith jsonStr (JSString.literal "```")
  then JSString.sliceButLast 3 jsonStr
  else jsonStr.

(** The block [if (!jsonStr.startsWith("{")) { ... }]: the text from the
    first opening brace (code unit 123) to the last closing brace (125). *)
Definition extractObject (jsonStr : JSString.t) : JSString.t :=
  if negb (JSString.startsWith jsonStr (JSString.literal "{"))
  then
    match JSString.indexOf 123 jsonStr, JSString.lastIndexOf 125 jsonStr with
    | Some startIdx, Some endIdx =>
        if Nat.ltb startIdx endIdx
        then JSString.slice jsonStr startIdx (endIdx + 1)
        else jsonStr
    | _, _ => jsonStr
    end
  else jsonStr.

(** The text handed to [JSON.parse]. *)
Definition jsonStr (responseText : JSString.t) : JSString.t :=
  JSString.trim
    (extractObject (stripClosingFence (stripOpeningFence (JSString.trim responseText)))).

End Part001Parse.

(** *** src/unnamed/part_000 *)

Module Part000Parse.

(** [if (startsWith("```json")) slice(7); if (startsWith("```")) slice(3)]:
    two statements, the second applied to the result of the first. *)
Definition stripOpeningFence (jsonStr : JSString.t) : JSString.t :=
  let jsonStr :=
    if JSString.startsWith jsonStr (JSString.literal "```json")
    then JSString.sliceFrom 7 jsonStr
    else jsonStr in
  if JSString.startsWith jsonStr (JSString.literal "```")
  then JSString.sliceFrom 3 jsonStr
  else jsonStr.

Definition stripClosingFence (jsonStr : JSString.t) : JSString.t :=
  if JSString.endsWith jsonStr (JSString.literal "```")
  then JSString.sliceButLast 3 jsonStr
  else jsonStr.

(** The text handed to [JSON.parse]. *)
Definition jsonStr (responseText : JSString.t) : JSString.t :=
  JSString.trim (stripClosingFence (stripOpeningFence (JSString.trim responseText))).

End Part000Parse.

(** Statements about response texts. *)

(** Every character of [s] is white space. *)
Definition allWhite (s : JSString.t) : Prop :=
  Forall (fun c => JSString.isWhiteSpace c = true) s.

(** A text that opens with a brace and closes with a brace, as a JSON
    object does. *)
Definition braced (body : JSString.t) : JSString.t := 123%N :: body ++ [125%N].

Module ParseSamples.

(** The object [{ a : 1 }] with a quoted key: brace, quote, a, quote,
    colon, 1, brace. *)
Definition object : JSString.t := braced [34; 97; 34; 58; 49]%N.

(** The object inside a code fence tagged json, with line feeds after
    the opening fence, before the closing fence and at the end. *)
Definition fenced : JSString.t :=
  JSString.literal "```json" ++ [10%N] ++ object ++ [10%N]
  ++ JSString.literal "```" ++ [10%N].

(** The object between two sentences. *)
Definition inProse : JSString.t :=
  JSString.literal "Here is the JSON: " ++ object ++ JSString.literal " Hope this helps.".

(** The object followed by a sentence. *)
Definition beforeProse : JSString.t := object ++ JSString.literal " Hope this helps.".

End ParseSamples.

(** ** Double precision

    The numbers of the engines are JavaScript Numbers: IEEE 754 binary64
    values, and every arithmetic operation returns the exact result rounded
    to the nearest such value, ties to the even significand.  The engines
    above compute in exact rationals, which is the same thing for
    comparisons that rounding keeps, but not where a result is claimed to
    be exactly some value.  [Binary64] is the rounding itself, on
    rationals: [round x] is the multiple of [2^(e - 52)] nearest to [x],
    where [2^e <= |x| < 2^(e + 1)].  The exponent range is not bounded:
    magnitudes below [2^-1022] or from [2^1024] on, where a double is
    subnormal, zero or infinite, are outside the model, as Infinity and NaN
    are. *)

Module Binary64.

Definition pow2 (e : Z) : Q := 2 ^ e.

(** The exponent of [x <> 0]: the [e] with [2^e <= |x| < 2^(e + 1)]. *)
Definition exponent (x : Q) : Z :=
  let e := (Z.log2 (Z.abs (Qnum x)) - Z.log2 (Zpos (Qden x)))%Z in
  if Qle_bool (pow2 e) (Qabs x) then e else (e - 1)%Z.

(** The nearest integer, the even one of two equally near. *)
Definition roundHalfEven (x : Q) : Z :=
  let f := Qfloor x in
  match Qcompare (x - inject_Z f) (1 # 2) with
  | Lt => f
  | Gt => (f + 1)%Z
  | Eq => if Z.even f then f else (f + 1)%Z
  end.

(** The double nearest to [x]: 53 significant bits. *)
Definition round (x : Q) : Q :=
  if Qeq_bool x 0 then 0
  else let ulp := pow2 (exponent x - 52) in
       Qred (inject_Z (roundHalfEven (x / ulp)) * ulp).

(** [x + y], [x - y], [x * y] and [x / y] of JavaScript. *)
Definition add (x y : Q) : Q := round (x + y).
Definition sub (x y : Q) : Q := round (x - y).
Definition mul (x y : Q) : Q := round (x * y).
Definition div (x y : Q) : Q := round (x / y).

(** The unit roundoff, [2^-53]: half the distance from 1 to the next
    double. *)
Definition epsilon : Q := pow2 (-53).

(** The value of a finite number of [SpecFloat], the Standard Library's
    specification of IEEE 754 arithmetic, and the double of an integer
    there. *)
Definition ofSpecFloat (f : spec_float) : option Q :=
  match f with
  | S754_zero _ => Some 0
  | S754_finite s m e =>
      Some (Qred ((if s then - (1) else 1) * inject_Z (Zpos m) * pow2 e))
  | _ => None
  end.

Definition specFloatOfZ (z : Z) : spec_float := binary_normalize 53 1024 z 0 false.

(** [approx] is within [k] roundings of the exact value [x], whose
    magnitude is at most [bound]. *)
Definition withinRoundings (k : nat) (approx x bound : Q) : Prop :=
  Qabs x <= bound
  /\ Qabs (approx - x) <= ((1 + epsilon) ^ Z.of_nat k - 1) * bound.

End Binary64.

(** *** src/unnamed/part_001: the share mechanics in double precision

    The price loop and the shares and proceeds of a row (the lines of
    [Part001.priceLoop] and [Part001.sharesSoldPrimary] to
    [Part001.grossProceedsM]) with each operation rounded as JavaScript
    rounds it.  The numbers of [assumptions] are taken to be doubles. *)

Module Part001Binary64.

(** [for (let p = minPrice; p <= maxPrice; p += 1) if (p > 0) push(p)];
    [None] when [fuel] iterations do not reach the end of the loop. *)
Fixpoint priceLoop (fuel : nat) (p maxPrice : Q) : option (list Q) :=
  match fuel with
  | O => None
  | S fuel' =>
      if Qle_bool p maxPrice
      then option_map (app (if JS.gtb p 0 then [p] else []))
                      (priceLoop fuel' (Binary64.add p 1) maxPrice)
      else Some []
  end.

(** Each step adds at least a half while the prices stay below [2^52],
    so twice the width of the range, and a few, bounds the iterations. *)
Definition pricePoints (minPrice maxPrice : Q) : option (list Q) :=
  priceLoop (Z.to_nat (2 * Qfloor (maxPrice - minPrice) + 4)) minPrice maxPrice.

Section Engine.

Variable assumptions : Part001.IPOAssumptions.t.

(** The prices of the rows of [pricingMatrix]: none when either guard
    refuses the range. *)
Definition offerPrices : option (list Q) :=
  if negb (Part001.hasUserProvidedRange assumptions) then Some []
  else
    match Part001.indicatedPriceRangeLow assumptions,
          Part001.indicatedPriceRangeHigh assumptions with
    | Some lo, Some hi => if JS.leb hi lo then Some [] else pricePoints lo hi
    | _, _ => Some []
    end.

Definition sharesSoldPrimary (offerPrice : Q) : Q :=
  if Part001.useDollarBased assumptions
  then Binary64.div (JS.default (Part001.primaryDollarRaiseM assumptions) 0) offerPrice
  else JS.or_else (Part001.inputPrimaryShares assumptions) 0.

Definition sharesSoldSecondary (offerPrice : Q) : Q :=
  if Part001.useDollarBased assumptions
  then Binary64.div (JS.or_else (Part001.secondaryDollarRaiseM assumptions) 0) offerPrice
  else JS.or_else (Some (Part001.inputSecondaryShares assumptions)) 0.

Definition sharesSoldGreenshoe (offerPrice : Q) : Q :=
  if Part001.useDollarBased assumptions
  then Binary64.mul (sharesSoldPrimary offerPrice)
                    (JS.or_else (Part001.greenshoePercent assumptions) 0)
  else JS.or_else (Part001.inputGreenshoeShares assumptions)
         (Binary64.mul (sharesSoldPrimary offerPrice)
                       (JS.or_else (Part001.greenshoePercent assumptions) 0)).

Definition totalSharesSold (offerPrice : Q) : Q :=
  Binary64.add (Binary64.add (sharesSoldPrimary offerPrice) (sharesSoldSecondary offerPrice))
               (sharesSoldGreenshoe offerPrice).

Definition primaryProceedsM (offerPrice : Q) : Q :=
  Binary64.mul offerPrice
               (Binary64.add (sharesSoldPrimary offerPrice) (sharesSoldGreenshoe offerPrice)).

Definition secondaryProceedsM (offerPrice : Q) : Q :=
  Binary64.mul offerPrice (sharesSoldSecondary offerPrice).

Definition grossProceedsM (offerPrice : Q) : Q :=
  Binary64.add (primaryProceedsM offerPrice) (secondaryProceedsM offerPrice).

(** The dollars a dollar-denominated offering asks for: the primary
    raise, its greenshoe and the secondary sale. *)
Definition dollarsRequested : Q :=
  let d := JS.default (Part001.primaryDollarRaiseM assumptions) 0 in
  d + d * JS.or_else (Part001.greenshoePercent assumptions) 0
  + JS.or_else (Part001.secondaryDollarRaiseM assumptions) 0.

(** The same with every term taken in magnitude. *)
Definition dollarsMagnitude : Q :=
  let d := JS.default (Part001.primaryDollarRaiseM assumptions) 0 in
  Qabs d + Qabs d * Qabs (JS.or_else (Part001.greenshoePercent assumptions) 0)
  + Qabs (JS.or_else (Part001.secondaryDollarRaiseM assumptions) 0).

End Engine.

End Part001Binary64.

(** 10M primary shares filed at $30.01 to $32.01, the doubles nearest to
    these prices. *)
Definition centRange : Part001.IPOAssumptions.t :=
  Samples.deal001 (Some (Binary64.round (3001 # 100))) (Some (Binary64.round (3201 # 100)))
                  (Some 10) None None None None None.

(** * Properties *)

(** ** Comparison and sorting lemmas *)

Lemma ltb_lt (x y : Q) : JS.ltb x y = true <-> x < y.
Proof.
  unfold JS.ltb. rewrite negb_true_iff.
  split; intro H.
  - apply Qnot_le_lt. intro Hle. apply Qle_bool_iff in Hle. congruence.
  - destruct (Qle_bool y x) eqn:E; [|reflexivity].
    apply Qle_bool_iff in E. exfalso. exact (Qlt_not_le _ _ H E).
Qed.

Lemma ltb_ge (x y : Q) : JS.ltb x y = false <-> y <= x.
Proof.
  unfold JS.ltb. rewrite negb_false_iff. apply Qle_bool_iff.
Qed.

Lemma gtb_lt (x y : Q) : JS.gtb x y = true <-> y < x.
Proof. apply ltb_lt. Qed.

Lemma gtb_ge (x y : Q) : JS.gtb x y = false <-> x <= y.
Proof. apply ltb_ge. Qed.

Lemma geb_le (x y : Q) : JS.geb x y = true <-> y <= x.
Proof. apply Qle_bool_iff. Qed.

Lemma geb_lt (x y : Q) : JS.geb x y = false <-> x < y.
Proof.
  unfold JS.geb. split; intro H.
  - apply Qnot_le_lt. intro Hle. apply Qle_bool_iff in Hle. congruence.
  - destruct (Qle_bool y x) eqn:E; [|reflexivity].
    apply Qle_bool_iff in E. exfalso. exact (Qlt_not_le _ _ H E).
Qed.

Lemma leb_le (x y : Q) : JS.leb x y = true <-> x <= y.
Proof. apply Qle_bool_iff. Qed.

Lemma leb_gt (x y : Q) : JS.leb x y = false <-> y < x.
Proof. apply (geb_lt y x). Qed.

Lemma truthy_neq (x : Q) : JS.truthy x = true <-> ~ x == 0.
Proof.
  unfold JS.truthy. rewrite negb_true_iff. split; intro H.
  - intro E. apply Qeq_bool_iff in E. congruence.
  - destruct (Qeq_bool x 0) eqn:E; [|reflexivity].
    apply Qeq_bool_iff in E. contradiction.
Qed.

Lemma Math_max_0_nonneg (x : Q) : 0 <= JS.Math_max 0 x.
Proof.
  unfold JS.Math_max. destruct (Qle_bool 0 x) eqn:E.
  - now apply Qle_bool_iff.
  - apply Qle_refl.
Qed.

Lemma Math_max_0_of_nonpos (x : Q) : x <= 0 -> JS.Math_max 0 x == 0.
Proof.
  intro H. unfold JS.Math_max. destruct (Qle_bool 0 x) eqn:E.
  - apply Qle_bool_iff in E. now apply Qle_antisym.
  - reflexivity.
Qed.

Section SortFacts.
Context {A : Type} (key : A -> Q).

Lemma In_insert (x y : A) (l : list A) :
  In y (JS.insert (fun a b => key b - key a) x l) <-> y = x \/ In y l.
Proof.
  induction l as [|z l IH]; simpl.
  - intuition.
  - destruct (Qle_bool (key z - key x) 0); simpl; rewrite ?IH; intuition.
Qed.

Lemma In_sort (y : A) (l : list A) : In y (JS.sort (fun a b => key b - key a) l) <-> In y l.
Proof.
  induction l as [|x l IH]; simpl.
  - tauto.
  - rewrite In_insert, IH. intuition.
Qed.

Lemma sort_nil_iff (l : list A) : JS.sort (fun a b => key b - key a) l = [] <-> l = [].
Proof.
  split; intro H.
  - destruct l as [|x l]; [reflexivity|].
    assert (Hin : In x (JS.sort (fun a b => key b - key a) (x :: l))) by (apply In_sort; now left).
    rewrite H in Hin. destruct Hin.
  - subst. reflexivity.
Qed.

Lemma insert_Descending (x : A) (l : list A) :
  Descending key l -> Descending key (JS.insert (fun a b => key b - key a) x l).
Proof.
  induction 1 as [|z l Hz Hl IH]; simpl.
  - constructor; [intros y []|constructor].
  - destruct (Qle_bool (key z - key x) 0) eqn:E.
    + apply Qle_bool_iff in E.
      constructor; [|now constructor].
      intros y [->|Hy]; [lra|]. specialize (Hz y Hy). lra.
    + assert (Hlt : key x < key z).
      { apply leb_gt in E. lra. }
      constructor; [|exact IH].
      intros y Hy. apply In_insert in Hy. destruct Hy as [->|Hy]; [lra|auto].
Qed.

Lemma sort_Descending (l : list A) : Descending key (JS.sort (fun a b => key b - key a) l).
Proof.
  induction l as [|x l IH]; simpl; [constructor|].
  now apply insert_Descending.
Qed.

(** In a descending list, [find] with the test [p >= key] returns an
    entry with the greatest key not above [p]. *)
Lemma find_Descending (p : Q) (l : list A) (t : A) :
  Descending key l ->
  find (fun e => JS.geb p (key e)) l = Some t ->
  In t l /\ key t <= p /\ forall t', In t' l -> key t' <= p -> key t' <= key t.
Proof.
  induction 1 as [|x l Hx Hl IH]; simpl; [discriminate|].
  destruct (JS.geb p (key x)) eqn:E.
  - intros [= ->]. apply geb_le in E.
    split; [now left|]. split; [exact E|].
    intros t' [->|Ht'] _; [lra|auto].
  - intro Hf. destruct (IH Hf) as (Hin & Hle & Hmax).
    apply geb_lt in E.
    split; [now right|]. split; [exact Hle|].
    intros t' [->|Ht'] Hp; [lra|auto].
Qed.

Lemma find_none_all_above (p : Q) (l : list A) :
  find (fun e => JS.geb p (key e)) l = None ->
  forall t, In t l -> p < key t.
Proof.
  intros Hf t Ht.
  apply geb_lt. exact (find_none _ _ Hf t Ht).
Qed.

Lemma find_some_of_exists (p : Q) (l : list A) (t : A) :
  In t l -> key t <= p ->
  exists t', find (fun e => JS.geb p (key e)) l = Some t'.
Proof.
  intros Ht Hle.
  destruct (find (fun e => JS.geb p (key e)) l) as [t'|] eqn:E; [now exists t'|].
  pose proof (find_none_all_above p l E t Ht). lra.
Qed.

(** The last entry of a descending list has the least key. *)
Lemma last_Descending (l : list A) (d : A) :
  Descending key l -> l <> [] ->
  In (last l d) l /\ forall t, In t l -> key (last l d) <= key t.
Proof.
  induction 1 as [|x l Hx Hl IH]; [congruence|].
  intros _. destruct l as [|y l'].
  - simpl. split; [now left|]. intros t [->|[]]. lra.
  - destruct IH as [Hin Hmin]; [discriminate|].
    change (last (x :: y :: l') d) with (last (y :: l') d).
    split; [now right|].
    intros t [->|Ht]; [|auto].
    apply Hx. exact Hin.
Qed.

End SortFacts.

(** ** Double precision: the rounding error *)

Lemma pow2_pos (e : Z) : 0 < Binary64.pow2 e.
Proof. unfold Binary64.pow2. apply Qpower_0_lt. reflexivity. Qed.

Lemma pow2_plus (a b : Z) : Binary64.pow2 (a + b) == Binary64.pow2 a * Binary64.pow2 b.
Proof. unfold Binary64.pow2. apply Qpower_plus. discriminate. Qed.

Lemma pow2_inject (a : Z) : (0 <= a)%Z -> inject_Z (2 ^ a) == Binary64.pow2 a.
Proof. intro H. unfold Binary64.pow2. now rewrite Zpower_Qpower. Qed.

Lemma roundHalfEven_error (m : Q) :
  Qabs (inject_Z (Binary64.roundHalfEven m) - m) <= 1 # 2.
Proof.
  unfold Binary64.roundHalfEven.
  pose proof (Qfloor_le m) as H1. pose proof (Qlt_floor m) as H2.
  rewrite inject_Z_plus in H2. change (inject_Z 1) with 1 in H2.
  apply Qabs_Qle_condition.
  destruct (Qcompare (m - inject_Z (Qfloor m)) (1 # 2)) eqn:E.
  - apply Qeq_alt in E.
    destruct (Z.even (Qfloor m)).
    + split; lra.
    + rewrite inject_Z_plus. change (inject_Z 1) with 1. split; lra.
  - apply Qlt_alt in E. split; lra.
  - apply Qgt_alt in E. rewrite inject_Z_plus. change (inject_Z 1) with 1. split; lra.
Qed.

(** [2^(exponent x)] is not above [|x|]. *)
Lemma exponent_le (x : Q) : ~ x == 0 -> Binary64.pow2 (Binary64.exponent x) <= Qabs x.
Proof.
  intro Hx. unfold Binary64.exponent.
  set (n := Z.abs (Qnum x)). set (d := Zpos (Qden x)).
  destruct (Qle_bool _ (Qabs x)) eqn:E; [now apply Qle_bool_iff|].
  assert (Hn : (0 < n)%Z).
  { unfold n. destruct x as [[|p|p] q]; simpl; try lia. elim Hx. reflexivity. }
  assert (Hd : (0 < d)%Z) by (unfold d; lia).
  destruct (Z.log2_spec n Hn) as [Ha _].
  destruct (Z.log2_spec d Hd) as [_ Hb].
  pose proof (Z.log2_nonneg n) as Hna. pose proof (Z.log2_nonneg d) as Hnb.
  set (a := Z.log2 n) in *. set (b := Z.log2 d) in *.
  replace (a - b - 1)%Z with (a + - (Z.succ b))%Z by lia.
  rewrite pow2_plus. unfold Binary64.pow2 at 2. rewrite Qpower_opp.
  fold (Binary64.pow2 (Z.succ b)).
  rewrite <- (pow2_inject a Hna), <- (pow2_inject (Z.succ b)) by lia.
  assert (Hpb : (0 < 2 ^ Z.succ b)%Z) by (apply Z.pow_pos_nonneg; lia).
  assert (Eabs : Qabs x == inject_Z n / inject_Z d).
  { destruct x as [xn xd]. unfold n, d, Qabs, Qdiv, Qmult, Qinv, inject_Z, Qeq. simpl.
    destruct xn; simpl; lia. }
  rewrite Eabs.
  assert (Hqd : 0 < inject_Z d) by (rewrite <- (Zlt_Qlt 0); exact Hd).
  assert (Hqb : 0 < inject_Z (2 ^ Z.succ b)) by (rewrite <- (Zlt_Qlt 0); exact Hpb).
  apply Qle_shift_div_l; [exact Hqd|].
  assert (H : inject_Z (2 ^ a) * inject_Z d <= inject_Z n * inject_Z (2 ^ Z.succ b)).
  { rewrite <- !inject_Z_mult. rewrite <- Zle_Qle. nia. }
  apply (Qmult_le_r _ _ (inject_Z (2 ^ Z.succ b))); [exact Hqb|].
  field_simplify; [|lra]. field_simplify in H. lra.
Qed.

Lemma round_eq (x : Q) :
  ~ x == 0 ->
  Binary64.round x
  == inject_Z (Binary64.roundHalfEven (x / Binary64.pow2 (Binary64.exponent x - 52)))
     * Binary64.pow2 (Binary64.exponent x - 52).
Proof.
  intro Hx. unfold Binary64.round.
  destruct (Qeq_bool x 0) eqn:E; [apply Qeq_bool_iff in E; contradiction|].
  cbv zeta. apply Qred_correct.
Qed.

(** Rounding moves a number by at most [2^-53] of its magnitude. *)
Lemma round_error (x : Q) : Qabs (Binary64.round x - x) <= Qabs x * Binary64.epsilon.
Proof.
  destruct (Qeq_dec x 0) as [Hz|Hx].
  - unfold Binary64.round.
    assert (E : Qeq_bool x 0 = true) by now apply Qeq_bool_iff.
    rewrite E. rewrite Hz. vm_compute. discriminate.
  - rewrite (round_eq x Hx).
    set (e := Binary64.exponent x).
    set (ulp := Binary64.pow2 (e - 52)).
    assert (Hulp : 0 < ulp) by apply pow2_pos.
    set (m := x / ulp).
    assert (Em : x == m * ulp) by (unfold m; field; lra).
    pose proof (roundHalfEven_error m) as Hr.
    set (k := inject_Z (Binary64.roundHalfEven m)) in *.
    assert (E1 : k * ulp - x == (k - m) * ulp) by (rewrite Em at 1; ring).
    rewrite E1, Qabs_Qmult, (Qabs_pos ulp) by lra.
    pose proof (exponent_le x Hx) as He. fold e in He.
    assert (E2 : Binary64.pow2 e * Binary64.epsilon == ulp * (1 # 2)).
    { unfold ulp, Binary64.epsilon.
      replace (e - 52)%Z with (e + -52)%Z by lia.
      rewrite pow2_plus.
      assert (E3 : Binary64.pow2 (-53) == Binary64.pow2 (-52) * (1 # 2)) by reflexivity.
      rewrite E3. ring. }
    assert (H1 : Qabs (k - m) * ulp <= (1 # 2) * ulp).
    { apply Qmult_le_compat_r; lra. }
    assert (H2 : Binary64.pow2 e * Binary64.epsilon <= Qabs x * Binary64.epsilon).
    { apply Qmult_le_compat_r; [exact He|]. apply Qlt_le_weak, pow2_pos. }
    lra.
Qed.

(** *** Counting roundings *)

Lemma epsilon_pos : 0 < Binary64.epsilon.
Proof. apply pow2_pos. Qed.

Lemma growth_succ (k : nat) :
  (1 + Binary64.epsilon) ^ Z.of_nat (S k)
  == (1 + Binary64.epsilon) ^ Z.of_nat k * (1 + Binary64.epsilon).
Proof.
  rewrite Nat2Z.inj_succ. unfold Z.succ.
  rewrite Qpower_plus; [reflexivity|].
  pose proof epsilon_pos. lra.
Qed.

Lemma growth_ge_1 (k : nat) : 1 <= (1 + Binary64.epsilon) ^ Z.of_nat k.
Proof.
  induction k as [|k IH]; [discriminate|].
  rewrite growth_succ. pose proof epsilon_pos. nra.
Qed.

Lemma growth_mono (k k' : nat) :
  (k <= k')%nat ->
  (1 + Binary64.epsilon) ^ Z.of_nat k <= (1 + Binary64.epsilon) ^ Z.of_nat k'.
Proof.
  induction 1 as [|k' _ IH]; [apply Qle_refl|].
  rewrite growth_succ. pose proof epsilon_pos. pose proof (growth_ge_1 k). nra.
Qed.

Lemma withinRoundings_exact (x bound : Q) :
  Qabs x <= bound -> Binary64.withinRoundings 0 x x bound.
Proof.
  intro H. split; [exact H|].
  assert (E : x - x == 0) by ring. rewrite E.
  change (0 <= (1 - 1) * bound). lra.
Qed.

Lemma withinRoundings_ext (k : nat) (approx x x' bound bound' : Q) :
  x == x' -> bound == bound' ->
  Binary64.withinRoundings k approx x bound -> Binary64.withinRoundings k approx x' bound'.
Proof.
  intros Ex Eb [H1 H2]. split.
  - now rewrite <- Ex, <- Eb.
  - now rewrite <- Ex, <- Eb.
Qed.

Lemma withinRoundings_round (k : nat) (approx x bound : Q) :
  Binary64.withinRoundings k approx x bound ->
  Binary64.withinRoundings (S k) (Binary64.round approx) x bound.
Proof.
  intros [H1 H2]. split; [exact H1|].
  rewrite growth_succ.
  pose proof (round_error approx) as Hr.
  pose proof epsilon_pos as Hu.
  pose proof (growth_ge_1 k) as Hp.
  set (P := (1 + Binary64.epsilon) ^ Z.of_nat k) in *.
  set (u := Binary64.epsilon) in *.
  assert (Ha : Qabs approx <= Qabs x + Qabs (approx - x)).
  { assert (E : approx == x + (approx - x)) by ring.
    rewrite E at 1. apply Qabs_triangle. }
  assert (Ht : Qabs (Binary64.round approx - x)
               <= Qabs (Binary64.round approx - approx) + Qabs (approx - x)).
  { assert (E : Binary64.round approx - x
                == (Binary64.round approx - approx) + (approx - x)) by ring.
    rewrite E at 1. apply Qabs_triangle. }
  pose proof (Qabs_nonneg x) as Hx0.
  assert (Hb : Qabs approx * u <= (bound + (P - 1) * bound) * u).
  { apply Qmult_le_compat_r; lra. }
  nra.
Qed.

Lemma withinRoundings_add (k : nat) (a x X b y Y : Q) :
  Binary64.withinRoundings k a x X -> Binary64.withinRoundings k b y Y ->
  Binary64.withinRoundings k (a + b) (x + y) (X + Y).
Proof.
  intros [H1 H2] [H3 H4]. split.
  - pose proof (Qabs_triangle x y). lra.
  - assert (E : a + b - (x + y) == (a - x) + (b - y)) by ring.
    rewrite E. pose proof (Qabs_triangle (a - x) (b - y)). lra.
Qed.

Lemma withinRoundings_scale (k : nat) (c a x X : Q) :
  Binary64.withinRoundings k a x X ->
  Binary64.withinRoundings k (c * a) (c * x) (Qabs c * X).
Proof.
  intros [H1 H2]. pose proof (Qabs_nonneg c) as Hc. split.
  - rewrite Qabs_Qmult. pose proof (Qabs_nonneg x). nra.
  - assert (E : c * a - c * x == c * (a - x)) by ring.
    rewrite E, Qabs_Qmult.
    rewrite (Qmult_comm (Qabs c) (Qabs (a - x))).
    assert (H : Qabs (a - x) * Qabs c
                <= ((1 + Binary64.epsilon) ^ Z.of_nat k - 1) * X * Qabs c).
    { apply Qmult_le_compat_r; assumption. }
    lra.
Qed.

Lemma withinRoundings_more (k k' : nat) (a x X : Q) :
  (k <= k')%nat ->
  Binary64.withinRoundings k a x X -> Binary64.withinRoundings k' a x X.
Proof.
  intros Hk [H1 H2]. split; [exact H1|].
  pose proof (growth_mono k k' Hk) as Hm.
  pose proof (Qabs_nonneg x) as Hx.
  assert (HX : 0 <= X) by lra.
  nra.
Qed.

(** Five roundings stay within [2^-50]. *)
Lemma five_roundings :
  (1 + Binary64.epsilon) ^ Z.of_nat 5 - 1 <= Binary64.pow2 (-50).
Proof. vm_compute. discriminate. Qed.

Lemma Qabs_cancel (p x : Q) : ~ p == 0 -> Qabs p * Qabs (x / p) == Qabs x.
Proof.
  intro Hp. rewrite <- Qabs_Qmult.
  assert (E : p * (x / p) == x) by (field; exact Hp).
  now rewrite E.
Qed.

(** In dollar mode the gross proceeds of a row are five roundings away from
    the dollars requested, whatever the price. *)
Lemma dollar_gross_roundings (a : Part001.IPOAssumptions.t) (p : Q) :
  Part001.useDollarBased a = true -> ~ p == 0 ->
  Binary64.withinRoundings 5 (Part001Binary64.grossProceedsM a p)
                           (Part001Binary64.dollarsRequested a)
                           (Part001Binary64.dollarsMagnitude a).
Proof.
  intros Hdollar Hp.
  unfold Part001Binary64.grossProceedsM, Part001Binary64.primaryProceedsM,
    Part001Binary64.secondaryProceedsM, Part001Binary64.sharesSoldGreenshoe,
    Part001Binary64.sharesSoldSecondary, Part001Binary64.sharesSoldPrimary,
    Part001Binary64.dollarsRequested, Part001Binary64.dollarsMagnitude.
  rewrite Hdollar. cbv zeta.
  set (d := JS.default (Part001.primaryDollarRaiseM a) 0).
  set (g := JS.or_else (Part001.greenshoePercent a) 0).
  set (s := JS.or_else (Part001.secondaryDollarRaiseM a) 0).
  unfold Binary64.div, Binary64.mul, Binary64.add.
  set (prim := Binary64.round (d / p)).
  set (sec := Binary64.round (s / p)).
  assert (Wprim : Binary64.withinRoundings 1 prim (d / p) (Qabs (d / p))).
  { apply withinRoundings_round, withinRoundings_exact, Qle_refl. }
  assert (Wsec : Binary64.withinRoundings 1 sec (s / p) (Qabs (s / p))).
  { apply withinRoundings_round, withinRoundings_exact, Qle_refl. }
  assert (Wgs : Binary64.withinRoundings 2 (Binary64.round (prim * g))
                  (g * (d / p)) (Qabs g * Qabs (d / p))).
  { apply withinRoundings_round.
    apply (withinRoundings_ext 1 _ (g * (d / p)) _ (Qabs g * Qabs (d / p))
             (Qabs g * Qabs (d / p))); [reflexivity|reflexivity|].
    pose proof (withinRoundings_scale 1 g prim (d / p) _ Wprim) as H.
    destruct H as [H1 H2]. split; [exact H1|].
    assert (E2 : prim * g - g * (d / p) == g * prim - g * (d / p)) by ring.
    now rewrite E2. }
  set (gs := Binary64.round (prim * g)) in *.
  assert (Wsum : Binary64.withinRoundings 3 (Binary64.round (prim + gs))
                   (d / p + g * (d / p)) (Qabs (d / p) + Qabs g * Qabs (d / p))).
  { apply withinRoundings_round, withinRoundings_add; [|exact Wgs].
    apply (withinRoundings_more 1 2); [lia|exact Wprim]. }
  assert (Wpp : Binary64.withinRoundings 4
                  (Binary64.round (p * Binary64.round (prim + gs)))
                  (d + d * g) (Qabs d + Qabs d * Qabs g)).
  { apply withinRoundings_round.
    apply (withinRoundings_ext 3 _ (p * (d / p + g * (d / p))) _
             (Qabs p * (Qabs (d / p) + Qabs g * Qabs (d / p)))).
    - field. exact Hp.
    - pose proof (Qabs_cancel p d Hp) as E.
      assert (E2 : Qabs p * (Qabs (d / p) + Qabs g * Qabs (d / p))
                   == Qabs p * Qabs (d / p) + Qabs p * Qabs (d / p) * Qabs g) by ring.
      rewrite E2, E. reflexivity.
    - apply withinRoundings_scale. exact Wsum. }
  assert (Wsp : Binary64.withinRoundings 2 (Binary64.round (p * sec)) s (Qabs s)).
  { apply withinRoundings_round.
    apply (withinRoundings_ext 1 _ (p * (s / p)) _ (Qabs p * Qabs (s / p))).
    - field. exact Hp.
    - apply Qabs_cancel. exact Hp.
    - apply withinRoundings_scale. exact Wsec. }
  apply withinRoundings_round, withinRoundings_add; [exact Wpp|].
  apply (withinRoundings_more 2 4); [lia|exact Wsp].
Qed.

(** Hence they differ from it by at most [2^-50] of its magnitude. *)
Lemma dollar_gross_close (a : Part001.IPOAssumptions.t) (p : Q) :
  Part001.useDollarBased a = true -> ~ p == 0 ->
  Qabs (Part001Binary64.grossProceedsM a p - Part001Binary64.dollarsRequested a)
  <= Binary64.pow2 (-50) * Part001Binary64.dollarsMagnitude a.
Proof.
  intros Hdollar Hp.
  destruct (dollar_gross_roundings a p Hdollar Hp) as [H1 H2].
  pose proof five_roundings as H5.
  pose proof (Qabs_nonneg (Part001Binary64.dollarsRequested a)) as H0.
  assert (HM : 0 <= Part001Binary64.dollarsMagnitude a) by lra.
  nra.
Qed.

(** *** The price loop in double precision *)

Lemma priceLoop64_positive (fuel : nat) :
  forall p maxPrice prices q,
    Part001Binary64.priceLoop fuel p maxPrice = Some prices -> In q prices -> 0 < q.
Proof.
  induction fuel as [|fuel IH]; intros p maxPrice prices q; simpl; [discriminate|].
  destruct (Qle_bool p maxPrice).
  - destruct (Part001Binary64.priceLoop fuel (Binary64.add p 1) maxPrice) as [rest|] eqn:E;
      [|discriminate].
    simpl. intros [= <-] Hin. apply in_app_or in Hin. destruct Hin as [Hin|Hin].
    + destruct (JS.gtb p 0) eqn:Hp; [|destruct Hin].
      destruct Hin as [<-|[]]. now apply gtb_lt.
    + exact (IH _ _ _ _ E Hin).
  - intros [= <-] [].
Qed.

(** Below [2^52] a step of the loop adds at least a half. *)
Lemma add_1_advances (p : Q) :
  -1 <= p -> p + 1 <= Binary64.pow2 52 -> p + (1 # 2) <= Binary64.add p 1.
Proof.
  intros Hlo Hhi. unfold Binary64.add.
  pose proof (round_error (p + 1)) as Hr.
  rewrite (Qabs_pos (p + 1)) in Hr by lra.
  assert (Hb : (p + 1) * Binary64.epsilon <= Binary64.pow2 52 * Binary64.epsilon).
  { apply Qmult_le_compat_r; [exact Hhi|apply Qlt_le_weak, epsilon_pos]. }
  assert (E : Binary64.pow2 52 * Binary64.epsilon == 1 # 2) by reflexivity.
  apply Qabs_Qle_condition in Hr. lra.
Qed.

(** So the loop ends by itself, given fuel for two steps per dollar. *)
Lemma priceLoop64_returns (maxPrice : Q) (fuel : nat) :
  forall p, -1 <= p -> maxPrice + 1 <= Binary64.pow2 52 ->
            2 * (maxPrice - p) + 2 < inject_Z (Z.of_nat fuel) -> (0 < fuel)%nat ->
            exists prices, Part001Binary64.priceLoop fuel p maxPrice = Some prices.
Proof.
  induction fuel as [|fuel IH]; intros p Hlo Hhi Hfuel Hpos; [lia|].
  simpl. destruct (Qle_bool p maxPrice) eqn:E; [|now exists []].
  apply Qle_bool_iff in E.
  pose proof (add_1_advances p Hlo ltac:(lra)) as Hstep.
  rewrite Nat2Z.inj_succ in Hfuel. unfold Z.succ in Hfuel.
  rewrite inject_Z_plus in Hfuel. change (inject_Z 1) with 1 in Hfuel.
  destruct (IH (Binary64.add p 1)) as [rest Hrest]; [lra|exact Hhi|lra| |].
  - assert (H : 0 < inject_Z (Z.of_nat fuel)) by lra.
    rewrite <- (Zlt_Qlt 0) in H. lia.
  - rewrite Hrest. simpl. eauto.
Qed.

Lemma pricePoints64_returns (minPrice maxPrice : Q) :
  -1 <= minPrice -> minPrice <= maxPrice -> maxPrice + 1 <= Binary64.pow2 52 ->
  exists prices, Part001Binary64.pricePoints minPrice maxPrice = Some prices.
Proof.
  intros Hlo Hle Hhi. unfold Part001Binary64.pricePoints.
  assert (Hfl : (0 <= Qfloor (maxPrice - minPrice))%Z) by (change 0%Z with (Qfloor 0); apply Qfloor_resp_le; lra).
  apply priceLoop64_returns; [exact Hlo|exact Hhi| |lia].
  rewrite Z2Nat.id by lia.
  pose proof (Qlt_floor (maxPrice - minPrice)) as H.
  rewrite inject_Z_plus, inject_Z_mult.
  rewrite inject_Z_plus in H.
  change (inject_Z 1) with 1 in H. change (inject_Z 2) with 2. change (inject_Z 4) with 4.
  lra.
Qed.

(** The rows of the matrix are priced above 0, and the loop that prices
    them ends whenever the range lies below [2^52 - 1]. *)
Lemma offerPrices64_positive (a : Part001.IPOAssumptions.t) (prices : list Q) (p : Q) :
  Part001Binary64.offerPrices a = Some prices -> In p prices -> 0 < p.
Proof.
  unfold Part001Binary64.offerPrices, Part001Binary64.pricePoints.
  destruct (negb (Part001.hasUserProvidedRange a)); [intros [= <-] []|].
  destruct (Part001.indicatedPriceRangeLow a) as [lo|]; [|intros [= <-] []].
  destruct (Part001.indicatedPriceRangeHigh a) as [hi|]; [|intros [= <-] []].
  destruct (JS.leb hi lo); [intros [= <-] []|].
  apply priceLoop64_positive.
Qed.

Lemma offerPrices64_returns (a : Part001.IPOAssumptions.t) :
  JS.default (Part001.indicatedPriceRangeHigh a) 0 + 1 <= Binary64.pow2 52 ->
  exists prices, Part001Binary64.offerPrices a = Some prices.
Proof.
  unfold Part001Binary64.offerPrices, Part001.hasUserProvidedRange.
  destruct (Part001.indicatedPriceRangeLow a) as [lo|]; [|now exists []].
  destruct (Part001.indicatedPriceRangeHigh a) as [hi|]; [|simpl; now exists []].
  simpl JS.default. intro Hhi.
  destruct (JS.gtb lo 0) eqn:Hlo; [|now exists []].
  destruct (JS.gtb hi 0) eqn:Hh; [|now exists []].
  simpl negb. cbv iota.
  destruct (JS.leb hi lo) eqn:Hle; [now exists []|].
  apply gtb_lt in Hlo. apply leb_gt in Hle.
  apply pricePoints64_returns; lra.
Qed.

(** The prices of the loop lie at least a half apart, between the first
    price and the high end. *)
Lemma priceLoop64_spaced (maxPrice : Q) (fuel : nat) :
  forall p prices,
    -1 <= p -> maxPrice + 1 <= Binary64.pow2 52 ->
    Part001Binary64.priceLoop fuel p maxPrice = Some prices ->
    ForallOrdPairs (fun x y => x + (1 # 2) <= y) prices
    /\ Forall (fun x => p <= x /\ x <= maxPrice) prices.
Proof.
  induction fuel as [|fuel IH]; intros p prices Hlo Hhi; simpl; [discriminate|].
  destruct (Qle_bool p maxPrice) eqn:E.
  - apply Qle_bool_iff in E.
    pose proof (add_1_advances p Hlo ltac:(lra)) as Hstep.
    destruct (Part001Binary64.priceLoop fuel (Binary64.add p 1) maxPrice) as [rest|] eqn:Er;
      [|discriminate].
    simpl. intros [= <-].
    assert (Hnext : -1 <= Binary64.add p 1) by lra.
    destruct (IH (Binary64.add p 1) rest Hnext Hhi Er) as [Hpairs Hall].
    assert (Hall' : Forall (fun x => p <= x /\ x <= maxPrice) rest).
    { eapply Forall_impl; [|exact Hall]. simpl. intros x [H1 H2]. split; lra. }
    destruct (JS.gtb p 0); simpl.
    + split.
      * constructor; [|exact Hpairs].
        eapply Forall_impl; [|exact Hall]. simpl. intros x [H1 _]. lra.
      * constructor; [split; lra|exact Hall'].
    + split; assumption.
  - intros [= <-]. split; constructor.
Qed.

Lemma offerPrices64_spaced (a : Part001.IPOAssumptions.t) (prices : list Q) (p1 p2 : Q) :
  JS.default (Part001.indicatedPriceRangeHigh a) 0 + 1 <= Binary64.pow2 52 ->
  Part001Binary64.offerPrices a = Some prices ->
  In p1 prices -> In p2 prices -> p1 < p2 ->
  0 < p1 /\ p1 + (1 # 2) <= p2
  /\ p2 <= JS.default (Part001.indicatedPriceRangeHigh a) 0.
Proof.
  intros Hhi Hprices H1 H2 Hlt.
  split; [exact (offerPrices64_positive a prices p1 Hprices H1)|].
  revert Hprices Hhi.
  unfold Part001Binary64.offerPrices, Part001.hasUserProvidedRange,
    Part001Binary64.pricePoints.
  destruct (Part001.indicatedPriceRangeLow a) as [lo|];
    [|intros [= <-]; destruct H1].
  destruct (Part001.indicatedPriceRangeHigh a) as [hi|];
    [|simpl; intros [= <-]; destruct H1].
  simpl JS.default.
  destruct (JS.gtb lo 0) eqn:Hlo; [|simpl; intros [= <-]; destruct H1].
  destruct (JS.gtb hi 0); [|simpl; intros [= <-]; destruct H1].
  simpl negb. cbv iota.
  destruct (JS.leb hi lo); [intros [= <-]; destruct H1|].
  intros Hloop Hhi. apply gtb_lt in Hlo.
  destruct (priceLoop64_spaced hi _ lo prices ltac:(lra) Hhi Hloop) as [Hpairs Hall].
  rewrite Forall_forall in Hall.
  split; [|exact (proj2 (Hall p2 H2))].
  destruct (ForallOrdPairs_In Hpairs p1 p2 H1 H2) as [Heq|[Hok|Hbad]].
  - subst. lra.
  - exact Hok.
  - lra.
Qed.

(** Two roundings stay within [2^-51]. *)
Lemma two_roundings :
  (1 + Binary64.epsilon) ^ Z.of_nat 2 - 1 <= Binary64.pow2 (-51).
Proof. vm_compute. discriminate. Qed.

(** Rounding keeps the sign. *)
Lemma round_nonneg (x : Q) : 0 <= x -> 0 <= Binary64.round x.
Proof.
  intro H. pose proof (round_error x) as Hr.
  rewrite (Qabs_pos x H) in Hr. apply Qabs_Qle_condition in Hr.
  assert (Hu : Binary64.epsilon <= 1) by (vm_compute; discriminate).
  assert (x * Binary64.epsilon <= x * 1).
  { rewrite (Qmult_comm x Binary64.epsilon), (Qmult_comm x 1).
    apply Qmult_le_compat_r; assumption. }
  lra.
Qed.

Lemma round_pos (x : Q) : 0 < x -> 0 < Binary64.round x.
Proof.
  intro H. pose proof (round_error x) as Hr.
  rewrite (Qabs_pos x (Qlt_le_weak _ _ H)) in Hr. apply Qabs_Qle_condition in Hr.
  assert (Hu : Binary64.epsilon < 1) by reflexivity.
  assert (x * Binary64.epsilon < x * 1).
  { rewrite (Qmult_comm x Binary64.epsilon), (Qmult_comm x 1).
    apply Qmult_lt_compat_r; assumption. }
  lra.
Qed.

Lemma offerPrices64_filed (a : Part001.IPOAssumptions.t) (lo hi : Q) :
  filedRange a lo hi ->
  Part001Binary64.offerPrices a = Part001Binary64.pricePoints lo hi.
Proof.
  intros (Hlo & Hhi & Hpos & Hlt).
  unfold Part001Binary64.offerPrices, Part001.hasUserProvidedRange,
    Part001.indicatedPriceRangeLow, Part001.indicatedPriceRangeHigh.
  rewrite Hlo, Hhi.
  assert (H1 : JS.gtb lo 0 = true) by now apply gtb_lt.
  assert (H2 : JS.gtb hi 0 = true) by (apply gtb_lt; lra).
  assert (H3 : JS.leb hi lo = false) by now apply leb_gt.
  rewrite H1, H2, H3. reflexivity.
Qed.

(** X31.  In double precision, for a filed range [lo] to [hi] with
    [hi + 1 <= 2^52], the price loop of part_001 ends and the matrix is not
    empty: its prices start at [lo], every later price is at least half a
    dollar above every earlier one (each step adds 1 and rounds), and none
    is above [hi]. *)
Theorem part001_price_loop_binary64 (a : Part001.IPOAssumptions.t) (lo hi : Q) :
  filedRange a lo hi ->
  hi + 1 <= Binary64.pow2 52 ->
  exists rest,
    Part001Binary64.offerPrices a = Some (lo :: rest)
    /\ hd_error rest
       = (if Qle_bool (Binary64.add lo 1) hi then Some (Binary64.add lo 1) else None)
    /\ ForallOrdPairs (fun x y => x + (1 # 2) <= y) (lo :: rest)
    /\ Forall (fun x => lo <= x /\ x <= hi) (lo :: rest).
Proof.
  intros Hr Hhi.
  rewrite (offerPrices64_filed a lo hi Hr).
  destruct Hr as (_ & _ & Hpos & Hlt).
  destruct (pricePoints64_returns lo hi ltac:(lra) ltac:(lra) Hhi) as [prices Hprices].
  pose proof Hprices as Hloop. unfold Part001Binary64.pricePoints in Hloop.
  destruct (priceLoop64_spaced hi _ lo prices ltac:(lra) Hhi Hloop) as [Hpairs Hall].
  destruct (Z.to_nat (2 * Qfloor (hi - lo) + 4)) as [|fuel]; [discriminate|].
  simpl in Hloop.
  assert (E1 : Qle_bool lo hi = true) by (apply Qle_bool_iff; lra).
  assert (E2 : JS.gtb lo 0 = true) by now apply gtb_lt.
  rewrite E1, E2 in Hloop.
  destruct (Part001Binary64.priceLoop fuel (Binary64.add lo 1) hi) as [rest|] eqn:Er;
    [|discriminate].
  simpl in Hloop. injection Hloop as <-.
  exists rest. rewrite Hprices. split; [reflexivity|].
  split; [|split; assumption].
  destruct fuel as [|fuel']; [discriminate|].
  simpl in Er.
  destruct (Qle_bool (Binary64.add lo 1) hi) eqn:E3.
  - assert (E4 : JS.gtb (Binary64.add lo 1) 0 = true).
    { apply gtb_lt. pose proof (add_1_advances lo ltac:(lra) ltac:(lra)). lra. }
    rewrite E4 in Er.
    destruct (Part001Binary64.priceLoop fuel' _ hi); [|discriminate].
    simpl in Er. injection Er as <-. reflexivity.
  - injection Er as <-. reflexivity.
Qed.

Lemma part001_price_loop_binary64_witness :
  exists rest,
    Part001Binary64.offerPrices centRange = Some (Binary64.round (3001 # 100) :: rest)
    /\ hd_error rest
       = (if Qle_bool (Binary64.add (Binary64.round (3001 # 100)) 1)
                      (Binary64.round (3201 # 100))
          then Some (Binary64.add (Binary64.round (3001 # 100)) 1) else None)
    /\ ForallOrdPairs (fun x y => x + (1 # 2) <= y) (Binary64.round (3001 # 100) :: rest)
    /\ Forall (fun x => Binary64.round (3001 # 100) <= x /\ x <= Binary64.round (3201 # 100))
              (Binary64.round (3001 # 100) :: rest).
Proof.
  apply (part001_price_loop_binary64 centRange).
  - repeat split; reflexivity.
  - vm_compute. discriminate.
Defined.

(** The range $30.01 to $32.01 has two rows in double precision, $30.01
    and $31.01: the third step gives 32.010000000000005, above the double
    nearest to 32.01.  Exact arithmetic has three. *)
Lemma cent_range_loses_its_top_row :
  Part001Binary64.offerPrices centRange
  = Some [Binary64.round (3001 # 100); Binary64.add (Binary64.round (3001 # 100)) 1]
  /\ Binary64.round (3201 # 100)
     < Binary64.add (Binary64.add (Binary64.round (3001 # 100)) 1) 1
  /\ List.length (Part001.pricePoints (3001 # 100) (3201 # 100)) = 3%nat.
Proof.
  split; [vm_compute; reflexivity|]. split; reflexivity.
Qed.

(** On the numbers of the examples below [Binary64] and SpecFloat agree. *)
Lemma binary64_agrees_with_SpecFloat :
  Binary64.ofSpecFloat
    (SFmul 53 1024 (Binary64.specFloatOfZ 22)
           (SFdiv 53 1024 (Binary64.specFloatOfZ 200) (Binary64.specFloatOfZ 22)))
  = Some (Binary64.mul 22 (Binary64.div 200 22))
  /\ Binary64.ofSpecFloat
       (SFdiv 53 1024 (Binary64.specFloatOfZ 3001) (Binary64.specFloatOfZ 100))
     = Some (Binary64.round (3001 # 100))
  /\ Binary64.ofSpecFloat
       (SFadd 53 1024
              (SFadd 53 1024
                     (SFdiv 53 1024 (Binary64.specFloatOfZ 3001) (Binary64.specFloatOfZ 100))
                     (Binary64.specFloatOfZ 1))
              (Binary64.specFloatOfZ 1))
     = Some (Binary64.add (Binary64.add (Binary64.round (3001 # 100)) 1) 1)
  /\ Binary64.ofSpecFloat
       (SFsub 53 1024 (Binary64.specFloatOfZ 1)
              (SFdiv 53 1024 (Binary64.specFloatOfZ 1) (Binary64.specFloatOfZ 10)))
     = Some (Binary64.sub 1 (Binary64.div 1 10)).
Proof. repeat split; vm_compute; reflexivity. Qed.

(** ** The rows of the matrix of part_001 *)

Lemma priceLoop_positive (fuel : nat) (p maxPrice x : Q) :
  In x (Part001.priceLoop fuel p maxPrice) -> 0 < x.
Proof.
  revert p. induction fuel as [|fuel IH]; intros p; simpl; [tauto|].
  destruct (Qle_bool p maxPrice); [|intros []].
  intro H. apply in_app_or in H. destruct H as [H|H]; [|eauto].
  destruct (JS.gtb p 0) eqn:E; [|destruct H].
  destruct H as [<-|[]]. now apply gtb_lt.
Qed.

(** A row of a returned matrix is the row computed at a positive price
    point of the filed range. *)
Lemma matrix_rows (Math_log : Q -> Q) (a : Part001.IPOAssumptions.t)
      (res : Part001.Result.t) (r : Part001.PricingRow.t) :
  Part001.calculateIPOPricing Math_log a = Some res ->
  In r (Part001.Result.pricingMatrix res) ->
  exists p, r = Part001.pricingRow Math_log a p /\ 0 < p.
Proof.
  unfold Part001.calculateIPOPricing.
  destruct (negb (Part001.hasUserProvidedRange a)).
  { intros [= <-] []. }
  destruct (Part001.indicatedPriceRangeLow a) as [lo|];
    [|intros [= <-] []].
  destruct (Part001.indicatedPriceRangeHigh a) as [hi|];
    [|intros [= <-] []].
  destruct (JS.leb hi lo); [intros [= <-] []|].
  destruct (Part001.selectRow a lo hi _) as [sel|]; [|discriminate].
  intros [= <-]. simpl. intro Hin.
  apply in_map_iff in Hin. destruct Hin as (p & <- & Hp).
  exists p. split; [reflexivity|].
  exact (priceLoop_positive _ _ _ _ Hp).
Qed.

(** ** C1 *)

(** C1.  When the indicated price range is absent, non-positive or not
    strictly ordered, [calculateIPOPricing] of part_001 returns (it does not
    throw) a result whose pricing matrix is empty, whose only warning is one
    of the two "ERROR: ..." messages, and whose recommended range and price
    are 0: no substitute range is made up. *)
Theorem invalid_range_is_refused (Math_log : Q -> Q) (a : Part001.IPOAssumptions.t) :
  priceRangeInvalid a ->
  exists res msg,
    Part001.calculateIPOPricing Math_log a = Some res
    /\ Part001.Result.pricingMatrix res = []
    /\ Part001.Result.warnings res = [Part001.ErrorWarning msg]
    /\ (msg = Part001.rangeRequiredError \/ msg = Part001.rangeOrderError)
    /\ String.prefix "ERROR:" msg = true
    /\ Part001.Result.recommendedRangeLow res = 0
    /\ Part001.Result.recommendedRangeHigh res = 0
    /\ Part001.Result.recommendedPrice res = 0.
Proof.
  unfold priceRangeInvalid, Part001.calculateIPOPricing, Part001.hasUserProvidedRange,
    Part001.indicatedPriceRangeLow, Part001.indicatedPriceRangeHigh.
  destruct (Part001.IPOAssumptions.indicatedPriceRangeLow a) as [lo|];
    [destruct (Part001.IPOAssumptions.indicatedPriceRangeHigh a) as [hi|]|].
  - intro H.
    destruct (JS.gtb lo 0 && JS.gtb hi 0) eqn:Epos; simpl.
    + apply andb_true_iff in Epos. destruct Epos as [Hlo Hhi].
      apply gtb_lt in Hlo. apply gtb_lt in Hhi.
      assert (Hle : hi <= lo) by (destruct H as [H|[H|H]]; [lra|lra|exact H]).
      apply leb_le in Hle. rewrite Hle.
      exists (Part001.errorResult a Part001.rangeOrderError), Part001.rangeOrderError.
      repeat split; auto.
    + exists (Part001.errorResult a Part001.rangeRequiredError), Part001.rangeRequiredError.
      repeat split; auto.
  - intros _. simpl.
    exists (Part001.errorResult a Part001.rangeRequiredError), Part001.rangeRequiredError.
    repeat split; auto.
  - intros _. simpl.
    exists (Part001.errorResult a Part001.rangeRequiredError), Part001.rangeRequiredError.
    repeat split; auto.
Qed.

Lemma invalid_range_is_refused_witness :
  priceRangeInvalid Samples.invertedRange
  /\ exists res msg,
       Part001.calculateIPOPricing JS.ln_series Samples.invertedRange = Some res
       /\ Part001.Result.pricingMatrix res = []
       /\ Part001.Result.warnings res = [Part001.ErrorWarning msg]
       /\ (msg = Part001.rangeRequiredError \/ msg = Part001.rangeOrderError)
       /\ String.prefix "ERROR:" msg = true
       /\ Part001.Result.recommendedRangeLow res = 0
       /\ Part001.Result.recommendedRangeHigh res = 0
       /\ Part001.Result.recommendedPrice res = 0.
Proof.
  assert (H : priceRangeInvalid Samples.invertedRange).
  { simpl. right. right. vm_compute. discriminate. }
  split; [exact H|].
  exact (invalid_range_is_refused JS.ln_series Samples.invertedRange H).
Defined.

(** ** The price loop terminates, and the engine of part_001 returns *)

Lemma priceLoop_enough_fuel (fuel extra : nat) (p maxPrice : Q) :
  maxPrice - p < inject_Z (Z.of_nat fuel) ->
  Part001.priceLoop (fuel + extra) p maxPrice = Part001.priceLoop fuel p maxPrice.
Proof.
  revert p. induction fuel as [|fuel IH]; intros p Hlt.
  - simpl in Hlt. destruct extra as [|extra]; [reflexivity|]. simpl.
    destruct (Qle_bool p maxPrice) eqn:E; [|reflexivity].
    apply Qle_bool_iff in E. change (inject_Z 0) with 0 in Hlt. lra.
  - simpl. destruct (Qle_bool p maxPrice); [|reflexivity].
    f_equal. apply IH.
    rewrite Nat2Z.inj_succ in Hlt. unfold Z.succ in Hlt.
    rewrite inject_Z_plus in Hlt. change (inject_Z 1) with 1 in Hlt. lra.
Qed.

(** More fuel than [pricePoints] gives leaves the list of price points
    unchanged: the loop has run to its exit. *)
Lemma pricePoints_enough_fuel (extra : nat) (minPrice maxPrice : Q) :
  Part001.priceLoop (S (Z.to_nat (Qfloor (maxPrice - minPrice))) + extra) minPrice maxPrice
  = Part001.pricePoints minPrice maxPrice.
Proof.
  unfold Part001.pricePoints. apply priceLoop_enough_fuel.
  pose proof (Qlt_floor (maxPrice - minPrice)) as Hfl.
  eapply Qlt_le_trans; [exact Hfl|].
  rewrite <- Zle_Qle. lia.
Qed.

Lemma pricePoints_first (lo hi : Q) :
  0 < lo -> lo <= hi -> exists rest, Part001.pricePoints lo hi = lo :: rest.
Proof.
  intros Hpos Hle. unfold Part001.pricePoints. simpl.
  apply Qle_bool_iff in Hle. rewrite Hle.
  apply gtb_lt in Hpos. rewrite Hpos. simpl. eauto.
Qed.

Lemma orFallback_some (price : Q) (found : option Part001.PricingRow.t)
      (fallback : Part001.PricingRow.t) :
  exists sel, Part001.orFallback price found (Some fallback) = Some sel.
Proof. destruct found; simpl; eauto. Qed.

(** [calculateIPOPricing] of part_001 returns a value on every input. *)
Lemma calculateIPOPricing_returns (Math_log : Q -> Q) (a : Part001.IPOAssumptions.t) :
  exists res, Part001.calculateIPOPricing Math_log a = Some res.
Proof.
  unfold Part001.calculateIPOPricing.
  destruct (Part001.hasUserProvidedRange a) eqn:Hrange; simpl; [|eauto].
  unfold Part001.hasUserProvidedRange in Hrange.
  destruct (Part001.indicatedPriceRangeLow a) as [lo|]; [|discriminate].
  destruct (Part001.indicatedPriceRangeHigh a) as [hi|]; [|discriminate].
  apply andb_true_iff in Hrange. destruct Hrange as [Hlo _]. apply gtb_lt in Hlo.
  destruct (JS.leb hi lo) eqn:Hord; [eauto|].
  apply leb_gt in Hord.
  destruct (pricePoints_first lo hi Hlo (Qlt_le_weak _ _ Hord)) as [rest ->].
  set (matrix := map (Part001.pricingRow Math_log a) (lo :: rest)).
  assert (Hsel : exists sel, Part001.selectRow a lo hi matrix = Some sel).
  { unfold Part001.selectRow.
    destruct (Part001.sortedByPrice matrix) as [|top sorted] eqn:Hs.
    { unfold Part001.sortedByPrice in Hs.
      apply (proj1 (sort_nil_iff Part001.PricingRow.offerPrice matrix)) in Hs.
      subst matrix. discriminate. }
    destruct (Part001.isRunwayExtension a); [apply orFallback_some|].
    destruct (Part001.pricingAggressiveness a); apply orFallback_some. }
  destruct Hsel as [sel ->]. eauto.
Qed.

(** ** Share mechanics of part_001: C7 and C9 *)

Lemma useDollarBased_of_raise (a : Part001.IPOAssumptions.t) (d : Q) :
  Part001.IPOAssumptions.primaryDollarRaiseM a = Some d -> 0 < d ->
  Part001.useDollarBased a = true.
Proof.
  intros Hd Hpos. unfold Part001.useDollarBased, Part001.primaryDollarRaiseM.
  rewrite Hd. now apply gtb_lt.
Qed.

Lemma raise_of_useDollarBased (a : Part001.IPOAssumptions.t) :
  Part001.useDollarBased a = true ->
  exists d, Part001.IPOAssumptions.primaryDollarRaiseM a = Some d /\ 0 < d.
Proof.
  unfold Part001.useDollarBased, Part001.primaryDollarRaiseM.
  destruct (Part001.IPOAssumptions.primaryDollarRaiseM a) as [d|]; [|discriminate].
  intro H. exists d. split; [reflexivity|now apply gtb_lt].
Qed.

Lemma dollar_primary (a : Part001.IPOAssumptions.t) (d p : Q) :
  Part001.IPOAssumptions.primaryDollarRaiseM a = Some d -> 0 < d ->
  Part001.sharesSoldPrimary a p = d / p.
Proof.
  intros Hd Hpos. unfold Part001.sharesSoldPrimary.
  rewrite (useDollarBased_of_raise a d Hd Hpos).
  unfold Part001.primaryDollarRaiseM. now rewrite Hd.
Qed.

Lemma dollar_greenshoe (a : Part001.IPOAssumptions.t) (d p : Q) :
  Part001.IPOAssumptions.primaryDollarRaiseM a = Some d -> 0 < d ->
  Part001.sharesSoldGreenshoe a p = d / p * JS.or_else (Part001.greenshoePercent a) 0.
Proof.
  intros Hd Hpos. unfold Part001.sharesSoldGreenshoe.
  rewrite (useDollarBased_of_raise a d Hd Hpos).
  now rewrite (dollar_primary a d p Hd Hpos).
Qed.

Lemma dollar_secondary (a : Part001.IPOAssumptions.t) (d p : Q) :
  Part001.IPOAssumptions.primaryDollarRaiseM a = Some d -> 0 < d ->
  Part001.sharesSoldSecondary a p = JS.or_else (Part001.secondaryDollarRaiseM a) 0 / p.
Proof.
  intros Hd Hpos. unfold Part001.sharesSoldSecondary.
  now rewrite (useDollarBased_of_raise a d Hd Hpos).
Qed.

(** In share mode the share counts do not depend on the price. *)
Lemma share_total_const (a : Part001.IPOAssumptions.t) (p q : Q) :
  Part001.useDollarBased a = false ->
  Part001.totalSharesSold a p = Part001.totalSharesSold a q.
Proof.
  intro H.
  unfold Part001.totalSharesSold, Part001.sharesSoldGreenshoe, Part001.sharesSoldSecondary,
    Part001.sharesSoldPrimary.
  now rewrite H.
Qed.

Lemma share_gross (a : Part001.IPOAssumptions.t) (p : Q) :
  Part001.grossProceedsM a p == p * Part001.totalSharesSold a p.
Proof.
  unfold Part001.grossProceedsM, Part001.primaryProceedsM, Part001.secondaryProceedsM,
    Part001.totalSharesSold.
  ring.
Qed.

Lemma div_decreasing (d p q : Q) : 0 < d -> 0 < p -> p < q -> d / q < d / p.
Proof.
  intros Hd Hp Hpq.
  assert (Hq : 0 < q) by lra.
  unfold Qdiv. apply Qmult_lt_l; [exact Hd|].
  now apply -> Qinv_lt_contravar.
Qed.

(** C7.  With a dollar-denominated primary raise of [d], every row of the
    matrix has [d / offerPrice] primary shares, computed from that row's own
    price; and in the row at $20 of a deal with 100M pre-IPO shares, a $200M
    raise and no greenshoe, there are 10M primary shares and the dilution is
    10/(100+10). *)
Theorem dollar_raise_primary_shares
        (Math_log : Q -> Q) (a : Part001.IPOAssumptions.t)
        (res : Part001.Result.t) (r : Part001.PricingRow.t) (d : Q) :
  Part001.IPOAssumptions.primaryDollarRaiseM a = Some d -> 0 < d ->
  Part001.calculateIPOPricing Math_log a = Some res ->
  In r (Part001.Result.pricingMatrix res) ->
  Part001.PricingRow.sharesSoldPrimary r == d / Part001.PricingRow.offerPrice r
  /\ (Part001.IPOAssumptions.sharesOutstandingPreIPO a == 100 ->
      d == 200 ->
      JS.or_else (Part001.IPOAssumptions.greenshoePercent a) 0 == 0 ->
      Part001.PricingRow.offerPrice r == 20 ->
      Part001.PricingRow.sharesSoldPrimary r == 10
      /\ Part001.PricingRow.dilutionPercent r == 10 / (100 + 10)).
Proof.
  intros Hd Hpos Hres Hin.
  destruct (matrix_rows Math_log a res r Hres Hin) as (p & -> & Hp).
  simpl. rewrite (dollar_primary a d p Hd Hpos).
  split; [reflexivity|].
  intros Hpre H200 Hgs H20.
  assert (Hprim : d / p == 10) by (rewrite H200, H20; reflexivity).
  split; [exact Hprim|].
  unfold Part001.dilutionPercent, Part001.fdSharesPostIPO, Part001.dilutiveShares.
  rewrite (dollar_primary a d p Hd Hpos), (dollar_greenshoe a d p Hd Hpos).
  unfold Part001.greenshoePercent, Part001.sharesOutstandingPreIPO.
  rewrite Hgs, Hpre, Hprim. reflexivity.
Qed.

(** C9, as amended.  For two rows of one matrix with increasing offer
    prices: in share mode, when shares are sold at all, the gross proceeds
    increase strictly; in dollar mode the primary share count decreases
    strictly, and the gross proceeds of a row, which the code computes in
    double precision as price x (dollars / price), lie within [2^-50] of
    the dollars requested (of their magnitude) at every price of the
    matrix; they need not be the same number in every row. *)
Theorem proceeds_monotone
        (Math_log : Q -> Q) (a : Part001.IPOAssumptions.t)
        (res : Part001.Result.t) (r1 r2 : Part001.PricingRow.t) :
  Part001.calculateIPOPricing Math_log a = Some res ->
  In r1 (Part001.Result.pricingMatrix res) ->
  In r2 (Part001.Result.pricingMatrix res) ->
  Part001.PricingRow.offerPrice r1 < Part001.PricingRow.offerPrice r2 ->
  (Part001.useDollarBased a = false ->
   0 < Part001.PricingRow.totalSharesSold r1 ->
   Part001.PricingRow.grossProceedsM r1 < Part001.PricingRow.grossProceedsM r2)
  /\ (Part001.useDollarBased a = true ->
      Part001.PricingRow.sharesSoldPrimary r2 < Part001.PricingRow.sharesSoldPrimary r1
      /\ forall prices p,
          Part001Binary64.offerPrices a = Some prices -> In p prices ->
          Qabs (Part001Binary64.grossProceedsM a p - Part001Binary64.dollarsRequested a)
          <= Binary64.pow2 (-50) * Part001Binary64.dollarsMagnitude a).
Proof.
  intros Hres Hin1 Hin2.
  destruct (matrix_rows Math_log a res r1 Hres Hin1) as (p1 & -> & Hp1).
  destruct (matrix_rows Math_log a res r2 Hres Hin2) as (p2 & -> & Hp2).
  simpl. intro Hlt. split.
  - intros Hshare Htotal.
    rewrite (share_gross a p1), (share_gross a p2).
    rewrite (share_total_const a p2 p1 Hshare).
    apply Qmult_lt_r; assumption.
  - intro Hdollar.
    destruct (raise_of_useDollarBased a Hdollar) as (d & Hd & Hpos).
    split.
    + rewrite (dollar_primary a d p1 Hd Hpos), (dollar_primary a d p2 Hd Hpos).
      now apply div_decreasing.
    + intros prices p Hprices Hp.
      apply dollar_gross_close; [exact Hdollar|].
      pose proof (offerPrices64_positive a prices p Hprices Hp). lra.
Qed.

Lemma dollar_raise_primary_shares_witness :
  Part001.PricingRow.sharesSoldPrimary
    (Part001.pricingRow JS.ln_series Samples.scenarioA 20) == 10
  /\ Part001.PricingRow.dilutionPercent
       (Part001.pricingRow JS.ln_series Samples.scenarioA 20) == 10 / (100 + 10).
Proof.
  assert (Hres : Part001.calculateIPOPricing JS.ln_series Samples.scenarioA
                 = Some (Samples.resultOf Samples.scenarioA))
    by (vm_compute; reflexivity).
  assert (Hin : In (Part001.pricingRow JS.ln_series Samples.scenarioA 20)
                   (Part001.Result.pricingMatrix (Samples.resultOf Samples.scenarioA)))
    by (vm_compute; auto 10).
  destruct (dollar_raise_primary_shares JS.ln_series Samples.scenarioA _ _ 200
              eq_refl ltac:(reflexivity) Hres Hin) as [_ H].
  apply H; reflexivity.
Defined.

Lemma proceeds_monotone_witness :
  Part001.PricingRow.grossProceedsM (Part001.pricingRow JS.ln_series Samples.shareDeal 18)
  < Part001.PricingRow.grossProceedsM (Part001.pricingRow JS.ln_series Samples.shareDeal 19)
  /\ Part001.PricingRow.sharesSoldPrimary (Part001.pricingRow JS.ln_series Samples.scenarioA 22)
     < Part001.PricingRow.sharesSoldPrimary (Part001.pricingRow JS.ln_series Samples.scenarioA 18)
  /\ Qabs (Part001Binary64.grossProceedsM Samples.scenarioA 22 - 200)
     <= Binary64.pow2 (-50) * 200.
Proof.
  split.
  - refine (proj1 (proceeds_monotone JS.ln_series Samples.shareDeal
                     (Samples.resultOf Samples.shareDeal) _ _ _ _ _ _) _ _).
    + vm_compute; reflexivity.
    + vm_compute; auto 10.
    + vm_compute; auto 10.
    + reflexivity.
    + reflexivity.
    + reflexivity.
  - assert (Hres : Part001.calculateIPOPricing JS.ln_series Samples.scenarioA
                   = Some (Samples.resultOf Samples.scenarioA))
      by (vm_compute; reflexivity).
    assert (Hin1 : In (Part001.pricingRow JS.ln_series Samples.scenarioA 18)
                      (Part001.Result.pricingMatrix (Samples.resultOf Samples.scenarioA)))
      by (vm_compute; auto 10).
    assert (Hin2 : In (Part001.pricingRow JS.ln_series Samples.scenarioA 22)
                      (Part001.Result.pricingMatrix (Samples.resultOf Samples.scenarioA)))
      by (vm_compute; auto 10).
    assert (Hlt : Part001.PricingRow.offerPrice
                    (Part001.pricingRow JS.ln_series Samples.scenarioA 18)
                  < Part001.PricingRow.offerPrice
                      (Part001.pricingRow JS.ln_series Samples.scenarioA 22))
      by reflexivity.
    destruct (proj2 (proceeds_monotone JS.ln_series Samples.scenarioA _ _ _
                       Hres Hin1 Hin2 Hlt) eq_refl) as [Hshares Hclose].
    split; [exact Hshares|].
    apply (Hclose [18; 19; 20; 21; 22] 22).
    + vm_compute; reflexivity.
    + simpl; auto 10.
Defined.

(** C9 as stated fails in dollar mode: in Scenario A (a $200M raise filed
    at $18 to $22) the code divides 200 by the price and multiplies the
    quotient by the price again, in double precision.  The rows at $18 to
    $21 get 200 back; the row at $22 gets 200 + 2^-45, which prints as
    200.00000000000003: 200 / 22 is rounded up to the next double, and 22
    times that is nearer to 200 + 2^-45 than to 200. *)
Lemma dollar_proceeds_differ_between_rows :
  Part001.useDollarBased Samples.scenarioA = true
  /\ Part001Binary64.offerPrices Samples.scenarioA = Some [18; 19; 20; 21; 22]
  /\ Part001Binary64.grossProceedsM Samples.scenarioA 21 == 200
  /\ Part001Binary64.grossProceedsM Samples.scenarioA 22 == 200 + Binary64.pow2 (-45)
  /\ ~ Part001Binary64.grossProceedsM Samples.scenarioA 21
       == Part001Binary64.grossProceedsM Samples.scenarioA 22.
Proof.
  split; [reflexivity|].
  split; [vm_compute; reflexivity|].
  split; [vm_compute; reflexivity|].
  split; [vm_compute; reflexivity|].
  vm_compute. discriminate.
Qed.

(** *** The orderings of C9 in double precision *)

(** In dollar mode the primary share count, a rounded quotient, decreases
    strictly from row to row of the double-precision matrix, for a range
    below [2^49]. *)
Lemma dollar_shares_decrease_binary64
      (a : Part001.IPOAssumptions.t) (prices : list Q) (p1 p2 : Q) :
  Part001.useDollarBased a = true ->
  JS.default (Part001.indicatedPriceRangeHigh a) 0 <= Binary64.pow2 49 ->
  Part001Binary64.offerPrices a = Some prices ->
  In p1 prices -> In p2 prices -> p1 < p2 ->
  Part001Binary64.sharesSoldPrimary a p2 < Part001Binary64.sharesSoldPrimary a p1.
Proof.
  intros Hdollar Hhi Hprices H1 H2 Hlt.
  assert (Hhi' : JS.default (Part001.indicatedPriceRangeHigh a) 0 + 1 <= Binary64.pow2 52).
  { assert (E : Binary64.pow2 49 + 1 <= Binary64.pow2 52) by (vm_compute; discriminate). lra. }
  destruct (offerPrices64_spaced a prices p1 p2 Hhi' Hprices H1 H2 Hlt) as (Hp1 & Hgap & Hp2).
  destruct (raise_of_useDollarBased a Hdollar) as (d & Hd & Hpos).
  unfold Part001Binary64.sharesSoldPrimary. rewrite Hdollar.
  unfold Part001.primaryDollarRaiseM. rewrite Hd. simpl JS.default.
  unfold Binary64.div.
  assert (Hq1 : 0 < d / p1) by (apply Qlt_shift_div_l; lra).
  assert (Hq2 : 0 < d / p2) by (apply Qlt_shift_div_l; lra).
  pose proof (round_error (d / p1)) as Hr1. pose proof (round_error (d / p2)) as Hr2.
  rewrite (Qabs_pos (d / p1)) in Hr1 by lra. rewrite (Qabs_pos (d / p2)) in Hr2 by lra.
  apply Qabs_Qle_condition in Hr1. apply Qabs_Qle_condition in Hr2.
  assert (E1 : d / p1 * p1 == d) by (field; lra).
  assert (E2 : d / p2 * p2 == d) by (field; lra).
  set (x1 := d / p1) in *. set (x2 := d / p2) in *.
  set (u := Binary64.epsilon) in *.
  assert (Hu : u == 1 # 9007199254740992) by reflexivity.
  assert (H50 : Binary64.pow2 49 == 562949953421312) by reflexivity.
  assert (Hkey : x2 * (1 + u) < x1 * (1 - u)).
  { assert (Hp : p1 * (1 + u) < p2 * (1 - u)) by nra.
    assert (Hx : x2 * p2 * (p1 * (1 + u)) < x1 * p1 * (p2 * (1 - u))).
    { rewrite E1, E2. apply Qmult_lt_l; assumption. }
    assert (Hpp : 0 < p1 * p2) by nra.
    destruct (Qlt_le_dec (x2 * (1 + u)) (x1 * (1 - u))) as [Hok|Hno]; [exact Hok|exfalso].
    assert (Hm : x1 * (1 - u) * (p1 * p2) <= x2 * (1 + u) * (p1 * p2)).
    { apply Qmult_le_compat_r; lra. }
    assert (Ea : x2 * p2 * (p1 * (1 + u)) == x2 * (1 + u) * (p1 * p2)) by ring.
    assert (Eb : x1 * p1 * (p2 * (1 - u)) == x1 * (1 - u) * (p1 * p2)) by ring.
    lra. }
  lra.
Qed.

(** In share mode the gross proceeds increase strictly from row to row of
    the double-precision matrix, when the share counts are not negative,
    shares are sold at all and the range lies below [2^49]. *)
Lemma share_proceeds_increase_binary64
      (a : Part001.IPOAssumptions.t) (prices : list Q) (p1 p2 : Q) :
  Part001.useDollarBased a = false ->
  JS.default (Part001.indicatedPriceRangeHigh a) 0 <= Binary64.pow2 49 ->
  0 <= Part001Binary64.sharesSoldPrimary a p1 ->
  0 <= Part001Binary64.sharesSoldSecondary a p1 ->
  0 <= Part001Binary64.sharesSoldGreenshoe a p1 ->
  0 < Part001Binary64.totalSharesSold a p1 ->
  Part001Binary64.offerPrices a = Some prices ->
  In p1 prices -> In p2 prices -> p1 < p2 ->
  Part001Binary64.grossProceedsM a p1 < Part001Binary64.grossProceedsM a p2.
Proof.
  intros Hshare Hhi Hprim Hsec Hgs Htotal Hprices H1 H2 Hlt.
  assert (Hhi' : JS.default (Part001.indicatedPriceRangeHigh a) 0 + 1 <= Binary64.pow2 52).
  { assert (E : Binary64.pow2 49 + 1 <= Binary64.pow2 52) by (vm_compute; discriminate). lra. }
  destruct (offerPrices64_spaced a prices p1 p2 Hhi' Hprices H1 H2 Hlt) as (Hp1 & Hgap & Hp2).
  revert Hprim Hsec Hgs Htotal.
  unfold Part001Binary64.grossProceedsM, Part001Binary64.primaryProceedsM,
    Part001Binary64.secondaryProceedsM, Part001Binary64.totalSharesSold,
    Part001Binary64.sharesSoldGreenshoe, Part001Binary64.sharesSoldSecondary,
    Part001Binary64.sharesSoldPrimary.
  rewrite Hshare.
  set (prim := JS.or_else (Part001.inputPrimaryShares a) 0).
  set (sec := JS.or_else (Some (Part001.inputSecondaryShares a)) 0).
  set (gs := JS.or_else (Part001.inputGreenshoeShares a)
                        (Binary64.mul prim (JS.or_else (Part001.greenshoePercent a) 0))).
  unfold Binary64.add.
  intros Hprim Hsec Hgs Htotal.
  set (A := Binary64.round (prim + gs)).
  assert (HA : 0 <= A) by (apply round_nonneg; lra).
  assert (HS : 0 < A + sec).
  { destruct (Qlt_le_dec 0 (A + sec)) as [Hok|Hno]; [exact Hok|exfalso].
    assert (HA0 : A == 0) by lra. assert (Hs0 : sec == 0) by lra.
    assert (Hpg : prim + gs == 0).
    { destruct (Qlt_le_dec 0 (prim + gs)) as [Hc|Hc]; [|lra].
      pose proof (round_pos _ Hc) as Hrp. fold A in Hrp. lra. }
    assert (Er : Binary64.round (prim + sec) == 0).
    { unfold Binary64.round.
      assert (Eb : Qeq_bool (prim + sec) 0 = true) by (apply Qeq_bool_iff; lra).
      rewrite Eb. reflexivity. }
    unfold Binary64.round at 1 in Htotal.
    assert (Eb : Qeq_bool (Binary64.round (prim + sec) + gs) 0 = true)
      by (apply Qeq_bool_iff; lra).
    rewrite Eb in Htotal. lra. }
  assert (Hw : forall p, 0 < p ->
             Qabs (Binary64.round (Binary64.mul p A + Binary64.mul p sec)
                   - p * (A + sec))
             <= Binary64.pow2 (-51) * (p * (A + sec))).
  { intros p Hp. unfold Binary64.mul.
    assert (W1 : Binary64.withinRoundings 1 (Binary64.round (p * A)) (p * A) (p * A)).
    { apply withinRoundings_round, withinRoundings_exact.
      rewrite Qabs_pos; [apply Qle_refl|]. apply Qmult_le_0_compat; lra. }
    assert (W2 : Binary64.withinRoundings 1 (Binary64.round (p * sec)) (p * sec) (p * sec)).
    { apply withinRoundings_round, withinRoundings_exact.
      rewrite Qabs_pos; [apply Qle_refl|]. apply Qmult_le_0_compat; lra. }
    pose proof (withinRoundings_round 1 _ _ _ (withinRoundings_add 1 _ _ _ _ _ _ W1 W2))
      as [_ W].
    pose proof two_roundings as H2r.
    assert (E : p * A + p * sec == p * (A + sec)) by ring.
    rewrite E in W.
    assert (Hnn : 0 <= p * (A + sec)) by (apply Qmult_le_0_compat; lra).
    nra. }
  pose proof (Hw p1 Hp1) as W1. pose proof (Hw p2 ltac:(lra)) as W2.
  apply Qabs_Qle_condition in W1. apply Qabs_Qle_condition in W2.
  set (S := A + sec) in *.
  set (v := Binary64.pow2 (-51)) in *.
  assert (Hv : v == 1 # 2251799813685248) by reflexivity.
  assert (H49 : Binary64.pow2 49 == 562949953421312) by reflexivity.
  assert (Hkey : p1 * S + v * (p1 * S) < p2 * S - v * (p2 * S)).
  { assert (Hp : p1 + v * p1 < p2 - v * p2) by nra.
    assert (Hm : (p1 + v * p1) * S < (p2 - v * p2) * S).
    { apply Qmult_lt_compat_r; assumption. }
    lra. }
  lra.
Qed.

(** ** Investor drop-off in part_001: C6 *)

Lemma dropOffStep_eq (p : Q) (st : list string * Q) (o : Part001.NotableOrder.t) :
  Part001.dropOffStep p st o
  = if nonzeroMaxPriceBelow p o
    then (fst st ++ [Part001.NotableOrder.investorName o],
          snd st + Part001.NotableOrder.indicatedSizeM o)
    else st.
Proof.
  unfold Part001.dropOffStep, nonzeroMaxPriceBelow, JS.gtb.
  now destruct (Part001.NotableOrder.maxPrice o).
Qed.

Lemma dropOffStep_fold_names (p : Q) (orders : list Part001.NotableOrder.t)
      (names : list string) (lost : Q) :
  fst (fold_left (Part001.dropOffStep p) orders (names, lost))
  = names ++ map Part001.NotableOrder.investorName (filter (nonzeroMaxPriceBelow p) orders).
Proof.
  revert names lost. induction orders as [|o orders IH]; intros names lost.
  - simpl. now rewrite app_nil_r.
  - cbn [fold_left filter]. rewrite dropOffStep_eq.
    destruct (nonzeroMaxPriceBelow p o); cbn [fst snd map]; [|apply IH].
    rewrite IH, <- app_assoc. reflexivity.
Qed.

Lemma dropOffStep_fold_lost (p : Q) (orders : list Part001.NotableOrder.t)
      (names : list string) (lost : Q) :
  snd (fold_left (Part001.dropOffStep p) orders (names, lost))
  == lost + sumIndicatedSizes (filter (nonzeroMaxPriceBelow p) orders).
Proof.
  revert names lost. induction orders as [|o orders IH]; intros names lost.
  - cbn [fold_left filter snd sumIndicatedSizes fold_right]. ring.
  - cbn [fold_left filter]. rewrite dropOffStep_eq.
    destruct (nonzeroMaxPriceBelow p o); cbn [fst snd]; [|apply IH].
    rewrite IH.
    change (sumIndicatedSizes (o :: filter (nonzeroMaxPriceBelow p) orders))
      with (Part001.NotableOrder.indicatedSizeM o
            + sumIndicatedSizes (filter (nonzeroMaxPriceBelow p) orders)).
    ring.
Qed.

(** C6, as amended.  In every row of the matrix the investors dropping are
    the named investors whose stated maximum price is not 0 and is below the
    row's offer price, the demand lost is the sum of their indicated sizes,
    and the effective oversubscription is raw * (1 - lost / (gross * raw))
    when both the demand lost and the gross proceeds are positive, and the
    raw oversubscription otherwise; no floor is applied. *)
Theorem dropoff_effective_oversubscription
        (Math_log : Q -> Q) (a : Part001.IPOAssumptions.t)
        (res : Part001.Result.t) (r : Part001.PricingRow.t) :
  Part001.calculateIPOPricing Math_log a = Some res ->
  In r (Part001.Result.pricingMatrix res) ->
  let dropping :=
    filter (nonzeroMaxPriceBelow (Part001.PricingRow.offerPrice r)) (Part001.notableOrders a) in
  Part001.PricingRow.investorsDropping r = map Part001.NotableOrder.investorName dropping
  /\ Part001.PricingRow.demandLostM r == sumIndicatedSizes dropping
  /\ (0 < Part001.PricingRow.demandLostM r ->
      0 < Part001.PricingRow.grossProceedsM r ->
      Part001.PricingRow.effectiveOversubscription r
      == Part001.PricingRow.oversubscription r
         * (1 - Part001.PricingRow.demandLostM r
                / (Part001.PricingRow.grossProceedsM r * Part001.PricingRow.oversubscription r)))
  /\ (Part001.PricingRow.demandLostM r <= 0 \/ Part001.PricingRow.grossProceedsM r <= 0 ->
      Part001.PricingRow.effectiveOversubscription r = Part001.PricingRow.oversubscription r).
Proof.
  intros Hres Hin.
  destruct (matrix_rows Math_log a res r Hres Hin) as (p & -> & Hp).
  simpl. repeat split.
  - unfold Part001.investorsDropping, Part001.dropOff.
    now rewrite dropOffStep_fold_names.
  - unfold Part001.demandLostM, Part001.dropOff.
    rewrite dropOffStep_fold_lost. ring.
  - intros Hlost Hgross. unfold Part001.effectiveOversubscription.
    apply gtb_lt in Hlost. apply gtb_lt in Hgross. rewrite Hlost, Hgross. reflexivity.
  - intros Hor. unfold Part001.effectiveOversubscription.
    destruct Hor as [H|H]; apply gtb_ge in H; rewrite H;
      [reflexivity|now rewrite andb_false_r].
Qed.

(** On the deal [Samples.dropOffDeal] at $18: the $500M order capped at $17
    drops, the order capped at $30 stays, and the effective oversubscription
    2 * (1 - 500 / (180 * 2)) is negative. *)
Lemma dropoff_effective_oversubscription_witness :
  let r := Part001.pricingRow JS.ln_series Samples.dropOffDeal 18 in
  Part001.PricingRow.investorsDropping r = ["Anchor"%string]
  /\ Part001.PricingRow.demandLostM r == 500
  /\ Part001.PricingRow.effectiveOversubscription r == 2 * (1 - 500 / (180 * 2))
  /\ Part001.PricingRow.effectiveOversubscription r < 0.
Proof.
  intro r.
  assert (Hres : Part001.calculateIPOPricing JS.ln_series Samples.dropOffDeal
                 = Some (Samples.resultOf Samples.dropOffDeal))
    by (vm_compute; reflexivity).
  assert (Hin : In r (Part001.Result.pricingMatrix (Samples.resultOf Samples.dropOffDeal)))
    by (vm_compute; auto 10).
  destruct (dropoff_effective_oversubscription JS.ln_series Samples.dropOffDeal _ r Hres Hin)
    as (Hnames & Hlost & Heff & _).
  split; [exact Hnames|].
  split; [rewrite Hlost; reflexivity|].
  assert (Hval : Part001.PricingRow.effectiveOversubscription r == 2 * (1 - 500 / (180 * 2))).
  { rewrite Heff; reflexivity. }
  split; [exact Hval|].
  rewrite Hval. reflexivity.
Defined.

(** C6 as stated fails on a stated maximum price of 0: at $20 the investor's
    maximum (0) is below the offer price, yet nobody drops and no demand is
    lost, where C6 as stated has $75M lost. *)
Lemma zero_max_price_not_excluded :
  let r := Part001.pricingRow JS.ln_series Samples.zeroMaxPriceDeal 20 in
  In r (Part001.Result.pricingMatrix (Samples.resultOf Samples.zeroMaxPriceDeal))
  /\ filter (maxPriceBelow (Part001.PricingRow.offerPrice r))
            (Part001.notableOrders Samples.zeroMaxPriceDeal)
     = [Samples.order "Fidelity" 75 (Some 0)]
  /\ Part001.PricingRow.investorsDropping r = []
  /\ Part001.PricingRow.demandLostM r == 0
  /\ ~ Part001.PricingRow.demandLostM r
       == sumIndicatedSizes
            (filter (maxPriceBelow (Part001.PricingRow.offerPrice r))
                    (Part001.notableOrders Samples.zeroMaxPriceDeal)).
Proof.
  intro r.
  split; [vm_compute; auto 10|].
  split; [reflexivity|].
  split; [reflexivity|].
  split; [reflexivity|].
  vm_compute. discriminate.
Qed.

(** ** The book-quality term: C8 *)

Lemma hasExplicitOrderBook_supplied (a : Part001.IPOAssumptions.t) :
  Part001.hasExplicitOrderBook a = orderBookSupplied a.
Proof.
  unfold Part001.hasExplicitOrderBook, Part001.sortedOrderBook, Part001.orderBook,
    orderBookSupplied.
  destruct (Part001.IPOAssumptions.orderBook a) as [[|t book]|]; try reflexivity.
  destruct (JS.sort _ (t :: book)) as [|t' sorted] eqn:E; [|reflexivity].
  apply (proj1 (sort_nil_iff Part001.OrderBookEntry.priceLevel (t :: book))) in E.
  discriminate.
Qed.

(** In every row of the matrix of part_001 the book-quality term is
    [Math.log] of the effective oversubscription when a sector benchmark and
    an order book were supplied and the effective oversubscription is
    positive and not 1; it is 0 when no order book was supplied, when no
    sector benchmark was supplied (no adjusted return is computed then),
    and when the effective oversubscription is 1 or is not positive, where
    no logarithm exists. *)
Lemma part001_book_quality_term
        (Math_log : Q -> Q) (a : Part001.IPOAssumptions.t)
        (res : Part001.Result.t) (r : Part001.PricingRow.t) :
  Part001.calculateIPOPricing Math_log a = Some res ->
  In r (Part001.Result.pricingMatrix res) ->
  (Part001.hasUserProvidedPopData a = true ->
   orderBookSupplied a = true ->
   0 < Part001.PricingRow.effectiveOversubscription r ->
   ~ Part001.PricingRow.effectiveOversubscription r == 1 ->
   Part001.PricingRow.bookQualityAdjustment r
   = Math_log (Part001.PricingRow.effectiveOversubscription r))
  /\ (orderBookSupplied a = false -> Part001.PricingRow.bookQualityAdjustment r = 0)
  /\ (Part001.hasUserProvidedPopData a = false ->
      Part001.PricingRow.bookQualityAdjustment r = 0)
  /\ (Part001.PricingRow.effectiveOversubscription r <= 0 ->
      Part001.PricingRow.bookQualityAdjustment r = 0)
  /\ (Part001.PricingRow.effectiveOversubscription r == 1 ->
      Part001.PricingRow.bookQualityAdjustment r = 0).
Proof.
  intros Hres Hin.
  destruct (matrix_rows Math_log a res r Hres Hin) as (p & -> & Hp).
  simpl. unfold Part001.bookQualityAdjustment.
  rewrite hasExplicitOrderBook_supplied.
  repeat split.
  - intros -> -> Hpos Hne. apply gtb_lt in Hpos. rewrite Hpos.
    destruct (Qeq_bool (Part001.effectiveOversubscription a p) 1) eqn:E; [|reflexivity].
    apply Qeq_bool_iff in E. contradiction.
  - intros ->. now rewrite andb_false_r.
  - intros ->. reflexivity.
  - intro Hle. apply gtb_ge in Hle. rewrite Hle.
    now rewrite andb_false_r, andb_false_r.
  - intro Heq. apply Qeq_bool_iff in Heq. rewrite Heq.
    now rewrite !andb_false_r.
Qed.

(** The copy in server/services/ipoPricingService.ts has another rule: a
    linear penalty below 5x, a capped bonus above 20x. *)
Lemma iposvc_book_quality_rule (a : IpoPricingService.IPOAssumptions.t) (p : Q) :
  let o := IpoPricingService.oversubscription a p in
  (o < 5 -> IpoPricingService.bookQualityAdjustment a p = (5 - o) * - (3 # 100))
  /\ (20 < o ->
      IpoPricingService.bookQualityAdjustment a p
      = JS.Math_min (10 # 100) ((o - 20) * (5 # 1000)))
  /\ (5 <= o -> o <= 20 -> IpoPricingService.bookQualityAdjustment a p = 0).
Proof.
  intro o. unfold IpoPricingService.bookQualityAdjustment. fold o.
  repeat split.
  - intro H. apply ltb_lt in H. now rewrite H.
  - intro H. assert (H5 : 5 <= o) by lra.
    apply ltb_ge in H5. apply gtb_lt in H. now rewrite H5, H.
  - intros H5 H20. apply ltb_ge in H5. apply gtb_ge in H20. now rewrite H5, H20.
Qed.

(** Without an order book that copy takes the oversubscription to be 1 and
    the term is -0.12 in every row, not 0. *)
Lemma iposvc_book_quality_without_book (a : IpoPricingService.IPOAssumptions.t) (p : Q) :
  IpoPricingService.IPOAssumptions.orderBook a = None ->
  IpoPricingService.bookQualityAdjustment a p == - (12 # 100).
Proof.
  intro H.
  unfold IpoPricingService.bookQualityAdjustment, IpoPricingService.oversubscription,
    IpoPricingService.orderBookLookup, IpoPricingService.sortedOrderBook,
    IpoPricingService.orderBook.
  rewrite H. reflexivity.
Qed.

(** The same with an empty order book. *)
Lemma iposvc_book_quality_empty_book (a : IpoPricingService.IPOAssumptions.t) (p : Q) :
  IpoPricingService.sortedOrderBook a = [] ->
  IpoPricingService.bookQualityAdjustment a p == - (12 # 100).
Proof.
  intro H.
  unfold IpoPricingService.bookQualityAdjustment, IpoPricingService.oversubscription,
    IpoPricingService.orderBookLookup.
  rewrite H. reflexivity.
Qed.

(** C8 at the failing input.  Given an empty order book,
    ipoPricingService.ts takes the oversubscription to be 1 and every row
    of its matrix carries a book-quality term of -0.12 = (5 - 1) x -0.03,
    where the claim has the term omitted; part_001 has 0 there at every
    price.  Given a book of 2x at $15+, the row of ipoPricingService.ts at
    $18 has a term of -0.09 = (5 - 2) x -0.03, where the claim has ln 2,
    which is positive; part_001 has [Math.log] of the effective
    oversubscription, 2, there. *)
Theorem iposvc_book_quality_is_not_the_logarithm (Math_log : Q -> Q) :
  (IpoPricingService.pricingMatrix MoreSamples.emptyBookSvc <> []
   /\ forall r, In r (IpoPricingService.pricingMatrix MoreSamples.emptyBookSvc) ->
                IpoPricingService.PricingRow.oversubscription r == 1
                /\ IpoPricingService.PricingRow.bookQualityAdjustment r == - (12 # 100))
  /\ (forall p, Part001.PricingRow.bookQualityAdjustment
                  (Part001.pricingRow Math_log MoreSamples.emptyBook001 p) = 0)
  /\ (let r := IpoPricingService.pricingRow MoreSamples.twoTimesBookSvc 18 in
      In r (IpoPricingService.pricingMatrix MoreSamples.twoTimesBookSvc)
      /\ IpoPricingService.PricingRow.oversubscription r == 2
      /\ IpoPricingService.PricingRow.bookQualityAdjustment r == - (9 # 100))
  /\ (let r := Part001.pricingRow Math_log Samples.benchmarkDeal 18 in
      Part001.PricingRow.effectiveOversubscription r == 2
      /\ Part001.PricingRow.bookQualityAdjustment r
         = Math_log (Part001.PricingRow.effectiveOversubscription r)).
Proof.
  split; [split|].
  - vm_compute. discriminate.
  - intros r Hin. unfold IpoPricingService.pricingMatrix in Hin.
    apply in_map_iff in Hin. destruct Hin as (p & <- & _). simpl. split.
    + reflexivity.
    + now apply iposvc_book_quality_empty_book.
  - split.
    + intro p. simpl. unfold Part001.bookQualityAdjustment.
      rewrite hasExplicitOrderBook_supplied.
      change (orderBookSupplied MoreSamples.emptyBook001) with false.
      now rewrite andb_false_r.
    + split.
      * split; [vm_compute; auto 20|]. split; reflexivity.
      * split; [reflexivity|].
        simpl. unfold Part001.bookQualityAdjustment.
        rewrite hasExplicitOrderBook_supplied.
        change (orderBookSupplied Samples.benchmarkDeal) with true.
        change (Part001.hasUserProvidedPopData Samples.benchmarkDeal) with true.
        assert (E : Part001.effectiveOversubscription Samples.benchmarkDeal 18 == 2)
          by reflexivity.
        assert (E1 : JS.gtb (Part001.effectiveOversubscription Samples.benchmarkDeal 18) 0
                     = true) by (apply gtb_lt; rewrite E; reflexivity).
        assert (E2 : Qeq_bool (Part001.effectiveOversubscription Samples.benchmarkDeal 18) 1
                     = false) by (vm_compute; reflexivity).
        rewrite E1, E2. reflexivity.
Qed.

(** ** Order-book lookup: C5 *)

Lemma sortedOrderBook_In (a : Part001.IPOAssumptions.t) (t : Part001.OrderBookEntry.t) :
  In t (Part001.sortedOrderBook a) <-> In t (suppliedTiers a).
Proof.
  unfold Part001.sortedOrderBook, Part001.orderBook, suppliedTiers.
  destruct (Part001.IPOAssumptions.orderBook a) as [book|]; simpl; [|tauto].
  apply (In_sort Part001.OrderBookEntry.priceLevel).
Qed.

Lemma sortedOrderBook_Descending (a : Part001.IPOAssumptions.t) :
  Descending Part001.OrderBookEntry.priceLevel (Part001.sortedOrderBook a).
Proof.
  unfold Part001.sortedOrderBook.
  destruct (Part001.orderBook a) as [book|]; [|constructor].
  apply (sort_Descending Part001.OrderBookEntry.priceLevel).
Qed.

(** The lookup of part_001.  With a non-empty book: if some tier is at or
    below the price, the row takes the oversubscription of a tier with the
    greatest level not above the price (so above every tier it takes the
    highest tier's); if every tier is above the price, it takes the
    oversubscription of a tier with the least level.  The value is always
    that of a supplied tier: nothing is interpolated or extrapolated. *)
Lemma part001_order_book_lookup (a : Part001.IPOAssumptions.t) (p : Q) :
  orderBookSupplied a = true ->
  ((exists t, In t (suppliedTiers a) /\ Part001.OrderBookEntry.priceLevel t <= p) ->
   exists t,
     In t (suppliedTiers a)
     /\ Part001.OrderBookEntry.priceLevel t <= p
     /\ (forall t', In t' (suppliedTiers a) ->
                    Part001.OrderBookEntry.priceLevel t' <= p ->
                    Part001.OrderBookEntry.priceLevel t' <= Part001.OrderBookEntry.priceLevel t)
     /\ Part001.oversubscription a p = Part001.OrderBookEntry.oversubscription t
     /\ Part001.orderBookTier a p = Part001.TierAtOrAbove (Part001.OrderBookEntry.priceLevel t))
  /\ ((forall t, In t (suppliedTiers a) -> p < Part001.OrderBookEntry.priceLevel t) ->
      exists t,
        In t (suppliedTiers a)
        /\ (forall t', In t' (suppliedTiers a) ->
                       Part001.OrderBookEntry.priceLevel t <= Part001.OrderBookEntry.priceLevel t')
        /\ Part001.oversubscription a p = Part001.OrderBookEntry.oversubscription t
        /\ Part001.orderBookTier a p = Part001.TierBelow (Part001.OrderBookEntry.priceLevel t)).
Proof.
  intro Hbook. rewrite <- hasExplicitOrderBook_supplied in Hbook.
  unfold Part001.hasExplicitOrderBook in Hbook.
  unfold Part001.oversubscription, Part001.orderBookTier, Part001.orderBookLookup.
  pose proof (sortedOrderBook_Descending a) as Hdesc.
  pose proof (sortedOrderBook_In a) as HIn.
  destruct (Part001.sortedOrderBook a) as [|top sorted] eqn:Es; [discriminate|].
  split.
  - intros (t0 & Ht0 & Hle0).
    apply HIn in Ht0.
    destruct (find_some_of_exists Part001.OrderBookEntry.priceLevel p _ t0 Ht0 Hle0)
      as [t Hfind].
    rewrite Hfind.
    destruct (find_Descending Part001.OrderBookEntry.priceLevel p _ t Hdesc Hfind)
      as (Hin & Hle & Hmax).
    exists t. split; [now apply HIn|]. split; [exact Hle|].
    split; [|split; reflexivity].
    intros t' Ht' Hle'. apply Hmax; [now apply HIn|exact Hle'].
  - intro Hall.
    destruct (find _ (top :: sorted)) as [t|] eqn:Hfind.
    { destruct (find_Descending Part001.OrderBookEntry.priceLevel p _ t Hdesc Hfind)
        as (Hin & Hle & _).
      apply HIn in Hin. specialize (Hall t Hin). lra. }
    assert (Htop : JS.gtb p (Part001.OrderBookEntry.priceLevel top) = false).
    { apply gtb_ge. apply Qlt_le_weak. apply Hall. apply HIn. now left. }
    rewrite Htop.
    destruct (last_Descending Part001.OrderBookEntry.priceLevel (top :: sorted) top Hdesc)
      as [Hin Hmin]; [discriminate|].
    exists (last (top :: sorted) top).
    split; [now apply HIn|].
    split; [|split; reflexivity].
    intros t' Ht'. apply Hmin. now apply HIn.
Qed.

(** Above every tier the lookup of part_001 takes the highest tier's value. *)
Lemma part001_above_every_tier (a : Part001.IPOAssumptions.t) (p : Q) :
  orderBookSupplied a = true ->
  (forall t, In t (suppliedTiers a) -> Part001.OrderBookEntry.priceLevel t <= p) ->
  exists t,
    In t (suppliedTiers a)
    /\ (forall t', In t' (suppliedTiers a) ->
                   Part001.OrderBookEntry.priceLevel t' <= Part001.OrderBookEntry.priceLevel t)
    /\ Part001.oversubscription a p = Part001.OrderBookEntry.oversubscription t.
Proof.
  intros Hbook Hall.
  destruct (part001_order_book_lookup a p Hbook) as [Hat _].
  assert (Hex : exists t, In t (suppliedTiers a) /\ Part001.OrderBookEntry.priceLevel t <= p).
  { unfold orderBookSupplied in Hbook. unfold suppliedTiers in *.
    destruct (Part001.IPOAssumptions.orderBook a) as [[|t0 book]|]; try discriminate.
    exists t0. split; [now left|]. apply Hall. now left. }
  destruct (Hat Hex) as (t & Hin & _ & Hmax & Hval & _).
  exists t. split; [exact Hin|]. split; [|exact Hval].
  intros t' Ht'. apply Hmax; [exact Ht'|]. now apply Hall.
Qed.

(** Scenario C in part_001: with the tiers $30+ at 5x and $25+ at 10x, an
    offer price of 27 matches the tier "$25+" and gets 10x. *)
Lemma part001_scenario_C (a : Part001.IPOAssumptions.t) :
  Part001.IPOAssumptions.orderBook a = Some [Samples.tier 30 5; Samples.tier 25 10] ->
  Part001.oversubscription a 27 = 10
  /\ Part001.orderBookTier a 27 = Part001.TierAtOrAbove 25.
Proof.
  intro H.
  unfold Part001.oversubscription, Part001.orderBookTier, Part001.orderBookLookup,
    Part001.sortedOrderBook, Part001.orderBook.
  rewrite H. split; reflexivity.
Qed.

(** The lookup of ipoPricingService.ts below every tier: the lowest tier's
    oversubscription is scaled up by 5% per dollar and rounded. *)
Lemma iposvc_lookup_below_every_tier (a : IpoPricingService.IPOAssumptions.t) (p : Q)
      (top : IpoPricingService.OrderBookEntry.t)
      (sorted : list IpoPricingService.OrderBookEntry.t) :
  IpoPricingService.sortedOrderBook a = top :: sorted ->
  (forall t, In t (top :: sorted) -> p < IpoPricingService.OrderBookEntry.priceLevel t) ->
  let lowest := last (top :: sorted) top in
  IpoPricingService.oversubscription a p
  = JS.Math_round
      (IpoPricingService.OrderBookEntry.oversubscription lowest
       * (1 + (IpoPricingService.OrderBookEntry.priceLevel lowest - p) * (5 # 100))).
Proof.
  intros Hs Hall lowest.
  unfold IpoPricingService.oversubscription, IpoPricingService.orderBookLookup.
  rewrite Hs.
  destruct (find _ (top :: sorted)) as [t|] eqn:Hfind.
  - apply find_some in Hfind. destruct Hfind as [Hin Hge].
    apply geb_le in Hge. specialize (Hall t Hin). lra.
  - reflexivity.
Qed.

(** C5 at the failing input.  On the tiers $30+ at 5x and $25+ at 10x the
    matrix of ipoPricingService.ts has a row at $22, below every tier, whose
    oversubscription is 12 = round(10 * 1.15), a value of no tier; at $27
    the same engine gives 10x, and the engine of part_001 gives the lowest
    tier's 10x at $22.  And when the highest tier ($30+) is exactly 1x, the
    row at $31, above every tier, falls into the same fallback and gets
    7 = round(10 * (1 - 6 * 0.05)) instead of the highest tier's 1x. *)
Theorem iposvc_extrapolates_below_lowest_tier :
  In (IpoPricingService.pricingRow Samples.scenarioCSvc 22)
     (IpoPricingService.pricingMatrix Samples.scenarioCSvc)
  /\ IpoPricingService.PricingRow.oversubscription
       (IpoPricingService.pricingRow Samples.scenarioCSvc 22) == 12
  /\ IpoPricingService.PricingRow.orderBookTier
       (IpoPricingService.pricingRow Samples.scenarioCSvc 22)
     = IpoPricingService.TierBelow 25
  /\ IpoPricingService.PricingRow.oversubscription
       (IpoPricingService.pricingRow Samples.scenarioCSvc 27) == 10
  /\ Part001.oversubscription Samples.scenarioC 22 == 10
  /\ In (IpoPricingService.pricingRow Samples.flatTopSvc 31)
        (IpoPricingService.pricingMatrix Samples.flatTopSvc)
  /\ IpoPricingService.PricingRow.oversubscription
       (IpoPricingService.pricingRow Samples.flatTopSvc 31) == 7.
Proof.
  split; [vm_compute; auto 20|].
  split; [reflexivity|]. split; [reflexivity|]. split; [reflexivity|].
  split; [reflexivity|].
  split; [vm_compute; auto 20|].
  reflexivity.
Qed.

(** ** Enterprise value: C2 *)

(** In part_001 every row has EV = market cap + debt - post-IPO cash, the
    debt being the caller's [currentDebt] (0 when absent). *)
Lemma part001_enterprise_value
      (Math_log : Q -> Q) (a : Part001.IPOAssumptions.t)
      (res : Part001.Result.t) (r : Part001.PricingRow.t) :
  Part001.calculateIPOPricing Math_log a = Some res ->
  In r (Part001.Result.pricingMatrix res) ->
  Part001.PricingRow.enterpriseValueM r
  = Part001.PricingRow.marketCapM r + Part001.PricingRow.currentDebtM r
    - Part001.PricingRow.postIPOCashM r
  /\ Part001.PricingRow.currentDebtM r
     = JS.default (Part001.IPOAssumptions.currentDebt a) 0.
Proof.
  intros Hres Hin.
  destruct (matrix_rows Math_log a res r Hres Hin) as (p & -> & _).
  split; reflexivity.
Qed.

(** In part_000 the post-IPO enterprise value and the enterprise value of
    every scenario are market cap + post-IPO debt - post-IPO cash, and the
    valuation satisfies EV = equity value + debt - cash. *)
Lemma part000_enterprise_value (currentYear : Z) (a : Part000.IPOAssumptions.t) :
  let res := Part000.calculateIPOPricing currentYear a in
  Part000.IPOPricingResult.postIPOEnterpriseValue res
  = Part000.IPOPricingResult.marketCap res + Part000.IPOPricingResult.postIPODebt res
    - Part000.IPOPricingResult.postIPOCash res
  /\ Part000.IPOPricingResult.enterpriseValue res
     == Part000.IPOPricingResult.equityValue res
        + Part000.IPOAssumptions.currentDebt a - Part000.IPOAssumptions.currentCash a
  /\ forall s, In s (Part000.IPOPricingResult.pricingMatrix res) ->
       Part000.Scenario.enterpriseValue s
       == Part000.Scenario.marketCap s
          + Part000.IPOPricingResult.postIPODebt res
          - (Part000.IPOAssumptions.currentCash a
             + Part000.Scenario.primaryShares s * Part000.Scenario.offerPrice s * (1 - (7 # 100))
             + (Part000.Scenario.primaryShares s
                + Part000.IPOPricingResult.secondarySharesSold res)
               * Part000.IPOAssumptions.greenshoePercent a
               * Part000.Scenario.offerPrice s * (1 - (7 # 100))
             - Part000.debtRepaymentAmount a).
Proof.
  simpl. split; [reflexivity|]. split.
  - unfold Part000.equityValue, Part000.currentDebt, Part000.currentCash. ring.
  - unfold Part000.pricingMatrix. intros s [<-|[<-|[<-|[]]]]; reflexivity.
Qed.

(** In ipoPricingService.ts a row's EV is market cap - post-IPO cash: the
    input has no debt and none is added. *)
Lemma iposvc_enterprise_value (a : IpoPricingService.IPOAssumptions.t)
      (r : IpoPricingService.PricingRow.t) :
  In r (IpoPricingService.pricingMatrix a) ->
  IpoPricingService.PricingRow.enterpriseValueM r
  = IpoPricingService.PricingRow.marketCapM r - IpoPricingService.PricingRow.postIPOCashM r.
Proof.
  unfold IpoPricingService.pricingMatrix. intro Hin.
  apply in_map_iff in Hin. destruct Hin as (p & <- & _). reflexivity.
Qed.

(** In part_002 a row's EV is its market cap. *)
Lemma part002_enterprise_value (a : Part002.IPOAssumptions.t) (r : Part002.PricingRow.t) :
  In r (Part002.pricingMatrix a) ->
  Part002.PricingRow.enterpriseValue r = Part002.PricingRow.marketCap r.
Proof.
  unfold Part002.pricingMatrix. intro Hin.
  apply in_map_iff in Hin. destruct Hin as (p & <- & _). reflexivity.
Qed.

(** C2 at the failing input: one company (100M shares, 10M primary shares,
    $100M cash, $50M debt) priced at $20 by three copies of the engine.
    Market cap is 2200 and the post-IPO cash is 300 in each.  part_001
    reports EV = 2200 + 50 - 300 = 1950; ipoPricingService.ts, which cannot
    be given the debt, reports 2200 - 300 = 1900; part_002 reports the market
    cap, 2200, although the offering raises $200M. *)
Theorem legacy_copies_drop_debt_and_cash :
  let r1 := Part001.pricingRow JS.ln_series Samples.shareDeal 20 in
  let rs := IpoPricingService.pricingRow (Samples.dealSvc (Some 18) (Some 22) None) 20 in
  let r2 := Part002.pricingRow Samples.deal002 (JS.Math_round (20 * 100) / 100) in
  (In r1 (Part001.Result.pricingMatrix (Samples.resultOf Samples.shareDeal))
   /\ Part001.PricingRow.marketCapM r1 == 2200
   /\ Part001.PricingRow.postIPOCashM r1 == 300
   /\ Part001.PricingRow.currentDebtM r1 == 50
   /\ Part001.PricingRow.enterpriseValueM r1 == 2200 + 50 - 300)
  /\ (In rs (IpoPricingService.pricingMatrix (Samples.dealSvc (Some 18) (Some 22) None))
      /\ IpoPricingService.PricingRow.marketCapM rs == 2200
      /\ IpoPricingService.PricingRow.postIPOCashM rs == 300
      /\ IpoPricingService.PricingRow.enterpriseValueM rs == 1900
      /\ ~ IpoPricingService.PricingRow.enterpriseValueM rs == 2200 + 50 - 300)
  /\ (In r2 (Part002.pricingMatrix Samples.deal002)
      /\ Part002.PricingRow.offerPrice r2 == 20
      /\ Part002.PricingRow.marketCap r2 == 2200
      /\ Part002.PricingRow.grossProceeds r2 == 200
      /\ Part002.PricingRow.enterpriseValue r2 == 2200
      /\ ~ Part002.PricingRow.enterpriseValue r2 == 2200 + 50 - 300).
Proof.
  intros r1 rs r2.
  split; [|split].
  - split; [vm_compute; auto 10|]. repeat split; reflexivity.
  - split; [vm_compute; auto 10|].
    split; [reflexivity|]. split; [reflexivity|]. split; [reflexivity|].
    vm_compute. discriminate.
  - split; [vm_compute; auto 20|].
    split; [reflexivity|].
    split; [reflexivity|]. split; [reflexivity|]. split; [reflexivity|].
    vm_compute. discriminate.
Qed.

(** ** Debt repayment in part_000: C10 *)

Lemma repayment_only_in_cash_and_debt (currentYear : Z) (a : Part000.IPOAssumptions.t)
      (amount : Q) :
  Part000.netPrimaryProceeds currentYear (withDebtRepayment a amount)
  = Part000.netPrimaryProceeds currentYear a
  /\ Part000.greenshoeProceeds currentYear (withDebtRepayment a amount)
     = Part000.greenshoeProceeds currentYear a
  /\ Part000.currentCash (withDebtRepayment a amount) = Part000.currentCash a
  /\ Part000.currentDebt (withDebtRepayment a amount) = Part000.currentDebt a.
Proof. repeat split; reflexivity. Qed.

(** C10.  With a non-negative requested repayment, the post-IPO debt is
    max(0, currentDebt - repayment), never negative, and the post-IPO cash is
    the cash of the same deal without repayment minus the whole repayment;
    when the repayment exceeds the debt, debt is 0 and cash has still paid
    all of it.  Every scenario of the pricing matrix uses the same clamped
    debt and the same full deduction. *)
Theorem debt_repayment_clamps_debt_not_cash (currentYear : Z) (a : Part000.IPOAssumptions.t) :
  let repayment := Part000.debtRepaymentAmount a in
  let res := Part000.calculateIPOPricing currentYear a in
  let unpaid := Part000.calculateIPOPricing currentYear (withDebtRepayment a 0) in
  0 <= repayment ->
  Part000.IPOPricingResult.postIPODebt res
  = JS.Math_max 0 (Part000.IPOAssumptions.currentDebt a - repayment)
  /\ 0 <= Part000.IPOPricingResult.postIPODebt res
  /\ Part000.IPOPricingResult.postIPOCash res
     = Part000.IPOAssumptions.currentCash a
       + Part000.IPOPricingResult.netPrimaryProceeds res
       + Part000.IPOPricingResult.greenshoeProceeds res - repayment
  /\ Part000.IPOPricingResult.postIPOCash res
     == Part000.IPOPricingResult.postIPOCash unpaid - repayment
  /\ (repayment <= Part000.IPOAssumptions.currentDebt a ->
      Part000.IPOPricingResult.postIPODebt res
      == Part000.IPOAssumptions.currentDebt a - repayment)
  /\ (Part000.IPOAssumptions.currentDebt a < repayment ->
      Part000.IPOPricingResult.postIPODebt res == 0
      /\ Part000.IPOPricingResult.postIPOCash res
         == Part000.IPOPricingResult.postIPOCash unpaid
            - Part000.IPOAssumptions.currentDebt a
            - (repayment - Part000.IPOAssumptions.currentDebt a))
  /\ (forall s, In s (Part000.IPOPricingResult.pricingMatrix res) ->
        Part000.Scenario.enterpriseValue s
        == Part000.Scenario.marketCap s
           + JS.Math_max 0 (Part000.IPOAssumptions.currentDebt a - repayment)
           - (Part000.IPOAssumptions.currentCash a
              + Part000.Scenario.primaryShares s * Part000.Scenario.offerPrice s
                * (1 - (7 # 100))
              + (Part000.Scenario.primaryShares s
                 + Part000.IPOPricingResult.secondarySharesSold res)
                * Part000.IPOAssumptions.greenshoePercent a
                * Part000.Scenario.offerPrice s * (1 - (7 # 100))
              - repayment)).
Proof.
  intros repayment res unpaid Hnonneg.
  assert (Hcash : Part000.IPOPricingResult.postIPOCash res
                  == Part000.IPOPricingResult.postIPOCash unpaid - repayment).
  { subst res unpaid. simpl. unfold Part000.postIPOCash.
    destruct (repayment_only_in_cash_and_debt currentYear a 0) as (-> & -> & -> & _).
    change (Part000.debtRepaymentAmount (withDebtRepayment a 0)) with 0.
    fold repayment. ring. }
  split; [reflexivity|].
  split; [apply Math_max_0_nonneg|].
  split; [reflexivity|].
  split; [exact Hcash|].
  split; [|split].
  - intro Hle. subst res. simpl. unfold Part000.postIPODebt, JS.Math_max.
    fold repayment. unfold Part000.currentDebt.
    destruct (Qle_bool 0 (Part000.IPOAssumptions.currentDebt a - repayment)) eqn:E;
      [reflexivity|].
    apply leb_gt in E. lra.
  - intro Hlt. split.
    + subst res. simpl. unfold Part000.postIPODebt. fold repayment.
      apply Math_max_0_of_nonpos. unfold Part000.currentDebt. lra.
    + rewrite Hcash. ring.
  - subst res. simpl. unfold Part000.pricingMatrix.
    intros s [<-|[<-|[<-|[]]]]; reflexivity.
Qed.

Lemma debt_repayment_clamps_debt_not_cash_witness :
  let res := Part000.calculateIPOPricing 2025 Samples.overRepaymentDeal in
  let unpaid :=
    Part000.calculateIPOPricing 2025 (withDebtRepayment Samples.overRepaymentDeal 0) in
  Part000.IPOPricingResult.postIPODebt res == 0
  /\ Part000.IPOPricingResult.postIPOCash res
     == Part000.IPOPricingResult.postIPOCash unpaid - 100 - (150 - 100)
  /\ Part000.IPOPricingResult.postIPOCash unpaid == 1337 # 10
  /\ Part000.IPOPricingResult.postIPOCash res == - (163 # 10).
Proof.
  intros res unpaid.
  destruct (debt_repayment_clamps_debt_not_cash 2025 Samples.overRepaymentDeal
              ltac:(vm_compute; discriminate))
    as (_ & _ & _ & _ & _ & Hover & _).
  destruct (Hover ltac:(reflexivity)) as [Hdebt Hcash].
  split; [exact Hdebt|].
  split; [exact Hcash|].
  split; reflexivity.
Defined.

(** ** The DCF of part_000: C3 *)

(** C3, as amended.  For a mature or industrial company the engine of
    part_000 always returns a priced result with three scenarios.  The
    terminal value is terminalFCF / (wacc - terminalGrowthRate) whatever the
    sign of the spread, it enters the DCF value discounted over the
    projection years, and for a mature company that DCF value is the
    enterprise value; with wacc below the terminal growth rate and a positive
    final-year cash flow the terminal value is negative. *)
Theorem dcf_terminal_value_is_unguarded (currentYear : Z) (a : Part000.IPOAssumptions.t) :
  Part000.IPOAssumptions.companyType a = Part000.mature
  \/ Part000.IPOAssumptions.companyType a = Part000.industrial ->
  let res := Part000.calculateIPOPricing currentYear a in
  let wacc := Part000.IPOAssumptions.wacc a in
  let growth := Part000.IPOAssumptions.terminalGrowthRate a in
  List.length (Part000.IPOPricingResult.pricingMatrix res) = 3%nat
  /\ Part000.terminalValue a = Part000.terminalFCF a / (wacc - growth)
  /\ Part000.dcfEnterpriseValue a
     = Part000.pvFCF a
       + Part000.terminalValue a
         / JS.Math_pow (1 + wacc) (Z.of_nat (Part000.IPOAssumptions.projectionYears a))
  /\ (Part000.IPOAssumptions.companyType a = Part000.mature ->
      Part000.IPOPricingResult.enterpriseValue res = Part000.dcfEnterpriseValue a)
  /\ (Part000.IPOAssumptions.companyType a = Part000.industrial ->
      Part000.IPOPricingResult.enterpriseValue res = Part000.dcfEnterpriseValue a
      \/ exists comparableEV,
           Part000.IPOPricingResult.enterpriseValue res
           = JS.Math_min (Part000.dcfEnterpriseValue a) comparableEV)
  /\ (wacc < growth -> 0 < Part000.terminalFCF a -> Part000.terminalValue a < 0).
Proof.
  intros Htype res wacc growth.
  split; [reflexivity|]. split; [reflexivity|]. split; [reflexivity|].
  split; [|split].
  - intro Hm. subst res. simpl.
    unfold Part000.enterpriseValue, Part000.matureEnterpriseValue, Part000.companyType.
    now rewrite Hm.
  - intro Hi. subst res. simpl.
    unfold Part000.enterpriseValue, Part000.matureEnterpriseValue, Part000.companyType.
    rewrite Hi.
    destruct (Part000.positiveMultiples _ _) as [|m ms]; [now left|].
    destruct (JS.gtb (Part000.currentEBITDA a) 0); [right; eauto|now left].
  - intros Hspread Hfcf. unfold Part000.terminalValue.
    fold wacc growth (Part000.wacc a) (Part000.terminalGrowthRate a).
    change (Part000.wacc a) with wacc. change (Part000.terminalGrowthRate a) with growth.
    assert (Hinv : / (growth - wacc) > 0) by (apply Qinv_lt_0_compat; lra).
    assert (Heq : Part000.terminalFCF a / (wacc - growth)
                  == - (Part000.terminalFCF a * / (growth - wacc))).
    { field. lra. }
    rewrite Heq.
    assert (0 < Part000.terminalFCF a * / (growth - wacc)) by (apply Qmult_lt_0_compat; assumption).
    lra.
Qed.

Lemma dcf_terminal_value_is_unguarded_witness :
  List.length (Part000.IPOPricingResult.pricingMatrix
                 (Part000.calculateIPOPricing 2025 Samples.negativeSpreadDeal)) = 3%nat
  /\ Part000.terminalValue Samples.negativeSpreadDeal < 0.
Proof.
  destruct (dcf_terminal_value_is_unguarded 2025 Samples.negativeSpreadDeal
              (or_introl eq_refl))
    as (Hlen & _ & _ & _ & _ & Hneg).
  split; [exact Hlen|].
  apply Hneg; reflexivity.
Defined.

(** C3 as stated fails: on [Samples.negativeSpreadDeal] (mature, wacc 2%,
    terminal growth 3%) nothing is refused.  The final-year cash flow 77
    gives the terminal value 79.31 / (-0.01) = -7931 and the enterprise
    value (77 - 7931) / 1.02 = -7700, and the engine returns its three
    scenarios, a recommendation and an offer price of -69.3. *)
Lemma negative_spread_is_not_refused :
  let a := Samples.negativeSpreadDeal in
  let res := Part000.calculateIPOPricing 2025 a in
  Part000.IPOAssumptions.companyType a = Part000.mature
  /\ Part000.IPOAssumptions.wacc a <= Part000.IPOAssumptions.terminalGrowthRate a
  /\ Part000.terminalValue a == - 7931
  /\ Part000.IPOPricingResult.enterpriseValue res == - 7700
  /\ Part000.IPOPricingResult.recommendedOfferPrice res == - (693 # 10)
  /\ Part000.IPOPricingResult.pricingMatrix res <> []
  /\ map Part000.Scenario.scenario (Part000.IPOPricingResult.pricingMatrix res)
     = ["Low"; "Mid"; "High"]%string.
Proof.
  intros a res.
  split; [reflexivity|].
  split; [vm_compute; discriminate|].
  split; [reflexivity|]. split; [reflexivity|]. split; [reflexivity|].
  split; [discriminate|reflexivity].
Qed.

(** ** The ownership table of part_000: C4 *)

Lemma fold_left_sum {A : Type} (f : A -> Q) (l : list A) (acc : Q) :
  fold_left (fun s x => s + f x) l acc == acc + sumQ f l.
Proof.
  revert acc. induction l as [|x l IH]; intro acc.
  - unfold sumQ. simpl. ring.
  - cbn [fold_left]. rewrite IH.
    change (sumQ f (x :: l)) with (f x + sumQ f l). ring.
Qed.

Lemma sum_post_percent (currentYear : Z) (a : Part000.IPOAssumptions.t)
      (holders : list Part000.Shareholder.t) :
  sumQ Part000.OwnershipEntry.postIPOPercent
       (map (Part000.ownershipEntry currentYear a) holders
        ++ [Part000.publicEntry currentYear a])
  == (sumQ (Part000.postIPOHolderShares) holders + Part000.publicFloat currentYear a)
     / Part000.postIPOShares currentYear a * 100.
Proof.
  induction holders as [|h holders IH].
  - unfold sumQ. simpl. unfold Qdiv. ring.
  - cbn [map app].
    change (sumQ Part000.OwnershipEntry.postIPOPercent
              (Part000.ownershipEntry currentYear a h
               :: map (Part000.ownershipEntry currentYear a) holders
                  ++ [Part000.publicEntry currentYear a]))
      with (Part000.postIPOHolderShares h / Part000.postIPOShares currentYear a * 100
            + sumQ Part000.OwnershipEntry.postIPOPercent
                (map (Part000.ownershipEntry currentYear a) holders
                 ++ [Part000.publicEntry currentYear a])).
    rewrite IH.
    change (sumQ Part000.postIPOHolderShares (h :: holders))
      with (Part000.postIPOHolderShares h + sumQ Part000.postIPOHolderShares holders).
    unfold Qdiv. ring.
Qed.

Lemma sum_post_shares (holders : list Part000.Shareholder.t) :
  sumQ Part000.postIPOHolderShares holders
  == sumQ Part000.Shareholder.shares holders - sumQ Part000.holdersSecondarySale holders.
Proof.
  induction holders as [|h holders IH].
  - unfold sumQ. simpl. ring.
  - change (sumQ Part000.postIPOHolderShares (h :: holders))
      with (Part000.postIPOHolderShares h + sumQ Part000.postIPOHolderShares holders).
    change (sumQ Part000.Shareholder.shares (h :: holders))
      with (Part000.Shareholder.shares h + sumQ Part000.Shareholder.shares holders).
    change (sumQ Part000.holdersSecondarySale (h :: holders))
      with (Part000.holdersSecondarySale h + sumQ Part000.holdersSecondarySale holders).
    rewrite IH. unfold Part000.postIPOHolderShares. ring.
Qed.

(** The total of the post-IPO percentages, the quantity the engine checks
    against 100. *)
Lemma total_ownership_formula (currentYear : Z) (a : Part000.IPOAssumptions.t) :
  let holders := Part000.PreIPOShares.breakdown (Part000.IPOAssumptions.preIPOShares a) in
  Part000.totalOwnership currentYear a
  == (sumQ Part000.Shareholder.shares holders - sumQ Part000.holdersSecondarySale holders
      + Part000.publicFloat currentYear a)
     / Part000.postIPOShares currentYear a * 100.
Proof.
  intro holders. unfold Part000.totalOwnership, Part000.ownershipTable.
  rewrite fold_left_sum.
  fold holders. unfold Part000.preIPOShares. fold holders.
  rewrite sum_post_percent, sum_post_shares. ring.
Qed.

Lemma calculated_secondary_fold (holders : list Part000.Shareholder.t) (acc : Q) :
  fractionsNonNegative holders ->
  fold_left
    (fun acc holder =>
       match Part000.Shareholder.secondarySalePercent holder with
       | Some pct =>
           if JS.truthy pct && JS.gtb pct 0
           then acc + Part000.Shareholder.shares holder * pct
           else acc
       | None => acc
       end) holders acc
  == acc + sumQ Part000.holdersSecondarySale holders.
Proof.
  revert acc. induction holders as [|h holders IH]; intros acc Hnn.
  - unfold sumQ. simpl. ring.
  - cbn [fold_left].
    change (sumQ Part000.holdersSecondarySale (h :: holders))
      with (Part000.holdersSecondarySale h + sumQ Part000.holdersSecondarySale holders).
    rewrite IH by (intros h' x Hin; apply Hnn; now right).
    unfold Part000.holdersSecondarySale.
    destruct (Part000.Shareholder.secondarySalePercent h) as [pct|] eqn:Epct; [|ring].
    assert (Hpct : 0 <= pct) by (apply (Hnn h pct); [now left|exact Epct]).
    destruct (JS.truthy pct) eqn:Et; simpl; [|ring].
    apply truthy_neq in Et.
    assert (Hgt : JS.gtb pct 0 = true) by (apply gtb_lt; lra).
    rewrite Hgt. ring.
Qed.

(** With the sale given by holder fractions (none negative, some shares
    sold) and a breakdown that adds up to the pre-IPO total, the post-IPO
    percentages sum to 100. *)
Lemma ownership_total_with_holder_fractions (currentYear : Z) (a : Part000.IPOAssumptions.t) :
  let holders := Part000.PreIPOShares.breakdown (Part000.IPOAssumptions.preIPOShares a) in
  sumQ Part000.Shareholder.shares holders
  == Part000.PreIPOShares.total (Part000.IPOAssumptions.preIPOShares a) ->
  fractionsNonNegative holders ->
  0 < Part000.calculatedSecondaryShares a ->
  ~ Part000.postIPOShares currentYear a == 0 ->
  Part000.totalOwnership currentYear a == 100.
Proof.
  intros holders Hsum Hnn Hcalc Hpost.
  rewrite total_ownership_formula. fold holders.
  assert (Hsec : Part000.secondarySaleShares a == sumQ Part000.holdersSecondarySale holders).
  { unfold Part000.secondarySaleShares.
    apply gtb_lt in Hcalc. rewrite Hcalc.
    unfold Part000.calculatedSecondaryShares, Part000.preIPOShares. fold holders.
    rewrite (calculated_secondary_fold holders 0 Hnn). ring. }
  assert (Hnum : sumQ Part000.Shareholder.shares holders
                 - sumQ Part000.holdersSecondarySale holders
                 + Part000.publicFloat currentYear a
                 == Part000.postIPOShares currentYear a).
  { unfold Part000.publicFloat, Part000.postIPOShares, Part000.preIPOShares.
    rewrite Hsec, Hsum. ring. }
  rewrite Hnum. field. exact Hpost.
Qed.

(** With the sale given as a direct total (no holder states a fraction) the
    sold shares are counted in the public float and in their sellers' rows
    as well: the percentages sum to 100 plus the sold shares as a percentage
    of the post-IPO shares. *)
Lemma ownership_total_with_direct_total (currentYear : Z) (a : Part000.IPOAssumptions.t) :
  let holders := Part000.PreIPOShares.breakdown (Part000.IPOAssumptions.preIPOShares a) in
  sumQ Part000.Shareholder.shares holders
  == Part000.PreIPOShares.total (Part000.IPOAssumptions.preIPOShares a) ->
  (forall h, In h holders -> Part000.Shareholder.secondarySalePercent h = None) ->
  ~ Part000.postIPOShares currentYear a == 0 ->
  Part000.totalOwnership currentYear a
  == 100 + Part000.IPOAssumptions.secondarySaleShares a
           / Part000.postIPOShares currentYear a * 100.
Proof.
  intros holders Hsum Hnone Hpost.
  rewrite total_ownership_formula. fold holders.
  assert (Hnn : fractionsNonNegative holders).
  { intros h x Hin Hx. rewrite (Hnone h Hin) in Hx. discriminate. }
  assert (Hzero : sumQ Part000.holdersSecondarySale holders == 0).
  { clear Hsum Hnn. induction holders as [|h hs IH]; [reflexivity|].
    change (sumQ Part000.holdersSecondarySale (h :: hs))
      with (Part000.holdersSecondarySale h + sumQ Part000.holdersSecondarySale hs).
    rewrite IH by (intros h' Hin; apply Hnone; now right).
    unfold Part000.holdersSecondarySale. rewrite (Hnone h) by now left. ring. }
  assert (Hsec : Part000.secondarySaleShares a == Part000.IPOAssumptions.secondarySaleShares a).
  { unfold Part000.secondarySaleShares.
    assert (Hcalc : Part000.calculatedSecondaryShares a == 0).
    { unfold Part000.calculatedSecondaryShares, Part000.preIPOShares. fold holders.
      rewrite (calculated_secondary_fold holders 0 Hnn), Hzero. ring. }
    assert (Hgt : JS.gtb (Part000.calculatedSecondaryShares a) 0 = false)
      by (apply gtb_ge; rewrite Hcalc; apply Qle_refl).
    rewrite Hgt. reflexivity. }
  assert (Hnum : sumQ Part000.Shareholder.shares holders
                 - sumQ Part000.holdersSecondarySale holders
                 + Part000.publicFloat currentYear a
                 == Part000.postIPOShares currentYear a
                    + Part000.IPOAssumptions.secondarySaleShares a).
  { unfold Part000.publicFloat, Part000.postIPOShares, Part000.preIPOShares.
    rewrite Hzero, Hsum, <- Hsec. ring. }
  rewrite Hnum. field. exact Hpost.
Qed.

(** C4 at the failing input.  A founder holds 60M shares and a fund 40M;
    10M primary shares are issued and existing holders sell 20M, given as a
    direct total.  The table shows 54.5%, 36.4% and a public float of 27.3%:
    the percentages sum to 118.2, and the engine itself reports it as a
    warning.  With the same sale given as the fund selling 50% of its
    position the sum is 100. *)
Theorem direct_secondary_total_breaks_ownership_sum :
  let res := Part000.calculateIPOPricing 2025 Samples.directSecondaryDeal in
  let table := Part000.IPOPricingResult.ownershipTable res in
  Part000.IPOPricingResult.secondarySharesSold res == 20
  /\ Part000.IPOPricingResult.postIPOSharesTotal res == 110
  /\ Part000.IPOPricingResult.publicFloat res == 30
  /\ map Part000.OwnershipEntry.name table = ["Founder"; "Fund"; "Public Shareholders"]%string
  /\ sumQ Part000.OwnershipEntry.postIPOShares table == 130
  /\ sumQ Part000.OwnershipEntry.postIPOPercent table == 1300 # 11
  /\ 5 # 10 < Qabs (sumQ Part000.OwnershipEntry.postIPOPercent table - 100)
  /\ In (Part000.OwnershipSum (Part000.totalOwnership 2025 Samples.directSecondaryDeal))
        (Part000.IPOPricingResult.warnings res)
  /\ sumQ Part000.OwnershipEntry.postIPOPercent
          (Part000.IPOPricingResult.ownershipTable
             (Part000.calculateIPOPricing 2025 Samples.holderSecondaryDeal))
     == 100.
Proof.
  intros res table.
  split; [reflexivity|]. split; [reflexivity|]. split; [reflexivity|].
  split; [reflexivity|]. split; [reflexivity|]. split; [reflexivity|].
  split; [reflexivity|].
  split; [|reflexivity].
  vm_compute. auto.
Qed.

(** ** The price grid *)

Lemma Forall2_Qeq_map {A : Type} (f g : A -> Q) (l : list A) :
  (forall x, f x == g x) -> Forall2 Qeq (map f l) (map g l).
Proof.
  intro H. induction l as [|x l IH]; simpl; constructor; auto.
Qed.

Lemma Forall2_Qeq_trans (l1 l2 l3 : list Q) :
  Forall2 Qeq l1 l2 -> Forall2 Qeq l2 l3 -> Forall2 Qeq l1 l3.
Proof.
  intro H. revert l3. induction H as [|x y l1 l2 Hxy _ IH]; intros l3 H3.
  - inversion H3. constructor.
  - inversion H3 as [|y' z l2' l3' Hyz Hrest]; subst.
    constructor; [now rewrite Hxy|auto].
Qed.

Lemma Forall2_Qeq_In (l1 l2 : list Q) (x : Q) :
  Forall2 Qeq l1 l2 -> In x l1 -> exists y, In y l2 /\ x == y.
Proof.
  induction 1 as [|a b l1 l2 Hab _ IH]; intros Hin; [destruct Hin|].
  destruct Hin as [->|Hin].
  - exists b. split; [now left|exact Hab].
  - destruct (IH Hin) as (y & Hy & E). exists y. split; [now right|exact E].
Qed.

Lemma Forall2_Qeq_In_r (l1 l2 : list Q) (y : Q) :
  Forall2 Qeq l1 l2 -> In y l2 -> exists x, In x l1 /\ x == y.
Proof.
  induction 1 as [|a b l1 l2 Hab _ IH]; intros Hin; [destruct Hin|].
  destruct Hin as [->|Hin].
  - exists a. split; [now left|exact Hab].
  - destruct (IH Hin) as (x & Hx & E). exists x. split; [now right|exact E].
Qed.

Lemma Forall2_Qeq_length (l1 l2 : list Q) :
  Forall2 Qeq l1 l2 -> List.length l1 = List.length l2.
Proof. induction 1; simpl; congruence. Qed.

Lemma arithmeticGrid_shift (lo : Q) (n : nat) :
  Forall2 Qeq (arithmeticGrid (lo + 1) n)
          (map (fun k => lo + inject_Z (Z.of_nat k)) (seq 1 n)).
Proof.
  unfold arithmeticGrid. rewrite <- seq_shift, map_map.
  apply Forall2_Qeq_map. intro k.
  rewrite Nat2Z.inj_succ. unfold Z.succ. rewrite inject_Z_plus. ring.
Qed.

Lemma In_arithmeticGrid (lo : Q) (n : nat) (q : Q) :
  In q (arithmeticGrid lo n) <-> exists k, (k < n)%nat /\ q = lo + inject_Z (Z.of_nat k).
Proof.
  unfold arithmeticGrid. rewrite in_map_iff. split.
  - intros (k & E & Hk). apply in_seq in Hk. exists k. split; [lia|now symmetry].
  - intros (k & Hk & E). exists k. split; [now symmetry|]. apply in_seq. lia.
Qed.

Lemma Qfloor_minus_1 (x : Q) : Qfloor (x - 1) = (Qfloor x - 1)%Z.
Proof.
  pose proof (Qfloor_le x) as H1. pose proof (Qlt_floor x) as H2.
  pose proof (Qfloor_le (x - 1)) as H3. pose proof (Qlt_floor (x - 1)) as H4.
  rewrite inject_Z_plus in H2, H4. change (inject_Z 1) with 1 in H2, H4.
  assert (Ha : inject_Z (Qfloor (x - 1)) < inject_Z (Qfloor x)) by lra.
  assert (Hb : inject_Z (Qfloor x - 1) < inject_Z (Qfloor (x - 1) + 1)).
  { unfold Z.sub. rewrite !inject_Z_plus, inject_Z_opp.
    change (inject_Z 1) with 1. lra. }
  rewrite <- Zlt_Qlt in Ha, Hb. lia.
Qed.

Lemma priceLoop_bounds (fuel : nat) (p maxPrice x : Q) :
  In x (Part001.priceLoop fuel p maxPrice) -> p <= x /\ x <= maxPrice.
Proof.
  revert p. induction fuel as [|fuel IH]; intros p; simpl; [tauto|].
  destruct (Qle_bool p maxPrice) eqn:E; [|intros []].
  apply Qle_bool_iff in E.
  intro H. apply in_app_or in H. destruct H as [H|H].
  - destruct (JS.gtb p 0); [|destruct H]. destruct H as [<-|[]]. split; [lra|exact E].
  - destruct (IH _ H). split; lra.
Qed.

Lemma priceLoop_grid (hi : Q) (fuel : nat) :
  forall p, 0 < p -> p <= hi -> fuel = S (Z.to_nat (Qfloor (hi - p))) ->
            Forall2 Qeq (Part001.priceLoop fuel p hi) (arithmeticGrid p fuel).
Proof.
  induction fuel as [|f IH]; intros p Hpos Hle Hfuel; [discriminate|].
  simpl Part001.priceLoop.
  pose proof Hle as Hb. apply Qle_bool_iff in Hb. rewrite Hb.
  pose proof Hpos as Hg. apply gtb_lt in Hg. rewrite Hg.
  simpl app. unfold arithmeticGrid. simpl seq. simpl map.
  constructor; [change (inject_Z 0) with 0; ring|].
  destruct f as [|f'].
  - simpl. constructor.
  - pose proof (eq_add_S _ _ Hfuel) as Hf.
    assert (Hfl : (1 <= Qfloor (hi - p))%Z) by lia.
    assert (H1 : 1 <= hi - p).
    { pose proof (Qfloor_le (hi - p)) as Hq.
      rewrite Zle_Qle in Hfl. change (inject_Z 1) with 1 in Hfl. lra. }
    eapply Forall2_Qeq_trans; [|apply arithmeticGrid_shift].
    apply IH; [lra|lra|].
    assert (E : Qfloor (hi - (p + 1)) = (Qfloor (hi - p) - 1)%Z).
    { rewrite <- Qfloor_minus_1. apply Qfloor_comp. ring. }
    rewrite E. lia.
Qed.

(** From a positive low end the grid is [lo], [lo + 1], ... up to the last
    such price not above [hi]. *)
Lemma pricePoints_grid (lo hi : Q) :
  0 < lo -> lo <= hi ->
  Forall2 Qeq (Part001.pricePoints lo hi)
          (arithmeticGrid lo (S (Z.to_nat (Qfloor (hi - lo))))).
Proof.
  intros Hpos Hle. unfold Part001.pricePoints. now apply priceLoop_grid.
Qed.

Lemma Qfloor_nonneg (x : Q) : 0 <= x -> (0 <= Qfloor x)%Z.
Proof.
  intro H. change 0%Z with (Qfloor 0). now apply Qfloor_resp_le.
Qed.

(** The highest price of the grid. *)
Lemma pricePoints_top (lo hi : Q) :
  0 < lo -> lo <= hi ->
  (exists q, In q (Part001.pricePoints lo hi) /\ q == lo + inject_Z (Qfloor (hi - lo)))
  /\ forall q, In q (Part001.pricePoints lo hi) -> q <= lo + inject_Z (Qfloor (hi - lo)).
Proof.
  intros Hpos Hle.
  pose proof (pricePoints_grid lo hi Hpos Hle) as Hg.
  assert (Hfl : (0 <= Qfloor (hi - lo))%Z) by (apply Qfloor_nonneg; lra).
  split.
  - destruct (Forall2_Qeq_In_r _ _ (lo + inject_Z (Qfloor (hi - lo))) Hg) as (q & Hq & E).
    + apply In_arithmeticGrid. exists (Z.to_nat (Qfloor (hi - lo))).
      split; [lia|]. now rewrite Z2Nat.id.
    + now exists q.
  - intros q Hq.
    destruct (Forall2_Qeq_In _ _ q Hg Hq) as (y & Hy & E).
    apply In_arithmeticGrid in Hy. destruct Hy as (k & Hk & ->).
    rewrite E. apply Qplus_le_r. rewrite <- Zle_Qle. lia.
Qed.

(** The grid ascends strictly. *)
Lemma priceLoop_ascending (maxPrice : Q) (fuel : nat) :
  forall p, ForallOrdPairs Qlt (Part001.priceLoop fuel p maxPrice).
Proof.
  induction fuel as [|fuel IH]; intro p; simpl; [constructor|].
  destruct (Qle_bool p maxPrice); [|constructor].
  destruct (JS.gtb p 0); simpl; [|apply IH].
  constructor; [|apply IH].
  apply Forall_forall. intros x Hx.
  destruct (priceLoop_bounds _ _ _ _ Hx). lra.
Qed.

(** Its last price is less than a dollar below the high end. *)
Lemma priceLoop_last (hi : Q) (fuel : nat) :
  forall p d, 0 < p -> p <= hi -> fuel = S (Z.to_nat (Qfloor (hi - p))) ->
              hi - 1 < last (Part001.priceLoop fuel p hi) d.
Proof.
  induction fuel as [|f IH]; intros p d Hpos Hle Hfuel; [discriminate|].
  simpl Part001.priceLoop.
  pose proof Hle as Hb. apply Qle_bool_iff in Hb. rewrite Hb.
  pose proof Hpos as Hg. apply gtb_lt in Hg. rewrite Hg.
  simpl app.
  pose proof (eq_add_S _ _ Hfuel) as Hf.
  assert (Hnn : (0 <= Qfloor (hi - p))%Z) by (apply Qfloor_nonneg; lra).
  destruct f as [|f'].
  - simpl.
    assert (Hz : Qfloor (hi - p) = 0%Z) by lia.
    pose proof (Qlt_floor (hi - p)) as Hq. rewrite Hz in Hq.
    change (inject_Z (0 + 1)) with 1 in Hq. lra.
  - assert (Hfl : (1 <= Qfloor (hi - p))%Z) by lia.
    assert (H1 : 1 <= hi - p).
    { pose proof (Qfloor_le (hi - p)) as Hq.
      rewrite Zle_Qle in Hfl. change (inject_Z 1) with 1 in Hfl. lra. }
    assert (E : Qfloor (hi - (p + 1)) = (Qfloor (hi - p) - 1)%Z).
    { rewrite <- Qfloor_minus_1. apply Qfloor_comp. ring. }
    assert (Hnext : S f' = S (Z.to_nat (Qfloor (hi - (p + 1))))) by (rewrite E; lia).
    pose proof (IH (p + 1) d ltac:(lra) ltac:(lra) Hnext) as Hlast.
    remember (Part001.priceLoop (S f') (p + 1) hi) as l eqn:El.
    destruct l as [|x l'].
    + exfalso. simpl in El.
      assert (Hb1 : Qle_bool (p + 1) hi = true) by (apply Qle_bool_iff; lra).
      assert (Hg1 : JS.gtb (p + 1) 0 = true) by (apply gtb_lt; lra).
      rewrite Hb1, Hg1 in El. discriminate.
    + exact Hlast.
Qed.

Lemma pricePoints_last (lo hi d : Q) :
  0 < lo -> lo <= hi -> hi - 1 < last (Part001.pricePoints lo hi) d.
Proof.
  intros Hpos Hle. unfold Part001.pricePoints. now apply priceLoop_last.
Qed.

Lemma pricePoints_ascending (lo hi : Q) : ForallOrdPairs Qlt (Part001.pricePoints lo hi).
Proof. apply priceLoop_ascending. Qed.

Lemma pricePoints_le (lo hi : Q) : Forall (fun p => p <= hi) (Part001.pricePoints lo hi).
Proof.
  apply Forall_forall. intros x Hx.
  exact (proj2 (priceLoop_bounds _ _ _ _ Hx)).
Qed.

(** ** part_001: the matrix of a filed range *)

Lemma part001_filed (Math_log : Q -> Q) (a : Part001.IPOAssumptions.t) (lo hi : Q) :
  filedRange a lo hi ->
  Part001.calculateIPOPricing Math_log a
  = let pricingMatrix := map (Part001.pricingRow Math_log a) (Part001.pricePoints lo hi) in
    match Part001.selectRow a lo hi pricingMatrix with
    | Some sel =>
        let recommended := Part001.respectMinimum a pricingMatrix sel in
        Some {| Part001.Result.assumptions := a;
                Part001.Result.pricingMatrix := pricingMatrix;
                Part001.Result.recommendedRangeLow := lo;
                Part001.Result.recommendedRangeHigh := hi;
                Part001.Result.recommendedPrice := fst recommended;
                Part001.Result.warnings :=
                  Part001.resultWarnings a (fst recommended) (snd recommended) |}
    | None => None
    end.
Proof.
  intros (Hlo & Hhi & Hpos & Hlt).
  unfold Part001.calculateIPOPricing, Part001.hasUserProvidedRange,
    Part001.indicatedPriceRangeLow, Part001.indicatedPriceRangeHigh.
  rewrite Hlo, Hhi.
  assert (H1 : JS.gtb lo 0 = true) by now apply gtb_lt.
  assert (H2 : JS.gtb hi 0 = true) by (apply gtb_lt; lra).
  assert (H3 : JS.leb hi lo = false) by now apply leb_gt.
  rewrite H1, H2, H3. reflexivity.
Qed.

Lemma part001_filed_matrix (Math_log : Q -> Q) (a : Part001.IPOAssumptions.t) (lo hi : Q)
      (res : Part001.Result.t) :
  filedRange a lo hi ->
  Part001.calculateIPOPricing Math_log a = Some res ->
  Part001.Result.pricingMatrix res
  = map (Part001.pricingRow Math_log a) (Part001.pricePoints lo hi).
Proof.
  intros Hr. rewrite (part001_filed Math_log a lo hi Hr). cbv zeta.
  destruct (Part001.selectRow a lo hi _); [|discriminate].
  intros [= <-]. reflexivity.
Qed.

Lemma offerPrice_pricingRow (Math_log : Q -> Q) (a : Part001.IPOAssumptions.t) (l : list Q) :
  map Part001.PricingRow.offerPrice (map (Part001.pricingRow Math_log a) l) = l.
Proof.
  rewrite map_map. simpl. apply map_id.
Qed.

(** X1.  For a filed range [lo] to [hi] (positive, strictly ordered) the
    engine of part_001 returns a matrix that is not empty: its first row is
    priced at [lo], the prices increase strictly from row to row, none is
    above [hi], and the last one is less than a dollar below [hi]. *)
Theorem part001_matrix_prices (Math_log : Q -> Q) (a : Part001.IPOAssumptions.t) (lo hi : Q) :
  filedRange a lo hi ->
  exists res rest,
    Part001.calculateIPOPricing Math_log a = Some res
    /\ map Part001.PricingRow.offerPrice (Part001.Result.pricingMatrix res) = lo :: rest
    /\ ForallOrdPairs Qlt (lo :: rest)
    /\ Forall (fun p => p <= hi) (lo :: rest)
    /\ hi - 1 < last (lo :: rest) lo.
Proof.
  intros Hr.
  destruct (calculateIPOPricing_returns Math_log a) as [res Hres].
  pose proof (part001_filed_matrix Math_log a lo hi res Hr Hres) as Hm.
  destruct Hr as (_ & _ & Hpos & Hlt).
  assert (Hle : lo <= hi) by lra.
  destruct (pricePoints_first lo hi Hpos Hle) as [rest Hrest].
  exists res, rest. split; [exact Hres|].
  rewrite Hm, offerPrice_pricingRow, Hrest. split; [reflexivity|].
  rewrite <- Hrest.
  split; [apply pricePoints_ascending|].
  split; [apply pricePoints_le|].
  now apply pricePoints_last.
Qed.

Lemma part001_matrix_prices_witness :
  exists res rest,
    Part001.calculateIPOPricing JS.ln_series MoreSamples.halfDollarRange = Some res
    /\ map Part001.PricingRow.offerPrice (Part001.Result.pricingMatrix res)
       = (37 # 2) :: rest
    /\ ForallOrdPairs Qlt ((37 # 2) :: rest)
    /\ Forall (fun p => p <= 22) ((37 # 2) :: rest)
    /\ 22 - 1 < last ((37 # 2) :: rest) (37 # 2).
Proof.
  apply (part001_matrix_prices JS.ln_series MoreSamples.halfDollarRange (37 # 2) 22).
  repeat split; reflexivity.
Defined.

(** X3.  In every row of the matrix of part_001, when the company has
    shares outstanding and the primary and greenshoe shares sold are not
    negative, the dilution is a fraction in [0, 1); and when the founders
    hold a stake and new shares are sold, their stake after the offering
    is positive and strictly smaller than their stake before it. *)
Theorem part001_dilution_and_founders
        (Math_log : Q -> Q) (a : Part001.IPOAssumptions.t)
        (res : Part001.Result.t) (r : Part001.PricingRow.t) :
  Part001.calculateIPOPricing Math_log a = Some res ->
  In r (Part001.Result.pricingMatrix res) ->
  0 < Part001.IPOAssumptions.sharesOutstandingPreIPO a ->
  0 <= Part001.PricingRow.sharesSoldPrimary r + Part001.PricingRow.sharesSoldGreenshoe r ->
  0 <= Part001.PricingRow.dilutionPercent r
  /\ Part001.PricingRow.dilutionPercent r < 1
  /\ (0 < Part001.IPOAssumptions.foundersEmployeesOwnership a ->
      0 < Part001.PricingRow.sharesSoldPrimary r + Part001.PricingRow.sharesSoldGreenshoe r ->
      0 < Part001.PricingRow.founderOwnershipPost r
      /\ Part001.PricingRow.founderOwnershipPost r
         < Part001.IPOAssumptions.foundersEmployeesOwnership a).
Proof.
  intros Hres Hin.
  destruct (matrix_rows Math_log a res r Hres Hin) as (p & -> & _).
  simpl. intros Hpre Hd.
  unfold Part001.dilutionPercent, Part001.founderOwnershipPost, Part001.fdSharesPostIPO,
    Part001.dilutiveShares, Part001.sharesOutstandingPreIPO,
    Part001.foundersEmployeesOwnership.
  set (pre := Part001.IPOAssumptions.sharesOutstandingPreIPO a) in *.
  set (d := Part001.sharesSoldPrimary a p + Part001.sharesSoldGreenshoe a p) in *.
  set (f := Part001.IPOAssumptions.foundersEmployeesOwnership a) in *.
  assert (Hfd : 0 < pre + d) by lra.
  split; [|split].
  - apply Qle_shift_div_l; [exact Hfd|lra].
  - apply Qlt_shift_div_r; [exact Hfd|lra].
  - intros Hf Hsold. split.
    + apply Qlt_shift_div_l; [exact Hfd|]. nra.
    + apply Qlt_shift_div_r; [exact Hfd|]. nra.
Qed.

Lemma part001_dilution_and_founders_witness :
  0 <= Part001.PricingRow.dilutionPercent (Part001.pricingRow JS.ln_series Samples.shareDeal 20)
  /\ Part001.PricingRow.dilutionPercent (Part001.pricingRow JS.ln_series Samples.shareDeal 20) < 1
  /\ 0 < Part001.PricingRow.founderOwnershipPost
           (Part001.pricingRow JS.ln_series Samples.shareDeal 20)
  /\ Part001.PricingRow.founderOwnershipPost
       (Part001.pricingRow JS.ln_series Samples.shareDeal 20) < 6 # 10.
Proof.
  assert (Hres : Part001.calculateIPOPricing JS.ln_series Samples.shareDeal
                 = Some (Samples.resultOf Samples.shareDeal))
    by (vm_compute; reflexivity).
  assert (Hin : In (Part001.pricingRow JS.ln_series Samples.shareDeal 20)
                   (Part001.Result.pricingMatrix (Samples.resultOf Samples.shareDeal)))
    by (vm_compute; auto 10).
  assert (Hpre : 0 < Part001.IPOAssumptions.sharesOutstandingPreIPO Samples.shareDeal)
    by reflexivity.
  assert (Hsold : 0 < Part001.PricingRow.sharesSoldPrimary
                        (Part001.pricingRow JS.ln_series Samples.shareDeal 20)
                      + Part001.PricingRow.sharesSoldGreenshoe
                          (Part001.pricingRow JS.ln_series Samples.shareDeal 20))
    by reflexivity.
  destruct (part001_dilution_and_founders JS.ln_series Samples.shareDeal _ _ Hres Hin Hpre
              (Qlt_le_weak _ _ Hsold)) as (H1 & H2 & H3).
  split; [exact H1|]. split; [exact H2|].
  apply H3; [reflexivity|exact Hsold].
Defined.

(** X4.  The order-book lookup of part_001 never labels a row "Above $L"
    and never pushes the warning that the price is above the highest tier:
    a price above every tier is at or above the highest one, which the scan
    of the sorted book matches first. *)
Theorem part001_above_tier_is_unreachable
        (Math_log : Q -> Q) (a : Part001.IPOAssumptions.t) (p : Q) :
  (forall level,
      Part001.PricingRow.orderBookTier (Part001.pricingRow Math_log a p)
      <> Part001.TierAbove level)
  /\ ~ In Part001.PriceAboveHighestTier
          (Part001.PricingRow.warnings (Part001.pricingRow Math_log a p)).
Proof.
  assert (Hlookup : (forall level, snd (fst (Part001.orderBookLookup a p))
                                   <> Part001.TierAbove level)
                    /\ snd (Part001.orderBookLookup a p) = []).
  { unfold Part001.orderBookLookup.
    destruct (Part001.sortedOrderBook a) as [|top book] eqn:Hs.
    - split; [intros level; discriminate|reflexivity].
    - destruct (find _ (top :: book)) as [t|] eqn:Hf.
      + split; [intros level; discriminate|reflexivity].
      + assert (Htop : p < Part001.OrderBookEntry.priceLevel top).
        { apply (find_none_all_above Part001.OrderBookEntry.priceLevel p _ Hf). now left. }
        assert (E : JS.gtb p (Part001.OrderBookEntry.priceLevel top) = false)
          by (apply gtb_ge; lra).
        rewrite E. split; [intros level; discriminate|reflexivity]. }
  destruct Hlookup as [Htier Hwarn].
  split.
  - intro level. simpl. unfold Part001.orderBookTier. apply Htier.
  - simpl. unfold Part001.rowWarnings. rewrite Hwarn. simpl.
    intro Hin.
    repeat (apply in_app_or in Hin; destruct Hin as [Hin|Hin];
            [match type of Hin with
             | In _ (if ?c then _ else _) =>
                 destruct c; simpl in Hin; [destruct Hin as [Hin|[]]; discriminate|destruct Hin]
             end|]).
    match type of Hin with
    | In _ (if ?c then _ else _) =>
        destruct c; simpl in Hin; [destruct Hin as [Hin|[]]; discriminate|destruct Hin]
    end.
Qed.

(** ** part_001: the recommended price *)

Lemma Math_max_le (x y : Q) : x <= y -> JS.Math_max x y == y.
Proof.
  intro H. unfold JS.Math_max. apply Qle_bool_iff in H. rewrite H. reflexivity.
Qed.

Lemma Math_max_ge (x y : Q) : y <= x -> JS.Math_max x y == x.
Proof.
  intro H. unfold JS.Math_max. destruct (Qle_bool x y) eqn:E; [|reflexivity].
  apply Qle_bool_iff in E. now apply Qle_antisym.
Qed.

Lemma Math_max_comp (x x' y y' : Q) :
  x == x' -> y == y' -> JS.Math_max x y == JS.Math_max x' y'.
Proof.
  intros Hx Hy.
  destruct (Qlt_le_dec y x) as [H|H].
  - rewrite (Math_max_ge x y), (Math_max_ge x' y'); [exact Hx| |]; lra.
  - rewrite (Math_max_le x y), (Math_max_le x' y'); [exact Hy| |]; lra.
Qed.

Lemma findRow_some (matrix : list Part001.PricingRow.t) (price : Q) (r : Part001.PricingRow.t) :
  Part001.findRow matrix price = Some r ->
  In r matrix /\ Part001.PricingRow.offerPrice r == price.
Proof.
  intro H. apply find_some in H. destruct H as [Hin E].
  split; [exact Hin|now apply Qeq_bool_iff].
Qed.

Lemma findRow_none (matrix : list Part001.PricingRow.t) (price : Q) (r : Part001.PricingRow.t) :
  Part001.findRow matrix price = None -> In r matrix ->
  ~ Part001.PricingRow.offerPrice r == price.
Proof.
  intros H Hin E. apply Qeq_bool_iff in E.
  pose proof (find_none _ _ H r Hin) as Hn. simpl in Hn. congruence.
Qed.

Lemma last_default (A : Type) (l : list A) (x d : A) : l <> [] -> last l x = last l d.
Proof.
  induction l as [|y l IH]; [congruence|]. intros _.
  destruct l as [|z l]; [reflexivity|].
  change (last (y :: z :: l) x) with (last (z :: l) x).
  change (last (y :: z :: l) d) with (last (z :: l) d).
  apply IH. discriminate.
Qed.

Lemma last_opt_last {A : Type} (l : list A) (d : A) :
  l <> [] -> JS.last_opt l = Some (last l d).
Proof.
  destruct l as [|x l]; [congruence|]. intros _. simpl JS.last_opt. f_equal.
  destruct l as [|y l]; [reflexivity|].
  change (last (x :: y :: l) d) with (last (y :: l) d).
  apply last_default. discriminate.
Qed.

Lemma last_In {A : Type} (l : list A) (d : A) : l <> [] -> In (last l d) l.
Proof.
  intro H. destruct (exists_last H) as (l' & a & ->).
  rewrite last_last. apply in_or_app. right. now left.
Qed.

Lemma last_opt_In {A : Type} (l : list A) (x : A) : JS.last_opt l = Some x -> In x l.
Proof.
  destruct l as [|y l]; [discriminate|].
  rewrite (last_opt_last (y :: l) y) by discriminate.
  intro H. assert (E : x = last (y :: l) y) by congruence.
  rewrite E. apply last_In. discriminate.
Qed.

Lemma fold_closest_In (rangeMidpoint : Q) (rest : list Part001.PricingRow.t)
      (first : Part001.PricingRow.t) :
  In (fold_left
        (fun closest row =>
           if JS.ltb (JS.Math_abs (Part001.PricingRow.offerPrice row - rangeMidpoint))
                     (JS.Math_abs (Part001.PricingRow.offerPrice closest - rangeMidpoint))
           then row else closest)
        rest first)
     (first :: rest).
Proof.
  revert first. induction rest as [|x rest IH]; intro first; simpl; [now left|].
  match goal with
  | |- context [if ?c then x else first] => destruct c
  end.
  - right. apply IH.
  - destruct (IH first) as [H|H]; [now left|right; now right].
Qed.

Lemma closestToMidpoint_In (sorted : list Part001.PricingRow.t) (rangeMidpoint : Q)
      (r : Part001.PricingRow.t) :
  Part001.closestToMidpoint sorted rangeMidpoint = Some r -> In r sorted.
Proof.
  destruct sorted as [|first rest]; [discriminate|].
  unfold Part001.closestToMidpoint. intros [= <-]. apply fold_closest_In.
Qed.

Lemma sortedByPrice_In (matrix : list Part001.PricingRow.t) (r : Part001.PricingRow.t) :
  In r (Part001.sortedByPrice matrix) <-> In r matrix.
Proof. apply (In_sort Part001.PricingRow.offerPrice). Qed.


Lemma matrix_bounds (Math_log : Q -> Q) (a : Part001.IPOAssumptions.t) (lo hi : Q)
      (r : Part001.PricingRow.t) :
  In r (map (Part001.pricingRow Math_log a) (Part001.pricePoints lo hi)) ->
  lo <= Part001.PricingRow.offerPrice r /\ Part001.PricingRow.offerPrice r <= hi.
Proof.
  intro H. apply in_map_iff in H. destruct H as (p & <- & Hp). simpl.
  exact (priceLoop_bounds _ _ _ _ Hp).
Qed.

Lemma matrix_first (Math_log : Q -> Q) (a : Part001.IPOAssumptions.t) (lo hi : Q) :
  0 < lo -> lo <= hi ->
  Part001.findRow (map (Part001.pricingRow Math_log a) (Part001.pricePoints lo hi)) lo
  = Some (Part001.pricingRow Math_log a lo).
Proof.
  intros Hpos Hle. destruct (pricePoints_first lo hi Hpos Hle) as [rest ->].
  unfold Part001.findRow. simpl.
  assert (E : Qeq_bool lo lo = true) by (apply Qeq_bool_iff; reflexivity).
  rewrite E. reflexivity.
Qed.

Lemma matrix_lowest (Math_log : Q -> Q) (a : Part001.IPOAssumptions.t) (lo hi : Q)
      (r : Part001.PricingRow.t) :
  0 < lo -> lo <= hi ->
  JS.last_opt (Part001.sortedByPrice
                 (map (Part001.pricingRow Math_log a) (Part001.pricePoints lo hi))) = Some r ->
  In r (map (Part001.pricingRow Math_log a) (Part001.pricePoints lo hi))
  /\ Part001.PricingRow.offerPrice r == lo.
Proof.
  intros Hpos Hle Hlast.
  set (matrix := map (Part001.pricingRow Math_log a) (Part001.pricePoints lo hi)) in *.
  assert (Hne : Part001.sortedByPrice matrix <> []).
  { intro E. rewrite E in Hlast. discriminate. }
  rewrite (last_opt_last _ r Hne) in Hlast.
  destruct (last_Descending Part001.PricingRow.offerPrice (Part001.sortedByPrice matrix) r
              (sort_Descending Part001.PricingRow.offerPrice matrix) Hne) as [Hin Hmin].
  assert (E : last (Part001.sortedByPrice matrix) r = r) by congruence.
  rewrite E in Hin, Hmin.
  apply (proj1 (sortedByPrice_In matrix r)) in Hin. split; [exact Hin|].
  apply Qle_antisym.
  - assert (H1 : In (Part001.pricingRow Math_log a lo) (Part001.sortedByPrice matrix)).
    { apply sortedByPrice_In.
      exact (proj1 (findRow_some _ _ _ (matrix_first Math_log a lo hi Hpos Hle))). }
    exact (Hmin _ H1).
  - exact (proj1 (matrix_bounds Math_log a lo hi r Hin)).
Qed.

Lemma matrix_highest (Math_log : Q -> Q) (a : Part001.IPOAssumptions.t) (lo hi : Q)
      (r : Part001.PricingRow.t) :
  0 < lo -> lo <= hi ->
  hd_error (Part001.sortedByPrice
              (map (Part001.pricingRow Math_log a) (Part001.pricePoints lo hi))) = Some r ->
  In r (map (Part001.pricingRow Math_log a) (Part001.pricePoints lo hi))
  /\ Part001.PricingRow.offerPrice r == lo + inject_Z (Qfloor (hi - lo)).
Proof.
  intros Hpos Hle Hhd.
  set (matrix := map (Part001.pricingRow Math_log a) (Part001.pricePoints lo hi)) in *.
  pose proof (sort_Descending Part001.PricingRow.offerPrice matrix) as Hdesc.
  fold (Part001.sortedByPrice matrix) in Hdesc.
  destruct (Part001.sortedByPrice matrix) as [|x l] eqn:Hs; [discriminate|].
  injection Hhd as ->.
  assert (Hin : In r matrix) by (apply sortedByPrice_In; rewrite Hs; now left).
  split; [exact Hin|].
  destruct (pricePoints_top lo hi Hpos Hle) as [(q & Hq & Eq) Htop].
  apply Qle_antisym.
  - apply in_map_iff in Hin. destruct Hin as (p & <- & Hp). simpl. now apply Htop.
  - rewrite <- Eq.
    assert (Hrow : In (Part001.pricingRow Math_log a q) (r :: l)).
    { rewrite <- Hs. apply sortedByPrice_In. unfold matrix. now apply in_map. }
    inversion Hdesc as [|x' l' Hx Hl]; subst.
    destruct Hrow as [Hrow|Hrow]; [rewrite Hrow; simpl; lra|].
    exact (Hx _ Hrow).
Qed.

Lemma selectRow_In (a : Part001.IPOAssumptions.t) (lo hi : Q)
      (matrix : list Part001.PricingRow.t) (sel : Q * Part001.PricingRow.t) :
  Part001.selectRow a lo hi matrix = Some sel ->
  In (snd sel) matrix /\ fst sel == Part001.PricingRow.offerPrice (snd sel).
Proof.
  assert (Hor : forall price fallback,
             (forall r, fallback = Some r -> In r matrix) ->
             Part001.orFallback price (Part001.findRow matrix price) fallback = Some sel ->
             In (snd sel) matrix /\ fst sel == Part001.PricingRow.offerPrice (snd sel)).
  { intros price fallback Hfb. unfold Part001.orFallback.
    destruct (Part001.findRow matrix price) as [r|] eqn:Hf.
    - intros [= <-]. simpl. destruct (findRow_some _ _ _ Hf) as [Hin E].
      split; [exact Hin|now symmetry].
    - destruct fallback as [r|]; [|discriminate].
      intros [= <-]. simpl. split; [now apply Hfb|reflexivity]. }
  unfold Part001.selectRow.
  destruct (Part001.isRunwayExtension a).
  - apply Hor. intros r Hr. apply sortedByPrice_In. now apply last_opt_In.
  - destruct (Part001.pricingAggressiveness a).
    + apply Hor. intros r Hr. apply sortedByPrice_In. now apply last_opt_In.
    + apply Hor. intros r Hr. apply sortedByPrice_In.
      now apply closestToMidpoint_In with (rangeMidpoint := (lo + hi) / 2).
    + apply Hor. intros r Hr. apply sortedByPrice_In.
      now apply closestToMidpoint_In with (rangeMidpoint := (lo + hi) / 2).
    + apply Hor. intros r Hr. apply sortedByPrice_In.
      destruct (Part001.sortedByPrice matrix); [discriminate|].
      injection Hr as ->. now left.
Qed.

(** The price after [respectMinimum]. *)
Lemma respectMinimum_price (a : Part001.IPOAssumptions.t)
      (matrix : list Part001.PricingRow.t) (sel : Q * Part001.PricingRow.t) :
  fst (Part001.respectMinimum a matrix sel)
  == JS.Math_max (fst sel) (JS.or_else (Part001.IPOAssumptions.minAcceptablePrice a) (fst sel)).
Proof.
  unfold Part001.respectMinimum, Part001.minAcceptablePrice, JS.or_else.
  destruct (Part001.IPOAssumptions.minAcceptablePrice a) as [m|].
  - destruct (JS.truthy m); simpl.
    + destruct (JS.ltb (fst sel) m) eqn:E; simpl.
      * apply ltb_lt in E. rewrite Math_max_le; [reflexivity|lra].
      * apply ltb_ge in E. rewrite Math_max_ge; [reflexivity|lra].
    + rewrite Math_max_le; [reflexivity|lra].
  - rewrite Math_max_le; [reflexivity|lra].
Qed.

Lemma or_else_comp (o : option Q) (x y : Q) : x == y -> JS.or_else o x == JS.or_else o y.
Proof.
  intro H. unfold JS.or_else. destruct o as [m|]; [|exact H].
  destruct (JS.truthy m); [reflexivity|exact H].
Qed.

(** X5.  For a filed range [lo] to [hi] the price recommended by part_001
    is never below [lo]; it is never below a stated minimum acceptable
    price (other than 0); and it is the offer price of a row of the matrix,
    hence at most [hi], unless it is that minimum itself. *)
Theorem part001_recommended_price
        (Math_log : Q -> Q) (a : Part001.IPOAssumptions.t) (lo hi : Q)
        (res : Part001.Result.t) :
  filedRange a lo hi ->
  Part001.calculateIPOPricing Math_log a = Some res ->
  lo <= Part001.Result.recommendedPrice res
  /\ (forall m, Part001.IPOAssumptions.minAcceptablePrice a = Some m -> ~ m == 0 ->
                m <= Part001.Result.recommendedPrice res)
  /\ ((exists r, In r (Part001.Result.pricingMatrix res)
                 /\ Part001.Result.recommendedPrice res == Part001.PricingRow.offerPrice r
                 /\ Part001.Result.recommendedPrice res <= hi)
      \/ Part001.IPOAssumptions.minAcceptablePrice a
         = Some (Part001.Result.recommendedPrice res)).
Proof.
  intros Hr Hres.
  rewrite (part001_filed Math_log a lo hi Hr) in Hres. cbv zeta in Hres.
  destruct (Part001.selectRow a lo hi _) as [sel|] eqn:Hsel; [|discriminate].
  injection Hres as <-. simpl.
  destruct (selectRow_In _ _ _ _ _ Hsel) as [Hin E].
  destruct (matrix_bounds Math_log a lo hi _ Hin) as [Hlo Hhi].
  unfold Part001.respectMinimum, Part001.minAcceptablePrice.
  destruct (Part001.IPOAssumptions.minAcceptablePrice a) as [m|] eqn:Hmin.
  - destruct (JS.truthy m) eqn:Ht; simpl.
    + destruct (JS.ltb (fst sel) m) eqn:El; simpl.
      * apply ltb_lt in El.
        split; [lra|]. split; [|now right].
        intros m' [= <-] _. lra.
      * apply ltb_ge in El.
        split; [lra|]. split.
        -- intros m' [= <-] _. exact El.
        -- left. exists (snd sel). split; [exact Hin|]. split; [exact E|lra].
    + split; [lra|]. split.
      * intros m' [= <-] Hm. apply truthy_neq in Hm. congruence.
      * left. exists (snd sel). split; [exact Hin|]. split; [exact E|lra].
  - split; [lra|]. split; [discriminate|].
    left. exists (snd sel). split; [exact Hin|]. split; [exact E|lra].
Qed.

Lemma part001_recommended_price_witness :
  18 <= Part001.Result.recommendedPrice (Samples.resultOf MoreSamples.minimumAboveRange)
  /\ (forall m, Part001.IPOAssumptions.minAcceptablePrice MoreSamples.minimumAboveRange = Some m ->
                ~ m == 0 ->
                m <= Part001.Result.recommendedPrice
                       (Samples.resultOf MoreSamples.minimumAboveRange))
  /\ ((exists r, In r (Part001.Result.pricingMatrix
                         (Samples.resultOf MoreSamples.minimumAboveRange))
                 /\ Part001.Result.recommendedPrice
                      (Samples.resultOf MoreSamples.minimumAboveRange)
                    == Part001.PricingRow.offerPrice r
                 /\ Part001.Result.recommendedPrice
                      (Samples.resultOf MoreSamples.minimumAboveRange) <= 22)
      \/ Part001.IPOAssumptions.minAcceptablePrice MoreSamples.minimumAboveRange
         = Some (Part001.Result.recommendedPrice
                   (Samples.resultOf MoreSamples.minimumAboveRange))).
Proof.
  apply (part001_recommended_price JS.ln_series MoreSamples.minimumAboveRange 18 22).
  - repeat split; reflexivity.
  - vm_compute; reflexivity.
Defined.

(** X6.  For a filed range, under the "runway extension" priority and
    under the "conservative" policy alike, part_001 recommends the low end
    of the range, raised to the minimum acceptable price when one is stated
    above it: the maximum of [lo] and [minAcceptablePrice || lo]. *)
Theorem part001_floor_policies
        (Math_log : Q -> Q) (a : Part001.IPOAssumptions.t) (lo hi : Q)
        (res : Part001.Result.t) :
  filedRange a lo hi ->
  Part001.calculateIPOPricing Math_log a = Some res ->
  Part001.IPOAssumptions.managementPriority a = Some Part001.runway_extension
  \/ Part001.IPOAssumptions.pricingAggressiveness a = Part001.conservative ->
  Part001.Result.recommendedPrice res
  == JS.Math_max lo (JS.or_else (Part001.IPOAssumptions.minAcceptablePrice a) lo).
Proof.
  intros Hr Hres Hpolicy.
  pose proof Hr as (_ & _ & Hpos & Hlt).
  assert (Hle : lo <= hi) by lra.
  rewrite (part001_filed Math_log a lo hi Hr) in Hres. cbv zeta in Hres.
  destruct (Part001.selectRow a lo hi _) as [sel|] eqn:Hsel; [|discriminate].
  injection Hres as <-. simpl.
  rewrite respectMinimum_price.
  pose proof (matrix_first Math_log a lo hi Hpos Hle) as Hfirst.
  assert (Hlow : Part001.orFallback lo
                   (Part001.findRow
                      (map (Part001.pricingRow Math_log a) (Part001.pricePoints lo hi)) lo)
                   (JS.last_opt
                      (Part001.sortedByPrice
                         (map (Part001.pricingRow Math_log a) (Part001.pricePoints lo hi))))
                 = Some sel -> fst sel == lo).
  { rewrite Hfirst. simpl. intros [= <-]. reflexivity. }
  assert (Hdone : fst sel == lo ->
                  JS.Math_max (fst sel)
                    (JS.or_else (Part001.IPOAssumptions.minAcceptablePrice a) (fst sel))
                  == JS.Math_max lo
                       (JS.or_else (Part001.IPOAssumptions.minAcceptablePrice a) lo)).
  { intro E. apply Math_max_comp; [exact E|now apply or_else_comp]. }
  unfold Part001.selectRow in Hsel.
  destruct (Part001.isRunwayExtension a) eqn:Hrun.
  - unfold Part001.minAcceptablePrice, JS.or_else in Hsel.
    unfold JS.or_else.
    destruct (Part001.IPOAssumptions.minAcceptablePrice a) as [m|] eqn:Hmin.
    + destruct (JS.truthy m) eqn:Ht.
      * unfold Part001.orFallback in Hsel.
        destruct (Part001.findRow _ m) as [r|] eqn:Hf.
        -- injection Hsel as <-. simpl.
           destruct (findRow_some _ _ _ Hf) as [Hin E].
           destruct (matrix_bounds Math_log a lo hi _ Hin) as [Hlo _].
           rewrite Math_max_le, Math_max_le; [reflexivity| |]; lra.
        -- destruct (JS.last_opt _) as [r|] eqn:Hl; [|discriminate].
           injection Hsel as <-. simpl.
           destruct (matrix_lowest Math_log a lo hi r Hpos Hle Hl) as [_ E].
           apply Math_max_comp; [exact E|reflexivity].
      * pose proof (Hlow Hsel) as E. apply Math_max_comp; exact E.
    + pose proof (Hlow Hsel) as E. apply Math_max_comp; exact E.
  - destruct Hpolicy as [Hp|Hp].
    + unfold Part001.isRunwayExtension, Part001.managementPriority in Hrun.
      rewrite Hp in Hrun. discriminate.
    + unfold Part001.pricingAggressiveness in Hsel. rewrite Hp in Hsel.
      apply Hdone, Hlow, Hsel.
Qed.

Lemma part001_floor_policies_witness :
  Part001.Result.recommendedPrice (Samples.resultOf MoreSamples.runwayDeal)
  == JS.Math_max 18 (JS.or_else (Some 20) 18).
Proof.
  apply (part001_floor_policies JS.ln_series MoreSamples.runwayDeal 18 22).
  - repeat split; reflexivity.
  - vm_compute; reflexivity.
  - left. reflexivity.
Defined.

(** X7.  For a filed range, under the "maximum" policy (and no runway
    priority) part_001 recommends the highest price of the matrix, raised
    to the minimum acceptable price when one is stated above it.  That
    price is less than a dollar below [hi]; it is [hi] itself only when a
    row is priced exactly at [hi]. *)
Theorem part001_maximum_policy
        (Math_log : Q -> Q) (a : Part001.IPOAssumptions.t) (lo hi : Q)
        (res : Part001.Result.t) :
  filedRange a lo hi ->
  Part001.calculateIPOPricing Math_log a = Some res ->
  Part001.IPOAssumptions.pricingAggressiveness a = Part001.maximum ->
  Part001.IPOAssumptions.managementPriority a <> Some Part001.runway_extension ->
  exists top,
    In top (Part001.Result.pricingMatrix res)
    /\ (forall r, In r (Part001.Result.pricingMatrix res) ->
                  Part001.PricingRow.offerPrice r <= Part001.PricingRow.offerPrice top)
    /\ hi - 1 < Part001.PricingRow.offerPrice top
    /\ Part001.PricingRow.offerPrice top <= hi
    /\ Part001.Result.recommendedPrice res
       == JS.Math_max (Part001.PricingRow.offerPrice top)
                      (JS.or_else (Part001.IPOAssumptions.minAcceptablePrice a)
                                  (Part001.PricingRow.offerPrice top)).
Proof.
  intros Hr Hres Hmax Hnot.
  pose proof Hr as (_ & _ & Hpos & Hlt).
  assert (Hle : lo <= hi) by lra.
  pose proof (part001_filed_matrix Math_log a lo hi res Hr Hres) as Hm.
  rewrite (part001_filed Math_log a lo hi Hr) in Hres. cbv zeta in Hres.
  destruct (Part001.selectRow a lo hi _) as [sel|] eqn:Hsel; [|discriminate].
  injection Hres as <-. simpl in Hm |- *.
  assert (Htop : exists top,
             In top (map (Part001.pricingRow Math_log a) (Part001.pricePoints lo hi))
             /\ (forall r, In r (map (Part001.pricingRow Math_log a)
                                     (Part001.pricePoints lo hi)) ->
                           Part001.PricingRow.offerPrice r
                           <= Part001.PricingRow.offerPrice top)
             /\ hi - 1 < Part001.PricingRow.offerPrice top
             /\ fst sel == Part001.PricingRow.offerPrice top).
  { unfold Part001.selectRow in Hsel.
    assert (Hrun : Part001.isRunwayExtension a = false).
    { unfold Part001.isRunwayExtension, Part001.managementPriority.
      destruct (Part001.IPOAssumptions.managementPriority a) as [[| |]|];
        try reflexivity. now elim Hnot. }
    rewrite Hrun in Hsel.
    unfold Part001.pricingAggressiveness in Hsel. rewrite Hmax in Hsel.
    unfold Part001.orFallback in Hsel.
    destruct (Part001.findRow _ hi) as [r|] eqn:Hf.
    - injection Hsel as <-. cbn [fst].
      destruct (findRow_some _ _ _ Hf) as [Hin Eh].
      exists r. split; [exact Hin|]. split; [|split].
      + intros r' Hr'. rewrite Eh. exact (proj2 (matrix_bounds Math_log a lo hi r' Hr')).
      + rewrite Eh. lra.
      + now symmetry.
    - destruct (hd_error _) as [r|] eqn:Hh; [|discriminate].
      injection Hsel as <-. cbn [fst].
      destruct (matrix_highest Math_log a lo hi r Hpos Hle Hh) as [Hin Er].
      destruct (pricePoints_top lo hi Hpos Hle) as [_ Hall].
      exists r. split; [exact Hin|]. split; [|split].
      + intros r' Hr'. rewrite Er.
        apply in_map_iff in Hr'. destruct Hr' as (p & <- & Hp). simpl. now apply Hall.
      + rewrite Er. pose proof (Qlt_floor (hi - lo)) as H2.
        rewrite inject_Z_plus in H2. change (inject_Z 1) with 1 in H2. lra.
      + reflexivity. }
  destruct Htop as (top & Hin & Hall & Hnear & E).
  exists top. split; [exact Hin|]. split; [exact Hall|]. split; [exact Hnear|].
  split; [exact (proj2 (matrix_bounds Math_log a lo hi top Hin))|].
  rewrite respectMinimum_price.
  apply Math_max_comp; [exact E|now apply or_else_comp].
Qed.

Lemma part001_maximum_policy_witness :
  exists top,
    In top (Part001.Result.pricingMatrix (Samples.resultOf MoreSamples.maximumHalfDollar))
    /\ (forall r,
           In r (Part001.Result.pricingMatrix (Samples.resultOf MoreSamples.maximumHalfDollar)) ->
           Part001.PricingRow.offerPrice r <= Part001.PricingRow.offerPrice top)
    /\ 22 - 1 < Part001.PricingRow.offerPrice top
    /\ Part001.PricingRow.offerPrice top <= 22
    /\ Part001.Result.recommendedPrice (Samples.resultOf MoreSamples.maximumHalfDollar)
       == JS.Math_max (Part001.PricingRow.offerPrice top)
                      (JS.or_else None (Part001.PricingRow.offerPrice top)).
Proof.
  apply (part001_maximum_policy JS.ln_series MoreSamples.maximumHalfDollar (37 # 2) 22).
  - repeat split; reflexivity.
  - vm_compute; reflexivity.
  - reflexivity.
  - discriminate.
Defined.

(** ** The pricing table of the memo *)

Section MemoFacts.
Context {Row : Type} (offerPrice : Row -> Q).

Lemma nearPrice_iff (p : Q) (r : Row) :
  Memo.nearPrice offerPrice p r = true <-> Qabs (offerPrice r - p) < 5 # 10.
Proof. unfold Memo.nearPrice, JS.Math_abs. apply ltb_lt. Qed.

Lemma nearPrice_of_eq (p : Q) (r : Row) :
  offerPrice r == p -> Memo.nearPrice offerPrice p r = true.
Proof.
  intro E. apply nearPrice_iff. apply Qabs_Qlt_condition. split; lra.
Qed.

Lemma findIndexFrom_find (test : Row -> bool) (l : list Row) :
  forall i,
    match find test l with
    | Some r =>
        exists k, (k < List.length l)%nat
                  /\ Memo.findIndexFrom test i l = (i + Z.of_nat k)%Z
                  /\ nth_error l k = Some r
    | None => Memo.findIndexFrom test i l = (-1)%Z
    end.
Proof.
  induction l as [|x l IH]; intro i; simpl; [reflexivity|].
  destruct (test x).
  - exists 0%nat. split; [lia|]. split; [lia|reflexivity].
  - specialize (IH (i + 1)%Z). destruct (find test l) as [r|]; [|exact IH].
    destruct IH as (k & Hk & E & Hn).
    exists (S k). split; [lia|]. split; [lia|exact Hn].
Qed.

(** The table: a contiguous part of the matrix of at most [size] rows;
    it shows the first row within 0.5 of the recommended price, with at
    most [before] rows in front of it; when no row is that near, it is
    the head of the matrix. *)
Lemma tableRows_spec (before size : Z) (m : list Row) (p : Q) :
  (0 <= before < size)%Z ->
  (exists pre post, m = pre ++ Memo.tableRows offerPrice before size m p ++ post)
  /\ (List.length (Memo.tableRows offerPrice before size m p) <= Z.to_nat size)%nat
  /\ (forall r, find (Memo.nearPrice offerPrice p) m = Some r ->
                exists k, (k <= Z.to_nat before)%nat
                          /\ nth_error (Memo.tableRows offerPrice before size m p) k = Some r)
  /\ (find (Memo.nearPrice offerPrice p) m = None ->
      Memo.tableRows offerPrice before size m p = firstn (Z.to_nat size) m).
Proof.
  intros Hsize. unfold Memo.tableRows, Memo.slice, Memo.findIndex.
  set (recIndex := Memo.findIndexFrom (Memo.nearPrice offerPrice p) 0 m).
  set (startIdx := Z.max 0 (recIndex - before)).
  set (endIdx := Z.min (Z.of_nat (List.length m)) (startIdx + size)).
  split; [|split; [|split]].
  - exists (firstn (Z.to_nat startIdx) m).
    exists (skipn (Z.to_nat (endIdx - startIdx)) (skipn (Z.to_nat startIdx) m)).
    now rewrite firstn_skipn, firstn_skipn.
  - pose proof (firstn_le_length (Z.to_nat (endIdx - startIdx))
                                 (skipn (Z.to_nat startIdx) m)) as H.
    unfold endIdx in *. lia.
  - intros r Hf.
    pose proof (findIndexFrom_find (Memo.nearPrice offerPrice p) m 0) as Hi.
    rewrite Hf in Hi. destruct Hi as (k & Hk & E & Hn).
    fold recIndex in E.
    exists (k - Z.to_nat startIdx)%nat.
    split; [unfold startIdx; lia|].
    rewrite nth_error_firstn.
    assert (Hlt : (k - Z.to_nat startIdx <? Z.to_nat (endIdx - startIdx))%nat = true).
    { apply Nat.ltb_lt. unfold endIdx, startIdx. lia. }
    rewrite Hlt, nth_error_skipn.
    replace (Z.to_nat startIdx + (k - Z.to_nat startIdx))%nat with k
      by (unfold startIdx; lia).
    exact Hn.
  - intros Hf.
    pose proof (findIndexFrom_find (Memo.nearPrice offerPrice p) m 0) as Hi.
    rewrite Hf in Hi. fold recIndex in Hi.
    assert (Hs : startIdx = 0%Z) by (unfold startIdx; lia).
    rewrite Hs. simpl skipn.
    destruct (Z_le_gt_dec (Z.of_nat (List.length m)) size) as [Hle|Hgt].
    + rewrite (firstn_all2 (n := Z.to_nat size)) by lia.
      apply firstn_all2. unfold endIdx. lia.
    + f_equal. unfold endIdx. lia.
Qed.

End MemoFacts.

(** X8.  [formatIPOMemo] of part_001 returns the line "Error: Could not
    find recommended row" exactly when no row of the matrix is within 0.5 of
    the recommended price.  Otherwise its pricing table is a contiguous part
    of the matrix of at most six rows, and it shows the first row within 0.5
    of the recommended price, with at most two rows in front of it. *)
Theorem part001_memo_table (matrix : list Part001.PricingRow.t) (recommendedPrice : Q) :
  match Part001Memo.formatIPOMemo matrix recommendedPrice with
  | Part001Memo.CouldNotFindRecommendedRow =>
      forall r, In r matrix ->
                5 # 10 <= Qabs (Part001.PricingRow.offerPrice r - recommendedPrice)
  | Part001Memo.MemoWithTable rows =>
      (exists pre post, matrix = pre ++ rows ++ post)
      /\ (List.length rows <= 6)%nat
      /\ exists r k,
          find (Memo.nearPrice Part001.PricingRow.offerPrice recommendedPrice) matrix = Some r
          /\ Qabs (Part001.PricingRow.offerPrice r - recommendedPrice) < 5 # 10
          /\ (k <= 2)%nat /\ nth_error rows k = Some r
  end.
Proof.
  unfold Part001Memo.formatIPOMemo.
  destruct (tableRows_spec Part001.PricingRow.offerPrice 2 6 matrix recommendedPrice)
    as (Hpart & Hlen & Hrow & _); [lia|].
  destruct (find _ matrix) as [r|] eqn:Hf.
  - split; [exact Hpart|]. split; [exact Hlen|].
    destruct (Hrow r eq_refl) as (k & Hk & Hn).
    exists r, k. split; [reflexivity|].
    split; [|split; [exact Hk|exact Hn]].
    apply find_some in Hf. now apply nearPrice_iff.
  - intros r Hin. pose proof (find_none _ _ Hf r Hin) as Hn.
    unfold Memo.nearPrice, JS.Math_abs in Hn. now apply ltb_ge in Hn.
Qed.

(** X9.  For a filed range [lo] to [hi], a minimum acceptable price at
    least 0.5 above [hi] becomes the recommended price of part_001, and no
    row of the matrix is near it: the memo text of the result is the line
    "Error: Could not find recommended row". *)
Theorem part001_minimum_above_range_breaks_memo
        (Math_log : Q -> Q) (a : Part001.IPOAssumptions.t) (lo hi m : Q)
        (res : Part001.Result.t) :
  filedRange a lo hi ->
  Part001.calculateIPOPricing Math_log a = Some res ->
  Part001.IPOAssumptions.minAcceptablePrice a = Some m ->
  hi + (5 # 10) <= m ->
  Part001.Result.recommendedPrice res = m
  /\ Part001Memo.formatIPOMemo (Part001.Result.pricingMatrix res)
                               (Part001.Result.recommendedPrice res)
     = Part001Memo.CouldNotFindRecommendedRow.
Proof.
  intros Hr Hres Hmin Hm.
  pose proof Hr as (_ & _ & Hpos & Hlt).
  rewrite (part001_filed Math_log a lo hi Hr) in Hres. cbv zeta in Hres.
  destruct (Part001.selectRow a lo hi _) as [sel|] eqn:Hsel; [|discriminate].
  injection Hres as <-. cbn [Part001.Result.recommendedPrice Part001.Result.pricingMatrix].
  destruct (selectRow_In _ _ _ _ _ Hsel) as [Hin E].
  destruct (matrix_bounds Math_log a lo hi _ Hin) as [Hlo Hhi].
  assert (Hprice : fst (Part001.respectMinimum a
                          (map (Part001.pricingRow Math_log a) (Part001.pricePoints lo hi))
                          sel) = m).
  { unfold Part001.respectMinimum, Part001.minAcceptablePrice. rewrite Hmin.
    assert (Ht : JS.truthy m = true) by (apply truthy_neq; lra).
    assert (El : JS.ltb (fst sel) m = true) by (apply ltb_lt; lra).
    rewrite Ht, El. reflexivity. }
  rewrite Hprice. split; [reflexivity|].
  unfold Part001Memo.formatIPOMemo.
  destruct (find _ _) as [r|] eqn:Hf; [|reflexivity].
  apply find_some in Hf. destruct Hf as [Hr' Hnear].
  apply nearPrice_iff in Hnear. apply Qabs_Qlt_condition in Hnear.
  destruct (matrix_bounds Math_log a lo hi _ Hr') as [_ Hhi'].
  lra.
Qed.

Lemma part001_minimum_above_range_breaks_memo_witness :
  Part001.Result.recommendedPrice (Samples.resultOf MoreSamples.minimumAboveRange) = 24
  /\ Part001Memo.formatIPOMemo
       (Part001.Result.pricingMatrix (Samples.resultOf MoreSamples.minimumAboveRange))
       (Part001.Result.recommendedPrice (Samples.resultOf MoreSamples.minimumAboveRange))
     = Part001Memo.CouldNotFindRecommendedRow.
Proof.
  apply (part001_minimum_above_range_breaks_memo
           JS.ln_series MoreSamples.minimumAboveRange 18 22 24).
  - repeat split; reflexivity.
  - vm_compute; reflexivity.
  - reflexivity.
  - vm_compute. discriminate.
Defined.

(** ** Scanning a list sorted by descending price *)

(** In a descending list [find] returns an element with the greatest key
    among those that pass the test. *)
Lemma find_first_Descending {A : Type} (key : A -> Q) (test : A -> bool)
      (l : list A) (r : A) :
  Descending key l ->
  find test l = Some r ->
  In r l /\ test r = true /\ forall r', In r' l -> test r' = true -> key r' <= key r.
Proof.
  induction 1 as [|x l Hx Hl IH]; simpl; [discriminate|].
  destruct (test x) eqn:E.
  - intros [= <-]. split; [now left|]. split; [exact E|].
    intros r' [->|Hr'] _; [lra|auto].
  - intro Hf. destruct (IH Hf) as (Hin & Ht & Hmax).
    split; [now right|]. split; [exact Ht|].
    intros r' [->|Hr'] Ht'; [congruence|auto].
Qed.

Lemma find_exists {A : Type} (test : A -> bool) (l : list A) (x : A) :
  In x l -> test x = true -> exists r, find test l = Some r.
Proof.
  intros Hin Ht. destruct (find test l) as [r|] eqn:E; [now exists r|].
  pose proof (find_none _ _ E x Hin). congruence.
Qed.

Lemma nth_error_middle {A : Type} (l : list A) :
  l <> [] -> exists x, nth_error l (Nat.div (List.length l) 2) = Some x /\ In x l.
Proof.
  intro H.
  assert (Hlt : (Nat.div (List.length l) 2 < List.length l)%nat).
  { apply Nat.div_lt; [|lia]. destruct l; [congruence|simpl; lia]. }
  destruct (nth_error l (Nat.div (List.length l) 2)) as [x|] eqn:E.
  - exists x. split; [reflexivity|]. now apply nth_error_In in E.
  - apply nth_error_None in E. lia.
Qed.

(** ** ipoPricingService.ts: recommendation and memo *)

Lemma iposvc_findRow_some (a : IpoPricingService.IPOAssumptions.t) (price : Q)
      (r : IpoPricingService.PricingRow.t) :
  IpoPricingServiceTail.findRow a price = Some r ->
  In r (IpoPricingService.pricingMatrix a)
  /\ IpoPricingService.PricingRow.offerPrice r == price.
Proof.
  intro H. apply find_some in H. destruct H as [Hin E].
  split; [exact Hin|now apply Qeq_bool_iff].
Qed.

Lemma iposvc_sorted_In (a : IpoPricingService.IPOAssumptions.t)
      (r : IpoPricingService.PricingRow.t) :
  In r (IpoPricingServiceTail.sortedByPrice a) <-> In r (IpoPricingService.pricingMatrix a).
Proof. apply (In_sort IpoPricingService.PricingRow.offerPrice). Qed.

Lemma iposvc_sorted_Descending (a : IpoPricingService.IPOAssumptions.t) :
  Descending IpoPricingService.PricingRow.offerPrice (IpoPricingServiceTail.sortedByPrice a).
Proof. apply (sort_Descending IpoPricingService.PricingRow.offerPrice). Qed.

(** A row chosen by [selectRow] is a row of the matrix at the chosen price. *)
Lemma iposvc_selectRow_row (a : IpoPricingService.IPOAssumptions.t)
      (pa : IpoPricingServiceTail.PricingAggressiveness)
      (mp : option IpoPricingServiceTail.ManagementPriority) (minPrice : option Q)
      (price : Q) (r : IpoPricingService.PricingRow.t) :
  snd (IpoPricingServiceTail.selectRow a pa mp minPrice price) = Some r ->
  In r (IpoPricingService.pricingMatrix a)
  /\ fst (IpoPricingServiceTail.selectRow a pa mp minPrice price)
     == IpoPricingService.PricingRow.offerPrice r.
Proof.
  assert (Hfirst : forall test,
             snd (IpoPricingServiceTail.firstRow a test price) = Some r ->
             In r (IpoPricingService.pricingMatrix a)
             /\ fst (IpoPricingServiceTail.firstRow a test price)
                == IpoPricingService.PricingRow.offerPrice r).
  { intro test. unfold IpoPricingServiceTail.firstRow.
    destruct (find test _) as [row|] eqn:Hf; simpl; [|discriminate].
    intros [= ->]. apply find_some in Hf. destruct Hf as [Hin _].
    split; [now apply iposvc_sorted_In|reflexivity]. }
  assert (Hfind : forall p,
             IpoPricingServiceTail.findRow a p = Some r ->
             In r (IpoPricingService.pricingMatrix a)
             /\ p == IpoPricingService.PricingRow.offerPrice r).
  { intros p Hf. destruct (iposvc_findRow_some a p r Hf). split; [assumption|now symmetry]. }
  unfold IpoPricingServiceTail.selectRow.
  destruct (IpoPricingServiceTail.weakBookRunway a mp); [|apply Hfirst].
  unfold IpoPricingServiceTail.respectMinimum.
  assert (Hcap : snd (IpoPricingServiceTail.capAtMidpoint a
                        (IpoPricingServiceTail.firstRow a
                           (fun row => JS.geb (IpoPricingService.PricingRow.oversubscription row) 5)
                           price)) = Some r ->
                 In r (IpoPricingService.pricingMatrix a)
                 /\ fst (IpoPricingServiceTail.capAtMidpoint a
                           (IpoPricingServiceTail.firstRow a
                              (fun row =>
                                 JS.geb (IpoPricingService.PricingRow.oversubscription row) 5)
                              price))
                    == IpoPricingService.PricingRow.offerPrice r).
  { unfold IpoPricingServiceTail.capAtMidpoint.
    destruct (IpoPricingServiceTail.midpoint a) as [m|]; [|apply Hfirst].
    destruct (JS.gtb _ m); [|apply Hfirst].
    simpl. apply Hfind. }
  destruct minPrice as [m|]; [|exact Hcap].
  destruct (JS.truthy m && JS.ltb _ m); [|exact Hcap].
  simpl. apply Hfind.
Qed.

Lemma iposvc_recommend_row (a : IpoPricingService.IPOAssumptions.t)
      (pa : IpoPricingServiceTail.PricingAggressiveness)
      (mp : option IpoPricingServiceTail.ManagementPriority) (minPrice : option Q)
      (price : Q) (r : IpoPricingService.PricingRow.t) :
  IpoPricingServiceTail.recommend a pa mp minPrice = Some (price, r) ->
  In r (IpoPricingService.pricingMatrix a)
  /\ price == IpoPricingService.PricingRow.offerPrice r.
Proof.
  unfold IpoPricingServiceTail.recommend.
  destruct (IpoPricingServiceTail.initialPrice a) as [p0|]; [|discriminate].
  unfold IpoPricingServiceTail.orMiddle.
  destruct (snd (IpoPricingServiceTail.selectRow a pa mp minPrice p0)) as [row|] eqn:Hs.
  - intros [= <- <-]. exact (iposvc_selectRow_row a pa mp minPrice p0 row Hs).
  - destruct (IpoPricingServiceTail.findRow a _) as [row|] eqn:Hf.
    + intros [= <- <-]. split; [|reflexivity].
      exact (proj1 (iposvc_findRow_some a _ row Hf)).
    + unfold IpoPricingServiceTail.middleRow, IpoPricingServiceTail.pricingMatrix.
      destruct (nth_error _ _) as [row|] eqn:Hn; [|discriminate].
      intros [= <- <-]. split; [|reflexivity].
      now apply nth_error_In in Hn.
Qed.

Lemma iposvc_recommend_none_iff (a : IpoPricingService.IPOAssumptions.t)
      (pa : IpoPricingServiceTail.PricingAggressiveness)
      (mp : option IpoPricingServiceTail.ManagementPriority) (minPrice : option Q) :
  IpoPricingServiceTail.recommend a pa mp minPrice = None
  <-> IpoPricingService.pricingMatrix a = [].
Proof.
  split.
  - intro Hnone.
    destruct (IpoPricingService.pricingMatrix a) as [|x l] eqn:Hm; [reflexivity|exfalso].
    assert (Hne : IpoPricingService.pricingMatrix a <> []) by (rewrite Hm; discriminate).
    destruct (nth_error_middle _ Hne) as (mid & Hmid & _).
    unfold IpoPricingServiceTail.recommend in Hnone.
    assert (Hinit : exists p0, IpoPricingServiceTail.initialPrice a = Some p0).
    { unfold IpoPricingServiceTail.initialPrice, IpoPricingServiceTail.middleRow,
        IpoPricingServiceTail.pricingMatrix. rewrite Hmid. simpl.
      destruct (IpoPricingServiceTail.indicatedPriceRangeLow a) as [lo|]; [|eauto].
      destruct (JS.truthy lo); eauto. }
    destruct Hinit as [p0 Hp0]. rewrite Hp0 in Hnone.
    unfold IpoPricingServiceTail.orMiddle, IpoPricingServiceTail.middleRow,
      IpoPricingServiceTail.pricingMatrix in Hnone.
    rewrite Hmid in Hnone.
    destruct (snd _); [discriminate|].
    destruct (IpoPricingServiceTail.findRow a _); discriminate.
  - intro Hm.
    destruct (IpoPricingServiceTail.recommend a pa mp minPrice) as [[price r]|] eqn:Hrec;
      [|reflexivity].
    destruct (iposvc_recommend_row a pa mp minPrice price r Hrec) as [Hin _].
    rewrite Hm in Hin. destruct Hin.
Qed.

Lemma iposvc_matrix_nil_iff (a : IpoPricingService.IPOAssumptions.t) :
  IpoPricingService.pricingMatrix a = [] <-> IpoPricingService.pricePoints a = [].
Proof.
  unfold IpoPricingService.pricingMatrix. split; intro H.
  - destruct (IpoPricingService.pricePoints a); [reflexivity|discriminate].
  - rewrite H. reflexivity.
Qed.

(** X10.  [calculateIPOPricing] of ipoPricingService.ts throws (a
    TypeError on an undefined row) exactly when its pricing matrix is
    empty.  That is the case when the upper end of the price grid is below
    its lower end, as for an inverted range without order book; it is not
    the case when the lower end is positive and not above the upper end. *)
Theorem iposvc_throws_on_empty_matrix
        (a : IpoPricingService.IPOAssumptions.t)
        (pa : IpoPricingServiceTail.PricingAggressiveness)
        (mp : option IpoPricingServiceTail.ManagementPriority) (minPrice : option Q) :
  (IpoPricingServiceTail.calculateIPOPricing a pa mp minPrice = None
   <-> IpoPricingService.pricingMatrix a = [])
  /\ (IpoPricingService.maxPrice a < IpoPricingService.minPrice a ->
      IpoPricingServiceTail.calculateIPOPricing a pa mp minPrice = None)
  /\ (0 < IpoPricingService.minPrice a ->
      IpoPricingService.minPrice a <= IpoPricingService.maxPrice a ->
      exists res, IpoPricingServiceTail.calculateIPOPricing a pa mp minPrice = Some res).
Proof.
  assert (Hiff : IpoPricingServiceTail.calculateIPOPricing a pa mp minPrice = None
                 <-> IpoPricingService.pricingMatrix a = []).
  { rewrite <- (iposvc_recommend_none_iff a pa mp minPrice).
    unfold IpoPricingServiceTail.calculateIPOPricing.
    destruct (IpoPricingServiceTail.recommend a pa mp minPrice) as [[price r]|].
    - split; discriminate.
    - tauto. }
  split; [exact Hiff|]. split.
  - intro Hlt. apply Hiff. apply iposvc_matrix_nil_iff.
    unfold IpoPricingService.pricePoints, Part001.pricePoints. simpl.
    assert (E : Qle_bool (IpoPricingService.minPrice a) (IpoPricingService.maxPrice a) = false).
    { apply (leb_gt (IpoPricingService.minPrice a)). exact Hlt. }
    rewrite E. reflexivity.
  - intros Hpos Hle.
    destruct (IpoPricingServiceTail.calculateIPOPricing a pa mp minPrice) as [res|] eqn:Hc;
      [now exists res|].
    pose proof (proj1 Hiff eq_refl) as Hm. clear Hc.
    pose proof (proj1 (iposvc_matrix_nil_iff a) Hm) as Hc.
    unfold IpoPricingService.pricePoints in Hc.
    destruct (pricePoints_first _ _ Hpos Hle) as [rest Hrest].
    rewrite Hrest in Hc. discriminate.
Qed.

Lemma iposvc_throws_on_empty_matrix_witness :
  IpoPricingServiceTail.calculateIPOPricing
    (Samples.dealSvc (Some 20) (Some 18) None) IpoPricingServiceTail.moderate None None = None
  /\ exists res,
      IpoPricingServiceTail.calculateIPOPricing
        (Samples.dealSvc (Some 18) (Some 22) None) IpoPricingServiceTail.moderate None None
      = Some res.
Proof.
  split.
  - apply (iposvc_throws_on_empty_matrix (Samples.dealSvc (Some 20) (Some 18) None)).
    reflexivity.
  - apply (iposvc_throws_on_empty_matrix (Samples.dealSvc (Some 18) (Some 22) None));
      [reflexivity|vm_compute; discriminate].
Defined.

(** X11.  When [calculateIPOPricing] of ipoPricingService.ts returns, the
    recommended price is the offer price of a row of the matrix (also when
    a minimum acceptable price was stated that is no price of the matrix),
    so the memo is never the error line: its pricing table has at most six
    rows and shows a row within 0.5 of the recommended price, with at most
    two rows in front of it. *)
Theorem iposvc_recommends_a_matrix_row
        (a : IpoPricingService.IPOAssumptions.t)
        (pa : IpoPricingServiceTail.PricingAggressiveness)
        (mp : option IpoPricingServiceTail.ManagementPriority) (minPrice : option Q)
        (res : IpoPricingServiceTail.Result.t) :
  IpoPricingServiceTail.calculateIPOPricing a pa mp minPrice = Some res ->
  (exists r, In r (IpoPricingServiceTail.Result.pricingMatrix res)
             /\ IpoPricingServiceTail.Result.recommendedPrice res
                == IpoPricingService.PricingRow.offerPrice r)
  /\ exists rows r k,
      IpoPricingServiceTail.memoText res = IpoPricingServiceTail.MemoWithTable rows
      /\ (List.length rows <= 6)%nat
      /\ (k <= 2)%nat /\ nth_error rows k = Some r
      /\ Qabs (IpoPricingService.PricingRow.offerPrice r
               - IpoPricingServiceTail.Result.recommendedPrice res) < 5 # 10.
Proof.
  unfold IpoPricingServiceTail.calculateIPOPricing.
  destruct (IpoPricingServiceTail.recommend a pa mp minPrice) as [[price r]|] eqn:Hrec;
    [|discriminate].
  intros [= <-].
  destruct (iposvc_recommend_row a pa mp minPrice price r Hrec) as [Hin E].
  unfold IpoPricingServiceTail.memoText, IpoPricingServiceTail.formatIPOMemo.
  cbn [IpoPricingServiceTail.Result.pricingMatrix
         IpoPricingServiceTail.Result.recommendedPrice].
  unfold IpoPricingServiceTail.pricingMatrix.
  split; [now exists r|].
  destruct (find_exists (Memo.nearPrice IpoPricingService.PricingRow.offerPrice price)
              (IpoPricingService.pricingMatrix a) r Hin) as [r' Hf].
  { apply nearPrice_of_eq. now symmetry. }
  rewrite Hf.
  destruct (tableRows_spec IpoPricingService.PricingRow.offerPrice 2 6
              (IpoPricingService.pricingMatrix a) price)
    as (_ & Hlen & Hrow & _); [lia|].
  destruct (Hrow r' Hf) as (k & Hk & Hn).
  exists (Memo.tableRows IpoPricingService.PricingRow.offerPrice 2 6
                         (IpoPricingService.pricingMatrix a) price), r', k.
  split; [reflexivity|]. split; [exact Hlen|]. split; [exact Hk|]. split; [exact Hn|].
  apply find_some in Hf. now apply nearPrice_iff.
Qed.

Lemma iposvc_recommends_a_matrix_row_witness :
  (exists r, In r (IpoPricingServiceTail.Result.pricingMatrix MoreSamples.weakBookRunwayResult)
             /\ IpoPricingServiceTail.Result.recommendedPrice MoreSamples.weakBookRunwayResult
                == IpoPricingService.PricingRow.offerPrice r)
  /\ exists rows r k,
      IpoPricingServiceTail.memoText MoreSamples.weakBookRunwayResult
      = IpoPricingServiceTail.MemoWithTable rows
      /\ (List.length rows <= 6)%nat
      /\ (k <= 2)%nat /\ nth_error rows k = Some r
      /\ Qabs (IpoPricingService.PricingRow.offerPrice r
               - IpoPricingServiceTail.Result.recommendedPrice MoreSamples.weakBookRunwayResult)
         < 5 # 10.
Proof.
  apply (iposvc_recommends_a_matrix_row
           MoreSamples.weakBookSvc IpoPricingServiceTail.moderate
           (Some IpoPricingServiceTail.runway_extension) (Some (51 # 2))).
  vm_compute; reflexivity.
Defined.

(** X12.  Outside the weak-book runway branch, when some row of the matrix
    passes the test of the pricing policy (maximum: oversubscription at
    least 3; conservative: at least 10 and an implied pop of at least 10%;
    otherwise: at least 5 and an implied pop of at least 0),
    ipoPricingService.ts recommends a row that passes the test and whose
    price no other passing row exceeds. *)
Theorem iposvc_policy_picks_highest_passing_row
        (a : IpoPricingService.IPOAssumptions.t)
        (pa : IpoPricingServiceTail.PricingAggressiveness)
        (mp : option IpoPricingServiceTail.ManagementPriority) (minPrice : option Q)
        (candidate : IpoPricingService.PricingRow.t) :
  IpoPricingServiceTail.weakBookRunway a mp = false ->
  In candidate (IpoPricingService.pricingMatrix a) ->
  IpoPricingServiceTail.accepts pa candidate = true ->
  exists r,
    IpoPricingServiceTail.recommend a pa mp minPrice
    = Some (IpoPricingService.PricingRow.offerPrice r, r)
    /\ In r (IpoPricingService.pricingMatrix a)
    /\ IpoPricingServiceTail.accepts pa r = true
    /\ forall r', In r' (IpoPricingService.pricingMatrix a) ->
                  IpoPricingServiceTail.accepts pa r' = true ->
                  IpoPricingService.PricingRow.offerPrice r'
                  <= IpoPricingService.PricingRow.offerPrice r.
Proof.
  intros Hweak Hin Hacc.
  assert (Hin' : In candidate (IpoPricingServiceTail.sortedByPrice a))
    by now apply iposvc_sorted_In.
  destruct (find_exists (IpoPricingServiceTail.accepts pa) _ candidate Hin' Hacc) as [r Hf].
  destruct (find_first_Descending IpoPricingService.PricingRow.offerPrice
              (IpoPricingServiceTail.accepts pa) _ r (iposvc_sorted_Descending a) Hf)
    as (Hr & Ht & Hmax).
  exists r. split; [|split; [now apply iposvc_sorted_In|split; [exact Ht|]]].
  - assert (Hne : IpoPricingService.pricingMatrix a <> []).
    { intro E. rewrite E in Hin. destruct Hin. }
    destruct (IpoPricingServiceTail.recommend a pa mp minPrice) as [[price row]|] eqn:Hrec.
    + unfold IpoPricingServiceTail.recommend in Hrec.
      destruct (IpoPricingServiceTail.initialPrice a) as [p0|]; [|discriminate].
      unfold IpoPricingServiceTail.selectRow in Hrec. rewrite Hweak in Hrec.
      unfold IpoPricingServiceTail.firstRow in Hrec. rewrite Hf in Hrec.
      simpl in Hrec. symmetry. exact Hrec.
    + apply iposvc_recommend_none_iff in Hrec. contradiction.
  - intros r' Hr' Ht'. apply Hmax; [now apply iposvc_sorted_In|exact Ht'].
Qed.

Lemma iposvc_policy_picks_highest_passing_row_witness :
  exists r,
    IpoPricingServiceTail.recommend Samples.scenarioCSvc IpoPricingServiceTail.maximum None None
    = Some (IpoPricingService.PricingRow.offerPrice r, r)
    /\ In r (IpoPricingService.pricingMatrix Samples.scenarioCSvc)
    /\ IpoPricingServiceTail.accepts IpoPricingServiceTail.maximum r = true
    /\ forall r', In r' (IpoPricingService.pricingMatrix Samples.scenarioCSvc) ->
                  IpoPricingServiceTail.accepts IpoPricingServiceTail.maximum r' = true ->
                  IpoPricingService.PricingRow.offerPrice r'
                  <= IpoPricingService.PricingRow.offerPrice r.
Proof.
  apply (iposvc_policy_picks_highest_passing_row
           Samples.scenarioCSvc IpoPricingServiceTail.maximum None None
           (IpoPricingService.pricingRow Samples.scenarioCSvc 30)).
  - reflexivity.
  - vm_compute; auto 20.
  - reflexivity.
Defined.

Lemma fold_left_min_le (l : list Q) (x : Q) :
  fold_left JS.Math_min l x <= x /\ forall y, In y l -> fold_left JS.Math_min l x <= y.
Proof.
  revert x. induction l as [|z l IH]; intro x; simpl.
  - split; [lra|intros y []].
  - destruct (IH (JS.Math_min x z)) as [H1 H2].
    assert (Hmin : JS.Math_min x z <= x /\ JS.Math_min x z <= z).
    { unfold JS.Math_min. destruct (Qle_bool x z) eqn:E.
      - apply Qle_bool_iff in E. split; lra.
      - apply (leb_gt x z) in E. split; lra. }
    split; [lra|].
    intros y [<-|Hy]; [lra|auto].
Qed.

Lemma fold_left_max_ge (l : list Q) (x : Q) :
  x <= fold_left JS.Math_max l x /\ forall y, In y l -> y <= fold_left JS.Math_max l x.
Proof.
  revert x. induction l as [|z l IH]; intro x; simpl.
  - split; [lra|intros y []].
  - destruct (IH (JS.Math_max x z)) as [H1 H2].
    assert (Hmax : x <= JS.Math_max x z /\ z <= JS.Math_max x z).
    { unfold JS.Math_max. destruct (Qle_bool x z) eqn:E.
      - apply Qle_bool_iff in E. split; lra.
      - apply (leb_gt x z) in E. split; lra. }
    split; [lra|].
    intros y [<-|Hy]; [lra|auto].
Qed.

(** X13.  With an order book and a lowest grid price above 0, the matrix
    of ipoPricingService.ts starts at
    [minPrice = min (range low || 15, tier levels) - 3], which is at least
    $3 below every tier and the low end, ascends strictly, and ends less
    than a dollar below
    [maxPrice = max (range high || 30, tier levels) + 3], which is at least
    $3 above every tier and the high end: the last row is more than $2
    above every tier, and $3 above only when it is [maxPrice] itself. *)
Theorem iposvc_grid_covers_book
        (a : IpoPricingService.IPOAssumptions.t)
        (book : list IpoPricingService.OrderBookEntry.t)
        (entry : IpoPricingService.OrderBookEntry.t) :
  IpoPricingService.IPOAssumptions.orderBook a = Some book ->
  In entry book ->
  0 < IpoPricingService.minPrice a ->
  exists rest,
    map IpoPricingService.PricingRow.offerPrice (IpoPricingService.pricingMatrix a)
    = IpoPricingService.minPrice a :: rest
    /\ ForallOrdPairs Qlt (IpoPricingService.minPrice a :: rest)
    /\ IpoPricingService.minPrice a <= IpoPricingService.OrderBookEntry.priceLevel entry - 3
    /\ IpoPricingService.minPrice a
       <= JS.or_else (IpoPricingService.IPOAssumptions.indicatedPriceRangeLow a) 15 - 3
    /\ IpoPricingService.maxPrice a - 1
       < last (IpoPricingService.minPrice a :: rest) (IpoPricingService.minPrice a)
    /\ last (IpoPricingService.minPrice a :: rest) (IpoPricingService.minPrice a)
       <= IpoPricingService.maxPrice a
    /\ IpoPricingService.OrderBookEntry.priceLevel entry + 3 <= IpoPricingService.maxPrice a
    /\ JS.or_else (IpoPricingService.IPOAssumptions.indicatedPriceRangeHigh a) 30 + 3
       <= IpoPricingService.maxPrice a.
Proof.
  intros Hbook Hin Hpos.
  assert (Hp : In (IpoPricingService.OrderBookEntry.priceLevel entry)
                  (IpoPricingService.bookPrices a)).
  { unfold IpoPricingService.bookPrices, IpoPricingService.orderBook.
    rewrite Hbook. simpl. now apply in_map. }
  assert (Hlimits :
            IpoPricingService.minPrice a
            <= IpoPricingService.OrderBookEntry.priceLevel entry - 3
            /\ IpoPricingService.OrderBookEntry.priceLevel entry + 3
               <= IpoPricingService.maxPrice a
            /\ IpoPricingService.minPrice a
               <= JS.or_else (IpoPricingService.IPOAssumptions.indicatedPriceRangeLow a) 15 - 3
            /\ JS.or_else (IpoPricingService.IPOAssumptions.indicatedPriceRangeHigh a) 30 + 3
               <= IpoPricingService.maxPrice a).
  { unfold IpoPricingService.minPrice, IpoPricingService.maxPrice.
    destruct (IpoPricingService.bookPrices a) as [|p ps] eqn:Hps; [destruct Hp|].
    destruct (fold_left_min_le (p :: ps)
                (JS.or_else (IpoPricingService.IPOAssumptions.indicatedPriceRangeLow a) 15))
      as [H1 H2].
    destruct (fold_left_max_ge (p :: ps)
                (JS.or_else (IpoPricingService.IPOAssumptions.indicatedPriceRangeHigh a) 30))
      as [H3 H4].
    specialize (H2 _ Hp). specialize (H4 _ Hp).
    repeat split; lra. }
  destruct Hlimits as (H1 & H2 & H3 & H4).
  set (lo := IpoPricingService.minPrice a) in *.
  set (hi := IpoPricingService.maxPrice a) in *.
  assert (Hle : lo <= hi) by lra.
  destruct (pricePoints_first lo hi Hpos Hle) as [rest Hrest].
  exists rest.
  assert (Hm : map IpoPricingService.PricingRow.offerPrice (IpoPricingService.pricingMatrix a)
               = lo :: rest).
  { unfold IpoPricingService.pricingMatrix, IpoPricingService.pricePoints.
    fold lo hi. rewrite map_map. simpl. rewrite map_id. exact Hrest. }
  split; [exact Hm|].
  rewrite <- Hrest.
  split; [apply pricePoints_ascending|].
  split; [exact H1|]. split; [exact H3|].
  split; [now apply pricePoints_last|].
  split; [|split; assumption].
  pose proof (pricePoints_le lo hi) as Hall.
  rewrite Forall_forall in Hall. apply Hall.
  rewrite Hrest. apply last_In. discriminate.
Qed.

Lemma iposvc_grid_covers_book_witness :
  exists rest,
    map IpoPricingService.PricingRow.offerPrice
        (IpoPricingService.pricingMatrix MoreSamples.halfDollarBookSvc)
    = IpoPricingService.minPrice MoreSamples.halfDollarBookSvc :: rest
    /\ ForallOrdPairs Qlt (IpoPricingService.minPrice MoreSamples.halfDollarBookSvc :: rest)
    /\ IpoPricingService.minPrice MoreSamples.halfDollarBookSvc <= 30 - 3
    /\ IpoPricingService.minPrice MoreSamples.halfDollarBookSvc
       <= JS.or_else (Some (49 # 2)) 15 - 3
    /\ IpoPricingService.maxPrice MoreSamples.halfDollarBookSvc - 1
       < last (IpoPricingService.minPrice MoreSamples.halfDollarBookSvc :: rest)
              (IpoPricingService.minPrice MoreSamples.halfDollarBookSvc)
    /\ last (IpoPricingService.minPrice MoreSamples.halfDollarBookSvc :: rest)
            (IpoPricingService.minPrice MoreSamples.halfDollarBookSvc)
       <= IpoPricingService.maxPrice MoreSamples.halfDollarBookSvc
    /\ 30 + 3 <= IpoPricingService.maxPrice MoreSamples.halfDollarBookSvc
    /\ JS.or_else (Some 28) 30 + 3 <= IpoPricingService.maxPrice MoreSamples.halfDollarBookSvc.
Proof.
  apply (iposvc_grid_covers_book MoreSamples.halfDollarBookSvc
           [Samples.tierSvc 30 5] (Samples.tierSvc 30 5)).
  - reflexivity.
  - simpl. auto.
  - reflexivity.
Defined.

Lemma iposvc_matrix_positive (a : IpoPricingService.IPOAssumptions.t)
      (r : IpoPricingService.PricingRow.t) :
  In r (IpoPricingService.pricingMatrix a) -> 0 < IpoPricingService.PricingRow.offerPrice r.
Proof.
  unfold IpoPricingService.pricingMatrix. intro H.
  apply in_map_iff in H. destruct H as (p & <- & Hp). simpl.
  exact (priceLoop_positive _ _ _ _ Hp).
Qed.

(** X14.  The recommended range of ipoPricingService.ts runs from
    [max (minAcceptablePrice || price - 2, price - 2)] to [price + 1]: it
    is ordered when no minimum acceptable price above [price + 1] was
    stated, and inverted, with the minimum as its low end, when one was. *)
Theorem iposvc_recommended_range
        (a : IpoPricingService.IPOAssumptions.t)
        (pa : IpoPricingServiceTail.PricingAggressiveness)
        (mp : option IpoPricingServiceTail.ManagementPriority) (minPrice : option Q)
        (res : IpoPricingServiceTail.Result.t) :
  IpoPricingServiceTail.calculateIPOPricing a pa mp minPrice = Some res ->
  IpoPricingServiceTail.Result.recommendedRangeHigh res
  == IpoPricingServiceTail.Result.recommendedPrice res + 1
  /\ IpoPricingServiceTail.Result.recommendedPrice res - 2
     <= IpoPricingServiceTail.Result.recommendedRangeLow res
  /\ ((forall m, minPrice = Some m ->
                 m <= IpoPricingServiceTail.Result.recommendedPrice res + 1) ->
      IpoPricingServiceTail.Result.recommendedRangeLow res
      <= IpoPricingServiceTail.Result.recommendedRangeHigh res)
  /\ (forall m, minPrice = Some m ->
                IpoPricingServiceTail.Result.recommendedPrice res + 1 < m ->
                IpoPricingServiceTail.Result.recommendedRangeLow res == m
                /\ IpoPricingServiceTail.Result.recommendedRangeHigh res
                   < IpoPricingServiceTail.Result.recommendedRangeLow res).
Proof.
  unfold IpoPricingServiceTail.calculateIPOPricing.
  destruct (IpoPricingServiceTail.recommend a pa mp minPrice) as [[price r]|] eqn:Hrec;
    [|discriminate].
  intros [= <-].
  destruct (iposvc_recommend_row a pa mp minPrice price r Hrec) as [Hin E].
  pose proof (iposvc_matrix_positive a r Hin) as Hpos.
  cbn [IpoPricingServiceTail.Result.recommendedRangeHigh
         IpoPricingServiceTail.Result.recommendedRangeLow
         IpoPricingServiceTail.Result.recommendedPrice].
  unfold IpoPricingServiceTail.recommendedRangeHigh, IpoPricingServiceTail.recommendedRangeLow.
  split; [reflexivity|].
  assert (Hmax : forall x y, y <= JS.Math_max x y /\ x <= JS.Math_max x y
                             /\ (JS.Math_max x y == x \/ JS.Math_max x y == y)).
  { intros x y. unfold JS.Math_max. destruct (Qle_bool x y) eqn:Hb.
    - apply Qle_bool_iff in Hb. split; [lra|]. split; [lra|]. right; reflexivity.
    - apply (leb_gt x y) in Hb. split; [lra|]. split; [lra|]. left; reflexivity. }
  destruct (Hmax (JS.or_else minPrice (price - 2)) (price - 2)) as (H1 & H2 & H3).
  split; [exact H1|]. split.
  - intros Hm. unfold JS.or_else in *.
    destruct minPrice as [m|]; [|lra].
    specialize (Hm m eq_refl).
    destruct (JS.truthy m); lra.
  - intros m -> Hlt. unfold JS.or_else in *.
    assert (Ht : JS.truthy m = true) by (apply truthy_neq; lra).
    rewrite Ht in *. lra.
Qed.

Lemma iposvc_recommended_range_witness :
  IpoPricingServiceTail.Result.recommendedRangeLow MoreSamples.highMinimumResult == 40
  /\ IpoPricingServiceTail.Result.recommendedRangeHigh MoreSamples.highMinimumResult
     < IpoPricingServiceTail.Result.recommendedRangeLow MoreSamples.highMinimumResult.
Proof.
  refine (proj2 (proj2 (proj2
            (iposvc_recommended_range
               Samples.scenarioCSvc IpoPricingServiceTail.moderate None (Some 40)
               MoreSamples.highMinimumResult _))) 40 eq_refl _).
  - vm_compute; reflexivity.
  - vm_compute; reflexivity.
Defined.

(** X15.  In the weak-book runway branch of ipoPricingService.ts (runway
    priority, oversubscription below 5 at the top of the range), with both
    ends of the range given, no minimum acceptable price, and the low end
    and the floored midpoint among the prices of the matrix, the
    recommended price is never above the midpoint of the range. *)
Theorem iposvc_weak_book_runway_stays_at_or_below_midpoint
        (a : IpoPricingService.IPOAssumptions.t)
        (pa : IpoPricingServiceTail.PricingAggressiveness)
        (mp : option IpoPricingServiceTail.ManagementPriority)
        (lo hi price : Q) (r : IpoPricingService.PricingRow.t) :
  IpoPricingServiceTail.weakBookRunway a mp = true ->
  IpoPricingService.IPOAssumptions.indicatedPriceRangeLow a = Some lo ->
  IpoPricingService.IPOAssumptions.indicatedPriceRangeHigh a = Some hi ->
  ~ lo == 0 ->
  IpoPricingServiceTail.findRow a lo <> None ->
  IpoPricingServiceTail.findRow a (IpoPricingServiceTail.Math_floor ((lo + hi) / 2)) <> None ->
  IpoPricingServiceTail.recommend a pa mp None = Some (price, r) ->
  price <= (lo + hi) / 2.
Proof.
  intros Hweak Hlo Hhi Hnz Hflo Hfmid.
  unfold IpoPricingServiceTail.recommend, IpoPricingServiceTail.initialPrice,
    IpoPricingServiceTail.indicatedPriceRangeLow.
  rewrite Hlo.
  assert (Ht : JS.truthy lo = true) by now apply truthy_neq.
  rewrite Ht.
  unfold IpoPricingServiceTail.selectRow. rewrite Hweak.
  unfold IpoPricingServiceTail.respectMinimum, IpoPricingServiceTail.capAtMidpoint,
    IpoPricingServiceTail.midpoint, IpoPricingServiceTail.indicatedPriceRangeLow,
    IpoPricingServiceTail.indicatedPriceRangeHigh.
  rewrite Hlo, Hhi.
  set (m := (lo + hi) / 2) in *.
  assert (Hfloor : IpoPricingServiceTail.Math_floor m <= m)
    by (unfold IpoPricingServiceTail.Math_floor; apply Qfloor_le).
  destruct (JS.gtb (fst (IpoPricingServiceTail.firstRow a _ lo)) m) eqn:Hgt.
  - unfold IpoPricingServiceTail.orMiddle. cbn [fst snd].
    destruct (IpoPricingServiceTail.findRow a (IpoPricingServiceTail.Math_floor m))
      as [row|]; [|congruence].
    intros [= <- <-]. exact Hfloor.
  - apply gtb_ge in Hgt.
    unfold IpoPricingServiceTail.orMiddle.
    unfold IpoPricingServiceTail.firstRow in *.
    destruct (find _ (IpoPricingServiceTail.sortedByPrice a)) as [row|]; cbn [fst snd] in *.
    + intros [= <- <-]. exact Hgt.
    + destruct (IpoPricingServiceTail.findRow a lo) as [row|] eqn:Hf; [|congruence].
      intros [= <- <-].
      destruct (iposvc_findRow_some a lo row Hf) as [_ E]. lra.
Qed.

Lemma iposvc_weak_book_runway_stays_at_or_below_midpoint_witness :
  IpoPricingServiceTail.recommend
    MoreSamples.weakBookSvc IpoPricingServiceTail.moderate
    (Some IpoPricingServiceTail.runway_extension) None
  = Some (24, IpoPricingService.pricingRow MoreSamples.weakBookSvc 24)
  /\ 24 <= (24 + 28) / 2.
Proof.
  assert (Hrec : IpoPricingServiceTail.recommend
                   MoreSamples.weakBookSvc IpoPricingServiceTail.moderate
                   (Some IpoPricingServiceTail.runway_extension) None
                 = Some (24, IpoPricingService.pricingRow MoreSamples.weakBookSvc 24))
    by (vm_compute; reflexivity).
  split; [exact Hrec|].
  apply (iposvc_weak_book_runway_stays_at_or_below_midpoint
           MoreSamples.weakBookSvc IpoPricingServiceTail.moderate
           (Some IpoPricingServiceTail.runway_extension) 24 28 24
           (IpoPricingService.pricingRow MoreSamples.weakBookSvc 24)).
  - reflexivity.
  - reflexivity.
  - reflexivity.
  - vm_compute. discriminate.
  - vm_compute. discriminate.
  - vm_compute. discriminate.
  - exact Hrec.
Defined.

(** ** part_002: recommendation and memo *)

Lemma part002_sorted_In (a : Part002.IPOAssumptions.t) (r : Part002.PricingRow.t) :
  In r (Part002Tail.sortedMatrix a) <-> In r (Part002.pricingMatrix a).
Proof. apply (In_sort Part002.PricingRow.offerPrice). Qed.

Lemma part002_sorted_Descending (a : Part002.IPOAssumptions.t) :
  Descending Part002.PricingRow.offerPrice (Part002Tail.sortedMatrix a).
Proof. apply (sort_Descending Part002.PricingRow.offerPrice). Qed.

Lemma find_none_sorted (a : Part002.IPOAssumptions.t) (test : Part002.PricingRow.t -> bool) :
  find test (Part002Tail.sortedMatrix a) = None ->
  forall r, In r (Part002.pricingMatrix a) -> test r = false.
Proof.
  intros Hf r Hin. apply (find_none _ _ Hf). now apply part002_sorted_In.
Qed.

(** X16.  The row recommended by part_002 is, in this order of
    preference: a row that meets all four criteria (oversubscription of at
    least 20, implied pop within the acceptable maximum, price not above
    the DCF value, at most 10% above the peer median) with the highest
    price among such rows; failing that, a row with an oversubscription of
    at least 20 with the highest price among such rows; failing that, the
    middle row of the matrix.  There is none exactly when the matrix is
    empty. *)
Theorem part002_recommended_row (a : Part002.IPOAssumptions.t) (boardGuidance : option string) :
  match Part002Tail.recommendedRow a boardGuidance with
  | Some r =>
      In r (Part002.pricingMatrix a)
      /\ ((Part002Tail.acceptable a boardGuidance r = true
           /\ forall r', In r' (Part002.pricingMatrix a) ->
                         Part002Tail.acceptable a boardGuidance r' = true ->
                         Part002.PricingRow.offerPrice r' <= Part002.PricingRow.offerPrice r)
          \/ ((forall r', In r' (Part002.pricingMatrix a) ->
                          Part002Tail.acceptable a boardGuidance r' = false)
              /\ Part002Tail.hasGoodDemand r = true
              /\ forall r', In r' (Part002.pricingMatrix a) ->
                            Part002Tail.hasGoodDemand r' = true ->
                            Part002.PricingRow.offerPrice r' <= Part002.PricingRow.offerPrice r)
          \/ ((forall r', In r' (Part002.pricingMatrix a) ->
                          Part002Tail.hasGoodDemand r' = false)
              /\ Part002Tail.middleRow a = Some r))
  | None => Part002.pricingMatrix a = []
  end.
Proof.
  unfold Part002Tail.recommendedRow.
  destruct (find (Part002Tail.acceptable a boardGuidance) _) as [r|] eqn:Hf1.
  { destruct (find_first_Descending Part002.PricingRow.offerPrice _ _ r
                (part002_sorted_Descending a) Hf1) as (Hin & Ht & Hmax).
    split; [now apply part002_sorted_In|]. left. split; [exact Ht|].
    intros r' Hr' Ht'. apply Hmax; [now apply part002_sorted_In|exact Ht']. }
  pose proof (find_none_sorted a _ Hf1) as Hnone1.
  destruct (find Part002Tail.hasGoodDemand _) as [r|] eqn:Hf2.
  { destruct (find_first_Descending Part002.PricingRow.offerPrice _ _ r
                (part002_sorted_Descending a) Hf2) as (Hin & Ht & Hmax).
    split; [now apply part002_sorted_In|]. right. left.
    split; [exact Hnone1|]. split; [exact Ht|].
    intros r' Hr' Ht'. apply Hmax; [now apply part002_sorted_In|exact Ht']. }
  pose proof (find_none_sorted a _ Hf2) as Hnone2.
  unfold Part002Tail.middleRow, Part002Tail.pricingMatrix.
  destruct (nth_error _ _) as [r|] eqn:Hn.
  - split; [now apply nth_error_In in Hn|]. right. right.
    split; [exact Hnone2|reflexivity].
  - destruct (Part002.pricingMatrix a) as [|x l] eqn:Hm; [reflexivity|].
    destruct (nth_error_middle (x :: l)) as (y & Hy & _); [discriminate|].
    congruence.
Qed.

(** The recommended row is a row of the matrix; there is none exactly
    when the matrix is empty. *)
Lemma part002_recommendedRow_In (a : Part002.IPOAssumptions.t) (boardGuidance : option string) :
  match Part002Tail.recommendedRow a boardGuidance with
  | Some r => In r (Part002.pricingMatrix a)
  | None => Part002.pricingMatrix a = []
  end.
Proof.
  unfold Part002Tail.recommendedRow.
  destruct (find (Part002Tail.acceptable a boardGuidance) _) as [r|] eqn:Hf1.
  { apply find_some in Hf1. now apply part002_sorted_In. }
  destruct (find Part002Tail.hasGoodDemand _) as [r|] eqn:Hf2.
  { apply find_some in Hf2. now apply part002_sorted_In. }
  unfold Part002Tail.middleRow, Part002Tail.pricingMatrix.
  destruct (nth_error _ _) as [r|] eqn:Hn.
  - now apply nth_error_In in Hn.
  - destruct (Part002.pricingMatrix a) as [|x l] eqn:Hm; [reflexivity|].
    destruct (nth_error_middle (x :: l)) as (y & Hy & _); [discriminate|].
    congruence.
Qed.

(** X17.  [calculateIPOPricing] of part_002 throws (a TypeError on an
    undefined row) exactly when its pricing matrix is empty.  When it
    returns, the recommended price is the offer price of a row of the
    matrix, the recommended range runs from $2 below that price to the
    price itself, and the pricing table of the memo has at most seven rows
    and shows a row within 0.5 of the recommended price, with at most three
    rows in front of it. *)
Theorem part002_result (a : Part002.IPOAssumptions.t) (boardGuidance : option string) :
  match Part002Tail.calculateIPOPricing a boardGuidance with
  | None => Part002.pricingMatrix a = []
  | Some res =>
      Part002Tail.Result.pricingMatrix res = Part002.pricingMatrix a
      /\ Part002.pricingMatrix a <> []
      /\ (exists r, In r (Part002.pricingMatrix a)
                    /\ Part002Tail.Result.recommendedPrice res
                       = Part002.PricingRow.offerPrice r)
      /\ Part002Tail.Result.recommendedRangeLow res
         == Part002Tail.Result.recommendedPrice res - 2
      /\ Part002Tail.Result.recommendedRangeHigh res
         = Part002Tail.Result.recommendedPrice res
      /\ (List.length (Part002Tail.formatIPOMemo (Part002Tail.Result.pricingMatrix res)
                                                 (Part002Tail.Result.recommendedPrice res))
          <= 7)%nat
      /\ exists r k,
          (k <= 3)%nat
          /\ nth_error (Part002Tail.formatIPOMemo (Part002Tail.Result.pricingMatrix res)
                                                  (Part002Tail.Result.recommendedPrice res)) k
             = Some r
          /\ Qabs (Part002.PricingRow.offerPrice r - Part002Tail.Result.recommendedPrice res)
             < 5 # 10
  end.
Proof.
  pose proof (part002_recommendedRow_In a boardGuidance) as Hin.
  unfold Part002Tail.calculateIPOPricing.
  destruct (Part002Tail.recommendedRow a boardGuidance) as [r|]; [|exact Hin].
  cbn [Part002Tail.Result.pricingMatrix Part002Tail.Result.recommendedPrice
         Part002Tail.Result.recommendedRangeLow Part002Tail.Result.recommendedRangeHigh].
  unfold Part002Tail.pricingMatrix, Part002Tail.formatIPOMemo.
  split; [reflexivity|].
  split; [intro E; rewrite E in Hin; destruct Hin|].
  split; [now exists r|].
  split; [reflexivity|]. split; [reflexivity|].
  destruct (tableRows_spec Part002.PricingRow.offerPrice 3 7 (Part002.pricingMatrix a)
              (Part002.PricingRow.offerPrice r)) as (_ & Hlen & Hshow & _); [lia|].
  split; [exact Hlen|].
  destruct (find_exists (Memo.nearPrice Part002.PricingRow.offerPrice
                                        (Part002.PricingRow.offerPrice r))
              (Part002.pricingMatrix a) r Hin) as [r' Hf].
  { apply nearPrice_of_eq. reflexivity. }
  destruct (Hshow r' Hf) as (k & Hk & Hn).
  exists r', k. split; [exact Hk|]. split; [exact Hn|].
  apply find_some in Hf. now apply nearPrice_iff.
Qed.

(** X18.  The implied first-day pop of part_002,
    [max (0.10, historicalFirstDayPop * (1 - price / dcf) * 2)], is never
    below 10%; with a positive DCF value per share and a historical pop
    that is not negative, it does not increase with the offer price and is
    exactly 10% at every price at or above the DCF value. *)
Theorem part002_implied_pop (a : Part002.IPOAssumptions.t) (p q : Q) :
  10 # 100 <= Part002.impliedFirstDayPop a p
  /\ (0 < Part002.IPOAssumptions.dcfValuePerShare a ->
      0 <= Part002.IPOAssumptions.historicalFirstDayPop a ->
      (p <= q -> Part002.impliedFirstDayPop a q <= Part002.impliedFirstDayPop a p)
      /\ (Part002.IPOAssumptions.dcfValuePerShare a <= p ->
          Part002.impliedFirstDayPop a p == 10 # 100)).
Proof.
  assert (Hmax : forall x y, x <= JS.Math_max x y /\ y <= JS.Math_max x y
                             /\ (x <= y -> JS.Math_max x y == y)
                             /\ (y <= x -> JS.Math_max x y == x)).
  { intros x y. split; [|split; [|split]].
    - unfold JS.Math_max. destruct (Qle_bool x y) eqn:E; [apply Qle_bool_iff in E|]; lra.
    - unfold JS.Math_max. destruct (Qle_bool x y) eqn:E; [lra|].
      apply (leb_gt x y) in E. lra.
    - apply Math_max_le.
    - apply Math_max_ge. }
  unfold Part002.impliedFirstDayPop, Part002.historicalFirstDayPop, Part002.dcfValuePerShare.
  set (hist := Part002.IPOAssumptions.historicalFirstDayPop a).
  set (dcf := Part002.IPOAssumptions.dcfValuePerShare a).
  split; [apply Hmax|].
  intros Hdcf Hhist.
  assert (Hc : 0 < / dcf) by now apply Qinv_lt_0_compat.
  unfold Qdiv. set (c := / dcf) in *.
  assert (Hone : dcf * c == 1) by (unfold c; apply Qmult_inv_r; lra).
  split.
  - intro Hpq.
    assert (Hterm : hist * (1 - q * c) * 2 <= hist * (1 - p * c) * 2).
    { assert (H1 : p * c <= q * c) by (apply Qmult_le_compat_r; lra).
      assert (H2 : 0 <= hist * (q * c - p * c)) by (apply Qmult_le_0_compat; lra).
      lra. }
    destruct (Hmax (10 # 100) (hist * (1 - q * c) * 2)) as (_ & _ & Hq1 & Hq2).
    destruct (Hmax (10 # 100) (hist * (1 - p * c) * 2)) as (Hp1 & Hp2 & _ & _).
    destruct (Qlt_le_dec (hist * (1 - q * c) * 2) (10 # 100)) as [Hlt|Hge].
    + rewrite Hq2; lra.
    + rewrite Hq1; lra.
  - intro Hp.
    assert (H1 : 1 <= p * c).
    { rewrite <- Hone. apply Qmult_le_compat_r; lra. }
    assert (H2 : 0 <= hist * (p * c - 1)) by (apply Qmult_le_0_compat; lra).
    destruct (Hmax (10 # 100) (hist * (1 - p * c) * 2)) as (_ & _ & _ & Hq2).
    rewrite Hq2; lra.
Qed.

Lemma part002_implied_pop_witness :
  10 # 100 <= Part002.impliedFirstDayPop Samples.deal002 20
  /\ Part002.impliedFirstDayPop Samples.deal002 22 <= Part002.impliedFirstDayPop Samples.deal002 20
  /\ Part002.impliedFirstDayPop Samples.deal002 25 == 10 # 100.
Proof.
  destruct (part002_implied_pop Samples.deal002 20 22) as [H1 H2].
  destruct (part002_implied_pop Samples.deal002 25 25) as [_ H3].
  split; [exact H1|]. split.
  - apply H2; [reflexivity|vm_compute; discriminate|vm_compute; discriminate].
  - apply H3; [reflexivity|vm_compute; discriminate|vm_compute; discriminate].
Defined.

Lemma part002_sortedBook_In (a : Part002.IPOAssumptions.t) (t : Part002.OrderBookEntry.t) :
  In t (Part002.sortedBook a) <-> In t (Part002.orderBook a).
Proof. apply (In_sort Part002.OrderBookEntry.priceLevel). Qed.

Lemma Math_round_nonneg (x : Q) : 0 <= x -> 0 <= JS.Math_round x.
Proof.
  intro H. unfold JS.Math_round.
  change 0 with (inject_Z 0). rewrite <- Zle_Qle.
  apply Qfloor_nonneg. lra.
Qed.

(** X19.  The order-book lookup of part_002: at a price at or above some
    tier, the row takes the oversubscription of a tier with the greatest
    level not above the price; at a price below every tier, it takes the
    oversubscription of a lowest tier plus five turns per dollar of distance
    (rounded to a whole number), which is never less than that tier's
    value. *)
Theorem part002_order_book_lookup (a : Part002.IPOAssumptions.t) (p : Q) :
  ((exists t, In t (Part002.orderBook a) /\ Part002.OrderBookEntry.priceLevel t <= p) ->
   exists t,
     In t (Part002.orderBook a)
     /\ Part002.OrderBookEntry.priceLevel t <= p
     /\ (forall t', In t' (Part002.orderBook a) ->
                    Part002.OrderBookEntry.priceLevel t' <= p ->
                    Part002.OrderBookEntry.priceLevel t' <= Part002.OrderBookEntry.priceLevel t)
     /\ Part002.PricingRow.oversubscription (Part002.pricingRow a p)
        = Part002.OrderBookEntry.oversubscription t)
  /\ (Part002.orderBook a <> [] ->
      (forall t, In t (Part002.orderBook a) -> p < Part002.OrderBookEntry.priceLevel t) ->
      exists lowest,
        In lowest (Part002.orderBook a)
        /\ (forall t, In t (Part002.orderBook a) ->
                      Part002.OrderBookEntry.priceLevel lowest
                      <= Part002.OrderBookEntry.priceLevel t)
        /\ Part002.PricingRow.oversubscription (Part002.pricingRow a p)
           = Part002.OrderBookEntry.oversubscription lowest
             + JS.Math_round ((Part002.OrderBookEntry.priceLevel lowest - p) * 5)
        /\ Part002.OrderBookEntry.oversubscription lowest
           <= Part002.PricingRow.oversubscription (Part002.pricingRow a p)).
Proof.
  cbn [Part002.pricingRow Part002.PricingRow.oversubscription].
  pose proof (sort_Descending Part002.OrderBookEntry.priceLevel (Part002.orderBook a))
    as Hdesc.
  fold (Part002.sortedBook a) in Hdesc.
  split.
  - intros (t0 & Hin0 & Hle0).
    apply part002_sortedBook_In in Hin0.
    destruct (find_some_of_exists Part002.OrderBookEntry.priceLevel p _ t0 Hin0 Hle0)
      as [t Hf].
    destruct (find_Descending Part002.OrderBookEntry.priceLevel p _ t Hdesc Hf)
      as (Hin & Hle & Hmax).
    exists t. split; [now apply part002_sortedBook_In|]. split; [exact Hle|]. split.
    + intros t' Ht' Hp. apply Hmax; [now apply part002_sortedBook_In|exact Hp].
    + unfold Part002.oversubscription.
      destruct (Part002.sortedBook a) as [|top sorted] eqn:Hs; [destruct Hin|].
      rewrite Hf.
      destruct (Qeq_bool (Part002.OrderBookEntry.oversubscription t) 1); [|reflexivity].
      destruct (last_Descending Part002.OrderBookEntry.priceLevel (top :: sorted) top Hdesc)
        as [_ Hmin]; [discriminate|].
      specialize (Hmin t Hin).
      assert (E : JS.ltb p (Part002.OrderBookEntry.priceLevel (last (top :: sorted) top))
                  = false) by (apply ltb_ge; lra).
      cbv zeta. rewrite E. reflexivity.
  - intros Hne Hall.
    unfold Part002.oversubscription.
    destruct (Part002.sortedBook a) as [|top sorted] eqn:Hs.
    { exfalso. apply Hne.
      apply (proj1 (sort_nil_iff Part002.OrderBookEntry.priceLevel (Part002.orderBook a))).
      exact Hs. }
    destruct (last_Descending Part002.OrderBookEntry.priceLevel (top :: sorted) top Hdesc)
      as [Hlin Hmin]; [discriminate|].
    assert (HIn : forall t, In t (top :: sorted) <-> In t (Part002.orderBook a)).
    { intro t. rewrite <- Hs. apply part002_sortedBook_In. }
    assert (Hf : find (fun entry => JS.geb p (Part002.OrderBookEntry.priceLevel entry))
                      (top :: sorted) = None).
    { destruct (find _ (top :: sorted)) as [t|] eqn:Hfind; [|reflexivity].
      apply find_some in Hfind. destruct Hfind as [Hin Hge].
      apply geb_le in Hge. apply HIn in Hin. specialize (Hall t Hin). lra. }
    rewrite Hf. cbv zeta.
    assert (Hlow : p < Part002.OrderBookEntry.priceLevel (last (top :: sorted) top)).
    { apply Hall. now apply HIn. }
    assert (E : JS.ltb p (Part002.OrderBookEntry.priceLevel (last (top :: sorted) top))
                = true) by now apply ltb_lt.
    change (Qeq_bool 1 1) with true. cbv iota. rewrite E.
    exists (last (top :: sorted) top).
    split; [now apply HIn|]. split.
    + intros t Ht. apply Hmin. now apply HIn.
    + split; [reflexivity|].
      pose proof (Math_round_nonneg
                    ((Part002.OrderBookEntry.priceLevel (last (top :: sorted) top) - p) * 5))
        as Hr.
      assert (H0 : 0 <= (Part002.OrderBookEntry.priceLevel (last (top :: sorted) top) - p) * 5)
        by lra.
      specialize (Hr H0). lra.
Qed.

Lemma part002_order_book_lookup_witness :
  exists lowest,
    In lowest (Part002.orderBook MoreSamples.deal002Book)
    /\ (forall t, In t (Part002.orderBook MoreSamples.deal002Book) ->
                  Part002.OrderBookEntry.priceLevel lowest
                  <= Part002.OrderBookEntry.priceLevel t)
    /\ Part002.PricingRow.oversubscription (Part002.pricingRow MoreSamples.deal002Book 23)
       = Part002.OrderBookEntry.oversubscription lowest
         + JS.Math_round ((Part002.OrderBookEntry.priceLevel lowest - 23) * 5)
    /\ Part002.OrderBookEntry.oversubscription lowest
       <= Part002.PricingRow.oversubscription (Part002.pricingRow MoreSamples.deal002Book 23).
Proof.
  apply (part002_order_book_lookup MoreSamples.deal002Book 23).
  - discriminate.
  - intros t [<-|[<-|[]]]; reflexivity.
Defined.

(** ** part_000: dilution and the three scenarios *)

(** X23.  In part_000, when the company has shares outstanding and the
    new shares issued (primary plus greenshoe) are not negative, the
    dilution of the result is a percentage in [0, 100), and the warning
    "Dilution ...% is invalid (must be < 100%)" is not raised. *)
Theorem part000_dilution_is_a_percentage
        (currentYear : Z) (a : Part000.IPOAssumptions.t) :
  0 < Part000.PreIPOShares.total (Part000.IPOAssumptions.preIPOShares a) ->
  0 <= Part000.newSharesIssued currentYear a ->
  0 <= Part000.IPOPricingResult.dilutionPercent (Part000.calculateIPOPricing currentYear a)
  /\ Part000.IPOPricingResult.dilutionPercent (Part000.calculateIPOPricing currentYear a) < 100
  /\ forall percent,
      ~ In (Part000.DilutionInvalid percent)
           (Part000.IPOPricingResult.warnings (Part000.calculateIPOPricing currentYear a)).
Proof.
  intros Htotal Hnew.
  cbn [Part000.calculateIPOPricing Part000.IPOPricingResult.dilutionPercent
         Part000.IPOPricingResult.warnings].
  assert (Hfrac : 0 <= Part000.newSharesIssued currentYear a
                       / (Part000.PreIPOShares.total (Part000.preIPOShares a)
                          + Part000.newSharesIssued currentYear a)
                  /\ Part000.newSharesIssued currentYear a
                     / (Part000.PreIPOShares.total (Part000.preIPOShares a)
                        + Part000.newSharesIssued currentYear a) < 1).
  { unfold Part000.preIPOShares.
    set (t := Part000.PreIPOShares.total (Part000.IPOAssumptions.preIPOShares a)) in *.
    set (n := Part000.newSharesIssued currentYear a) in *.
    split.
    - apply Qle_shift_div_l; lra.
    - apply Qlt_shift_div_r; lra. }
  assert (Hd : 0 <= Part000.dilutionPercent currentYear a
               /\ Part000.dilutionPercent currentYear a < 100).
  { unfold Part000.dilutionPercent. lra. }
  split; [apply Hd|]. split; [apply Hd|].
  intros percent Hin.
  unfold Part000.warnings, Part000.valuationWarnings in Hin.
  assert (Hgeb : JS.geb (Part000.dilutionPercent currentYear a) 100 = false)
    by (apply geb_lt; apply Hd).
  rewrite Hgeb in Hin.
  split_warnings Hin.
Qed.

Lemma part000_dilution_is_a_percentage_witness :
  0 <= Part000.IPOPricingResult.dilutionPercent
         (Part000.calculateIPOPricing 2025 Samples.directSecondaryDeal)
  /\ Part000.IPOPricingResult.dilutionPercent
       (Part000.calculateIPOPricing 2025 Samples.directSecondaryDeal) < 100
  /\ forall percent,
      ~ In (Part000.DilutionInvalid percent)
           (Part000.IPOPricingResult.warnings
              (Part000.calculateIPOPricing 2025 Samples.directSecondaryDeal)).
Proof.
  apply (part000_dilution_is_a_percentage 2025 Samples.directSecondaryDeal).
  - reflexivity.
  - vm_compute. discriminate.
Defined.

Lemma fraction_increasing (t x y : Q) :
  0 < t -> 0 <= x -> x <= y -> x / (t + x) <= y / (t + y).
Proof.
  intros Ht Hx Hxy.
  assert (E : y / (t + y) - x / (t + x) == (t * (y - x)) * / ((t + x) * (t + y)))
    by (field; split; lra).
  assert (Hpos : 0 <= (t * (y - x)) * / ((t + x) * (t + y))).
  { apply Qmult_le_0_compat.
    - apply Qmult_le_0_compat; lra.
    - apply Qinv_le_0_compat. apply Qmult_le_0_compat; lra. }
  lra.
Qed.

Lemma scenario_order (currentYear : Z) (a : Part000.IPOAssumptions.t)
      (name1 name2 : string) (p q : Q) :
  0 < Part000.PreIPOShares.total (Part000.IPOAssumptions.preIPOShares a) ->
  0 <= Part000.IPOAssumptions.primaryRaiseAmount a ->
  0 <= Part000.secondarySaleShares a ->
  0 <= Part000.IPOAssumptions.greenshoePercent a ->
  0 < p -> p < q ->
  Part000.Scenario.dilution
    (Part000.createScenario currentYear a name2 q
       (Part000.IPOAssumptions.primaryRaiseAmount a / q))
  <= Part000.Scenario.dilution
       (Part000.createScenario currentYear a name1 p
          (Part000.IPOAssumptions.primaryRaiseAmount a / p))
  /\ Part000.Scenario.marketCap
       (Part000.createScenario currentYear a name1 p
          (Part000.IPOAssumptions.primaryRaiseAmount a / p))
     <= Part000.Scenario.marketCap
          (Part000.createScenario currentYear a name2 q
             (Part000.IPOAssumptions.primaryRaiseAmount a / q)).
Proof.
  intros Ht Hr Hs Hg Hp Hpq.
  cbn [Part000.createScenario Part000.Scenario.dilution Part000.Scenario.marketCap].
  unfold Part000.preIPOShares, Part000.greenshoePercent.
  set (t := Part000.PreIPOShares.total (Part000.IPOAssumptions.preIPOShares a)) in *.
  set (r := Part000.IPOAssumptions.primaryRaiseAmount a) in *.
  set (s := Part000.secondarySaleShares a) in *.
  set (g := Part000.IPOAssumptions.greenshoePercent a) in *.
  assert (Hq : 0 < q) by lra.
  assert (Hip : 0 < / p) by now apply Qinv_lt_0_compat.
  assert (Hiq : 0 < / q) by now apply Qinv_lt_0_compat.
  assert (Hinv : / q <= / p).
  { apply Qlt_le_weak. now apply -> Qinv_lt_contravar. }
  assert (Hprim : r / q <= r / p).
  { unfold Qdiv. rewrite (Qmult_comm r (/ q)), (Qmult_comm r (/ p)).
    apply Qmult_le_compat_r; lra. }
  assert (Hprim0 : 0 <= r / q) by (unfold Qdiv; apply Qmult_le_0_compat; lra).
  assert (Hgs : (r / q + s) * g <= (r / p + s) * g) by (apply Qmult_le_compat_r; lra).
  assert (Hgs0 : 0 <= (r / q + s) * g) by (apply Qmult_le_0_compat; lra).
  split.
  - assert (H := fraction_increasing t (r / q + (r / q + s) * g) (r / p + (r / p + s) * g)
                   Ht ltac:(lra) ltac:(lra)).
    lra.
  - assert (Ep : (t + (r / p + (r / p + s) * g)) * p == t * p + r + (r + s * p) * g)
      by (field; lra).
    assert (Eq : (t + (r / q + (r / q + s) * g)) * q == t * q + r + (r + s * q) * g)
      by (field; lra).
    rewrite Ep, Eq.
    assert (H1 : 0 <= t * (q - p)) by (apply Qmult_le_0_compat; lra).
    assert (H2 : 0 <= (s * (q - p)) * g).
    { apply Qmult_le_0_compat; [|lra]. apply Qmult_le_0_compat; lra. }
    lra.
Qed.

(** X25.  In part_000, for a company with shares outstanding, a positive
    mid price, and a raise, a secondary sale and a greenshoe fraction that
    are not negative, the three scenarios are ordered: the offer price
    rises from low to mid to high, the market capitalisation does not
    fall, and the dilution does not rise. *)
Theorem part000_scenarios_are_ordered
        (currentYear : Z) (a : Part000.IPOAssumptions.t) :
  0 < Part000.PreIPOShares.total (Part000.IPOAssumptions.preIPOShares a) ->
  0 < Part000.midPrice currentYear a ->
  0 <= Part000.IPOAssumptions.primaryRaiseAmount a ->
  0 <= Part000.secondarySaleShares a ->
  0 <= Part000.IPOAssumptions.greenshoePercent a ->
  exists low mid high,
    Part000.IPOPricingResult.pricingMatrix (Part000.calculateIPOPricing currentYear a)
    = [low; mid; high]
    /\ Part000.Scenario.offerPrice low < Part000.Scenario.offerPrice mid
    /\ Part000.Scenario.offerPrice mid < Part000.Scenario.offerPrice high
    /\ Part000.Scenario.marketCap low <= Part000.Scenario.marketCap mid
    /\ Part000.Scenario.marketCap mid <= Part000.Scenario.marketCap high
    /\ Part000.Scenario.dilution high <= Part000.Scenario.dilution mid
    /\ Part000.Scenario.dilution mid <= Part000.Scenario.dilution low.
Proof.
  intros Ht Hmid Hr Hs Hg.
  eexists _, _, _. split; [reflexivity|].
  assert (Hlow : 0 < Part000.lowPrice currentYear a) by (unfold Part000.lowPrice; lra).
  assert (Hlm : Part000.lowPrice currentYear a < Part000.midPrice currentYear a)
    by (unfold Part000.lowPrice; lra).
  assert (Hmh : Part000.midPrice currentYear a < Part000.highPrice currentYear a)
    by (unfold Part000.highPrice; lra).
  destruct (scenario_order currentYear a "Low" "Mid" _ _ Ht Hr Hs Hg Hlow Hlm) as [D1 M1].
  destruct (scenario_order currentYear a "Mid" "High" _ _ Ht Hr Hs Hg Hmid Hmh) as [D2 M2].
  split; [exact Hlm|]. split; [exact Hmh|].
  split; [exact M1|]. split; [exact M2|]. split; [exact D2|exact D1].
Qed.

Lemma part000_scenarios_are_ordered_witness :
  exists low mid high,
    Part000.IPOPricingResult.pricingMatrix
      (Part000.calculateIPOPricing 2025 Samples.directSecondaryDeal)
    = [low; mid; high]
    /\ Part000.Scenario.offerPrice low < Part000.Scenario.offerPrice mid
    /\ Part000.Scenario.offerPrice mid < Part000.Scenario.offerPrice high
    /\ Part000.Scenario.marketCap low <= Part000.Scenario.marketCap mid
    /\ Part000.Scenario.marketCap mid <= Part000.Scenario.marketCap high
    /\ Part000.Scenario.dilution high <= Part000.Scenario.dilution mid
    /\ Part000.Scenario.dilution mid <= Part000.Scenario.dilution low.
Proof.
  apply (part000_scenarios_are_ordered 2025 Samples.directSecondaryDeal).
  - reflexivity.
  - reflexivity.
  - vm_compute. discriminate.
  - vm_compute. discriminate.
  - vm_compute. discriminate.
Defined.

(** ** part_001: down rounds and slowing growth *)

(** X26.  With a last private round at a positive price [l], a row of the
    matrix of part_001 is a down round exactly when its offer price is
    below [l], and exactly then it carries the "DOWN-ROUND" warning; its
    down-round discount is [(l - price) / l] times the penalty factor when
    it is a down round and the down-round optics are flagged, and 0
    otherwise. *)
Theorem part001_down_round
        (Math_log : Q -> Q) (a : Part001.IPOAssumptions.t)
        (res : Part001.Result.t) (r : Part001.PricingRow.t) (l : Q) :
  Part001.calculateIPOPricing Math_log a = Some res ->
  In r (Part001.Result.pricingMatrix res) ->
  Part001.IPOAssumptions.lastPrivateRoundPrice a = Some l ->
  0 < l ->
  (Part001.PricingRow.isDownRound r = true <-> Part001.PricingRow.offerPrice r < l)
  /\ (In (Part001.DownRound (Part001.PricingRow.downRoundPercent r * 100))
         (Part001.PricingRow.warnings r)
      <-> Part001.PricingRow.offerPrice r < l)
  /\ (Part001.PricingRow.offerPrice r < l ->
      Part001.IPOAssumptions.downRoundOptics a = Some true ->
      Part001.PricingRow.downRoundDiscount r
      == (l - Part001.PricingRow.offerPrice r) / l
         * JS.default (Part001.IPOAssumptions.downRoundIpoPenalty a) 0)
  /\ (l <= Part001.PricingRow.offerPrice r
      \/ Part001.IPOAssumptions.downRoundOptics a <> Some true ->
      Part001.PricingRow.downRoundDiscount r == 0).
Proof.
  intros Hres Hin Hl Hpos.
  destruct (matrix_rows Math_log a res r Hres Hin) as (p & -> & _).
  cbn [Part001.pricingRow Part001.PricingRow.isDownRound Part001.PricingRow.offerPrice
         Part001.PricingRow.downRoundPercent Part001.PricingRow.warnings
         Part001.PricingRow.downRoundDiscount].
  assert (Hlast : Part001.lastRound a = Some l).
  { unfold Part001.lastRound, Part001.lastPrivateRoundPrice. rewrite Hl.
    assert (Ht : JS.truthy l = true) by (apply truthy_neq; lra).
    assert (Hg : JS.gtb l 0 = true) by now apply gtb_lt.
    rewrite Ht, Hg. reflexivity. }
  assert (Hpct : Part001.downRoundPercent a p = (p - l) / l).
  { unfold Part001.downRoundPercent. rewrite Hlast. reflexivity. }
  assert (Hinv : 0 < / l) by now apply Qinv_lt_0_compat.
  assert (Hsign : (p - l) / l < 0 <-> p < l).
  { unfold Qdiv. split; intro H.
    - destruct (Qlt_le_dec p l) as [Hok|Hge]; [exact Hok|exfalso].
      assert (H0 : 0 <= (p - l) * / l) by (apply Qmult_le_0_compat; lra).
      lra.
    - assert (H0 : 0 < (l - p) * / l) by (apply Qmult_lt_0_compat; lra).
      lra. }
  assert (Hdown : Part001.isDownRound a p = true <-> p < l).
  { unfold Part001.isDownRound. rewrite Hlast, Hpct, ltb_lt. exact Hsign. }
  split; [exact Hdown|]. split; [|split].
  - unfold Part001.rowWarnings. split.
    + intro Hw. repeat (apply in_app_or in Hw; destruct Hw as [Hw|Hw]).
      * unfold Part001.orderBookLookup in Hw.
        destruct (Part001.sortedOrderBook a); [destruct Hw|].
        destruct (find _ _); [destruct Hw|].
        destruct (JS.gtb _ _); simpl in Hw; [destruct Hw as [Hw|[]]; discriminate|destruct Hw].
      * destruct (JS.gtb _ _); simpl in Hw; [destruct Hw as [Hw|[]]; discriminate|destruct Hw].
      * destruct (_ && _); simpl in Hw; [destruct Hw as [Hw|[]]; discriminate|destruct Hw].
      * destruct (negb _); simpl in Hw; [destruct Hw as [Hw|[]]; discriminate|destruct Hw].
      * destruct (Part001.isDownRound a p) eqn:E; [apply Hdown; reflexivity|destruct Hw].
      * destruct (Nat.ltb _ _); simpl in Hw; [destruct Hw as [Hw|[]]; discriminate|destruct Hw].
    + intro Hlt. apply Hdown in Hlt.
      do 4 (apply in_or_app; right). apply in_or_app; left.
      rewrite Hlt. now left.
  - intros Hlt Hopt. apply Hdown in Hlt.
    unfold Part001.downRoundDiscount, Part001.downRoundOptics, Part001.downRoundIpoPenalty.
    rewrite Hlt, Hopt, Hpct. cbn [JS.default andb].
    apply Hdown, Hsign in Hlt.
    assert (Eabs : JS.Math_abs ((p - l) / l) == (l - p) / l).
    { unfold JS.Math_abs. rewrite Qabs_neg by lra. unfold Qdiv. ring. }
    assert (Epen : forall x, JS.or_else (Some x) 0 == x).
    { intro x. unfold JS.or_else. destruct (JS.truthy x) eqn:Ht; [reflexivity|].
      unfold JS.truthy in Ht. apply negb_false_iff, Qeq_bool_iff in Ht. now symmetry. }
    rewrite Eabs, Epen. reflexivity.
  - intros Hcase. unfold Part001.downRoundDiscount, Part001.downRoundOptics.
    destruct (Part001.isDownRound a p) eqn:E; [|reflexivity].
    destruct Hcase as [Hge|Hopt].
    + pose proof (proj1 Hdown eq_refl). lra.
    + destruct (Part001.IPOAssumptions.downRoundOptics a) as [[|]|]; simpl;
        try reflexivity. now elim Hopt.
Qed.

Lemma part001_down_round_witness :
  Part001.PricingRow.isDownRound (Part001.pricingRow JS.ln_series MoreSamples.downRoundDeal 20)
  = true
  /\ Part001.PricingRow.downRoundDiscount
       (Part001.pricingRow JS.ln_series MoreSamples.downRoundDeal 20)
     == (21 - 20) / 21 * (1 # 2).
Proof.
  assert (Hres : Part001.calculateIPOPricing JS.ln_series MoreSamples.downRoundDeal
                 = Some (Samples.resultOf MoreSamples.downRoundDeal))
    by (vm_compute; reflexivity).
  assert (Hin : In (Part001.pricingRow JS.ln_series MoreSamples.downRoundDeal 20)
                   (Part001.Result.pricingMatrix (Samples.resultOf MoreSamples.downRoundDeal)))
    by (vm_compute; auto 10).
  destruct (part001_down_round JS.ln_series MoreSamples.downRoundDeal _ _ 21
              Hres Hin eq_refl ltac:(reflexivity)) as (H1 & _ & H3 & _).
  split.
  - apply H1. reflexivity.
  - apply H3; reflexivity.
Defined.

(** X27.  In part_001, when both growth rates are given and growth slows
    ([0 < fy2025to2026Growth < fy2024to2025Growth]), the growth
    deceleration penalty of every row is [1 - g2 / g1], a fraction strictly
    between 0 and 1, and the growth-adjusted peer multiple is the peer
    median EV/revenue multiple times (1 - penalty), strictly between 0 and
    the peer median when that is positive; when growth does not slow
    ([0 < g1 <= g2]) the penalty is 0 and the multiple is the peer median
    itself. *)
Theorem part001_growth_adjusted_multiple
        (Math_log : Q -> Q) (a : Part001.IPOAssumptions.t) (p g1 g2 : Q) :
  Part001.IPOAssumptions.growthRates a
  = Some {| Part001.GrowthRates.fy2024to2025Growth := Some g1;
            Part001.GrowthRates.fy2025to2026Growth := Some g2 |} ->
  0 < g1 -> 0 < g2 ->
  (g2 < g1 ->
   Part001.PricingRow.growthDecelPenalty (Part001.pricingRow Math_log a p) == 1 - g2 / g1
   /\ 0 < Part001.PricingRow.growthDecelPenalty (Part001.pricingRow Math_log a p)
   /\ Part001.PricingRow.growthDecelPenalty (Part001.pricingRow Math_log a p) < 1
   /\ Part001.PricingRow.growthAdjustedMultiple (Part001.pricingRow Math_log a p)
      == Part001.IPOAssumptions.peerMedianEVRevenue a
         * (1 - Part001.PricingRow.growthDecelPenalty (Part001.pricingRow Math_log a p))
   /\ (0 < Part001.IPOAssumptions.peerMedianEVRevenue a ->
       0 < Part001.PricingRow.growthAdjustedMultiple (Part001.pricingRow Math_log a p)
       /\ Part001.PricingRow.growthAdjustedMultiple (Part001.pricingRow Math_log a p)
          < Part001.IPOAssumptions.peerMedianEVRevenue a))
  /\ (g1 <= g2 ->
      Part001.PricingRow.growthDecelPenalty (Part001.pricingRow Math_log a p) = 0
      /\ Part001.PricingRow.growthAdjustedMultiple (Part001.pricingRow Math_log a p)
         = Part001.IPOAssumptions.peerMedianEVRevenue a).
Proof.
  intros Hg H1 H2.
  cbn [Part001.pricingRow Part001.PricingRow.growthDecelPenalty
         Part001.PricingRow.growthAdjustedMultiple].
  assert (Hdecel : Part001.decelRate a = Some (1 - g2 / g1)).
  { unfold Part001.decelRate, Part001.growthRates. rewrite Hg. simpl.
    assert (T1 : JS.truthy g1 = true) by (apply truthy_neq; lra).
    assert (T2 : JS.truthy g2 = true) by (apply truthy_neq; lra).
    rewrite T1, T2. reflexivity. }
  assert (Hinv : 0 < / g1) by now apply Qinv_lt_0_compat.
  assert (Hone : g1 * / g1 == 1) by (apply Qmult_inv_r; lra).
  assert (Hratio : 0 < g2 / g1) by (unfold Qdiv; apply Qmult_lt_0_compat; lra).
  assert (Hlt : g2 < g1 <-> g2 / g1 < 1).
  { unfold Qdiv. split; intro H.
    - rewrite <- Hone. apply Qmult_lt_compat_r; lra.
    - destruct (Qlt_le_dec g2 g1) as [Hok|Hge]; [exact Hok|exfalso].
      assert (H0 : g1 * / g1 <= g2 * / g1) by (apply Qmult_le_compat_r; lra).
      lra. }
  unfold Part001.growthAdjustedPeerMultiple, Part001.growthDecelPenalty.
  rewrite Hdecel. unfold Part001.peerMedianEVRevenue.
  split.
  - intro Hslow. apply Hlt in Hslow.
    assert (E : JS.gtb (1 - g2 / g1) 0 = true) by (apply gtb_lt; lra).
    rewrite E. split; [reflexivity|]. split; [lra|]. split; [lra|].
    split; [reflexivity|].
    intro Hpeer. split; nra.
  - intro Hfast.
    assert (E : JS.gtb (1 - g2 / g1) 0 = false).
    { apply gtb_ge.
      destruct (Qlt_le_dec (g2 / g1) 1) as [Hc|Hc]; [apply Hlt in Hc; lra|lra]. }
    rewrite E. split; reflexivity.
Qed.

Lemma part001_growth_adjusted_multiple_witness :
  Part001.PricingRow.growthDecelPenalty
    (Part001.pricingRow JS.ln_series MoreSamples.slowingGrowthDeal 20)
  == 1 - (30 # 100) / (40 # 100)
  /\ 0 < Part001.PricingRow.growthAdjustedMultiple
           (Part001.pricingRow JS.ln_series MoreSamples.slowingGrowthDeal 20)
  /\ Part001.PricingRow.growthAdjustedMultiple
       (Part001.pricingRow JS.ln_series MoreSamples.slowingGrowthDeal 20)
     < 8.
Proof.
  destruct (part001_growth_adjusted_multiple JS.ln_series MoreSamples.slowingGrowthDeal 20
              (40 # 100) (30 # 100) eq_refl ltac:(reflexivity) ltac:(reflexivity))
    as [H _].
  destruct H as (E1 & _ & _ & _ & E2); [reflexivity|].
  split; [exact E1|]. apply E2. reflexivity.
Defined.

(** ** The JSON text taken from the response *)

Lemma allWhite_app (a b : JSString.t) : allWhite a -> allWhite b -> allWhite (a ++ b).
Proof. intros Ha Hb. apply Forall_app. now split. Qed.

Lemma allWhite_rev (a : JSString.t) : allWhite a -> allWhite (rev a).
Proof. apply Forall_rev. Qed.

Lemma allWhite_not_In (c : N) (ws : JSString.t) :
  JSString.isWhiteSpace c = false -> allWhite ws -> ~ In c ws.
Proof.
  intros Hc Hws Hin. unfold allWhite in Hws. rewrite Forall_forall in Hws.
  specialize (Hws c Hin). congruence.
Qed.

Lemma trimStart_white (ws s : JSString.t) :
  allWhite ws -> JSString.trimStart (ws ++ s) = JSString.trimStart s.
Proof.
  induction 1 as [|c ws Hc _ IH]; [reflexivity|].
  simpl. rewrite Hc. exact IH.
Qed.

Lemma trimStart_head (c : N) (s : JSString.t) :
  JSString.isWhiteSpace c = false -> JSString.trimStart (c :: s) = c :: s.
Proof. intro Hc. simpl. rewrite Hc. reflexivity. Qed.

Lemma trimEnd_white (s ws : JSString.t) :
  allWhite ws -> JSString.trimEnd (s ++ ws) = JSString.trimEnd s.
Proof.
  intro Hws. unfold JSString.trimEnd. rewrite rev_app_distr.
  rewrite trimStart_white by now apply allWhite_rev. reflexivity.
Qed.

Lemma trimEnd_last (s : JSString.t) (c : N) :
  JSString.isWhiteSpace c = false -> JSString.trimEnd (s ++ [c]) = s ++ [c].
Proof.
  intro Hc. unfold JSString.trimEnd. rewrite rev_app_distr.
  change (rev [c] ++ rev s) with (c :: rev s).
  rewrite trimStart_head by exact Hc.
  change (rev (c :: rev s)) with (rev (rev s) ++ [c]).
  rewrite rev_involutive. reflexivity.
Qed.

(** [trim] strips the white space around a text that begins and ends with
    other characters. *)
Lemma trim_strip (ws0 ws3 m : JSString.t) (c1 c2 : N) :
  allWhite ws0 -> allWhite ws3 ->
  JSString.isWhiteSpace c1 = false -> JSString.isWhiteSpace c2 = false ->
  JSString.trim (ws0 ++ (c1 :: m ++ [c2]) ++ ws3) = c1 :: m ++ [c2].
Proof.
  intros H0 H3 Hc1 Hc2. unfold JSString.trim.
  rewrite trimStart_white by exact H0.
  simpl app. rewrite trimStart_head by exact Hc1.
  change (c1 :: (m ++ [c2]) ++ ws3) with ((c1 :: m ++ [c2]) ++ ws3).
  rewrite trimEnd_white by exact H3.
  change (c1 :: m ++ [c2]) with ((c1 :: m) ++ [c2]).
  now apply trimEnd_last.
Qed.

Lemma startsWith_app (p s : JSString.t) : JSString.startsWith (p ++ s) p = true.
Proof.
  induction p as [|c p IH]; [destruct s; reflexivity|].
  simpl. rewrite N.eqb_refl. exact IH.
Qed.

Lemma startsWith_head_ne (c d : N) (s p : JSString.t) :
  c <> d -> JSString.startsWith (c :: s) (d :: p) = false.
Proof.
  intro H. simpl. apply N.eqb_neq in H. rewrite H. reflexivity.
Qed.

Lemma endsWith_app (s p : JSString.t) : JSString.endsWith (s ++ p) p = true.
Proof.
  unfold JSString.endsWith. rewrite rev_app_distr. apply startsWith_app.
Qed.

Lemma endsWith_last_ne (c d : N) (s p : JSString.t) :
  c <> d -> JSString.endsWith (s ++ [c]) (p ++ [d]) = false.
Proof.
  intro H. unfold JSString.endsWith. rewrite !rev_app_distr. simpl.
  apply N.eqb_neq in H. rewrite H. reflexivity.
Qed.

Lemma sliceButLast_app (s p : JSString.t) :
  JSString.sliceButLast (List.length p) (s ++ p) = s.
Proof.
  unfold JSString.sliceButLast. rewrite length_app.
  replace (List.length s + List.length p - List.length p)%nat with (List.length s) by lia.
  rewrite firstn_app, Nat.sub_diag, firstn_all. simpl. apply app_nil_r.
Qed.

Lemma indexOf_first (c : N) (p rest : JSString.t) :
  ~ In c p -> JSString.indexOf c (p ++ c :: rest) = Some (List.length p).
Proof.
  induction p as [|d p IH]; intro Hn; simpl.
  - rewrite N.eqb_refl. reflexivity.
  - assert (Hd : (d =? c)%N = false).
    { apply N.eqb_neq. intro E. apply Hn. now left. }
    rewrite Hd, IH; [reflexivity|].
    intro Hin. apply Hn. now right.
Qed.

Lemma lastIndexOf_last (c : N) (x q : JSString.t) :
  ~ In c q -> JSString.lastIndexOf c (x ++ c :: q) = Some (List.length x).
Proof.
  intro Hn. unfold JSString.lastIndexOf.
  rewrite rev_app_distr. simpl rev. rewrite <- app_assoc. simpl app.
  rewrite indexOf_first by (rewrite <- in_rev; exact Hn).
  rewrite length_app, length_rev. simpl. f_equal. lia.
Qed.

Lemma slice_middle (p m q : JSString.t) :
  JSString.slice (p ++ m ++ q) (List.length p) (List.length p + List.length m) = m.
Proof.
  unfold JSString.slice.
  rewrite skipn_app, skipn_all, Nat.sub_diag. simpl.
  replace (List.length p + List.length m - List.length p)%nat with (List.length m) by lia.
  rewrite firstn_app, Nat.sub_diag, firstn_all. simpl. apply app_nil_r.
Qed.

(** The brace block followed by the final [trim]: from a text made of a
    prefix without opening brace, a braced text and a suffix without closing
    brace, the braced text is left when the prefix is not empty, or when the
    suffix is white space. *)
Lemma extractObject_braced (p q body : JSString.t) :
  ~ In 123%N p -> ~ In 125%N q ->
  (p <> [] \/ allWhite q) ->
  JSString.trim (Part001Parse.extractObject (p ++ braced body ++ q)) = braced body.
Proof.
  intros Hp Hq Hcase.
  assert (Htrim : JSString.trim (braced body) = braced body).
  { pose proof (trim_strip [] [] body 123 125) as H. simpl in H.
    rewrite app_nil_r in H. apply H; (constructor || reflexivity). }
  unfold Part001Parse.extractObject.
  destruct p as [|c p].
  - assert (Hs : JSString.startsWith ([] ++ braced body ++ q) (JSString.literal "{") = true).
    { exact (startsWith_app [123%N] ((body ++ [125%N]) ++ q)). }
    rewrite Hs. cbn [negb app].
    destruct Hcase as [Hne|Hw]; [congruence|].
    pose proof (trim_strip [] q body 123 125) as H. simpl in H.
    apply H; (constructor || reflexivity || exact Hw).
  - assert (Hc : c <> 123%N) by (intro E; apply Hp; now left).
    assert (Hs : JSString.startsWith ((c :: p) ++ braced body ++ q) (JSString.literal "{")
                 = false).
    { apply startsWith_head_ne. exact Hc. }
    rewrite Hs. cbn [negb].
    assert (Hi : JSString.indexOf 123 ((c :: p) ++ braced body ++ q)
                 = Some (List.length (c :: p))).
    { unfold braced. apply (indexOf_first 123 (c :: p)). exact Hp. }
    assert (Hl : JSString.lastIndexOf 125 ((c :: p) ++ braced body ++ q)
                 = Some (List.length ((c :: p) ++ 123%N :: body))).
    { unfold braced.
      replace ((c :: p) ++ (123%N :: body ++ [125%N]) ++ q)
        with (((c :: p) ++ 123%N :: body) ++ 125%N :: q)
        by (rewrite <- !app_assoc; simpl; rewrite <- app_assoc; reflexivity).
      apply lastIndexOf_last. exact Hq. }
    rewrite Hi, Hl.
    assert (Hlt : Nat.ltb (List.length (c :: p)) (List.length ((c :: p) ++ 123%N :: body))
                  = true).
    { apply Nat.ltb_lt. rewrite length_app. simpl. lia. }
    rewrite Hlt.
    replace (List.length ((c :: p) ++ 123%N :: body) + 1)%nat
      with (List.length (c :: p) + List.length (braced body))%nat
      by (unfold braced; rewrite !length_app; simpl; rewrite length_app; simpl; lia).
    rewrite slice_middle. exact Htrim.
Qed.

Lemma trim_strip_eq (ws0 ws3 x m : JSString.t) (c1 c2 : N) :
  x = c1 :: m ++ [c2] ->
  allWhite ws0 -> allWhite ws3 ->
  JSString.isWhiteSpace c1 = false -> JSString.isWhiteSpace c2 = false ->
  JSString.trim (ws0 ++ x ++ ws3) = x.
Proof. intros ->. apply trim_strip. Qed.

Lemma white_ne (c d : N) :
  JSString.isWhiteSpace c = true -> JSString.isWhiteSpace d = false -> c <> d.
Proof. intros Hc Hd E. subst. congruence. Qed.

(** A text that begins with white space or with a brace does not begin
    with a fence, tagged or not. *)
Lemma startsWith_fence_false (ws rest : JSString.t) (p : JSString.t) :
  allWhite ws ->
  JSString.startsWith (ws ++ 123%N :: rest) (96%N :: p) = false
  /\ JSString.startsWith (ws ++ 123%N :: rest) (106%N :: p) = false.
Proof.
  intro Hws. destruct Hws as [|c ws Hc _]; simpl app.
  - split; reflexivity.
  - split; apply startsWith_head_ne; apply (white_ne _ _ Hc); reflexivity.
Qed.

Lemma closingFence_strip (s : JSString.t) :
  JSString.endsWith (s ++ JSString.literal "```") (JSString.literal "```") = true
  /\ JSString.sliceButLast 3 (s ++ JSString.literal "```") = s.
Proof.
  split; [apply endsWith_app|].
  exact (sliceButLast_app s (JSString.literal "```")).
Qed.

Lemma endsWith_fence_false (y x : JSString.t) :
  x <> [] -> ~ In 96%N x ->
  JSString.endsWith (y ++ x) (JSString.literal "```") = false.
Proof.
  intros Hne Hn. destruct (exists_last Hne) as (x' & c & ->).
  rewrite app_assoc.
  apply (endsWith_last_ne c 96 (y ++ x') [96; 96]%N).
  intro E. apply Hn. apply in_or_app. right. left. exact E.
Qed.

Lemma part001_stripClosingFence_fenced (s : JSString.t) :
  Part001Parse.stripClosingFence (s ++ JSString.literal "```") = s.
Proof.
  unfold Part001Parse.stripClosingFence.
  destruct (closingFence_strip s) as [E1 E2]. rewrite E1. exact E2.
Qed.

Lemma part001_stripClosingFence_plain (y x : JSString.t) :
  x <> [] -> ~ In 96%N x -> Part001Parse.stripClosingFence (y ++ x) = y ++ x.
Proof.
  intros Hne Hn. unfold Part001Parse.stripClosingFence.
  rewrite (endsWith_fence_false y x Hne Hn). reflexivity.
Qed.

Lemma part001_stripOpeningFence_json (s : JSString.t) :
  Part001Parse.stripOpeningFence (JSString.literal "```json" ++ s) = s.
Proof.
  unfold Part001Parse.stripOpeningFence.
  rewrite startsWith_app. reflexivity.
Qed.

Lemma part001_stripOpeningFence_bare (ws rest : JSString.t) :
  allWhite ws ->
  Part001Parse.stripOpeningFence (JSString.literal "```" ++ ws ++ 123%N :: rest)
  = ws ++ 123%N :: rest.
Proof.
  intro Hws. unfold Part001Parse.stripOpeningFence.
  assert (E1 : JSString.startsWith (JSString.literal "```" ++ ws ++ 123%N :: rest)
                                   (JSString.literal "```json") = false).
  { change (JSString.literal "```json") with ([96; 96; 96] ++ 106 :: [115; 111; 110])%N.
    change (JSString.literal "```") with [96; 96; 96]%N.
    cbn [app JSString.startsWith]. rewrite !N.eqb_refl. cbn [andb].
    destruct (startsWith_fence_false ws rest [115; 111; 110]%N Hws) as [_ H]. exact H. }
  rewrite E1, startsWith_app. reflexivity.
Qed.

Lemma part001_stripOpeningFence_bare_braced (ws body rest : JSString.t) :
  allWhite ws ->
  Part001Parse.stripOpeningFence (JSString.literal "```" ++ ws ++ braced body ++ rest)
  = ws ++ braced body ++ rest.
Proof. exact (part001_stripOpeningFence_bare ws ((body ++ [125%N]) ++ rest)). Qed.

Lemma part001_stripOpeningFence_plain (c : N) (s : JSString.t) :
  c <> 96%N -> Part001Parse.stripOpeningFence (c :: s) = c :: s.
Proof.
  intro Hc. unfold Part001Parse.stripOpeningFence.
  change (JSString.literal "```json") with (96 :: [96; 96; 106; 115; 111; 110])%N.
  change (JSString.literal "```") with (96 :: [96; 96])%N.
  rewrite !(startsWith_head_ne c 96 s _ Hc). reflexivity.
Qed.

(** X28.  The response cleaning of part_001 (the same statements are in
    part_002 and ipoPricingService.ts) hands to [JSON.parse] exactly the
    braced text [{ ... }] when the answer is that text inside a code fence,
    tagged [json] or not, or that text alone, whatever white space
    surrounds the fence and the text. *)
Theorem part001_parse_unwraps_fenced_json (ws0 ws1 ws2 ws3 body : JSString.t) :
  allWhite ws0 -> allWhite ws1 -> allWhite ws2 -> allWhite ws3 ->
  Part001Parse.jsonStr
    (ws0 ++ (JSString.literal "```json" ++ ws1 ++ braced body ++ ws2 ++ JSString.literal "```")
     ++ ws3) = braced body
  /\ Part001Parse.jsonStr
       (ws0 ++ (JSString.literal "```" ++ ws1 ++ braced body ++ ws2 ++ JSString.literal "```")
        ++ ws3) = braced body
  /\ Part001Parse.jsonStr (ws0 ++ braced body ++ ws3) = braced body.
Proof.
  intros H0 H1 H2 H3.
  assert (Hn1 : ~ In 123%N ws1) by (apply allWhite_not_In; [reflexivity|exact H1]).
  assert (Hn2 : ~ In 125%N ws2) by (apply allWhite_not_In; [reflexivity|exact H2]).
  assert (Hinner : JSString.trim
                     (Part001Parse.extractObject
                        (Part001Parse.stripClosingFence
                           (ws1 ++ braced body ++ ws2 ++ JSString.literal "```")))
                   = braced body).
  { replace (ws1 ++ braced body ++ ws2 ++ JSString.literal "```")
      with ((ws1 ++ braced body ++ ws2) ++ JSString.literal "```")
      by (rewrite <- !app_assoc; reflexivity).
    rewrite part001_stripClosingFence_fenced.
    apply extractObject_braced; [exact Hn1|exact Hn2|now right]. }
  unfold Part001Parse.jsonStr.
  split; [|split].
  - rewrite (trim_strip_eq ws0 ws3 _
               ([96; 96; 106; 115; 111; 110]%N ++ ws1 ++ braced body ++ ws2 ++ [96; 96]%N)
               96 96);
      [|cbn [JSString.literal map list_ascii_of_string]; simpl;
        repeat (rewrite <- !app_assoc; cbn [app]); reflexivity
       |exact H0|exact H3|reflexivity|reflexivity].
    rewrite part001_stripOpeningFence_json. exact Hinner.
  - rewrite (trim_strip_eq ws0 ws3 _
               ([96; 96]%N ++ ws1 ++ braced body ++ ws2 ++ [96; 96]%N) 96 96);
      [|cbn [JSString.literal map list_ascii_of_string]; simpl;
        repeat (rewrite <- !app_assoc; cbn [app]); reflexivity
       |exact H0|exact H3|reflexivity|reflexivity].
    rewrite part001_stripOpeningFence_bare_braced by exact H1. exact Hinner.
  - rewrite (trim_strip_eq ws0 ws3 (braced body) body 123 125);
      [|reflexivity|exact H0|exact H3|reflexivity|reflexivity].
    assert (E1 : Part001Parse.stripOpeningFence (braced body) = braced body)
      by exact (part001_stripOpeningFence_plain 123 (body ++ [125%N]) ltac:(discriminate)).
    assert (E2 : Part001Parse.stripClosingFence (braced body) = braced body).
    { apply (part001_stripClosingFence_plain (123%N :: body) [125%N]);
        [discriminate|intros [E|[]]; discriminate]. }
    rewrite E1, E2.
    pose proof (extractObject_braced [] [] body) as H.
    rewrite app_nil_r in H.
    apply H; [intros []|intros []|right; constructor].
Qed.

Lemma part001_parse_unwraps_fenced_json_witness :
  Part001Parse.jsonStr ParseSamples.fenced = ParseSamples.object.
Proof.
  exact (proj1 (part001_parse_unwraps_fenced_json
                  [] [10%N] [10%N] [10%N] [34; 97; 34; 58; 49]%N
                  ltac:(constructor)
                  ltac:(repeat constructor)
                  ltac:(repeat constructor)
                  ltac:(repeat constructor))).
Defined.

Lemma trimStart_In (c : N) (s : JSString.t) : In c (JSString.trimStart s) -> In c s.
Proof.
  induction s as [|d s IH]; simpl; [tauto|].
  destruct (JSString.isWhiteSpace d); [intro H; right; auto|tauto].
Qed.

Lemma trimEnd_In (c : N) (s : JSString.t) : In c (JSString.trimEnd s) -> In c s.
Proof.
  unfold JSString.trimEnd. intro H.
  apply in_rev in H. apply trimStart_In in H. now apply in_rev.
Qed.

Lemma trimStart_nil_allWhite (s : JSString.t) : JSString.trimStart s = [] -> allWhite s.
Proof.
  induction s as [|d s IH]; [constructor|].
  cbn [JSString.trimStart].
  destruct (JSString.isWhiteSpace d) eqn:E; [|discriminate].
  intro H. constructor; [exact E|exact (IH H)].
Qed.

Lemma trimStart_allWhite (s : JSString.t) : allWhite s -> JSString.trimStart s = [].
Proof.
  intro H. rewrite <- (app_nil_r s). now rewrite trimStart_white.
Qed.

Lemma trimStart_app_nonwhite (pre rest : JSString.t) (c : N) :
  JSString.isWhiteSpace c = false ->
  JSString.trimStart (pre ++ c :: rest) = JSString.trimStart pre ++ c :: rest.
Proof.
  intro Hc. induction pre as [|d pre IH]; simpl.
  - rewrite Hc. reflexivity.
  - destruct (JSString.isWhiteSpace d); [exact IH|reflexivity].
Qed.

Lemma trimEnd_app_nonwhite (x post : JSString.t) (c : N) :
  JSString.isWhiteSpace c = false ->
  JSString.trimEnd (x ++ c :: post) = x ++ c :: JSString.trimEnd post.
Proof.
  intro Hc. unfold JSString.trimEnd.
  rewrite rev_app_distr.
  change (rev (c :: post)) with (rev post ++ [c]).
  rewrite <- app_assoc. change ([c] ++ rev x) with (c :: rev x).
  rewrite trimStart_app_nonwhite by exact Hc.
  rewrite rev_app_distr.
  change (rev (c :: rev x)) with (rev (rev x) ++ [c]).
  rewrite rev_involutive, <- app_assoc. reflexivity.
Qed.

Lemma trimStart_idem (s : JSString.t) :
  JSString.trimStart (JSString.trimStart s) = JSString.trimStart s.
Proof.
  induction s as [|d s IH]; [reflexivity|].
  simpl. destruct (JSString.isWhiteSpace d) eqn:E; [exact IH|].
  simpl. rewrite E. reflexivity.
Qed.

Lemma trimEnd_idem (s : JSString.t) :
  JSString.trimEnd (JSString.trimEnd s) = JSString.trimEnd s.
Proof.
  unfold JSString.trimEnd. rewrite rev_involutive, trimStart_idem. reflexivity.
Qed.

(** [trim] of a braced text between two other texts. *)
Lemma trim_around_braced (pre post body : JSString.t) :
  JSString.trim (pre ++ braced body ++ post)
  = JSString.trimStart pre ++ braced body ++ JSString.trimEnd post.
Proof.
  unfold JSString.trim, braced.
  cbn [app]. rewrite trimStart_app_nonwhite by reflexivity.
  replace (JSString.trimStart pre ++ 123%N :: (body ++ [125%N]) ++ post)
    with ((JSString.trimStart pre ++ 123%N :: body) ++ 125%N :: post)
    by (repeat (rewrite <- !app_assoc; cbn [app]); reflexivity).
  rewrite trimEnd_app_nonwhite by reflexivity.
  repeat (rewrite <- !app_assoc; cbn [app]). reflexivity.
Qed.

Lemma head_not_fence (pre rest : JSString.t) :
  ~ In 96%N pre -> exists c s, pre ++ 123%N :: rest = c :: s /\ c <> 96%N.
Proof.
  intro Hn. destruct pre as [|c pre].
  - exists 123%N, rest. split; [reflexivity|discriminate].
  - exists c, (pre ++ 123%N :: rest). split; [reflexivity|].
    intro E. apply Hn. now left.
Qed.

(** X29.  When the answer wraps the braced text in other text (without
    braces and backticks of its own), the cleaning of part_001, part_002
    and ipoPricingService.ts hands exactly the braced text to [JSON.parse]
    if some text other than white space precedes it; if nothing but white
    space precedes it, the text that follows it is kept (trimmed at its
    end), so that [JSON.parse] receives more than the object. *)
Theorem part001_parse_strips_prose_only_after_leading_text (pre post body : JSString.t) :
  ~ In 123%N pre -> ~ In 96%N pre -> ~ In 125%N post -> ~ In 96%N post ->
  (~ allWhite pre ->
   Part001Parse.jsonStr (pre ++ braced body ++ post) = braced body)
  /\ (allWhite pre ->
      Part001Parse.jsonStr (pre ++ braced body ++ post)
      = braced body ++ JSString.trimEnd post).
Proof.
  intros Hp1 Hp2 Hq1 Hq2.
  unfold Part001Parse.jsonStr. rewrite trim_around_braced.
  set (pre' := JSString.trimStart pre). set (post' := JSString.trimEnd post).
  assert (Hp1' : ~ In 123%N pre') by (intro H; apply Hp1; now apply trimStart_In).
  assert (Hp2' : ~ In 96%N pre') by (intro H; apply Hp2; now apply trimStart_In).
  assert (Hq1' : ~ In 125%N post') by (intro H; apply Hq1; now apply trimEnd_In).
  assert (Hq2' : ~ In 96%N post') by (intro H; apply Hq2; now apply trimEnd_In).
  assert (Hopen : Part001Parse.stripOpeningFence (pre' ++ braced body ++ post')
                  = pre' ++ braced body ++ post').
  { destruct (head_not_fence pre' ((body ++ [125%N]) ++ post') Hp2') as (c & s & E & Hc).
    change (pre' ++ braced body ++ post') with (pre' ++ 123%N :: (body ++ [125%N]) ++ post').
    rewrite E. now apply part001_stripOpeningFence_plain. }
  assert (Hclose : Part001Parse.stripClosingFence (pre' ++ braced body ++ post')
                   = pre' ++ braced body ++ post').
  { replace (pre' ++ braced body ++ post')
      with ((pre' ++ 123%N :: body) ++ 125%N :: post')
      by (unfold braced; repeat (rewrite <- !app_assoc; cbn [app]); reflexivity).
    apply part001_stripClosingFence_plain; [discriminate|].
    intros [E|H]; [discriminate|contradiction]. }
  rewrite Hopen, Hclose.
  split.
  - intro Hnw. apply extractObject_braced; [exact Hp1'|exact Hq1'|left].
    intro E. apply Hnw. now apply trimStart_nil_allWhite.
  - intro Hw. unfold pre'. rewrite (trimStart_allWhite pre Hw). cbn [app].
    assert (Hs : Part001Parse.extractObject (braced body ++ post') = braced body ++ post').
    { unfold Part001Parse.extractObject.
      assert (E : JSString.startsWith (braced body ++ post') (JSString.literal "{") = true)
        by exact (startsWith_app [123%N] ((body ++ [125%N]) ++ post')).
      rewrite E. reflexivity. }
    rewrite Hs.
    pose proof (trim_around_braced [] post' body) as H. cbn [app JSString.trimStart] in H.
    rewrite H. unfold post'. rewrite trimEnd_idem. reflexivity.
Qed.

Lemma part001_parse_strips_prose_only_after_leading_text_witness :
  Part001Parse.jsonStr ParseSamples.inProse = ParseSamples.object
  /\ Part001Parse.jsonStr ParseSamples.beforeProse
     = ParseSamples.object ++ JSString.literal " Hope this helps.".
Proof.
  assert (Hpre1 : ~ In 123%N (JSString.literal "Here is the JSON: "))
    by (vm_compute; intuition discriminate).
  assert (Hpre2 : ~ In 96%N (JSString.literal "Here is the JSON: "))
    by (vm_compute; intuition discriminate).
  assert (Hpost1 : ~ In 125%N (JSString.literal " Hope this helps."))
    by (vm_compute; intuition discriminate).
  assert (Hpost2 : ~ In 96%N (JSString.literal " Hope this helps."))
    by (vm_compute; intuition discriminate).
  assert (Hprose : ~ allWhite (JSString.literal "Here is the JSON: ")).
  { intro H. inversion H as [|c l Hc Hl]. vm_compute in Hc. discriminate. }
  split.
  - apply (part001_parse_strips_prose_only_after_leading_text
             (JSString.literal "Here is the JSON: ") (JSString.literal " Hope this helps.")
             [34; 97; 34; 58; 49]%N Hpre1 Hpre2 Hpost1 Hpost2). exact Hprose.
  - apply (part001_parse_strips_prose_only_after_leading_text
             [] (JSString.literal " Hope this helps.")
             [34; 97; 34; 58; 49]%N ltac:(intros []) ltac:(intros []) Hpost1 Hpost2).
    constructor.
Defined.

(** *** part_000 *)

Lemma part000_stripClosingFence_fenced (s : JSString.t) :
  Part000Parse.stripClosingFence (s ++ JSString.literal "```") = s.
Proof.
  unfold Part000Parse.stripClosingFence.
  destruct (closingFence_strip s) as [E1 E2]. rewrite E1. exact E2.
Qed.

Lemma part000_stripClosingFence_plain (y x : JSString.t) :
  x <> [] -> ~ In 96%N x -> Part000Parse.stripClosingFence (y ++ x) = y ++ x.
Proof.
  intros Hne Hn. unfold Part000Parse.stripClosingFence.
  rewrite (endsWith_fence_false y x Hne Hn). reflexivity.
Qed.

Lemma part000_stripOpeningFence_json (ws body rest : JSString.t) :
  allWhite ws ->
  Part000Parse.stripOpeningFence (JSString.literal "```json" ++ ws ++ braced body ++ rest)
  = ws ++ braced body ++ rest.
Proof.
  intro Hws. unfold Part000Parse.stripOpeningFence.
  rewrite startsWith_app.
  change (JSString.sliceFrom 7 (JSString.literal "```json" ++ ws ++ braced body ++ rest))
    with (ws ++ braced body ++ rest).
  change (JSString.literal "```") with (96 :: [96; 96])%N.
  destruct (startsWith_fence_false ws ((body ++ [125%N]) ++ rest) [96; 96]%N Hws) as [H _].
  change (ws ++ braced body ++ rest) with (ws ++ 123%N :: (body ++ [125%N]) ++ rest).
  rewrite H. reflexivity.
Qed.

Lemma part000_stripOpeningFence_bare (ws body rest : JSString.t) :
  allWhite ws ->
  Part000Parse.stripOpeningFence (JSString.literal "```" ++ ws ++ braced body ++ rest)
  = ws ++ braced body ++ rest.
Proof.
  intro Hws. unfold Part000Parse.stripOpeningFence.
  assert (E1 : JSString.startsWith (JSString.literal "```" ++ ws ++ braced body ++ rest)
                                   (JSString.literal "```json") = false).
  { change (JSString.literal "```json") with ([96; 96; 96] ++ 106 :: [115; 111; 110])%N.
    change (JSString.literal "```") with [96; 96; 96]%N.
    change (ws ++ braced body ++ rest) with (ws ++ 123%N :: (body ++ [125%N]) ++ rest).
    cbn [app JSString.startsWith]. rewrite !N.eqb_refl. cbn [andb].
    destruct (startsWith_fence_false ws ((body ++ [125%N]) ++ rest) [115; 111; 110]%N Hws)
      as [_ H].
    exact H. }
  rewrite E1, startsWith_app. reflexivity.
Qed.

Lemma part000_stripOpeningFence_plain (c : N) (s : JSString.t) :
  c <> 96%N -> Part000Parse.stripOpeningFence (c :: s) = c :: s.
Proof.
  intro Hc. unfold Part000Parse.stripOpeningFence.
  change (JSString.literal "```json") with (96 :: [96; 96; 106; 115; 111; 110])%N.
  change (JSString.literal "```") with (96 :: [96; 96])%N.
  rewrite !(startsWith_head_ne c 96 s _ Hc). reflexivity.
Qed.

(** X30.  The response cleaning of part_000 hands to [JSON.parse] exactly
    the braced text when the answer is that text inside a code fence,
    tagged [json] or not, or that text alone, whatever white space
    surrounds the fence and the text; text around the braced text (without
    backticks) is not removed, only trimmed at its outer ends. *)
Theorem part000_parse_unwraps_fences_only (ws0 ws1 ws2 ws3 pre post body : JSString.t) :
  allWhite ws0 -> allWhite ws1 -> allWhite ws2 -> allWhite ws3 ->
  ~ In 96%N pre -> ~ In 96%N post ->
  Part000Parse.jsonStr
    (ws0 ++ (JSString.literal "```json" ++ ws1 ++ braced body ++ ws2 ++ JSString.literal "```")
     ++ ws3) = braced body
  /\ Part000Parse.jsonStr
       (ws0 ++ (JSString.literal "```" ++ ws1 ++ braced body ++ ws2 ++ JSString.literal "```")
        ++ ws3) = braced body
  /\ Part000Parse.jsonStr (ws0 ++ braced body ++ ws3) = braced body
  /\ Part000Parse.jsonStr (pre ++ braced body ++ post)
     = JSString.trimStart pre ++ braced body ++ JSString.trimEnd post.
Proof.
  intros H0 H1 H2 H3 Hp Hq.
  assert (Hinner : JSString.trim
                     (Part000Parse.stripClosingFence
                        (ws1 ++ braced body ++ ws2 ++ JSString.literal "```"))
                   = braced body).
  { replace (ws1 ++ braced body ++ ws2 ++ JSString.literal "```")
      with ((ws1 ++ braced body ++ ws2) ++ JSString.literal "```")
      by (rewrite <- !app_assoc; reflexivity).
    rewrite part000_stripClosingFence_fenced.
    exact (trim_strip ws1 ws2 body 123 125 H1 H2 eq_refl eq_refl). }
  assert (Hprose : forall p q,
             ~ In 96%N p -> ~ In 96%N q ->
             Part000Parse.jsonStr (p ++ braced body ++ q)
             = JSString.trimStart p ++ braced body ++ JSString.trimEnd q).
  { intros p q Hp' Hq'. unfold Part000Parse.jsonStr. rewrite trim_around_braced.
    set (p' := JSString.trimStart p). set (q' := JSString.trimEnd q).
    assert (Hp2 : ~ In 96%N p') by (intro H; apply Hp'; now apply trimStart_In).
    assert (Hq2 : ~ In 96%N q') by (intro H; apply Hq'; now apply trimEnd_In).
    assert (Hopen : Part000Parse.stripOpeningFence (p' ++ braced body ++ q')
                    = p' ++ braced body ++ q').
    { destruct (head_not_fence p' ((body ++ [125%N]) ++ q') Hp2) as (c & s & E & Hc).
      change (p' ++ braced body ++ q') with (p' ++ 123%N :: (body ++ [125%N]) ++ q').
      rewrite E. now apply part000_stripOpeningFence_plain. }
    assert (Hclose : Part000Parse.stripClosingFence (p' ++ braced body ++ q')
                     = p' ++ braced body ++ q').
    { replace (p' ++ braced body ++ q')
        with ((p' ++ 123%N :: body) ++ 125%N :: q')
        by (unfold braced; repeat (rewrite <- !app_assoc; cbn [app]); reflexivity).
      apply part000_stripClosingFence_plain; [discriminate|].
      intros [E|H]; [discriminate|contradiction]. }
    rewrite Hopen, Hclose, trim_around_braced.
    unfold p', q'. rewrite trimStart_idem, trimEnd_idem. reflexivity. }
  split; [|split; [|split]].
  - unfold Part000Parse.jsonStr.
    rewrite (trim_strip_eq ws0 ws3 _
               ([96; 96; 106; 115; 111; 110]%N ++ ws1 ++ braced body ++ ws2 ++ [96; 96]%N)
               96 96);
      [|cbn [JSString.literal map list_ascii_of_string]; simpl;
        repeat (rewrite <- !app_assoc; cbn [app]); reflexivity
       |exact H0|exact H3|reflexivity|reflexivity].
    rewrite part000_stripOpeningFence_json by exact H1. exact Hinner.
  - unfold Part000Parse.jsonStr.
    rewrite (trim_strip_eq ws0 ws3 _
               ([96; 96]%N ++ ws1 ++ braced body ++ ws2 ++ [96; 96]%N) 96 96);
      [|cbn [JSString.literal map list_ascii_of_string]; simpl;
        repeat (rewrite <- !app_assoc; cbn [app]); reflexivity
       |exact H0|exact H3|reflexivity|reflexivity].
    rewrite part000_stripOpeningFence_bare by exact H1. exact Hinner.
  - rewrite Hprose.
    + rewrite (trimStart_allWhite ws0 H0).
      unfold JSString.trimEnd. rewrite (trimStart_allWhite (rev ws3)) by now apply allWhite_rev.
      cbn [rev app]. apply app_nil_r.
    + apply allWhite_not_In; [reflexivity|exact H0].
    + apply allWhite_not_In; [reflexivity|exact H3].
  - now apply Hprose.
Qed.

Lemma part000_parse_unwraps_fences_only_witness :
  Part000Parse.jsonStr ParseSamples.fenced = ParseSamples.object
  /\ Part000Parse.jsonStr ParseSamples.inProse = ParseSamples.inProse.
Proof.
  assert (Hpre : ~ In 96%N (JSString.literal "Here is the JSON: "))
    by (vm_compute; intuition discriminate).
  assert (Hpost : ~ In 96%N (JSString.literal " Hope this helps."))
    by (vm_compute; intuition discriminate).
  assert (Hnone : allWhite []) by constructor.
  assert (Hlf : allWhite [10%N]) by (repeat constructor).
  destruct (part000_parse_unwraps_fences_only
              [] [10%N] [10%N] [10%N]
              (JSString.literal "Here is the JSON: ") (JSString.literal " Hope this helps.")
              [34; 97; 34; 58; 49]%N Hnone Hlf Hlf Hlf Hpre Hpost) as (H1 & _ & _ & H4).
  split; [exact H1|exact H4].
Defined.
